(** * Optdp: the bridge between the layout database and the detailed placer

    A shallow embedding of [src/dpo/src/Optdp.cpp]: the import of a layout
    database snapshot into the placer's network and architecture, the
    write-back of the final positions, and the driver [improvePlacement].

    Conventions of the embedding.
    - C++ [double]s are modelled by exact rationals ([Q]).  Every value the
      import computes is a half-integer of 32-bit magnitude (sums and
      differences of database integers, multiplied by 0.5 or divided by 2),
      for which double arithmetic is exact; the one division (row clipping)
      is followed by a truncation that the rounding of the quotient cannot
      change.  The cast [(int)d] is truncation toward zero ([Qtrunc]).
    - [int] counters and ids are natural numbers; database coordinates are
      integers ([Z]).  Where the code adds, subtracts or multiplies two
      [int]s before the conversion to [double], the 32-bit result is written
      out ([int32]: two's complement, wrapping around).
    - Pointers into the database ([dbInst*], [dbNet*], [dbBTerm*],
      [dbMaster*], [dbTechLayer*]) are object handles ([nat]); pointers into
      the network ([Node*], [Edge*]) are indices into its storage.
    - The member maps ([instMap_], ...) are finite maps, the layer sets are
      finite sets, and the methods of [Optdp] pass the object explicitly. *)

From Stdlib Require Import ZArith QArith Qround Qminmax Lia Lqa String.
From stdpp Require Import base gmap list strings.

(** ** Doubles *)

(** [(int)d]: conversion of a double to an integer truncates toward zero. *)
Definition Qtrunc (q : Q) : Z := Z.quot (Qnum q) (Zpos (Qden q)).

(** [std::numeric_limits<double>::max()] and [lowest()]. *)
Definition DBL_MAX : Q := inject_Z (2 ^ 1024 - 2 ^ 971).
Definition DBL_LOWEST : Q := (- DBL_MAX)%Q.

Definition half : Q := 1 # 2.

(** ** 32-bit integers *)

(** The value of an [int] expression whose mathematical value is [z]: the
    representative of [z] modulo [2^32] in [[-2^31, 2^31)]. *)
Definition int32 (z : Z) : Z := ((z + 2 ^ 31) mod 2 ^ 32 - 2 ^ 31)%Z.

(** [z] is the value of an [int]. *)
Definition is_int32 (z : Z) : Prop := (- 2 ^ 31 <= z < 2 ^ 31)%Z.

(** ** The layout database (odb), as far as [Optdp] reads and writes it *)

Module odb.

Inductive dbOrientType := R0 | R90 | R180 | R270 | MY | MYR90 | MX | MXR90.

Inductive dbSigType :=
  SIGNAL | POWER | GROUND | CLOCK | ANALOG | RESET | SCAN | TIEOFF.

Inductive dbRowDir := HORIZONTAL | VERTICAL.

Inductive dbWireType := NONE | COVER | FIXED | ROUTED | SHIELD | NOSHIELD.

(** [dbSBox::Direction]. *)
Inductive dbSBoxDir :=
  SBOX_UNDEFINED | SBOX_HORIZONTAL | SBOX_VERTICAL | SBOX_OCTILINEAR.

Record Rect := mkRect { xMin : Z; yMin : Z; xMax : Z; yMax : Z }.

(** A [dbMasterType] is only asked [isCore()] and [isBlock()]. *)
Record dbMasterType := mkMasterType { isCore : bool; isBlock : bool }.

(** A [dbBox]: a rectangle on a technology layer. *)
Record dbBox := mkBox { box_layer : nat; box_rect : Rect }.

Record dbMPin := mkMPin { mpin_bbox : Rect; mpin_geometry : list dbBox }.

Record dbMTerm := mkMTerm {
  mterm_sigType : dbSigType;
  mterm_bbox : Rect;
  mterm_mpins : list dbMPin }.

Record dbMaster := mkMaster {
  master_id : nat;
  master_type : dbMasterType;
  master_width : Z;
  master_height : Z;
  master_symX : bool;
  master_symY : bool;
  master_mterms : list dbMTerm }.

(** An instance; its location is the lower left corner of its bounding
    box, so [getBBox()->xMin()] and [getLocation] read the same fields. *)
Record dbInst := mkInst {
  inst_id : nat;
  inst_name : string;
  inst_master : dbMaster;
  inst_x : Z;
  inst_y : Z;
  inst_orient : dbOrientType;
  inst_fixed : bool }.

Record dbBTerm := mkBTerm {
  bterm_id : nat;
  bterm_name : string;
  bterm_bbox : Rect }.

(** An instance terminal: the instance it sits on ([getInst()]), its
    master terminal ([getMTerm()]) and that terminal's master
    ([getMTerm()->getMaster()]). *)
Record dbITerm := mkITerm {
  iterm_inst : nat;
  iterm_mterm : dbMTerm;
  iterm_master : dbMaster }.

Record dbSBox := mkSBox {
  sbox_dir : dbSBoxDir;
  sbox_isVia : bool;
  sbox_layer : nat;
  sbox_rect : Rect }.

Record dbSWire := mkSWire {
  swire_type : dbWireType;
  swire_wires : list dbSBox }.

Record dbNet := mkNet {
  net_id : nat;
  net_name : string;
  net_iterms : list dbITerm;
  net_bterms : list nat;
  net_special : bool;
  net_sigType : dbSigType;
  net_swires : list dbSWire }.

Record dbSite := mkSite {
  site_width : Z;
  site_height : Z;
  site_symX : bool;
  site_symY : bool;
  site_symR90 : bool }.

Record dbRow := mkRow {
  row_dir : dbRowDir;
  row_site : dbSite;
  row_originX : Z;
  row_originY : Z;
  row_spacing : Z;
  row_siteCount : Z;
  row_orient : dbOrientType }.

(** A [dbRegion]: [getParent()] is null or a region of which only the
    boundaries are read; [getRegionInsts()] lists instance handles. *)
Record dbRegion := mkRegion {
  region_parent : option (list dbBox);
  region_insts : list nat }.

Record dbBlock := mkBlock {
  block_insts : list dbInst;
  block_nets : list dbNet;
  block_bterms : list dbBTerm;
  block_rows : list dbRow;
  block_regions : list dbRegion;
  block_masters : list dbMaster;
  block_dieArea : Rect;
  block_coreArea : Rect;
  block_dbuPerMicron : Z }.

Definition dbSigType_eqb (a b : dbSigType) : bool :=
  match a, b with
  | SIGNAL, SIGNAL | POWER, POWER | GROUND, GROUND | CLOCK, CLOCK
  | ANALOG, ANALOG | RESET, RESET | SCAN, SCAN | TIEOFF, TIEOFF => true
  | _, _ => false
  end.

Definition dbOrientType_eqb (a b : dbOrientType) : bool :=
  match a, b with
  | R0, R0 | R90, R90 | R180, R180 | R270, R270
  | MY, MY | MYR90, MYR90 | MX, MX | MXR90, MXR90 => true
  | _, _ => false
  end.

(** [inst->setLocationOrient(o)]: the orientation changes, the location
    (lower left corner) stays. *)
Definition setLocationOrient (o : dbOrientType) (i : dbInst) : dbInst :=
  mkInst (inst_id i) (inst_name i) (inst_master i)
         (inst_x i) (inst_y i) o (inst_fixed i).

(** [inst->setLocation(x, y)]. *)
Definition setLocation (x y : Z) (i : dbInst) : dbInst :=
  mkInst (inst_id i) (inst_name i) (inst_master i)
         x y (inst_orient i) (inst_fixed i).

Definition getLocation (i : dbInst) : Z * Z := (inst_x i, inst_y i).

Definition block_with_insts (l : list dbInst) (b : dbBlock) : dbBlock :=
  mkBlock l (block_nets b) (block_bterms b) (block_rows b)
          (block_regions b) (block_masters b) (block_dieArea b)
          (block_coreArea b) (block_dbuPerMicron b).

End odb.
Import odb.

(** ** The placer's data model (dpo) *)

(** The orientation and symmetry flags, the default edge type and the empty
    attribute mask are constants of headers that are not part of the
    sources at hand; they are parameters of the development. *)
Class DpoConstants := {
  Orientation_N : Z;
  Orientation_W : Z;
  Orientation_S : Z;
  Orientation_E : Z;
  Orientation_FN : Z;
  Orientation_FE : Z;
  Orientation_FS : Z;
  Orientation_FW : Z;
  Symmetry_X : Z;
  Symmetry_Y : Z;
  Symmetry_ROT90 : Z;
  EDGETYPE_DEFAULT : Z;
  NodeAttributes_EMPTY : Z }.

(** What the orientation flags must satisfy to be read as a set: every flag
    is a mask with at least one bit, and no two flags share a bit. *)
Definition disjoint_flags (l : list Z) : Prop :=
  (forall a, In a l -> a <> 0%Z) /\
  (forall i j a b, i <> j -> l !! i = Some a -> l !! j = Some b ->
                   Z.land a b = 0%Z).

Definition orientation_flags `{DpoConstants} : list Z :=
  [Orientation_N; Orientation_W; Orientation_S; Orientation_E;
   Orientation_FN; Orientation_FE; Orientation_FS; Orientation_FW].

(** [allows mask o]: the orientation flag [o] is in the set [mask]. *)
Definition allows (mask o : Z) : Prop := Z.land mask o <> 0%Z.

Inductive NodeType := NodeType_UNKNOWN | NodeType_CELL | NodeType_TERMINAL.
Inductive NodeFixed := NodeFixed_NOT_FIXED | NodeFixed_FIXED_XY.
Inductive RowPower := RowPower_UNK | RowPower_VDD | RowPower_VSS.

Definition RowPower_eqb (a b : RowPower) : bool :=
  match a, b with
  | RowPower_UNK, RowPower_UNK | RowPower_VDD, RowPower_VDD
  | RowPower_VSS, RowPower_VSS => true
  | _, _ => false
  end.

Record Node := mkNode {
  m_id : nat;
  m_type : NodeType;
  m_fixed : NodeFixed;
  m_attributes : Z;
  m_availOrient : Z;
  m_currOrient : Z;
  m_h : Q;
  m_w : Q;
  m_origX : Q;
  m_origY : Q;
  m_x : Q;
  m_y : Q;
  m_etr : Z;
  m_etl : Z;
  m_powerBot : RowPower;
  m_powerTop : RowPower;
  m_regionId : nat;
  m_pins : list nat }.

Record Edge := mkEdge { e_id : nat; e_pins : list nat }.

Record Pin := mkPin {
  pin_node : nat;
  pin_edge : nat;
  m_offsetX : Q;
  m_offsetY : Q;
  m_pinH : Q;
  m_pinW : Q;
  m_pinLayer : Z }.

Record Network := mkNetwork {
  net_nodes : list Node;
  net_edges : list Edge;
  net_pins : list Pin;
  net_nodeNames : gmap nat string;
  net_edgeNames : gmap nat string }.

Definition Node_default : Node :=
  mkNode 0 NodeType_UNKNOWN NodeFixed_NOT_FIXED 0 0 0 0 0 0 0 0 0 0 0
         RowPower_UNK RowPower_UNK 0 [].

Definition Edge_default : Edge := mkEdge 0 [].

Definition Pin_default : Pin := mkPin 0 0 0 0 0 0 0.

(** [new Network]. *)
Definition Network_new : Network := mkNetwork [] [] [] ∅ ∅.

Definition Node_setRegionId (r : nat) (nd : Node) : Node :=
  mkNode (m_id nd) (m_type nd) (m_fixed nd) (m_attributes nd)
         (m_availOrient nd) (m_currOrient nd) (m_h nd) (m_w nd)
         (m_origX nd) (m_origY nd) (m_x nd) (m_y nd) (m_etr nd) (m_etl nd)
         (m_powerBot nd) (m_powerTop nd) r (m_pins nd).

Definition Node_addPin (p : nat) (nd : Node) : Node :=
  mkNode (m_id nd) (m_type nd) (m_fixed nd) (m_attributes nd)
         (m_availOrient nd) (m_currOrient nd) (m_h nd) (m_w nd)
         (m_origX nd) (m_origY nd) (m_x nd) (m_y nd) (m_etr nd) (m_etl nd)
         (m_powerBot nd) (m_powerTop nd) (m_regionId nd) (m_pins nd ++ [p]).

Definition Edge_setId (i : nat) (ed : Edge) : Edge := mkEdge i (e_pins ed).

Definition Edge_addPin (p : nat) (ed : Edge) : Edge :=
  mkEdge (e_id ed) (e_pins ed ++ [p]).

Definition Network_with_nodes (l : list Node) (nw : Network) : Network :=
  mkNetwork l (net_edges nw) (net_pins nw) (net_nodeNames nw)
            (net_edgeNames nw).

Definition Network_with_edges (l : list Edge) (nw : Network) : Network :=
  mkNetwork (net_nodes nw) l (net_pins nw) (net_nodeNames nw)
            (net_edgeNames nw).

Definition Network_with_pins (l : list Pin) (nw : Network) : Network :=
  mkNetwork (net_nodes nw) (net_edges nw) l (net_nodeNames nw)
            (net_edgeNames nw).

(** Modelled from the spec: [network.h] is absent.  The network pre-sizes
    its node and edge stores ([resizeNodes], [resizeEdges]), hands out the
    element at an index ([getNode], [getEdge]) and records names.  An index
    past the end is undefined behaviour in the source; here a read yields
    the default element and a write is dropped, and [createNetwork] is shown
    below never to leave the pre-sized range. *)
Definition resizeNodes (n : nat) (nw : Network) : Network :=
  Network_with_nodes (replicate n Node_default) nw.

Definition resizeEdges (n : nat) (nw : Network) : Network :=
  Network_with_edges (replicate n Edge_default) nw.

Definition getNode (nw : Network) (i : nat) : Node :=
  default Node_default (net_nodes nw !! i).

Definition getEdge (nw : Network) (i : nat) : Edge :=
  default Edge_default (net_edges nw !! i).

Definition setNode (i : nat) (nd : Node) (nw : Network) : Network :=
  Network_with_nodes (<[i := nd]> (net_nodes nw)) nw.

Definition setEdge (i : nat) (ed : Edge) (nw : Network) : Network :=
  Network_with_edges (<[i := ed]> (net_edges nw)) nw.

Definition setNodeName (i : nat) (s : string) (nw : Network) : Network :=
  mkNetwork (net_nodes nw) (net_edges nw) (net_pins nw)
            (<[i := s]> (net_nodeNames nw)) (net_edgeNames nw).

Definition setEdgeName (i : nat) (s : string) (nw : Network) : Network :=
  mkNetwork (net_nodes nw) (net_edges nw) (net_pins nw)
            (net_nodeNames nw) (<[i := s]> (net_edgeNames nw)).

Definition getNumNodes (nw : Network) : nat := length (net_nodes nw).
Definition getNumEdges (nw : Network) : nat := length (net_edges nw).
Definition getNumPins (nw : Network) : nat := length (net_pins nw).

(** Modelled from the spec: [createAndAddPin(node, edge)] links a new pin
    to the node and to the edge and appends it to the pin lists of both;
    the result is the network and the new pin (its index). *)
Definition createAndAddPin (n e : nat) (nw : Network) : Network * nat :=
  let ptr := length (net_pins nw) in
  let nw1 := Network_with_pins
               (net_pins nw ++ [mkPin n e 0 0 0 0 0]) nw in
  let nw2 := setNode n (Node_addPin ptr (getNode nw1 n)) nw1 in
  let nw3 := setEdge e (Edge_addPin ptr (getEdge nw2 e)) nw2 in
  (nw3, ptr).

(** [ptr->setOffsetX(dx); setOffsetY(dy); setPinHeight(hh);
    setPinWidth(ww); setPinLayer(layer)] on the pin [ptr]. *)
Definition Pin_set (dx dy hh ww : Q) (layer : Z) (pn : Pin) : Pin :=
  mkPin (pin_node pn) (pin_edge pn) dx dy hh ww layer.

Definition setPin (ptr : nat) (dx dy hh ww : Q) (layer : Z)
    (nw : Network) : Network :=
  Network_with_pins (alter (Pin_set dx dy hh ww layer) ptr (net_pins nw)) nw.

(** *** Architecture *)

(** A row of the architecture.  Modelled from the spec: the class
    [Architecture::Row] is absent; its fields are the ones the import
    sets, and its accessors read a row that starts at the sub-row origin
    and spans [numSites] sites of pitch [siteSpacing]. *)
Record Row := mkArchRow {
  m_rowLoc : Q;
  m_rowHeight : Q;
  m_siteWidth : Q;
  m_siteSpacing : Q;
  m_subRowOrigin : Q;
  m_numSites : Z;
  m_rowPowerBot : RowPower;
  m_rowPowerTop : RowPower;
  m_siteSymmetry : Z;
  m_siteOrient : Z }.

Definition getBottom (r : Row) : Q := m_rowLoc r.
Definition getTop (r : Row) : Q := (m_rowLoc r + m_rowHeight r)%Q.
Definition getLeft (r : Row) : Q := m_subRowOrigin r.
Definition getRight (r : Row) : Q :=
  (m_subRowOrigin r + inject_Z (m_numSites r) * m_siteSpacing r)%Q.

Definition Row_setOrigin (x : Q) (r : Row) : Row :=
  mkArchRow (m_rowLoc r) (m_rowHeight r) (m_siteWidth r) (m_siteSpacing r)
            x (m_numSites r) (m_rowPowerBot r) (m_rowPowerTop r)
            (m_siteSymmetry r) (m_siteOrient r).

Definition Row_setNumSites (k : Z) (r : Row) : Row :=
  mkArchRow (m_rowLoc r) (m_rowHeight r) (m_siteWidth r) (m_siteSpacing r)
            (m_subRowOrigin r) k (m_rowPowerBot r) (m_rowPowerTop r)
            (m_siteSymmetry r) (m_siteOrient r).

Definition Row_setPowerBot (pw : RowPower) (r : Row) : Row :=
  mkArchRow (m_rowLoc r) (m_rowHeight r) (m_siteWidth r) (m_siteSpacing r)
            (m_subRowOrigin r) (m_numSites r) pw (m_rowPowerTop r)
            (m_siteSymmetry r) (m_siteOrient r).

Definition Row_setPowerTop (pw : RowPower) (r : Row) : Row :=
  mkArchRow (m_rowLoc r) (m_rowHeight r) (m_siteWidth r) (m_siteSpacing r)
            (m_subRowOrigin r) (m_numSites r) (m_rowPowerBot r) pw
            (m_siteSymmetry r) (m_siteOrient r).

(** [Rectangle(xmin, ymin, xmax, ymax)]. *)
Record Rectangle := mkRectangle {
  rect_xmin : Q; rect_ymin : Q; rect_xmax : Q; rect_ymax : Q }.

Record Region := mkArchRegion {
  r_id : nat;
  r_rects : list Rectangle;
  r_xmin : Q;
  r_xmax : Q;
  r_ymin : Q;
  r_ymax : Q }.

(** Modelled from the spec: the constructor of [Architecture::Region] is
    absent; a fresh region has no rectangle and the empty bounding box from
    which the box derived by [min]/[max] over its rectangles starts. *)
Definition Region_new : Region :=
  mkArchRegion 0 [] DBL_MAX DBL_LOWEST DBL_MAX DBL_LOWEST.

Record Architecture := mkArch {
  m_rows : list Row;
  m_regions : list Region;
  m_xmin : Q;
  m_xmax : Q;
  m_ymin : Q;
  m_ymax : Q;
  m_useSpacingTable : bool;
  m_usePadding : bool;
  m_cellPaddings : gmap nat (Z * Z) }.

(** [new Architecture]. *)
Definition Architecture_new : Architecture :=
  mkArch [] [] 0 0 0 0 false false ∅.

Definition Arch_with_rows (l : list Row) (a : Architecture) : Architecture :=
  mkArch l (m_regions a) (m_xmin a) (m_xmax a) (m_ymin a) (m_ymax a)
         (m_useSpacingTable a) (m_usePadding a) (m_cellPaddings a).

Definition Arch_with_regions (l : list Region) (a : Architecture)
    : Architecture :=
  mkArch (m_rows a) l (m_xmin a) (m_xmax a) (m_ymin a) (m_ymax a)
         (m_useSpacingTable a) (m_usePadding a) (m_cellPaddings a).

(** [setMinX; setMaxX; setMinY; setMaxY]. *)
Definition Arch_setBox (x0 x1 y0 y1 : Q) (a : Architecture) : Architecture :=
  mkArch (m_rows a) (m_regions a) x0 x1 y0 y1
         (m_useSpacingTable a) (m_usePadding a) (m_cellPaddings a).

Definition getNumRows (a : Architecture) : nat := length (m_rows a).
Definition getNumRegions (a : Architecture) : nat := length (m_regions a).

(** ** The logger *)

(** Modelled from the spec: the logger is an injected reporting
    collaborator and absent from the sources.  It records what it is told.
    Whether its [error] returns to the caller is not decided by the
    sources: the callers count an error after reporting it, the spec has
    structural errors abort the run.  The methods below are the runs in
    which every call of [error] returns like [report] and [info]; the runs
    of [createNetwork] with a logger whose [error] may raise follow in
    [createNetwork_try], and the two are related in [cut_of]: they agree
    on every run up to the first error that raises. *)
Inductive Severity := REPORT | INFO | ERROR.

Record LogMsg := mkLog {
  log_sev : Severity;
  log_id : nat;
  log_text : string;
  log_args : list Q }.

Definition report (text : string) (args : list Q) : LogMsg :=
  mkLog REPORT 0 text args.
Definition info (id : nat) (text : string) (args : list Q) : LogMsg :=
  mkLog INFO id text args.
Definition error (id : nat) (text : string) (args : list Q) : LogMsg :=
  mkLog ERROR id text args.

Definition Severity_eqb (a b : Severity) : bool :=
  match a, b with
  | REPORT, REPORT | INFO, INFO | ERROR, ERROR => true
  | _, _ => false
  end.

Definition is_error (id : nat) (m : LogMsg) : bool :=
  Severity_eqb (log_sev m) ERROR && Nat.eqb (log_id m) id.

Definition arg (k : nat) : Q := inject_Z (Z.of_nat k).

(** ** The object *)

Record Optdp := mkOptdp {
  db_ : dbBlock;
  log_ : list LogMsg;
  network_ : Network;
  arch_ : Architecture;
  instMap_ : gmap nat nat;
  termMap_ : gmap nat nat;
  netMap_ : gmap nat nat;
  masterPwrs_ : gmap nat (RowPower * RowPower);
  pwrLayers_ : gset nat;
  gndLayers_ : gset nat;
  hpwlBefore_ : Z;
  hpwlAfter_ : Z }.

(** The constructor followed by [init(db, logger, opendp)]. *)
Definition init (db : dbBlock) : Optdp :=
  mkOptdp db [] Network_new Architecture_new ∅ ∅ ∅ ∅ ∅ ∅ 0 0.

Definition with_db (b : dbBlock) (o : Optdp) : Optdp :=
  mkOptdp b (log_ o) (network_ o) (arch_ o) (instMap_ o) (termMap_ o)
          (netMap_ o) (masterPwrs_ o) (pwrLayers_ o) (gndLayers_ o)
          (hpwlBefore_ o) (hpwlAfter_ o).

Definition logger_ (m : LogMsg) (o : Optdp) : Optdp :=
  mkOptdp (db_ o) (log_ o ++ [m]) (network_ o) (arch_ o) (instMap_ o)
          (termMap_ o) (netMap_ o) (masterPwrs_ o) (pwrLayers_ o)
          (gndLayers_ o) (hpwlBefore_ o) (hpwlAfter_ o).

Definition with_network (nw : Network) (o : Optdp) : Optdp :=
  mkOptdp (db_ o) (log_ o) nw (arch_ o) (instMap_ o) (termMap_ o)
          (netMap_ o) (masterPwrs_ o) (pwrLayers_ o) (gndLayers_ o)
          (hpwlBefore_ o) (hpwlAfter_ o).

Definition with_arch (a : Architecture) (o : Optdp) : Optdp :=
  mkOptdp (db_ o) (log_ o) (network_ o) a (instMap_ o) (termMap_ o)
          (netMap_ o) (masterPwrs_ o) (pwrLayers_ o) (gndLayers_ o)
          (hpwlBefore_ o) (hpwlAfter_ o).

Definition with_instMap (m : gmap nat nat) (o : Optdp) : Optdp :=
  mkOptdp (db_ o) (log_ o) (network_ o) (arch_ o) m (termMap_ o)
          (netMap_ o) (masterPwrs_ o) (pwrLayers_ o) (gndLayers_ o)
          (hpwlBefore_ o) (hpwlAfter_ o).

Definition with_termMap (m : gmap nat nat) (o : Optdp) : Optdp :=
  mkOptdp (db_ o) (log_ o) (network_ o) (arch_ o) (instMap_ o) m
          (netMap_ o) (masterPwrs_ o) (pwrLayers_ o) (gndLayers_ o)
          (hpwlBefore_ o) (hpwlAfter_ o).

Definition with_netMap (m : gmap nat nat) (o : Optdp) : Optdp :=
  mkOptdp (db_ o) (log_ o) (network_ o) (arch_ o) (instMap_ o) (termMap_ o)
          m (masterPwrs_ o) (pwrLayers_ o) (gndLayers_ o)
          (hpwlBefore_ o) (hpwlAfter_ o).

Definition with_masterPwrs (m : gmap nat (RowPower * RowPower)) (o : Optdp)
    : Optdp :=
  mkOptdp (db_ o) (log_ o) (network_ o) (arch_ o) (instMap_ o) (termMap_ o)
          (netMap_ o) m (pwrLayers_ o) (gndLayers_ o)
          (hpwlBefore_ o) (hpwlAfter_ o).

Definition with_layers (pw gn : gset nat) (o : Optdp) : Optdp :=
  mkOptdp (db_ o) (log_ o) (network_ o) (arch_ o) (instMap_ o) (termMap_ o)
          (netMap_ o) (masterPwrs_ o) pw gn (hpwlBefore_ o) (hpwlAfter_ o).

Definition with_hpwl (before after : Z) (o : Optdp) : Optdp :=
  mkOptdp (db_ o) (log_ o) (network_ o) (arch_ o) (instMap_ o) (termMap_ o)
          (netMap_ o) (masterPwrs_ o) (pwrLayers_ o) (gndLayers_ o)
          before after.

(** ** Collaborators outside the sources

    The placement engine proper (legalizer, optimizer, architecture
    post-processing), the query side of the legalizer [dpl::Opendp] and
    [dbInst::setOrient] are not in the sources; they are parameters.  The
    engine works on the architecture and the network it is handed. *)
Class External := {
  (** [opendp_->hpwl()] *)
  hpwl : dbBlock -> Z;
  (** [opendp_->padLeft(inst)], [opendp_->padRight(inst)] *)
  padLeft : dbInst -> Z;
  padRight : dbInst -> Z;
  (** [inst->setOrient(orient)] *)
  setOrient : dbOrientType -> dbInst -> dbInst;
  (** [arch_->postProcess(network_)] *)
  postProcess : Network -> Architecture -> Architecture;
  (** [arch_->init_edge_type()] *)
  init_edge_type : Architecture -> Architecture;
  (** [ShiftLegalizer::legalize(mgr)] *)
  legalize : Architecture * Network -> Architecture * Network;
  (** [Detailed::improve(mgr)] with the script of its parameters *)
  improve : string -> Architecture * Network -> Architecture * Network }.

(** ** [Optdp::setupMasterPowers] *)

(** The locals of one round of the loop over the masters. *)
Record MasterScan := mkScan {
  maxPwr : Q; minPwr : Q; maxGnd : Q; minGnd : Q;
  isVdd : bool; isGnd : bool;
  scan_pwrLayers : gset nat; scan_gndLayers : gset nat }.

Definition scanPowerPin (s : MasterScan) (mpin : dbMPin) : MasterScan :=
  let y :=
    (half * inject_Z (int32 (yMin (mpin_bbox mpin) + yMax (mpin_bbox mpin))))%Q in
  mkScan (Qmax (maxPwr s) y) (Qmin (minPwr s) y) (maxGnd s) (minGnd s)
         (isVdd s) (isGnd s)
         (foldl (fun ls mbox => {[box_layer mbox]} ∪ ls)
                (scan_pwrLayers s) (mpin_geometry mpin))
         (scan_gndLayers s).

Definition scanGroundPin (s : MasterScan) (mpin : dbMPin) : MasterScan :=
  let y :=
    (half * inject_Z (int32 (yMin (mpin_bbox mpin) + yMax (mpin_bbox mpin))))%Q in
  mkScan (maxPwr s) (minPwr s) (Qmax (maxGnd s) y) (Qmin (minGnd s) y)
         (isVdd s) (isGnd s)
         (scan_pwrLayers s)
         (foldl (fun ls mbox => {[box_layer mbox]} ∪ ls)
                (scan_gndLayers s) (mpin_geometry mpin)).

Definition scanMTerm (s : MasterScan) (mterm : dbMTerm) : MasterScan :=
  if dbSigType_eqb (mterm_sigType mterm) POWER then
    foldl scanPowerPin
          (mkScan (maxPwr s) (minPwr s) (maxGnd s) (minGnd s) true (isGnd s)
                  (scan_pwrLayers s) (scan_gndLayers s))
          (mterm_mpins mterm)
  else if dbSigType_eqb (mterm_sigType mterm) GROUND then
    foldl scanGroundPin
          (mkScan (maxPwr s) (minPwr s) (maxGnd s) (minGnd s) (isVdd s) true
                  (scan_pwrLayers s) (scan_gndLayers s))
          (mterm_mpins mterm)
  else s.

Definition setupMasterPower (o : Optdp) (master : dbMaster) : Optdp :=
  let s := foldl scanMTerm
             (mkScan DBL_LOWEST DBL_MAX DBL_LOWEST DBL_MAX false false
                     (pwrLayers_ o) (gndLayers_ o))
             (master_mterms master) in
  let '(topPwr, botPwr) :=
    if isVdd s && isGnd s then
      (if Qlt_le_dec (maxGnd s) (maxPwr s) then RowPower_VDD else RowPower_VSS,
       if Qlt_le_dec (minPwr s) (minGnd s) then RowPower_VDD else RowPower_VSS)
    else (RowPower_UNK, RowPower_UNK) in
  with_masterPwrs (<[master_id master := (topPwr, botPwr)]> (masterPwrs_ o))
    (with_layers (scan_pwrLayers s) (scan_gndLayers s) o).

Definition setupMasterPowers (o : Optdp) : Optdp :=
  foldl setupMasterPower o (block_masters (db_ o)).

(** ** [Optdp::createNetwork] *)

(** [!type.isCore() && !type.isBlock()]: the instance is passed over. *)
Definition skipInst (inst : dbInst) : bool :=
  negb (isCore (master_type (inst_master inst)))
  && negb (isBlock (master_type (inst_master inst))).

Definition countNodes (insts : list dbInst) : nat :=
  foldl (fun nNodes inst => if skipInst inst then nNodes else S nNodes)
        0 insts.

(** [(nEdges, nPins)] after the loop over the nets. *)
Definition countEdgesPins (nets : list dbNet) : nat * nat :=
  foldl (fun '(nEdges, nPins) net =>
           (S nEdges,
            nPins + length (net_iterms net) + length (net_bterms net)))
        (0, 0) nets.

(** Return instances to a north orientation. *)
Definition resetOrient (inst : dbInst) : dbInst :=
  if skipInst inst then inst else setLocationOrient R0 inst.

Section CreateNetwork.
Context `{DpoConstants}.

(** The allowed orientations of a master, from its symmetry. *)
Definition availOrient (master : dbMaster) : Z :=
  let orientations := Orientation_N in
  if master_symX master && master_symY master then
    Z.lor (Z.lor (Z.lor orientations Orientation_FN) Orientation_FS)
          Orientation_S
  else if master_symX master then
    Z.lor orientations Orientation_FS
  else if master_symY master then
    Z.lor orientations Orientation_FN
  else orientations.

(** The node of the placeable instance [inst], stored at index [n]. *)
Definition cellNode (o : Optdp) (inst : dbInst) (n : nat) : Node :=
  let ndi := getNode (network_ o) n in
  let xc := (inject_Z (inst_x inst)
             + half * inject_Z (master_width (inst_master inst)))%Q in
  let yc := (inject_Z (inst_y inst)
             + half * inject_Z (master_height (inst_master inst)))%Q in
  let '(topPwr, botPwr) :=
    match masterPwrs_ o !! master_id (inst_master inst) with
    | None => (RowPower_UNK, RowPower_UNK)
    | Some pw => pw
    end in
  mkNode n NodeType_CELL
         (if inst_fixed inst then NodeFixed_FIXED_XY
          else NodeFixed_NOT_FIXED)
         NodeAttributes_EMPTY
         (availOrient (inst_master inst)) Orientation_N
         (inject_Z (master_height (inst_master inst)))
         (inject_Z (master_width (inst_master inst)))
         xc yc xc yc
         EDGETYPE_DEFAULT EDGETYPE_DEFAULT
         botPwr topPwr
         0 (m_pins ndi).

(** One round of the loop that populates the nodes of the instances;
    the state is the object and the counter [n]. *)
Definition populateInst (s : Optdp * nat) (inst : dbInst) : Optdp * nat :=
  let '(o, n) := s in
  if skipInst inst then (o, n)
  else
    let o1 := with_instMap (<[inst_id inst := n]> (instMap_ o)) o in
    let nw := setNodeName n (inst_name inst) (network_ o1) in
    (with_network (setNode n (cellNode o1 inst n) nw) o1, S n).

(** The node of the terminal [bterm], stored at index [n]. *)
Definition termNode (o : Optdp) (bterm : dbBTerm) (n : nat) : Node :=
  let ndi := getNode (network_ o) n in
  let bb := bterm_bbox bterm in
  let ww := inject_Z (int32 (xMax bb - xMin bb)) in
  let hh := inject_Z (int32 (yMax bb - yMax bb)) in
  let xx := (inject_Z (int32 (xMax bb + xMin bb)) * half)%Q in
  let yy := (inject_Z (int32 (yMax bb + yMax bb)) * half)%Q in
  mkNode n NodeType_TERMINAL NodeFixed_FIXED_XY NodeAttributes_EMPTY
         Orientation_N Orientation_N
         hh ww xx yy xx yy
         EDGETYPE_DEFAULT EDGETYPE_DEFAULT
         RowPower_UNK RowPower_UNK
         0 (m_pins ndi).

Definition populateBTerm (s : Optdp * nat) (bterm : dbBTerm) : Optdp * nat :=
  let '(o, n) := s in
  let o1 := with_termMap (<[bterm_id bterm := n]> (termMap_ o)) o in
  let nw := setNodeName n (bterm_name bterm) (network_ o1) in
  (with_network (setNode n (termNode o1 bterm n) nw) o1, S n).

(** The locals [errors] and [p] next to the object, while edges and pins
    are populated. *)
Record Conn := mkConn { c_o : Optdp; c_errors : nat; c_p : nat }.

(** [logger_->error(...); ++errors;] when the call of [error] returns;
    [try_error] has the call that may raise. *)
Definition Conn_error (m : LogMsg) (s : Conn) : Conn :=
  mkConn (logger_ m (c_o s)) (S (c_errors s)) (c_p s).

(** [getNode(n)->getId() != n || getEdge(e)->getId() != e] *)
Definition improperIndexing (nw : Network) (n e : nat) : bool :=
  negb (Nat.eqb (m_id (getNode nw n)) n)
  || negb (Nat.eqb (e_id (getEdge nw e)) e).

(** One instance terminal of the net stored at edge [e]. *)
Definition connectITerm (e : nat) (s : Conn) (iTerm : dbITerm) : Conn :=
  match instMap_ (c_o s) !! iterm_inst iTerm with
  | Some it_n =>
      let n := m_id (getNode (network_ (c_o s)) it_n) in
      let s1 :=
        if improperIndexing (network_ (c_o s)) n e then
          Conn_error
            (error 108 "Improper node indexing while connecting pins." [])
            s
        else s in
      let '(nw, ptr) := createAndAddPin n e (network_ (c_o s1)) in
      let mTerm := iterm_mterm iTerm in
      let master := iterm_master iTerm in
      let bb := mterm_bbox mTerm in
      let ww := inject_Z (int32 (xMax bb - xMin bb)) in
      let hh := inject_Z (int32 (yMax bb - yMax bb)) in
      let xx := (inject_Z (int32 (xMax bb + xMin bb)) * half)%Q in
      let yy := (inject_Z (int32 (yMax bb + yMax bb)) * half)%Q in
      let dx := (xx - inject_Z (master_width master) / 2)%Q in
      let dy := (yy - inject_Z (master_height master) / 2)%Q in
      mkConn (with_network (setPin ptr dx dy hh ww 0 nw) (c_o s1))
             (c_errors s1) (S (c_p s1))
  | None =>
      Conn_error
        (error 106
           "Could not find node for instance while connecting pins." [])
        s
  end.

(** One block terminal of the net stored at edge [e]. *)
Definition connectBTerm (e : nat) (s : Conn) (bTerm : nat) : Conn :=
  match termMap_ (c_o s) !! bTerm with
  | Some it_p =>
      let n := m_id (getNode (network_ (c_o s)) it_p) in
      let s1 :=
        if improperIndexing (network_ (c_o s)) n e then
          Conn_error
            (error 109
               "Improper terminal indexing while connecting pins." [])
            s
        else s in
      let '(nw, ptr) := createAndAddPin n e (network_ (c_o s1)) in
      mkConn (with_network (setPin ptr 0 0 0 0 0 nw) (c_o s1))
             (c_errors s1) (S (c_p s1))
  | None =>
      Conn_error
        (error 107
           "Could not find node for terminal while connecting pins." [])
        s
  end.

(** One round of the loop over the nets; the state carries the edge
    counter [e]. *)
Definition connectNet (s : Conn * nat) (net : dbNet) : Conn * nat :=
  let '(c, e) := s in
  let o := c_o c in
  let nw := setEdge e (Edge_setId e (getEdge (network_ o) e)) (network_ o) in
  let o1 := with_netMap (<[net_id net := e]> (netMap_ o)) (with_network nw o) in
  let o2 := with_network (setEdgeName e (net_name net) (network_ o1)) o1 in
  let c1 := foldl (connectITerm e) (mkConn o2 (c_errors c) (c_p c))
                  (net_iterms net) in
  let c2 := foldl (connectBTerm e) c1 (net_bterms net) in
  (c2, S e).

(** The counts [nTerminals], [nNodes], [nEdges] and [nPins]. *)
Record Counts := mkCounts {
  nTerminals : nat; nNodes : nat; nEdges : nat; nPins : nat }.

Definition countNetwork (block : dbBlock) : Counts :=
  let nTerminals := length (block_bterms block) in
  let nNodes := countNodes (block_insts block) in
  let '(nEdges, nPins) := countEdgesPins (block_nets block) in
  mkCounts nTerminals nNodes nEdges nPins.

(** The counts are reported, nodes and edges are allocated, and the
    instances are returned to a north orientation. *)
Definition allocateNetwork (k : Counts) (o : Optdp) : Optdp :=
  let o := logger_
             (info 100
                "Created network with {:d} cells, {:d} terminals, {:d} edges and {:d} pins."
                [arg (nNodes k); arg (nTerminals k); arg (nEdges k);
                 arg (nPins k)]) o in
  let o := with_network
             (resizeEdges (nEdges k)
                (resizeNodes (nNodes k + nTerminals k) (network_ o))) o in
  with_db (block_with_insts (map resetOrient (block_insts (db_ o))) (db_ o))
          o.

(** Populate nodes: the instances, then the block terminals; the result
    carries the counter [n]. *)
Definition populateNodes (o : Optdp) : Optdp * nat :=
  foldl populateBTerm
        (foldl populateInst (o, 0) (block_insts (db_ o)))
        (block_bterms (db_ o)).

(** Populate edges and pins; the result carries the counter [e]. *)
Definition populateEdges (c : Conn) : Conn * nat :=
  foldl connectNet (c, 0) (block_nets (db_ (c_o c))).

(** [if (got != expected) { logger_->error(...); ++errors; }], the call
    of [error] returning; [expectCount_try] has the call that may raise. *)
Definition expectCount (got expected : nat) (m : LogMsg) (c : Conn) : Conn :=
  if negb (Nat.eqb got expected) then Conn_error m c else c.

(** The last statement of [createNetwork]. *)
Definition reportNetwork (c : Conn) : Conn :=
  if negb (Nat.eqb (c_errors c) 0) then
    mkConn (logger_ (error 101 "Error creating network." []) (c_o c))
           (c_errors c) (c_p c)
  else
    mkConn (logger_
              (info 102 "Network stats: inst {}, edges {}, pins {}"
                 [arg (getNumNodes (network_ (c_o c)));
                  arg (getNumEdges (network_ (c_o c)));
                  arg (getNumPins (network_ (c_o c)))])
              (c_o c))
           (c_errors c) (c_p c).

(** The body of [createNetwork], every call of [error] returning; the
    result keeps the final value of the locals [errors] and [p]. *)
Definition createNetwork_locals (o : Optdp) : Conn :=
  let o := with_layers ∅ ∅ o in
  let k := countNetwork (db_ o) in
  let o := allocateNetwork k o in
  let '(o, n) := populateNodes o in
  let c := mkConn o 0 0 in
  let c :=
    expectCount n (nNodes k + nTerminals k)
      (error 104
         "Unexpected total node count.  Expected {:d}, but got {:d}"
         [arg (nNodes k + nTerminals k); arg n]) c in
  let '(c, e) := populateEdges c in
  let c :=
    expectCount e (nEdges k)
      (error 104
         "Unexpected total edge count.  Expected {:d}, but got {:d}"
         [arg (nEdges k); arg e]) c in
  let c :=
    expectCount (c_p c) (nPins k)
      (error 105
         "Unexpected total pin count.  Expected {:d}, but got {:d}"
         [arg (nPins k); arg (c_p c)]) c in
  reportNetwork c.

Definition createNetwork (o : Optdp) : Optdp := c_o (createNetwork_locals o).

End CreateNetwork.

(** ** [Optdp::createArchitecture] *)

(** [a < b] on doubles. *)
Definition Qltb (a b : Q) : bool := if Qlt_le_dec a b then true else false.

Section Methods.
Context `{DpoConstants} `{External}.

Definition siteSymmetry (site : dbSite) : Z :=
  let symmetry := 0%Z in
  let symmetry :=
    if site_symX site then Z.lor symmetry Symmetry_X else symmetry in
  let symmetry :=
    if site_symY site then Z.lor symmetry Symmetry_Y else symmetry in
  let symmetry :=
    if site_symR90 site then Z.lor symmetry Symmetry_ROT90 else symmetry in
  symmetry.

Definition rowOrient (o : dbOrientType) : Z :=
  match o with
  | R0 => Orientation_N
  | MY => Orientation_FN
  | MX => Orientation_FS
  | R180 => Orientation_S
  | R90 => Orientation_E
  | MXR90 => Orientation_FE
  | R270 => Orientation_W
  | MYR90 => Orientation_FW
  end.

(** The row built from a horizontal database row. *)
Definition archRow (row : dbRow) : Row :=
  let site := row_site row in
  mkArchRow (inject_Z (row_originY row))
            (inject_Z (site_height site))
            (inject_Z (site_width site))
            (inject_Z (row_spacing row))
            (inject_Z (row_originX row))
            (row_siteCount row)
            RowPower_UNK RowPower_UNK
            (siteSymmetry site)
            (rowOrient (row_orient row)).

(** One round of the loop over the database rows. *)
Definition addRow (a : Architecture) (row : dbRow) : Architecture :=
  match row_dir row with
  | HORIZONTAL => Arch_with_rows (m_rows a ++ [archRow row]) a
  | _ => (* error. *) a
  end.

(** [(xmin, xmax, ymin, ymax)] over the rows. *)
Definition surroundingBox (rows : list Row) : Q * Q * Q * Q :=
  foldl (fun '(xmin, xmax, ymin, ymax) row =>
           (Qmin xmin (getLeft row), Qmax xmax (getRight row),
            Qmin ymin (getBottom row), Qmax ymax (getTop row)))
        (DBL_MAX, DBL_LOWEST, DBL_MAX, DBL_LOWEST) rows.

(** Get surrounding box. *)
Definition setSurroundingBox (dieRect : Rect) (a : Architecture)
    : Architecture :=
  let '(xmin, xmax, ymin, ymax) := surroundingBox (m_rows a) in
  let '(xmin, xmax) :=
    if negb (Qeq_bool xmin (inject_Z (xMin dieRect)))
       || negb (Qeq_bool xmax (inject_Z (xMax dieRect)))
    then (inject_Z (xMin dieRect), inject_Z (xMax dieRect))
    else (xmin, xmax) in
  Arch_setBox xmin xmax ymin ymax a.

(** One round of the loop that fits the rows between [getMinX] and
    [getMaxX].  The quotient by a zero site spacing is not defined in the
    source; [Q] yields zero there. *)
Definition clipRow (minX maxX : Q) (row : Row) : Row :=
  let numSites := m_numSites row in
  let originX := getLeft row in
  let siteSpacing := m_siteSpacing row in
  let lx := originX in
  let rx := (originX + inject_Z numSites * siteSpacing)%Q in
  if Qltb lx minX || Qltb maxX rx then
    let originX := if Qltb lx minX then minX else originX in
    let rx := (originX + inject_Z numSites * siteSpacing)%Q in
    let numSites :=
      if Qltb maxX rx then Qtrunc ((maxX - originX) / siteSpacing)
      else numSites in
    let row :=
      if negb (Qeq_bool (m_subRowOrigin row) originX)
      then Row_setOrigin originX row else row in
    if negb (Z.eqb (m_numSites row) numSites)
    then Row_setNumSites numSites row else row
  else row.

Definition clipRows (a : Architecture) : Architecture :=
  Arch_with_rows (map (clipRow (m_xmin a) (m_xmax a)) (m_rows a)) a.

(** [y >= rect.yMin() && y <= rect.yMax()] *)
Definition containsY (rect : Rect) (y : Q) : bool :=
  Qle_bool (inject_Z (yMin rect)) y && Qle_bool y (inject_Z (yMax rect)).

(** One row against one rail rectangle. *)
Definition labelRow (pwr : RowPower) (rect : Rect) (row : Row) : Row :=
  let yb := getBottom row in
  let yt := getTop row in
  let row := if containsY rect yb then Row_setPowerBot pwr row else row in
  if containsY rect yt then Row_setPowerTop pwr row else row.

(** One box of a special wire of a net of power [pwr]. *)
Definition railSBox (pwrLayers gndLayers : gset nat) (pwr : RowPower)
    (a : Architecture) (sbox : dbSBox) : Architecture :=
  match sbox_dir sbox with
  | SBOX_HORIZONTAL =>
      if sbox_isVia sbox then a
      else
        let layer := sbox_layer sbox in
        if RowPower_eqb pwr RowPower_VDD
           && bool_decide (layer ∉ pwrLayers) then a
        else if negb (RowPower_eqb pwr RowPower_VDD)
                && RowPower_eqb pwr RowPower_VSS
                && bool_decide (layer ∉ gndLayers) then a
        else
          Arch_with_rows (map (labelRow pwr (sbox_rect sbox)) (m_rows a)) a
  | _ => a
  end.

Definition railSWire (pwrLayers gndLayers : gset nat) (pwr : RowPower)
    (a : Architecture) (swire : dbSWire) : Architecture :=
  match swire_type swire with
  | ROUTED => foldl (railSBox pwrLayers gndLayers pwr) a (swire_wires swire)
  | _ => a
  end.

(** One round of the loop over the nets that sets the rails of the rows. *)
Definition railNet (pwrLayers gndLayers : gset nat)
    (a : Architecture) (net : dbNet) : Architecture :=
  if negb (net_special net) then a
  else if negb (dbSigType_eqb (net_sigType net) POWER
                || dbSigType_eqb (net_sigType net) GROUND) then a
  else
    let pwr := if dbSigType_eqb (net_sigType net) POWER
               then RowPower_VDD else RowPower_VSS in
    foldl (railSWire pwrLayers gndLayers pwr) a (net_swires net).

(** [createArchitecture] up to the call of [postProcess]. *)
Definition buildArchitecture (o : Optdp) : Architecture :=
  let block := db_ o in
  let a := foldl addRow (arch_ o) (block_rows block) in
  let a := setSurroundingBox (block_dieArea block) a in
  let a := clipRows a in
  foldl (railNet (pwrLayers_ o) (gndLayers_ o)) a (block_nets block).

Definition createArchitecture (o : Optdp) : Optdp :=
  with_arch (postProcess (network_ o) (buildArchitecture o)) o.

(** ** [Optdp::initPadding] *)

(** Modelled from the spec: [Architecture::addCellPadding] is absent; the
    left and right padding of a node are kept per node. *)
Definition addCellPadding (ndi : nat) (l r : Z) (a : Architecture)
    : Architecture :=
  mkArch (m_rows a) (m_regions a) (m_xmin a) (m_xmax a) (m_ymin a)
         (m_ymax a) (m_useSpacingTable a) (m_usePadding a)
         (<[ndi := (l, r)]> (m_cellPaddings a)).

Definition setUseFlags (spacingTable padding : bool) (a : Architecture)
    : Architecture :=
  mkArch (m_rows a) (m_regions a) (m_xmin a) (m_xmax a) (m_ymin a)
         (m_ymax a) spacingTable padding (m_cellPaddings a).

Definition padInst (siteWidth : Z) (o : Optdp) (inst : dbInst) : Optdp :=
  match instMap_ o !! inst_id inst with
  | Some ndi =>
      let leftPadding := padLeft inst in
      let rightPadding := padRight inst in
      with_arch (addCellPadding ndi (int32 (leftPadding * siteWidth))
                                (int32 (rightPadding * siteWidth))
                                (arch_ o)) o
  | None => o
  end.

Definition initPadding (o : Optdp) : Optdp :=
  let o := with_arch (init_edge_type (setUseFlags false true (arch_ o))) o in
  match block_rows (db_ o) with
  | [] => o
  | row :: _ =>
      let siteWidth := site_width (row_site row) in
      foldl (padInst siteWidth) o (block_insts (db_ o))
  end.

(** ** [Optdp::setUpPlacementRegions] *)

Definition Region_setId (i : nat) (r : Region) : Region :=
  mkArchRegion i (r_rects r) (r_xmin r) (r_xmax r) (r_ymin r) (r_ymax r).

(** One boundary box of the parent of a database region. *)
Definition addBoundary (a : Architecture) (rptr : Region) (boundary : dbBox)
    : Region :=
  let box := box_rect boundary in
  let xmin := Qmax (m_xmin a) (inject_Z (xMin box)) in
  let xmax := Qmin (m_xmax a) (inject_Z (xMax box)) in
  let ymin := Qmax (m_ymin a) (inject_Z (yMin box)) in
  let ymax := Qmin (m_ymax a) (inject_Z (yMax box)) in
  mkArchRegion (r_id rptr)
               (r_rects rptr ++ [mkRectangle xmin ymin xmax ymax])
               (Qmin xmin (r_xmin rptr)) (Qmax xmax (r_xmax rptr))
               (Qmin ymin (r_ymin rptr)) (Qmax ymax (r_ymax rptr)).

(** One instance of a database region whose architecture region has the
    id [id]. *)
Definition assignRegion (id : nat) (o : Optdp) (db_inst : nat) : Optdp :=
  match instMap_ o !! db_inst with
  | Some it_n =>
      let nd := getNode (network_ o) it_n in
      if Nat.eqb (m_regionId nd) 0
      then with_network (setNode it_n (Node_setRegionId id nd) (network_ o)) o
      else o
  | None => o
  end.

(** One round of the loop over the database regions; the state carries
    the counter [count]. *)
Definition setUpRegion (s : Optdp * nat) (db_region : dbRegion)
    : Optdp * nat :=
  let '(o, count) := s in
  match region_parent db_region with
  | Some boundaries =>
      let rptr := Region_setId count Region_new in
      let rptr := foldl (addBoundary (arch_ o)) rptr boundaries in
      let o1 :=
        with_arch
          (Arch_with_regions (m_regions (arch_ o) ++ [rptr]) (arch_ o)) o in
      (foldl (assignRegion (r_id rptr)) o1 (region_insts db_region),
       S count)
  | None => (o, count)
  end.

(** The default region. *)
Definition defaultRegion (a : Architecture) : Region :=
  mkArchRegion 0
    [mkRectangle (m_xmin a) (m_ymin a) (m_xmax a) (m_ymax a)]
    (m_xmin a) (m_xmax a) (m_ymin a) (m_ymax a).

Definition setUpPlacementRegions (o : Optdp) : Optdp :=
  let a := arch_ o in
  let o :=
    with_arch (Arch_with_regions (m_regions a ++ [defaultRegion a]) a) o in
  let '(o, count) := foldl setUpRegion (o, 1) (block_regions (db_ o)) in
  logger_ (info 103 "Number of regions is {:d}"
                [arg (getNumRegions (arch_ o))]) o.

(** ** [Optdp::import] *)

Definition import (o : Optdp) : Optdp :=
  let o := logger_ (report "Importing netlist into detailed improver." []) o in
  let o := with_arch Architecture_new (with_network Network_new o) in
  let o := setupMasterPowers o in
  let o := createNetwork o in
  let o := createArchitecture o in
  let o := initPadding o in
  setUpPlacementRegions o.

(** ** [Optdp::updateDbInstLocations] *)

(** The updates issued to the database. *)
Inductive DbCall :=
| SetOrient (inst : nat) (orient : dbOrientType)
| SetLocation (inst : nat) (x y : Z).

(** The [switch] over the current orientation of a node. *)
Definition dbOrient (curr : Z) : dbOrientType :=
  if Z.eqb curr Orientation_N then R0
  else if Z.eqb curr Orientation_FN then MY
  else if Z.eqb curr Orientation_FS then MX
  else if Z.eqb curr Orientation_S then R180
  else R0.

(** One round of the loop over the instances: the instance afterwards
    and the updates issued for it.  The corner is computed in exact
    arithmetic and truncated; this is what the doubles of the code give on
    the node states of [exact_corner] (half-integral centre and size, the
    corner an [int]), as are those of the import. *)
Definition updateDbInst (o : Optdp) (inst : dbInst) : dbInst * list DbCall :=
  if skipInst inst then (inst, [])
  else
    match instMap_ o !! inst_id inst with
    | Some it_n =>
        let nd := getNode (network_ o) it_n in
        let y := Qtrunc (m_y nd - half * m_h nd) in
        let x := Qtrunc (m_x nd - half * m_w nd) in
        let orient := dbOrient (m_currOrient nd) in
        let '(inst1, calls1) :=
          if negb (dbOrientType_eqb (inst_orient inst) orient)
          then (setOrient orient inst, [SetOrient (inst_id inst) orient])
          else (inst, []) in
        let '(inst_x, inst_y) := getLocation inst1 in
        let '(inst2, calls2) :=
          if negb (Z.eqb x inst_x) || negb (Z.eqb y inst_y)
          then (setLocation x y inst1, [SetLocation (inst_id inst) x y])
          else (inst1, []) in
        (inst2, calls1 ++ calls2)
    | None => (inst, [])
    end.

Definition updateDbInstLocations (o : Optdp) : Optdp * list DbCall :=
  let r := map (updateDbInst o) (block_insts (db_ o)) in
  (with_db (block_with_insts (map fst r) (db_ o)) o, concat (map snd r)).

(** ** [Optdp::improvePlacement] *)

Definition m_script : string :=
  "mis -p 10 -t 0.005;" ++ "gs -p 10 -t 0.005;" ++ "vs -p 10 -t 0.005;"
  ++ "ro -p 10 -t 0.005;"
  ++ "default -p 5 -f 20 -gen rng -obj hpwl -cost (hpwl);".

Definition improvePlacement (o : Optdp) : Optdp :=
  let o := logger_ (report "Detailed placement improvement." []) o in
  let o := with_hpwl (hpwl (db_ o)) (hpwlAfter_ o) o in
  let o :=
    if negb (Z.eqb (hpwlBefore_ o) 0) then
      let o := import o in
      let mgr := legalize (arch_ o, network_ o) in
      let mgr := improve m_script mgr in
      let o := with_arch (fst mgr) (with_network (snd mgr) o) in
      let o := fst (updateDbInstLocations o) in
      with_hpwl (hpwlBefore_ o) (hpwl (db_ o)) o
    else
      let o :=
        logger_
          (report "Skipping detailed improvement since hpwl is zero." [])
          o in
      with_hpwl (hpwlBefore_ o) (hpwlBefore_ o) o in
  let dbu_micron := inject_Z (block_dbuPerMicron (db_ o)) in
  let o := logger_ (report "Detailed Improvement Results" []) o in
  let o := logger_ (report "------------------------------------------" [])
                   o in
  let o := logger_ (report "Original HPWL         {:10.1f} u"
                      [(inject_Z (hpwlBefore_ o) / dbu_micron)%Q]) o in
  let o := logger_ (report "Final HPWL            {:10.1f} u"
                      [(inject_Z (hpwlAfter_ o) / dbu_micron)%Q]) o in
  let hpwl_delta :=
    if Z.eqb (hpwlBefore_ o) 0 then 0%Q
    else (inject_Z (hpwlAfter_ o - hpwlBefore_ o)
          / inject_Z (hpwlBefore_ o) * 100)%Q in
  let o := logger_ (report "Delta HPWL            {:10.1f} %" [hpwl_delta])
                   o in
  logger_ (report EmptyString []) o.

End Methods.


(** ** Vocabulary of the statements *)

(** The instances that get a node: the ones [skipInst] does not pass over,
    in database order. *)
Definition placeable (inst : dbInst) : bool := negb (skipInst inst).

Definition cells (insts : list dbInst) : list dbInst :=
  List.filter placeable insts.

(** A node without its pin list: what the import sets. *)
Definition Node_core (nd : Node) : Node :=
  mkNode (m_id nd) (m_type nd) (m_fixed nd) (m_attributes nd)
         (m_availOrient nd) (m_currOrient nd) (m_h nd) (m_w nd)
         (m_origX nd) (m_origY nd) (m_x nd) (m_y nd) (m_etr nd) (m_etl nd)
         (m_powerBot nd) (m_powerTop nd) (m_regionId nd) [].

Definition nodes_ (o : Optdp) : list Node := net_nodes (network_ o).
Definition edges_ (o : Optdp) : list Edge := net_edges (network_ o).
Definition pins_ (o : Optdp) : list Pin := net_pins (network_ o).

(** What the loops over the terminals of the nets leave alone: everything
    but the log, the pins and the pin lists of nodes and edges. *)
Definition conn_frame (o : Optdp) :=
  (db_ o, arch_ o, instMap_ o, termMap_ o, netMap_ o, masterPwrs_ o,
   pwrLayers_ o, gndLayers_ o, hpwlBefore_ o, hpwlAfter_ o,
   Node_core <$> nodes_ o, e_id <$> edges_ o,
   net_nodeNames (network_ o), net_edgeNames (network_ o)).

(** What the loop over the nets leaves alone. *)
Definition net_frame (o : Optdp) :=
  (db_ o, arch_ o, instMap_ o, termMap_ o, masterPwrs_ o,
   pwrLayers_ o, gndLayers_ o, hpwlBefore_ o, hpwlAfter_ o,
   Node_core <$> nodes_ o, length (edges_ o), net_nodeNames (network_ o)).

(** The terminals of the nets whose instance or block terminal is in the
    node maps of [o], and those whose is not. *)
Definition foundITerm (o : Optdp) (iTerm : dbITerm) : bool :=
  bool_decide (is_Some (instMap_ o !! iterm_inst iTerm)).

Definition foundBTerm (o : Optdp) (bTerm : nat) : bool :=
  bool_decide (is_Some (termMap_ o !! bTerm)).

Definition count {A : Type} (f : A -> bool) (l : list A) : nat :=
  length (List.filter f l).

Definition foundInNet (o : Optdp) (net : dbNet) : nat :=
  count (foundITerm o) (net_iterms net) + count (foundBTerm o) (net_bterms net).

Definition missingInNet (o : Optdp) (net : dbNet) : nat :=
  count (fun t => negb (foundITerm o t)) (net_iterms net)
  + count (fun t => negb (foundBTerm o t)) (net_bterms net).

Definition sum_list (l : list nat) : nat := foldr Nat.add 0 l.

Definition foundPins (o : Optdp) (nets : list dbNet) : nat :=
  sum_list (map (foundInNet o) nets).

Definition missingPins (o : Optdp) (nets : list dbNet) : nat :=
  sum_list (map (missingInNet o) nets).

(** The reports of a missing instance (106) or terminal (107). *)
Definition is_missing_report (m : LogMsg) : bool :=
  is_error 106 m || is_error 107 m.

(** What the locals and the state of the pin loops are measured by: the
    pins in the network, the counter [p], the counter [errors] and the
    missing references reported so far. *)
Definition pinsOf (s : Conn) : nat := length (pins_ (c_o s)).
Definition reportsOf (s : Conn) : nat := count is_missing_report (log_ (c_o s)).

(** What the population of the nodes leaves alone. *)
Definition pop_frame (o : Optdp) :=
  (db_ o, log_ o, arch_ o, netMap_ o, masterPwrs_ o,
   pwrLayers_ o, gndLayers_ o, hpwlBefore_ o, hpwlAfter_ o,
   edges_ o, pins_ o).

(** The allowed orientations as the specification words them: north
    always; with both symmetries the three others; with the X symmetry
    only, flipped south; with the Y symmetry only, flipped north. *)
Definition spec_orientations `{DpoConstants} (symX symY : bool) : list Z :=
  Orientation_N ::
  (if symX && symY then [Orientation_FN; Orientation_FS; Orientation_S]
   else if symX then [Orientation_FS]
   else if symY then [Orientation_FN]
   else []).

(** A decision procedure for [disjoint_flags]. *)
Fixpoint all_disjoint (l : list Z) : bool :=
  match l with
  | [] => true
  | a :: l' =>
      negb (Z.eqb a 0) && forallb (fun b => Z.eqb (Z.land a b) 0) l'
      && all_disjoint l'
  end.

(** The reports of an improper node (108) or terminal (109) indexing. *)
Definition is_index_report (m : LogMsg) : bool :=
  is_error 108 m || is_error 109 m.

Definition indexReportsOf (s : Conn) : nat :=
  count is_index_report (log_ (c_o s)).

(** The ids of the nodes are their indices. *)
Definition dense_nodes (o : Optdp) : Prop :=
  forall j nd, nodes_ o !! j = Some nd -> m_id nd = j.

(** The edge [e] is allocated and carries its index as id. *)
Definition edge_open (o : Optdp) (e : nat) : Prop :=
  e_id <$> edges_ o !! e = Some e.

(** The state of [import] after [createNetwork], and the architecture
    that [createArchitecture] then hands to [postProcess]. *)
Definition import_network `{DpoConstants} (o : Optdp) : Optdp :=
  createNetwork
    (setupMasterPowers
       (with_arch Architecture_new
          (with_network Network_new
             (logger_ (report "Importing netlist into detailed improver." [])
                      o)))).

Definition import_architecture `{DpoConstants} (o : Optdp) : Architecture :=
  buildArchitecture (import_network o).

Definition isHorizontal (row : dbRow) : bool :=
  match row_dir row with HORIZONTAL => true | _ => false end.

(** A rail shape as the specification words it: a routed, horizontal,
    non-via rectangle of a special wire of a special POWER or GROUND net,
    on a layer recorded for its kind.  [qualifying pw gn net] lists the
    rectangles of [net] that qualify with the recorded layers [pw] (power)
    and [gn] (ground). *)
Definition netPower (net : dbNet) : option RowPower :=
  if negb (net_special net) then None
  else match net_sigType net with
       | POWER => Some RowPower_VDD
       | GROUND => Some RowPower_VSS
       | _ => None
       end.

Definition qualifyingSBox (pw gn : gset nat) (pwr : RowPower)
    (sbox : dbSBox) : bool :=
  match sbox_dir sbox with
  | SBOX_HORIZONTAL =>
      negb (sbox_isVia sbox)
      && match pwr with
         | RowPower_VDD => bool_decide (sbox_layer sbox ∈ pw)
         | RowPower_VSS => bool_decide (sbox_layer sbox ∈ gn)
         | RowPower_UNK => false
         end
  | _ => false
  end.

Definition qualifying (pw gn : gset nat) (net : dbNet) : list Rect :=
  match netPower net with
  | Some pwr =>
      concat
        (map (fun swire =>
                match swire_type swire with
                | ROUTED =>
                    map sbox_rect
                        (List.filter (qualifyingSBox pw gn pwr)
                                     (swire_wires swire))
                | _ => []
                end)
             (net_swires net))
  | None => []
  end.

(** The rails of the nets, in the order in which they are met: the power
    of the net and the rectangle. *)
Definition netRails (pw gn : gset nat) (net : dbNet)
    : list (RowPower * Rect) :=
  match netPower net with
  | Some pwr => map (fun rect => (pwr, rect)) (qualifying pw gn net)
  | None => []
  end.

Definition rails (pw gn : gset nat) (nets : list dbNet)
    : list (RowPower * Rect) :=
  concat (map (netRails pw gn) nets).

(** One rail against all rows, and against one row. *)
Definition applyRail (a : Architecture) (rail : RowPower * Rect)
    : Architecture :=
  Arch_with_rows (map (labelRow (fst rail) (snd rail)) (m_rows a)) a.

Definition labelRowBy (row : Row) (rail : RowPower * Rect) : Row :=
  labelRow (fst rail) (snd rail) row.

(** The region of a node as the specification words it.  [inGroup m j g]:
    the database region [g] lists an instance that the instance map [m]
    sends to the node [j].  [regionOf m j count regions]: the id of the
    first group (a database region with a parent) that lists the node [j],
    where the groups are numbered from [count] on in database order, and 0
    when no group lists it. *)
Definition listsNode (m : gmap nat nat) (j : nat) (handles : list nat) : bool :=
  existsb (fun h => bool_decide (m !! h = Some j)) handles.

Definition inGroup (m : gmap nat nat) (j : nat) (g : dbRegion) : bool :=
  listsNode m j (region_insts g).

Fixpoint regionOf (m : gmap nat nat) (j count : nat)
    (regions : list dbRegion) : nat :=
  match regions with
  | [] => 0
  | g :: rest =>
      match region_parent g with
      | Some _ => if inGroup m j g then count
                  else regionOf m j (S count) rest
      | None => regionOf m j count rest
      end
  end.

Definition hasParent (g : dbRegion) : bool :=
  match region_parent g with Some _ => true | None => false end.

(** The region ids of the nodes, by index. *)
Definition regionIds (o : Optdp) : list nat := m_regionId <$> nodes_ o.

(** The state of [import] before [setUpPlacementRegions]. *)
Definition import_padded `{DpoConstants} `{External} (o : Optdp) : Optdp :=
  initPadding (createArchitecture (import_network o)).

(** ** Sample data

    A set of one-bit flags, trivial collaborators, and small databases on
    which the statements below are evaluated. *)

Definition sample_constants : DpoConstants :=
  {| Orientation_N := 1; Orientation_W := 2; Orientation_S := 4;
     Orientation_E := 8; Orientation_FN := 16; Orientation_FE := 32;
     Orientation_FS := 64; Orientation_FW := 128;
     Symmetry_X := 1; Symmetry_Y := 2; Symmetry_ROT90 := 4;
     EDGETYPE_DEFAULT := 0; NodeAttributes_EMPTY := 0 |}.

(** Collaborators that leave the placement as they find it; the half
    perimeter is taken to be zero exactly on a block without nets. *)
Definition sample_external : External :=
  {| hpwl := fun b => Z.of_nat (length (block_nets b));
     padLeft := fun _ => 1%Z;
     padRight := fun _ => 1%Z;
     setOrient := setLocationOrient;
     postProcess := fun _ a => a;
     init_edge_type := fun a => a;
     legalize := fun mgr => mgr;
     improve := fun _ mgr => mgr |}.

Definition CORE : dbMasterType := mkMasterType true false.
Definition PAD : dbMasterType := mkMasterType false false.

(** A signal pin with the box (0,0)-(2,4), a power pin at the top and a
    ground pin at the bottom, both on layer 1. *)
Definition sample_pinA : dbMTerm :=
  mkMTerm SIGNAL (mkRect 0 0 2 4) [mkMPin (mkRect 0 0 2 4) [mkBox 2 (mkRect 0 0 2 4)]].
Definition sample_pinVDD : dbMTerm :=
  mkMTerm POWER (mkRect 0 9 10 10)
          [mkMPin (mkRect 0 9 10 10) [mkBox 1 (mkRect 0 9 10 10)]].
Definition sample_pinVSS : dbMTerm :=
  mkMTerm GROUND (mkRect 0 0 10 1)
          [mkMPin (mkRect 0 0 10 1) [mkBox 1 (mkRect 0 0 10 1)]].

(** A core master of 10 by 10 with the X symmetry only. *)
Definition sample_master : dbMaster :=
  mkMaster 1 CORE 10 10 true false [sample_pinA; sample_pinVDD; sample_pinVSS].

Definition sample_padMaster : dbMaster :=
  mkMaster 2 PAD 50 50 false false [sample_pinA].

Definition sample_inst : dbInst :=
  mkInst 1 "u1" sample_master 20 0 MX false.

Definition sample_pad : dbInst :=
  mkInst 2 "pad1" sample_padMaster 0 0 R0 true.

Definition sample_bterm : dbBTerm := mkBTerm 1 "in" (mkRect 0 50 0 50).

(** A net between the pin of the cell, the pin of the pad (an instance
    without a node) and the block terminal. *)
Definition sample_net : dbNet :=
  mkNet 1 "n1"
        [mkITerm 1 sample_pinA sample_master;
         mkITerm 2 sample_pinA sample_padMaster]
        [1] false SIGNAL [].

(** A special power net with one routed horizontal stripe on layer 1 that
    covers the bottom of the row at y = 0. *)
Definition sample_vdd : dbNet :=
  mkNet 2 "VDD" [] [] true POWER
        [mkSWire ROUTED
                 [mkSBox SBOX_HORIZONTAL false 1 (mkRect 0 (-1) 100 1)]].

Definition sample_site : dbSite := mkSite 2 10 false true false.

Definition sample_row : dbRow := mkRow HORIZONTAL sample_site 0 0 2 50 R0.

Definition sample_vrow : dbRow := mkRow VERTICAL sample_site 0 0 2 50 R0.

Definition sample_group : dbRegion :=
  mkRegion (Some [mkBox 0 (mkRect 0 0 50 50)]) [1].

Definition sample_block : dbBlock :=
  mkBlock [sample_inst; sample_pad] [sample_net; sample_vdd] [sample_bterm]
          [sample_row] [sample_group] [sample_master; sample_padMaster]
          (mkRect 0 0 100 100) (mkRect 0 0 100 100) 1000.






(** A block whose only row is vertical. *)
Definition vertical_block : dbBlock :=
  mkBlock [] [] [] [sample_vrow] [] [] (mkRect 0 0 100 100)
          (mkRect 0 0 100 100) 1000.

(** A block with the die (0,0)-(100,100) and one horizontal row of ten
    sites of pitch 10 that starts at x = 155. *)
Definition outside_row : dbRow :=
  mkRow HORIZONTAL (mkSite 10 10 false true false) 155 0 10 10 R0.

Definition outside_block : dbBlock :=
  mkBlock [] [] [] [outside_row] [] [] (mkRect 0 0 100 100)
          (mkRect 0 0 100 100) 1000.

(** ** Vocabulary of the further properties *)

(** A node without its region, and the nodes of the object so reduced:
    what [setUpPlacementRegions] leaves alone. *)
Definition Node_noRegion (nd : Node) : Node := Node_setRegionId 0 nd.

Definition nodes_noRegion (o : Optdp) : list Node :=
  Node_noRegion <$> nodes_ o.

(** An architecture without its regions. *)
Definition Arch_noRegions (a : Architecture) : Architecture :=
  Arch_with_regions [] a.

(** A network without its nodes. *)
Definition Network_noNodes (nw : Network) : Network :=
  Network_with_nodes [] nw.

(** The database groups that have a parent, in the order of the block. *)
Definition groups (b : dbBlock) : list dbRegion :=
  List.filter hasParent (block_regions b).

(** The rectangle lies within the bounds of the architecture. *)
Definition withinArch (a : Architecture) (rc : Rectangle) : Prop :=
  (m_xmin a <= rect_xmin rc /\ rect_xmax rc <= m_xmax a
   /\ m_ymin a <= rect_ymin rc /\ rect_ymax rc <= m_ymax a)%Q.

(** The label that the rails [rs] leave at the height [y] of a rail that
    had the label [p0]: that of the last rail, in the order of the
    database, whose rectangle contains [y]. *)
Definition railAt (rs : list (RowPower * Rect)) (y : Q) (p0 : RowPower)
    : RowPower :=
  foldl (fun p rail => if containsY (snd rail) y then fst rail else p) p0 rs.

(** The terminals of signal type [t] among [mterms], the heights of
    their pins (half the 32-bit sum of the lower and the upper edge of the
    box) and the layers of the geometry of their pins, in the order of the
    database. *)
Definition mtermsOf (t : dbSigType) (mterms : list dbMTerm) : list dbMTerm :=
  List.filter (fun mterm => dbSigType_eqb (mterm_sigType mterm) t) mterms.

Definition pinCentre (mpin : dbMPin) : Q :=
  (half * inject_Z (int32 (yMin (mpin_bbox mpin) + yMax (mpin_bbox mpin))))%Q.

Definition pinCentres (t : dbSigType) (mterms : list dbMTerm) : list Q :=
  concat (map (fun mterm => map pinCentre (mterm_mpins mterm))
              (mtermsOf t mterms)).

Definition pinLayers (t : dbSigType) (mterms : list dbMTerm) : list nat :=
  concat (map (fun mterm =>
                 concat (map (fun mpin => map box_layer (mpin_geometry mpin))
                             (mterm_mpins mterm)))
              (mtermsOf t mterms)).

Definition mastersLayers (t : dbSigType) (masters : list dbMaster)
    : gset nat :=
  list_to_set
    (concat (map (fun master => pinLayers t (master_mterms master)) masters)).

Definition hasMTerm (t : dbSigType) (master : dbMaster) : bool :=
  existsb (fun mterm => dbSigType_eqb (mterm_sigType mterm) t)
          (master_mterms master).

(** The rails (top, bottom) of a master: unknown unless it has a POWER
    and a GROUND terminal; else the top is VDD when the highest power pin
    is above the highest ground pin, the bottom is VDD when the lowest
    power pin is below the lowest ground pin, and VSS otherwise. *)
Definition masterRails (master : dbMaster) : RowPower * RowPower :=
  let pw := pinCentres POWER (master_mterms master) in
  let gn := pinCentres GROUND (master_mterms master) in
  if hasMTerm POWER master && hasMTerm GROUND master then
    (if Qlt_le_dec (foldl Qmax DBL_LOWEST gn) (foldl Qmax DBL_LOWEST pw)
     then RowPower_VDD else RowPower_VSS,
     if Qlt_le_dec (foldl Qmin DBL_MAX pw) (foldl Qmin DBL_MAX gn)
     then RowPower_VDD else RowPower_VSS)
  else (RowPower_UNK, RowPower_UNK).

(** The pin that [createNetwork] makes for an instance terminal and for
    a block terminal, on the node [n] and the edge [e]. *)
Definition itermPin (n e : nat) (iTerm : dbITerm) : Pin :=
  let bb := mterm_bbox (iterm_mterm iTerm) in
  let master := iterm_master iTerm in
  mkPin n e
        (inject_Z (int32 (xMax bb + xMin bb)) * half
         - inject_Z (master_width master) / 2)%Q
        (inject_Z (int32 (yMax bb + yMax bb)) * half
         - inject_Z (master_height master) / 2)%Q
        (inject_Z (int32 (yMax bb - yMax bb)))
        (inject_Z (int32 (xMax bb - xMin bb)))
        0.

Definition btermPin (n e : nat) : Pin := mkPin n e 0 0 0 0 0.

(** The pins of the net stored at edge [e], by the node maps [im] and
    [tm]: those of its instance terminals that have a node, then those of
    its block terminals that have one; and the pins of the nets stored
    from edge [e] on. *)
Definition netPins (im tm : gmap nat nat) (e : nat) (net : dbNet)
    : list Pin :=
  concat (map (fun it => match im !! iterm_inst it with
                         | Some n => [itermPin n e it]
                         | None => []
                         end) (net_iterms net))
  ++ concat (map (fun bt => match tm !! bt with
                            | Some n => [btermPin n e]
                            | None => []
                            end) (net_bterms net)).

Fixpoint networkPins (im tm : gmap nat nat) (e : nat) (nets : list dbNet)
    : list Pin :=
  match nets with
  | [] => []
  | net :: nets => netPins im tm e net ++ networkPins im tm (S e) nets
  end.

(** The node maps point into the node store. *)
Definition maps_in_range (o : Optdp) : Prop :=
  (forall h n, instMap_ o !! h = Some n -> n < length (nodes_ o))
  /\ (forall h n, termMap_ o !! h = Some n -> n < length (nodes_ o)).

(** The instance that an update of the database is issued for. *)
Definition call_inst (c : DbCall) : nat :=
  match c with
  | SetOrient inst _ => inst
  | SetLocation inst _ _ => inst
  end.

(** The reports of the terminals of a net that have no node, by the node
    maps [im] and [tm]: those of its instance terminals, then those of its
    block terminals; and the reports of the nets, in their order. *)
Definition netReports (im tm : gmap nat nat) (net : dbNet) : list LogMsg :=
  concat (map (fun it =>
                 match im !! iterm_inst it with
                 | Some _ => []
                 | None =>
                     [error 106
                        "Could not find node for instance while connecting pins."
                        []]
                 end) (net_iterms net))
  ++ concat (map (fun bt =>
                    match tm !! bt with
                    | Some _ => []
                    | None =>
                        [error 107
                           "Could not find node for terminal while connecting pins."
                           []]
                    end) (net_bterms net)).

Definition networkReports (im tm : gmap nat nat) (nets : list dbNet)
    : list LogMsg :=
  concat (map (netReports im tm) nets).

(** ** Further sample data *)

(** A block of two terminals and nothing else: one with the box
    (10,20)-(30,60), one with a box far from the origin, whose corner
    coordinates add up to more than 32 bits hold. *)
Definition wide_bterm : dbBTerm := mkBTerm 1 "a" (mkRect 10 20 30 60).

Definition far_bterm : dbBTerm :=
  mkBTerm 2 "b" (mkRect 1500000000 1500000000 1500000010 1500000020).

Definition terminal_block : dbBlock :=
  mkBlock [] [] [wide_bterm; far_bterm] [] [] [] (mkRect 0 0 100 100)
          (mkRect 0 0 100 100) 1000.

(** A master whose power pin lies high above its ground pin, so high
    that the sum of the two y coordinates of its box does not fit 32
    bits. *)
Definition far_master : dbMaster :=
  mkMaster 3 CORE 10 10 false false
    [mkMTerm POWER (mkRect 0 1500000000 10 1500000020)
       [mkMPin (mkRect 0 1500000000 10 1500000020) []];
     mkMTerm GROUND (mkRect 0 0 10 10) [mkMPin (mkRect 0 0 10 10) []]].

Definition far_inst : dbInst := mkInst 3 "f1" far_master 0 0 R0 false.

Definition far_block : dbBlock :=
  mkBlock [far_inst] [] [] [sample_row] [] [far_master] (mkRect 0 0 100 100)
          (mkRect 0 0 100 100) 1000.

(** A block in which every terminal of the one net is found: the cell
    [u1], a block terminal, and a net with two terminals on [u1], the
    second with a box far from the origin, and the block terminal. *)
Definition far_pin : dbMTerm :=
  mkMTerm SIGNAL (mkRect 1500000000 1500000000 1500000010 1500000020) [].

Definition connected_net : dbNet :=
  mkNet 1 "n1"
        [mkITerm 1 sample_pinA sample_master; mkITerm 1 far_pin sample_master]
        [1] false SIGNAL [].

Definition connected_block : dbBlock :=
  mkBlock [sample_inst] [connected_net] [wide_bterm] [sample_row] []
          [sample_master] (mkRect 0 0 100 100) (mkRect 0 0 100 100) 1000.

(** A block whose one net has two terminals on the pad (an instance
    without a node), then a terminal on the cell [u1], and the block
    terminal. *)
Definition dangling_net : dbNet :=
  mkNet 1 "n1"
        [mkITerm 2 sample_pinA sample_padMaster;
         mkITerm 2 sample_pinA sample_padMaster;
         mkITerm 1 sample_pinA sample_master]
        [1] false SIGNAL [].

Definition dangling_block : dbBlock :=
  mkBlock [sample_inst; sample_pad] [dangling_net] [sample_bterm]
          [sample_row] [] [sample_master; sample_padMaster]
          (mkRect 0 0 100 100) (mkRect 0 0 100 100) 1000.

(** A block without a net, whose cell [u1] is flipped (MX). *)
Definition idle_block : dbBlock :=
  mkBlock [sample_inst] [] [] [sample_row] [] [sample_master]
          (mkRect 0 0 100 100) (mkRect 0 0 100 100) 1000.

(** An object after optimisation: the instance [u1] of the sample block,
    at (20,0) and flipped (MX), has a node of 10 by 10 with centre
    (35,15) that is turned south. *)
Definition turned_network : Network :=
  mkNetwork [mkNode 0 NodeType_CELL NodeFixed_NOT_FIXED 0 69 4 10 10 25 5
                    35 15 0 0 RowPower_UNK RowPower_UNK 0 []]
            [] [] ∅ ∅.

Definition turned_state : Optdp :=
  with_instMap {[1 := 0]} (with_network turned_network (init sample_block)).

(** A legalizer that asks for a left padding of [2^30] sites. *)
Definition far_external : External :=
  {| hpwl := fun b => Z.of_nat (length (block_nets b));
     padLeft := fun _ => (2 ^ 30)%Z;
     padRight := fun _ => 3%Z;
     setOrient := setLocationOrient;
     postProcess := fun _ a => a;
     init_edge_type := fun a => a;
     legalize := fun mgr => mgr;
     improve := fun _ mgr => mgr |}.

(** ** Vocabulary of the write-back *)



(** ** Vocabulary of the padding *)

(** The last instance of [insts] that the node map [im] sends to the
    node [n], if any. *)
Definition lastMapped (im : gmap nat nat) (n : nat) (insts : list dbInst)
    : option dbInst :=
  foldl (fun found inst =>
           if decide (im !! inst_id inst = Some n) then Some inst else found)
        None insts.

(** ** [Optdp::createNetwork] with a logger whose [error] may raise *)

(** The outcome of a run: it returns, or a call of [logger_->error] raised
    and left the object as it was then, the message logged.  The locals
    are lost with the raise. *)
Inductive Outcome (A : Type) : Type :=
| Returns (a : A)
| Raises (o : Optdp).
Arguments Returns {A} a.
Arguments Raises {A} o.

#[global] Instance Outcome_ret : MRet Outcome := @Returns.
#[global] Instance Outcome_bind : MBind Outcome :=
  fun A B f x => match x with Returns a => f a | Raises o => Raises o end.

(** A loop whose body may raise. *)
Fixpoint foldM {A T : Type} (f : A -> T -> Outcome A) (a : A) (l : list T)
    : Outcome A :=
  match l with
  | [] => Returns a
  | t :: l => a' ← f a t; foldM f a' l
  end.

(** The object a run ends with. *)
Definition Outcome_obj (x : Outcome Conn) : Optdp :=
  match x with Returns c => c_o c | Raises o => o end.

Definition returns {A : Type} (x : Outcome A) : bool :=
  match x with Returns _ => true | Raises _ => false end.

(** Modelled from the spec: which errors the logger raises on is its own
    business.  Section 7 of the spec has the structural errors (a count
    that differs from the capacity: 104, 105; an id that differs from the
    storage index: 108, 109) abort the run and the missing references
    (106, 107) counted; [raise_all] is the logger that raises on every
    error and [raise_none] the one that never does. *)
Definition raise_structural (id : nat) : bool :=
  Nat.eqb id 104 || Nat.eqb id 105 || Nat.eqb id 108 || Nat.eqb id 109.

Definition raise_all (id : nat) : bool := true.

Definition raise_none (id : nat) : bool := false.

Section Raising.
Context `{DpoConstants}.

(** [fatal id]: [logger_->error(DPO, id, ...)] raises. *)
Variable fatal : nat -> bool.

(** [logger_->error(...); ++errors;] *)
Definition try_error (m : LogMsg) (s : Conn) : Outcome Conn :=
  if fatal (log_id m) then Raises (logger_ m (c_o s))
  else Returns (Conn_error m s).

(** One instance terminal of the net stored at edge [e]. *)
Definition connectITerm_try (e : nat) (s : Conn) (iTerm : dbITerm)
    : Outcome Conn :=
  match instMap_ (c_o s) !! iterm_inst iTerm with
  | Some it_n =>
      let n := m_id (getNode (network_ (c_o s)) it_n) in
      s1 ← (if improperIndexing (network_ (c_o s)) n e then
              try_error
                (error 108 "Improper node indexing while connecting pins." [])
                s
            else Returns s);
      let '(nw, ptr) := createAndAddPin n e (network_ (c_o s1)) in
      let mTerm := iterm_mterm iTerm in
      let master := iterm_master iTerm in
      let bb := mterm_bbox mTerm in
      let ww := inject_Z (int32 (xMax bb - xMin bb)) in
      let hh := inject_Z (int32 (yMax bb - yMax bb)) in
      let xx := (inject_Z (int32 (xMax bb + xMin bb)) * half)%Q in
      let yy := (inject_Z (int32 (yMax bb + yMax bb)) * half)%Q in
      let dx := (xx - inject_Z (master_width master) / 2)%Q in
      let dy := (yy - inject_Z (master_height master) / 2)%Q in
      Returns (mkConn (with_network (setPin ptr dx dy hh ww 0 nw) (c_o s1))
                      (c_errors s1) (S (c_p s1)))
  | None =>
      try_error
        (error 106
           "Could not find node for instance while connecting pins." [])
        s
  end.

(** One block terminal of the net stored at edge [e]. *)
Definition connectBTerm_try (e : nat) (s : Conn) (bTerm : nat)
    : Outcome Conn :=
  match termMap_ (c_o s) !! bTerm with
  | Some it_p =>
      let n := m_id (getNode (network_ (c_o s)) it_p) in
      s1 ← (if improperIndexing (network_ (c_o s)) n e then
              try_error
                (error 109
                   "Improper terminal indexing while connecting pins." [])
                s
            else Returns s);
      let '(nw, ptr) := createAndAddPin n e (network_ (c_o s1)) in
      Returns (mkConn (with_network (setPin ptr 0 0 0 0 0 nw) (c_o s1))
                      (c_errors s1) (S (c_p s1)))
  | None =>
      try_error
        (error 107
           "Could not find node for terminal while connecting pins." [])
        s
  end.

(** One round of the loop over the nets. *)
Definition connectNet_try (s : Conn * nat) (net : dbNet)
    : Outcome (Conn * nat) :=
  let '(c, e) := s in
  let o := c_o c in
  let nw := setEdge e (Edge_setId e (getEdge (network_ o) e)) (network_ o) in
  let o1 := with_netMap (<[net_id net := e]> (netMap_ o)) (with_network nw o) in
  let o2 := with_network (setEdgeName e (net_name net) (network_ o1)) o1 in
  c1 ← foldM (connectITerm_try e) (mkConn o2 (c_errors c) (c_p c))
             (net_iterms net);
  c2 ← foldM (connectBTerm_try e) c1 (net_bterms net);
  Returns (c2, S e).

(** [if (got != expected) { logger_->error(...); ++errors; }] *)
Definition expectCount_try (got expected : nat) (m : LogMsg) (c : Conn)
    : Outcome Conn :=
  if negb (Nat.eqb got expected) then try_error m c else Returns c.

(** The last statement of [createNetwork]. *)
Definition reportNetwork_try (c : Conn) : Outcome Conn :=
  if negb (Nat.eqb (c_errors c) 0) then
    if fatal 101 then
      Raises (logger_ (error 101 "Error creating network." []) (c_o c))
    else
      Returns (mkConn (logger_ (error 101 "Error creating network." [])
                               (c_o c))
                      (c_errors c) (c_p c))
  else
    Returns (mkConn (logger_
                       (info 102 "Network stats: inst {}, edges {}, pins {}"
                          [arg (getNumNodes (network_ (c_o c)));
                           arg (getNumEdges (network_ (c_o c)));
                           arg (getNumPins (network_ (c_o c)))])
                       (c_o c))
                    (c_errors c) (c_p c)).

(** The body of [createNetwork]. *)
Definition createNetwork_try (o : Optdp) : Outcome Conn :=
  let o := with_layers ∅ ∅ o in
  let k := countNetwork (db_ o) in
  let o := allocateNetwork k o in
  let '(o, n) := populateNodes o in
  let c := mkConn o 0 0 in
  c ← expectCount_try n (nNodes k + nTerminals k)
        (error 104
           "Unexpected total node count.  Expected {:d}, but got {:d}"
           [arg (nNodes k + nTerminals k); arg n]) c;
  ce ← foldM connectNet_try (c, 0) (block_nets (db_ (c_o c)));
  c ← expectCount_try (snd ce) (nEdges k)
        (error 104
           "Unexpected total edge count.  Expected {:d}, but got {:d}"
           [arg (nEdges k); arg (snd ce)]) (fst ce);
  c ← expectCount_try (c_p c) (nPins k)
        (error 105
           "Unexpected total pin count.  Expected {:d}, but got {:d}"
           [arg (nPins k); arg (c_p c)]) c;
  reportNetwork_try c.

(** The log of the object, in the state of the pin loops and in the
    state of the loop over the nets. *)
Definition conn_log (s : Conn) : list LogMsg := log_ (c_o s).

Definition net_log (s : Conn * nat) : list LogMsg := conn_log (fst s).

(** The messages on which the logger raises, and a log up to the first
    of them. *)
Definition is_fatal (m : LogMsg) : bool :=
  Severity_eqb (log_sev m) ERROR && fatal (log_id m).

Fixpoint upto_fatal (d : list LogMsg) : list LogMsg :=
  match d with
  | [] => []
  | m :: d => if is_fatal m then [m] else m :: upto_fatal d
  end.

(** The run [x] with the logger that may raise is the run [a] in which
    every error returns, cut at the first error that raises; [l0] is the
    log both start with and [lg] reads the log of a state. *)
Definition cut_of {A : Type} (lg : A -> list LogMsg) (l0 : list LogMsg)
    (x : Outcome A) (a : A) : Prop :=
  exists d, lg a = l0 ++ d
    /\ match x with
       | Returns a' => a' = a /\ existsb is_fatal d = false
       | Raises o => existsb is_fatal d = true /\ log_ o = l0 ++ upto_fatal d
       end.

End Raising.

(** * Properties *)

(** ** 32-bit integers *)

Lemma int32_id (z : Z) : is_int32 z -> int32 z = z.
Proof.
  unfold is_int32, int32. intros Hz.
  rewrite Z.mod_small by lia. lia.
Qed.

Lemma int32_range (z : Z) : is_int32 (int32 z).
Proof.
  unfold is_int32, int32.
  pose proof (Z.mod_pos_bound (z + 2 ^ 31) (2 ^ 32) ltac:(lia)). lia.
Qed.

(** ** Orientation masks as sets *)

Lemma allows_lor (a b f : Z) :
  allows (Z.lor a b) f <-> allows a f \/ allows b f.
Proof.
  unfold allows. rewrite Z.land_lor_distr_l, Z.lor_eq_0_iff.
  destruct (Z.eq_dec (Z.land a f) 0%Z), (Z.eq_dec (Z.land b f) 0%Z); tauto.
Qed.

Lemma allows_flag (l : list Z) (i j : nat) (a b : Z) :
  disjoint_flags l -> l !! i = Some a -> l !! j = Some b ->
  allows a b <-> a = b.
Proof.
  intros [Hnz Hdis] Ha Hb. unfold allows.
  destruct (decide (i = j)) as [->|Hij].
  - assert (a = b) by congruence. subst b.
    rewrite Z.land_diag. split; [reflexivity|intros _].
    apply Hnz. apply list_elem_of_In. eapply list_elem_of_lookup_2; eauto.
  - rewrite (Hdis i j a b Hij Ha Hb). split; [congruence|].
    intros ->. exfalso.
    specialize (Hdis i j b b Hij Ha Hb). rewrite Z.land_diag in Hdis.
    apply (Hnz b); [|assumption].
    apply list_elem_of_In. eapply list_elem_of_lookup_2; eauto.
Qed.

Section Orientations.
Context `{DpoConstants}.
Hypothesis flags_ok : disjoint_flags orientation_flags.

Lemma allows_orientation (i j : nat) (a b : Z) :
  orientation_flags !! i = Some a -> orientation_flags !! j = Some b ->
  allows a b <-> a = b.
Proof. apply allows_flag, flags_ok. Qed.

(** The mask derived from a master's symmetry, read as a set. *)
Lemma availOrient_allows (master : dbMaster) (f : Z) :
  In f orientation_flags ->
  allows (availOrient master) f <->
    f = Orientation_N
    \/ (master_symX master = true /\ master_symY master = true
        /\ (f = Orientation_FN \/ f = Orientation_FS \/ f = Orientation_S))
    \/ (master_symX master = true /\ master_symY master = false
        /\ f = Orientation_FS)
    \/ (master_symX master = false /\ master_symY master = true
        /\ f = Orientation_FN).
Proof.
  intros Hf. apply list_elem_of_In, list_elem_of_lookup in Hf.
  destruct Hf as [j Hj].
  assert (HN := fun a i (Hi : orientation_flags !! i = Some a) =>
                  allows_orientation i j a f Hi Hj).
  pose proof (HN Orientation_N 0%nat eq_refl) as EN.
  pose proof (HN Orientation_S 2%nat eq_refl) as ES.
  pose proof (HN Orientation_FN 4%nat eq_refl) as EFN.
  pose proof (HN Orientation_FS 6%nat eq_refl) as EFS.
  unfold availOrient.
  destruct (master_symX master), (master_symY master); simpl;
    rewrite ?allows_lor, EN, ?ES, ?EFN, ?EFS;
    intuition (try congruence).
Qed.

End Orientations.

(** ** Population of the nodes *)

Lemma countNodes_cells (insts : list dbInst) :
  countNodes insts = length (cells insts).
Proof.
  unfold countNodes, cells.
  enough (forall k, foldl (fun nNodes inst =>
                             if skipInst inst then nNodes else S nNodes)
                          k insts
                    = k + length (List.filter placeable insts)) as E
      by apply (E 0).
  induction insts as [|inst insts IH]; intros k; simpl; [lia|].
  rewrite IH. unfold placeable. destruct (skipInst inst); simpl; lia.
Qed.

Lemma skipInst_resetOrient (inst : dbInst) :
  skipInst (resetOrient inst) = skipInst inst.
Proof.
  unfold resetOrient. destruct (skipInst inst) eqn:E; [exact E|].
  unfold skipInst in *. simpl. exact E.
Qed.

Lemma cells_cons (inst : dbInst) (insts : list dbInst) :
  cells (inst :: insts)
  = if skipInst inst then cells insts else inst :: cells insts.
Proof. unfold cells, placeable. simpl. by destruct (skipInst inst). Qed.

Lemma cells_resetOrient (insts : list dbInst) :
  cells (map resetOrient insts) = map (setLocationOrient R0) (cells insts).
Proof.
  induction insts as [|inst insts IH]; [done|].
  rewrite map_cons, !cells_cons, skipInst_resetOrient.
  destruct (skipInst inst) eqn:E; [apply IH|].
  unfold resetOrient at 1. rewrite E. simpl. f_equal. apply IH.
Qed.

Section Population.
Context `{DpoConstants}.

Lemma cellNode_ext (o1 o2 : Optdp) (inst : dbInst) (n : nat) :
  masterPwrs_ o1 = masterPwrs_ o2 ->
  nodes_ o1 !! n = nodes_ o2 !! n ->
  cellNode o1 inst n = cellNode o2 inst n.
Proof.
  unfold cellNode, getNode, nodes_. intros -> ->. reflexivity.
Qed.

Lemma populateInst_skip (o : Optdp) (n : nat) (inst : dbInst) :
  skipInst inst = true -> populateInst (o, n) inst = (o, n).
Proof. intros E. unfold populateInst. by rewrite E. Qed.

Lemma populateInst_cell (o : Optdp) (n : nat) (inst : dbInst) :
  skipInst inst = false ->
  populateInst (o, n) inst
  = (let o1 := with_instMap (<[inst_id inst := n]> (instMap_ o)) o in
     with_network
       (setNode n (cellNode o1 inst n)
                (setNodeName n (inst_name inst) (network_ o1))) o1,
     S n).
Proof. intros E. unfold populateInst. by rewrite E. Qed.

(** The loop over the instances fills the nodes [n], [n+1], ... in the
    order of the placeable instances and leaves the others alone. *)
Lemma populateInst_nodes (insts : list dbInst) :
  forall (o o' : Optdp) (n n' : nat),
    foldl populateInst (o, n) insts = (o', n') ->
    n' = n + length (cells insts)
    /\ length (nodes_ o') = length (nodes_ o)
    /\ masterPwrs_ o' = masterPwrs_ o
    /\ (forall j, (j < n \/ n + length (cells insts) <= j) ->
                  nodes_ o' !! j = nodes_ o !! j)
    /\ (forall i inst, cells insts !! i = Some inst ->
                       n + i < length (nodes_ o) ->
                       nodes_ o' !! (n + i)
                       = Some (cellNode o inst (n + i))).
Proof.
  induction insts as [|inst insts IH]; intros o o' n n' Hfold.
  - simpl in Hfold. inversion Hfold; subst.
    repeat split; try done; simpl; lia.
  - change (foldl populateInst (populateInst (o, n) inst) insts = (o', n'))
      in Hfold.
    rewrite cells_cons.
    destruct (skipInst inst) eqn:Hskip.
    + rewrite populateInst_skip in Hfold by done. by apply IH.
    + rewrite populateInst_cell in Hfold by done. cbv zeta in Hfold.
      set (o1 := with_network _ _) in Hfold.
      destruct (IH _ _ _ _ Hfold) as (Hn & Hlen & Hpw & Hout & Hin).
      assert (Hlen1 : length (nodes_ o1) = length (nodes_ o)).
      { unfold o1, nodes_. simpl. by rewrite length_insert. }
      simpl length.
      split; [lia|]. split; [congruence|].
      split; [rewrite Hpw; reflexivity|].
      split.
      * intros j Hj. rewrite Hout by lia.
        unfold o1, nodes_. simpl. apply list_lookup_insert_ne. lia.
      * intros [|i] inst' Hi Hlt; simpl in Hi.
        -- inversion Hi; subst inst'. rewrite Nat.add_0_r in *.
           rewrite Hout by lia.
           unfold o1, nodes_. simpl.
           rewrite list_lookup_insert_eq by (unfold nodes_ in Hlt; exact Hlt).
           f_equal.
        -- replace (n + S i) with (S n + i) by lia.
           rewrite (Hin i inst' Hi) by lia.
           f_equal. apply cellNode_ext; [reflexivity|].
           unfold o1, nodes_. simpl. apply list_lookup_insert_ne. lia.
Qed.

Lemma termNode_ext (o1 o2 : Optdp) (bterm : dbBTerm) (n : nat) :
  nodes_ o1 !! n = nodes_ o2 !! n ->
  termNode o1 bterm n = termNode o2 bterm n.
Proof. unfold termNode, getNode, nodes_. intros ->. reflexivity. Qed.

(** The loop over the block terminals fills the next nodes. *)
Lemma populateBTerm_nodes (bterms : list dbBTerm) :
  forall (o o' : Optdp) (n n' : nat),
    foldl populateBTerm (o, n) bterms = (o', n') ->
    n' = n + length bterms
    /\ length (nodes_ o') = length (nodes_ o)
    /\ (forall j, (j < n \/ n + length bterms <= j) ->
                  nodes_ o' !! j = nodes_ o !! j)
    /\ (forall i bterm, bterms !! i = Some bterm ->
                        n + i < length (nodes_ o) ->
                        nodes_ o' !! (n + i)
                        = Some (termNode o bterm (n + i))).
Proof.
  induction bterms as [|bterm bterms IH]; intros o o' n n' Hfold.
  - simpl in Hfold. inversion Hfold; subst.
    repeat split; try done; simpl; lia.
  - change (foldl populateBTerm (populateBTerm (o, n) bterm) bterms
            = (o', n')) in Hfold.
    unfold populateBTerm at 2 in Hfold.
    set (o1 := with_network _ _) in Hfold.
    destruct (IH _ _ _ _ Hfold) as (Hn & Hlen & Hout & Hin).
    assert (Hlen1 : length (nodes_ o1) = length (nodes_ o)).
    { unfold o1, nodes_. simpl. by rewrite length_insert. }
    simpl length.
    split; [lia|]. split; [congruence|].
    split.
    + intros j Hj. rewrite Hout by lia.
      unfold o1, nodes_. simpl. apply list_lookup_insert_ne. lia.
    + intros [|i] bterm' Hi Hlt; simpl in Hi.
      * inversion Hi; subst bterm'. rewrite Nat.add_0_r in *.
        rewrite Hout by lia.
        unfold o1, nodes_. simpl.
        rewrite list_lookup_insert_eq by (unfold nodes_ in Hlt; exact Hlt).
        f_equal.
      * replace (n + S i) with (S n + i) by lia.
        rewrite (Hin i bterm' Hi) by lia.
        f_equal. apply termNode_ext.
        unfold o1, nodes_. simpl. apply list_lookup_insert_ne. lia.
Qed.

End Population.

(** ** Connection of the pins *)

Lemma foldl_preserves {A B C : Type} (F : A -> C) (f : A -> B -> A)
    (l : list B) :
  (forall a x, F (f a x) = F a) -> forall a, F (foldl f a l) = F a.
Proof.
  intros Hf. induction l as [|x l IH]; intros a; simpl; [done|].
  by rewrite IH, Hf.
Qed.

(** Writing back an element read at the same index, changed in a way that
    a projection does not see, is not seen by the projection. *)
Lemma fmap_insert_self {A B : Type} (g : A -> B) (f : A -> A) (d : A)
    (l : list A) (n : nat) :
  (forall x, g (f x) = g x) ->
  g <$> <[n := f (default d (l !! n))]> l = g <$> l.
Proof.
  intros Hf. destruct (l !! n) as [x|] eqn:E; simpl.
  - rewrite list_fmap_insert. apply list_insert_id.
    by rewrite list_lookup_fmap, E, Hf.
  - rewrite list_insert_ge; [done|]. by apply lookup_ge_None.
Qed.

Lemma createAndAddPin_spec (n e : nat) (nw : Network) :
  let r := createAndAddPin n e nw in
  snd r = length (net_pins nw)
  /\ net_pins (fst r) = net_pins nw ++ [mkPin n e 0 0 0 0 0]
  /\ Node_core <$> net_nodes (fst r) = Node_core <$> net_nodes nw
  /\ e_id <$> net_edges (fst r) = e_id <$> net_edges nw
  /\ net_nodeNames (fst r) = net_nodeNames nw
  /\ net_edgeNames (fst r) = net_edgeNames nw.
Proof.
  unfold createAndAddPin. simpl. repeat split.
  - unfold getNode. simpl.
    apply (fmap_insert_self Node_core (Node_addPin _)). by intros [].
  - unfold getEdge. simpl.
    apply (fmap_insert_self e_id (Edge_addPin _)). by intros [].
Qed.

Lemma count_cons {A : Type} (f : A -> bool) (x : A) (l : list A) :
  count f (x :: l) = (if f x then 1 else 0) + count f l.
Proof. unfold count. simpl. by destruct (f x). Qed.

Lemma count_app {A : Type} (f : A -> bool) (l1 l2 : list A) :
  count f (l1 ++ l2) = count f l1 + count f l2.
Proof. unfold count. by rewrite List.filter_app, length_app. Qed.

Lemma Conn_error_frame (m : LogMsg) (s : Conn) :
  conn_frame (c_o (Conn_error m s)) = conn_frame (c_o s).
Proof. reflexivity. Qed.

Lemma reportsOf_error (m : LogMsg) (s : Conn) :
  reportsOf (Conn_error m s)
  = reportsOf s + (if is_missing_report m then 1 else 0).
Proof.
  unfold reportsOf, Conn_error. simpl. rewrite count_app, count_cons.
  unfold count. simpl. lia.
Qed.

(** A terminal whose instance is in the node map: one pin more, no report
    of a missing reference, and the errors do not decrease. *)
Lemma connectITerm_found (e : nat) (s : Conn) (iTerm : dbITerm) :
  foundITerm (c_o s) iTerm = true ->
  let s' := connectITerm e s iTerm in
  conn_frame (c_o s') = conn_frame (c_o s)
  /\ pinsOf s' = S (pinsOf s) /\ c_p s' = S (c_p s)
  /\ c_errors s <= c_errors s' /\ reportsOf s' = reportsOf s.
Proof.
  unfold foundITerm. rewrite bool_decide_eq_true. intros [it_n Hit].
  unfold connectITerm. rewrite Hit.
  set (n := m_id _).
  destruct (improperIndexing (network_ (c_o s)) n e).
  - match goal with
    | |- context [createAndAddPin ?a ?b ?c] =>
        pose proof (createAndAddPin_spec a b c) as Hs;
        destruct (createAndAddPin a b c) as [nw ptr]
    end.
    simpl in Hs. destruct Hs as (_ & Hp & Hn & He & Hnn & Hen).
    unfold conn_frame, pinsOf, reportsOf, pins_, nodes_, edges_. simpl.
    rewrite Hn, He, Hnn, Hen, length_alter, Hp, length_app, count_app.
    simpl. unfold count. simpl. repeat split; lia.
  - match goal with
    | |- context [createAndAddPin ?a ?b ?c] =>
        pose proof (createAndAddPin_spec a b c) as Hs;
        destruct (createAndAddPin a b c) as [nw ptr]
    end.
    simpl in Hs. destruct Hs as (_ & Hp & Hn & He & Hnn & Hen).
    unfold conn_frame, pinsOf, reportsOf, pins_, nodes_, edges_. simpl.
    rewrite Hn, He, Hnn, Hen, length_alter, Hp, length_app.
    simpl. repeat split; lia.
Qed.

(** A terminal whose instance is not in the node map: the pin is skipped,
    the error is reported and counted. *)
Lemma connectITerm_missing (e : nat) (s : Conn) (iTerm : dbITerm) :
  foundITerm (c_o s) iTerm = false ->
  connectITerm e s iTerm
  = Conn_error
      (error 106 "Could not find node for instance while connecting pins." [])
      s.
Proof.
  unfold foundITerm. rewrite bool_decide_eq_false. intros Hno.
  unfold connectITerm.
  destruct (instMap_ (c_o s) !! iterm_inst iTerm) eqn:E; [|done].
  exfalso. apply Hno. eauto.
Qed.

Lemma connectBTerm_found (e : nat) (s : Conn) (bTerm : nat) :
  foundBTerm (c_o s) bTerm = true ->
  let s' := connectBTerm e s bTerm in
  conn_frame (c_o s') = conn_frame (c_o s)
  /\ pinsOf s' = S (pinsOf s) /\ c_p s' = S (c_p s)
  /\ c_errors s <= c_errors s' /\ reportsOf s' = reportsOf s.
Proof.
  unfold foundBTerm. rewrite bool_decide_eq_true. intros [it_p Hit].
  unfold connectBTerm. rewrite Hit.
  set (n := m_id _).
  destruct (improperIndexing (network_ (c_o s)) n e).
  - match goal with
    | |- context [createAndAddPin ?a ?b ?c] =>
        pose proof (createAndAddPin_spec a b c) as Hs;
        destruct (createAndAddPin a b c) as [nw ptr]
    end.
    simpl in Hs. destruct Hs as (_ & Hp & Hn & He & Hnn & Hen).
    unfold conn_frame, pinsOf, reportsOf, pins_, nodes_, edges_. simpl.
    rewrite Hn, He, Hnn, Hen, length_alter, Hp, length_app, count_app.
    simpl. unfold count. simpl. repeat split; lia.
  - match goal with
    | |- context [createAndAddPin ?a ?b ?c] =>
        pose proof (createAndAddPin_spec a b c) as Hs;
        destruct (createAndAddPin a b c) as [nw ptr]
    end.
    simpl in Hs. destruct Hs as (_ & Hp & Hn & He & Hnn & Hen).
    unfold conn_frame, pinsOf, reportsOf, pins_, nodes_, edges_. simpl.
    rewrite Hn, He, Hnn, Hen, length_alter, Hp, length_app.
    simpl. repeat split; lia.
Qed.

Lemma connectBTerm_missing (e : nat) (s : Conn) (bTerm : nat) :
  foundBTerm (c_o s) bTerm = false ->
  connectBTerm e s bTerm
  = Conn_error
      (error 107 "Could not find node for terminal while connecting pins." [])
      s.
Proof.
  unfold foundBTerm. rewrite bool_decide_eq_false. intros Hno.
  unfold connectBTerm.
  destruct (termMap_ (c_o s) !! bTerm) eqn:E; [|done].
  exfalso. apply Hno. eauto.
Qed.

Lemma count_ext {A : Type} (f g : A -> bool) (l : list A) :
  (forall x, f x = g x) -> count f l = count g l.
Proof.
  intros Hfg. unfold count. induction l as [|x l IH]; simpl; [done|].
  rewrite Hfg. destruct (g x); simpl; congruence.
Qed.

Lemma conn_frame_found (o1 o2 : Optdp) :
  conn_frame o1 = conn_frame o2 ->
  (forall t, foundITerm o1 t = foundITerm o2 t)
  /\ (forall t, foundBTerm o1 t = foundBTerm o2 t).
Proof.
  unfold conn_frame, foundITerm, foundBTerm. intros E.
  assert (instMap_ o1 = instMap_ o2) as -> by congruence.
  assert (termMap_ o1 = termMap_ o2) as -> by congruence.
  done.
Qed.

(** The measures of the pin loops after one terminal more. *)
Definition conn_step (found : bool) (s s' : Conn) : Prop :=
  conn_frame (c_o s') = conn_frame (c_o s)
  /\ pinsOf s' = pinsOf s + (if found then 1 else 0)
  /\ c_p s' = c_p s + (if found then 1 else 0)
  /\ c_errors s + (if found then 0 else 1) <= c_errors s'
  /\ reportsOf s' = reportsOf s + (if found then 0 else 1).

Lemma connectITerm_step (e : nat) (s : Conn) (iTerm : dbITerm) :
  conn_step (foundITerm (c_o s) iTerm) s (connectITerm e s iTerm).
Proof.
  unfold conn_step. destruct (foundITerm (c_o s) iTerm) eqn:E.
  - destruct (connectITerm_found e s iTerm E) as (? & ? & ? & ? & ?).
    repeat split; try done; lia.
  - rewrite (connectITerm_missing e s iTerm E), reportsOf_error.
    unfold pinsOf, pins_. simpl. repeat split; try reflexivity; lia.
Qed.

Lemma connectBTerm_step (e : nat) (s : Conn) (bTerm : nat) :
  conn_step (foundBTerm (c_o s) bTerm) s (connectBTerm e s bTerm).
Proof.
  unfold conn_step. destruct (foundBTerm (c_o s) bTerm) eqn:E.
  - destruct (connectBTerm_found e s bTerm E) as (? & ? & ? & ? & ?).
    repeat split; try done; lia.
  - rewrite (connectBTerm_missing e s bTerm E), reportsOf_error.
    unfold pinsOf, pins_. simpl. repeat split; try reflexivity; lia.
Qed.

(** The measures of the pin loops after a list of terminals, of which
    [k] are found and [m] are missing. *)
Definition conn_steps (k m : nat) (s s' : Conn) : Prop :=
  conn_frame (c_o s') = conn_frame (c_o s)
  /\ pinsOf s' = pinsOf s + k
  /\ c_p s' = c_p s + k
  /\ c_errors s + m <= c_errors s'
  /\ reportsOf s' = reportsOf s + m.

Lemma conn_steps_fold {T : Type} (f : Conn -> T -> Conn)
    (found : Optdp -> T -> bool) (l : list T) :
  (forall s t, conn_step (found (c_o s) t) s (f s t)) ->
  (forall o1 o2, conn_frame o1 = conn_frame o2 ->
                 forall t, found o1 t = found o2 t) ->
  forall s,
    conn_steps (count (found (c_o s)) l)
               (count (fun t => negb (found (c_o s) t)) l)
               s (foldl f s l).
Proof.
  intros Hstep Hext. induction l as [|t l IH]; intros s.
  - unfold conn_steps, count. simpl. repeat split; lia.
  - change (foldl f s (t :: l)) with (foldl f (f s t) l).
    destruct (Hstep s t) as (Hf & Hp & Hc & He & Hr).
    destruct (IH (f s t)) as (Hf' & Hp' & Hc' & He' & Hr').
    rewrite !count_cons.
    rewrite (count_ext _ _ l (Hext _ _ Hf)) in Hp', Hc'.
    rewrite (count_ext (fun x => negb (found (c_o (f s t)) x))
                       (fun x => negb (found (c_o s) x)) l) in He', Hr'
      by (intros x; f_equal; apply (Hext _ _ Hf)).
    unfold conn_steps. destruct (found (c_o s) t); simpl;
      (split; [congruence|]); repeat split; lia.
Qed.

Lemma conn_frame_net_frame (o1 o2 : Optdp) :
  conn_frame o1 = conn_frame o2 -> net_frame o1 = net_frame o2.
Proof.
  unfold conn_frame, net_frame. intros E.
  assert (length (edges_ o1) = length (edges_ o2)) as ->.
  { rewrite <- (length_fmap e_id (edges_ o1)),
            <- (length_fmap e_id (edges_ o2)). congruence. }
  injection E; intros.
  repeat match goal with
         | Heq : _ = _ |- _ => rewrite Heq; clear Heq
         end.
  reflexivity.
Qed.

Lemma net_frame_found (o1 o2 : Optdp) :
  net_frame o1 = net_frame o2 ->
  (forall net, foundInNet o1 net = foundInNet o2 net)
  /\ (forall net, missingInNet o1 net = missingInNet o2 net).
Proof.
  unfold net_frame, foundInNet, missingInNet, foundITerm, foundBTerm.
  intros E.
  assert (instMap_ o1 = instMap_ o2) as -> by congruence.
  assert (termMap_ o1 = termMap_ o2) as -> by congruence.
  done.
Qed.

(** The measures of the pin loops across the nets. *)
Definition net_steps (k m : nat) (s s' : Conn) : Prop :=
  net_frame (c_o s') = net_frame (c_o s)
  /\ pinsOf s' = pinsOf s + k
  /\ c_p s' = c_p s + k
  /\ c_errors s + m <= c_errors s'
  /\ reportsOf s' = reportsOf s + m.

(** The state in which the terminals of a net are connected: the edge [e]
    has its id and its name, the net is in the net map. *)
Definition openEdge (c : Conn) (e : nat) (net : dbNet) : Conn :=
  let o := c_o c in
  let nw := setEdge e (Edge_setId e (getEdge (network_ o) e)) (network_ o) in
  let o1 := with_netMap (<[net_id net := e]> (netMap_ o)) (with_network nw o) in
  mkConn (with_network (setEdgeName e (net_name net) (network_ o1)) o1)
         (c_errors c) (c_p c).

Lemma connectNet_eq (c : Conn) (e : nat) (net : dbNet) :
  connectNet (c, e) net
  = (foldl (connectBTerm e)
           (foldl (connectITerm e) (openEdge c e net) (net_iterms net))
           (net_bterms net), S e).
Proof. reflexivity. Qed.

Lemma openEdge_spec (c : Conn) (e : nat) (net : dbNet) :
  net_frame (c_o (openEdge c e net)) = net_frame (c_o c)
  /\ pinsOf (openEdge c e net) = pinsOf c
  /\ c_p (openEdge c e net) = c_p c
  /\ c_errors (openEdge c e net) = c_errors c
  /\ reportsOf (openEdge c e net) = reportsOf c
  /\ (forall j, j <> e ->
        edges_ (c_o (openEdge c e net)) !! j = edges_ (c_o c) !! j)
  /\ (e < length (edges_ (c_o c)) ->
        e_id <$> edges_ (c_o (openEdge c e net)) !! e = Some e).
Proof.
  unfold openEdge, net_frame, pinsOf, reportsOf, pins_, nodes_, edges_.
  simpl. rewrite length_insert. repeat split.
  - intros j Hj. apply list_lookup_insert_ne. lia.
  - intros Hlt. rewrite list_lookup_insert_eq by exact Hlt. done.
Qed.

Lemma connectNet_steps (c : Conn) (e : nat) (net : dbNet) :
  let c' := fst (connectNet (c, e) net) in
  net_steps (foundInNet (c_o c) net) (missingInNet (c_o c) net) c c'
  /\ (forall j, j <> e ->
        e_id <$> edges_ (c_o c') !! j = e_id <$> edges_ (c_o c) !! j)
  /\ (e < length (edges_ (c_o c)) -> e_id <$> edges_ (c_o c') !! e = Some e).
Proof.
  rewrite connectNet_eq. simpl fst.
  destruct (openEdge_spec c e net) as (Hf0 & Hp0 & Hc0 & He0 & Hr0 & Hj0 & Hi0).
  set (s0 := openEdge c e net) in *.
  pose proof (conn_steps_fold (connectITerm e) foundITerm (net_iterms net)
                (connectITerm_step e)
                (fun o1 o2 E => proj1 (conn_frame_found o1 o2 E)) s0)
    as (Hf1 & Hp1 & Hc1 & He1 & Hr1).
  set (s1 := foldl (connectITerm e) s0 (net_iterms net)) in *.
  pose proof (conn_steps_fold (connectBTerm e) foundBTerm (net_bterms net)
                (connectBTerm_step e)
                (fun o1 o2 E => proj2 (conn_frame_found o1 o2 E)) s1)
    as (Hf2 & Hp2 & Hc2 & He2 & Hr2).
  set (s2 := foldl (connectBTerm e) s1 (net_bterms net)) in *.
  assert (Hids : e_id <$> edges_ (c_o s2) = e_id <$> edges_ (c_o s0)).
  { unfold conn_frame in Hf1, Hf2. congruence. }
  assert (HI : forall t, foundITerm (c_o s0) t = foundITerm (c_o c) t).
  { intros t. unfold foundITerm, net_frame in *.
    assert (instMap_ (c_o s0) = instMap_ (c_o c)) as -> by congruence. done. }
  assert (HB : forall t, foundBTerm (c_o s1) t = foundBTerm (c_o c) t).
  { intros t. rewrite (proj2 (conn_frame_found _ _ Hf1) t).
    unfold foundBTerm, net_frame in *.
    assert (termMap_ (c_o s0) = termMap_ (c_o c)) as -> by congruence. done. }
  rewrite (count_ext _ _ _ HI) in Hp1, Hc1.
  rewrite (count_ext (fun t => negb (foundITerm (c_o s0) t))
                     (fun t => negb (foundITerm (c_o c) t))) in He1, Hr1
    by (intros t; f_equal; apply HI).
  rewrite (count_ext _ _ _ HB) in Hp2, Hc2.
  rewrite (count_ext (fun t => negb (foundBTerm (c_o s1) t))
                     (fun t => negb (foundBTerm (c_o c) t))) in He2, Hr2
    by (intros t; f_equal; apply HB).
  split; [|split].
  - unfold net_steps, foundInNet, missingInNet.
    split.
    + rewrite (conn_frame_net_frame _ _ Hf2), (conn_frame_net_frame _ _ Hf1).
      exact Hf0.
    + repeat split; lia.
  - intros j Hj. rewrite <- !list_lookup_fmap, Hids, !list_lookup_fmap.
    by rewrite Hj0.
  - intros Hlt. rewrite <- list_lookup_fmap, Hids, list_lookup_fmap.
    by apply Hi0.
Qed.

(** The loop over the nets. *)
Lemma connectNets_steps (nets : list dbNet) :
  forall (c : Conn) (e : nat),
    let r := foldl connectNet (c, e) nets in
    snd r = e + length nets
    /\ net_steps (foundPins (c_o c) nets) (missingPins (c_o c) nets) c (fst r)
    /\ (forall j, (j < e \/ e + length nets <= j) ->
          e_id <$> edges_ (c_o (fst r)) !! j = e_id <$> edges_ (c_o c) !! j)
    /\ (forall j, e <= j < e + length nets -> j < length (edges_ (c_o c)) ->
          e_id <$> edges_ (c_o (fst r)) !! j = Some j).
Proof.
  induction nets as [|net nets IH]; intros c e.
  - simpl. unfold net_steps, foundPins, missingPins. simpl.
    repeat split; try lia; try done.
  - change (foldl connectNet (c, e) (net :: nets))
      with (foldl connectNet (connectNet (c, e) net) nets).
    destruct (connectNet_steps c e net) as (Hs & Hout & Hin).
    rewrite connectNet_eq in *. simpl fst in *.
    set (c1 := foldl (connectBTerm e) _ _) in *.
    destruct (IH c1 (S e)) as (He' & Hs' & Hout' & Hin').
    set (r := foldl connectNet (c1, S e) nets) in *.
    destruct Hs as (Hf & Hp & Hc & Her & Hr).
    destruct Hs' as (Hf' & Hp' & Hc' & Her' & Hr').
    destruct (net_frame_found _ _ Hf) as [Hfo Hmi].
    assert (Hlen : length (edges_ (c_o c1)) = length (edges_ (c_o c))).
    { unfold net_frame in Hf. congruence. }
    unfold foundPins, missingPins in *. simpl length. simpl sum_list.
    rewrite (map_ext _ _ Hfo) in Hp', Hc'.
    rewrite (map_ext _ _ Hmi) in Her', Hr'.
    split; [lia|]. split; [|split].
    + unfold net_steps. split; [congruence|]. repeat split; lia.
    + intros j Hj. rewrite Hout' by lia. apply Hout. lia.
    + intros j Hj Hlt. destruct (decide (j = e)) as [->|Hne].
      * rewrite Hout' by lia. by apply Hin.
      * apply Hin'; lia.
Qed.

(** ** The phases of [createNetwork] *)

Lemma countEdgesPins_spec (nets : list dbNet) :
  countEdgesPins nets
  = (length nets,
     sum_list (map (fun net => length (net_iterms net)
                               + length (net_bterms net)) nets)).
Proof.
  unfold countEdgesPins.
  enough (forall a b,
             foldl (fun '(nEdges, nPins) net =>
                      (S nEdges,
                       nPins + length (net_iterms net)
                       + length (net_bterms net)))
                   (a, b) nets
             = (a + length nets,
                b + sum_list (map (fun net => length (net_iterms net)
                                              + length (net_bterms net))
                                  nets))) as E by apply (E 0 0).
  induction nets as [|net nets IH]; intros a b; simpl.
  - f_equal; lia.
  - rewrite IH. f_equal; lia.
Qed.

Lemma found_missing_total (o : Optdp) (nets : list dbNet) :
  foundPins o nets + missingPins o nets
  = sum_list (map (fun net => length (net_iterms net)
                              + length (net_bterms net)) nets).
Proof.
  assert (Hc : forall (A : Type) (f : A -> bool) (l : list A),
             count f l + count (fun t => negb (f t)) l = length l).
  { intros A f l. unfold count.
    induction l as [|x l IH]; simpl; [done|].
    destruct (f x); simpl; lia. }
  unfold foundPins, missingPins.
  induction nets as [|net nets IH]; simpl; [done|].
  unfold foundInNet, missingInNet at 1.
  pose proof (Hc _ (foundITerm o) (net_iterms net)).
  pose proof (Hc _ (foundBTerm o) (net_bterms net)).
  unfold foundInNet in IH. lia.
Qed.

Section Phases.
Context `{DpoConstants}.

Lemma populateInst_frame (insts : list dbInst) (s : Optdp * nat) :
  pop_frame (fst (foldl populateInst s insts)) = pop_frame (fst s)
  /\ termMap_ (fst (foldl populateInst s insts)) = termMap_ (fst s).
Proof.
  enough (E : (pop_frame (fst (foldl populateInst s insts)),
               termMap_ (fst (foldl populateInst s insts)))
              = (pop_frame (fst s), termMap_ (fst s)))
    by (split; congruence).
  apply (foldl_preserves
           (fun s : Optdp * nat => (pop_frame (fst s), termMap_ (fst s)))).
  intros [o n] inst. unfold populateInst.
  destruct (skipInst inst); reflexivity.
Qed.

Lemma populateBTerm_frame (bterms : list dbBTerm) (s : Optdp * nat) :
  pop_frame (fst (foldl populateBTerm s bterms)) = pop_frame (fst s)
  /\ instMap_ (fst (foldl populateBTerm s bterms)) = instMap_ (fst s).
Proof.
  enough (E : (pop_frame (fst (foldl populateBTerm s bterms)),
               instMap_ (fst (foldl populateBTerm s bterms)))
              = (pop_frame (fst s), instMap_ (fst s)))
    by (split; congruence).
  apply (foldl_preserves
           (fun s : Optdp * nat => (pop_frame (fst s), instMap_ (fst s)))).
  intros [o n] bterm. reflexivity.
Qed.

Lemma Node_core_cellNode (o1 o2 : Optdp) (inst : dbInst) (n : nat) :
  masterPwrs_ o1 = masterPwrs_ o2 ->
  Node_core (cellNode o1 inst n) = Node_core (cellNode o2 inst n).
Proof.
  unfold cellNode. intros ->.
  destruct (masterPwrs_ o2 !! master_id (inst_master inst)) as [[t b]|];
    reflexivity.
Qed.

Lemma Node_core_termNode (o1 o2 : Optdp) (bterm : dbBTerm) (n : nat) :
  Node_core (termNode o1 bterm n) = Node_core (termNode o2 bterm n).
Proof. reflexivity. Qed.

Lemma countNetwork_spec (block : dbBlock) :
  countNetwork block
  = mkCounts (length (block_bterms block))
             (length (cells (block_insts block)))
             (length (block_nets block))
             (sum_list (map (fun net => length (net_iterms net)
                                        + length (net_bterms net))
                            (block_nets block))).
Proof.
  unfold countNetwork. by rewrite countEdgesPins_spec, countNodes_cells.
Qed.

(** The nodes after the two population loops: the placeable instances in
    database order, then the block terminals. *)
Lemma populateNodes_spec (o : Optdp) :
  let r := populateNodes o in
  let cs := cells (block_insts (db_ o)) in
  let bs := block_bterms (db_ o) in
  snd r = length cs + length bs
  /\ length (nodes_ (fst r)) = length (nodes_ o)
  /\ pop_frame (fst r) = pop_frame o
  /\ (forall i inst, cs !! i = Some inst -> i < length (nodes_ o) ->
        exists nd, nodes_ (fst r) !! i = Some nd
                   /\ Node_core nd = Node_core (cellNode o inst i))
  /\ (forall i bterm, bs !! i = Some bterm ->
        length cs + i < length (nodes_ o) ->
        exists nd, nodes_ (fst r) !! (length cs + i) = Some nd
                   /\ Node_core nd
                      = Node_core (termNode o bterm (length cs + i)))
  /\ (forall j, length cs + length bs <= j ->
        nodes_ (fst r) !! j = nodes_ o !! j).
Proof.
  intros r cs bs. unfold populateNodes in r.
  destruct (foldl populateInst (o, 0) (block_insts (db_ o)))
    as [o1 n1] eqn:E1.
  destruct (populateInst_nodes _ _ _ _ _ E1) as (Hn1 & Hl1 & Hpw1 & Ho1 & Hi1).
  pose proof (populateInst_frame (block_insts (db_ o)) (o, 0)) as [Hf1 _].
  rewrite E1 in Hf1. simpl in Hf1.
  assert (Hdb : db_ o1 = db_ o) by (unfold pop_frame in Hf1; congruence).
  destruct (foldl populateBTerm (o1, n1) (block_bterms (db_ o)))
    as [o2 n2] eqn:E2.
  destruct (populateBTerm_nodes _ _ _ _ _ E2) as (Hn2 & Hl2 & Ho2 & Hi2).
  pose proof (populateBTerm_frame (block_bterms (db_ o)) (o1, n1)) as [Hf2 _].
  rewrite E2 in Hf2. simpl in Hf2.
  subst r. simpl fst. simpl snd. fold cs in Hn1, Ho1, Hi1. fold bs in Hn2, Ho2, Hi2.
  simpl in Hn1. subst n1.
  split; [exact Hn2|]. split; [congruence|]. split; [congruence|].
  split; [|split].
  - intros i inst Hi Hlt.
    assert (i < length cs) by (eapply lookup_lt_Some; eauto).
    exists (cellNode o inst i). split; [|done].
    rewrite Ho2 by lia. apply (Hi1 i inst Hi). simpl. exact Hlt.
  - intros i bterm Hi Hlt.
    exists (termNode o1 bterm (length cs + i)). split; [|done].
    apply (Hi2 i bterm Hi). lia.
  - intros j Hj. rewrite Ho2 by lia. apply Ho1. lia.
Qed.

(** The checks of the counts and the final report only log and count. *)
Definition only_logs (c c' : Conn) : Prop :=
  network_ (c_o c') = network_ (c_o c)
  /\ conn_frame (c_o c') = conn_frame (c_o c)
  /\ c_p c' = c_p c
  /\ c_errors c <= c_errors c'
  /\ reportsOf c' = reportsOf c.

Lemma expectCount_logs (got expected : nat) (m : LogMsg) (c : Conn) :
  is_missing_report m = false ->
  only_logs c (expectCount got expected m c).
Proof.
  intros Hm. unfold expectCount, only_logs.
  destruct (negb (got =? expected)).
  - rewrite reportsOf_error, Hm. simpl. repeat split; lia.
  - repeat split; lia.
Qed.

Lemma reportNetwork_logs (c : Conn) :
  only_logs c (reportNetwork c)
  /\ c_errors (reportNetwork c) = c_errors c
  /\ last (log_ (c_o (reportNetwork c)))
     = Some (if Nat.eqb (c_errors c) 0
             then info 102 "Network stats: inst {}, edges {}, pins {}"
                    [arg (getNumNodes (network_ (c_o c)));
                     arg (getNumEdges (network_ (c_o c)));
                     arg (getNumPins (network_ (c_o c)))]
             else error 101 "Error creating network." []).
Proof.
  unfold reportNetwork, only_logs, reportsOf.
  destruct (c_errors c =? 0); simpl; rewrite last_snoc, count_app;
    unfold count; simpl; repeat split; lia.
Qed.

Lemma expectCount_same (n : nat) (m : LogMsg) (c : Conn) :
  expectCount n n m c = c.
Proof. unfold expectCount. by rewrite Nat.eqb_refl. Qed.

Lemma populateNodes_count (o : Optdp) :
  snd (populateNodes o)
  = length (cells (block_insts (db_ o))) + length (block_bterms (db_ o)).
Proof. apply populateNodes_spec. Qed.

Lemma populateNodes_db (o : Optdp) : db_ (fst (populateNodes o)) = db_ o.
Proof.
  destruct (populateNodes_spec o) as (_ & _ & Hf & _).
  unfold pop_frame in Hf. congruence.
Qed.

(** The counts of nodes and edges are the expected ones: of the checks
    of the counts, only the one of the pins can report. *)
Lemma createNetwork_locals_eq (o : Optdp) :
  let k := countNetwork (db_ o) in
  let o0 := allocateNetwork k (with_layers ∅ ∅ o) in
  let c1 := mkConn (fst (populateNodes o0)) 0 0 in
  let c2 := fst (foldl connectNet (c1, 0) (block_nets (db_ o))) in
  createNetwork_locals o
  = reportNetwork
      (expectCount (c_p c2) (nPins k)
         (error 105
            "Unexpected total pin count.  Expected {:d}, but got {:d}"
            [arg (nPins k); arg (c_p c2)]) c2).
Proof.
  intros k o0 c1 c2. unfold createNetwork_locals.
  change (countNetwork (db_ (with_layers ∅ ∅ o))) with k. fold o0.
  assert (Hn : snd (populateNodes o0) = nNodes k + nTerminals k).
  { rewrite populateNodes_count. unfold k. rewrite countNetwork_spec.
    simpl. rewrite cells_resetOrient, length_map. lia. }
  assert (Hdb : block_nets (db_ (fst (populateNodes o0)))
                = block_nets (db_ o)).
  { rewrite populateNodes_db. reflexivity. }
  subst c2 c1.
  destruct (populateNodes o0) as [o1 n1]. simpl fst in *. simpl snd in *.
  subst n1. rewrite expectCount_same.
  unfold populateEdges. simpl c_o. rewrite Hdb.
  pose proof (connectNets_steps (block_nets (db_ o))
                (mkConn o1 0 0) 0) as (He & _).
  destruct (foldl connectNet (mkConn o1 0 0, 0) (block_nets (db_ o)))
    as [c2 e2].
  simpl fst in *. simpl snd in *. subst e2.
  replace (nEdges k) with (0 + length (block_nets (db_ o)))
    by (unfold k; rewrite countNetwork_spec; reflexivity).
  rewrite expectCount_same. reflexivity.
Qed.

(** What [createNetwork] establishes, phase by phase. *)
Lemma createNetwork_run (o : Optdp) :
  let c := createNetwork_locals o in
  let o' := c_o c in
  let insts := block_insts (db_ o) in
  let nets := block_nets (db_ o) in
  let bs := block_bterms (db_ o) in
  (db_ o' = block_with_insts (map resetOrient insts) (db_ o)
   /\ pwrLayers_ o' = ∅ /\ gndLayers_ o' = ∅
   /\ masterPwrs_ o' = masterPwrs_ o /\ arch_ o' = arch_ o)
  /\ length (nodes_ o') = length (cells insts) + length bs
  /\ (forall i inst, cells insts !! i = Some inst ->
        exists nd, nodes_ o' !! i = Some nd
          /\ Node_core nd
             = Node_core (cellNode o (setLocationOrient R0 inst) i))
  /\ (forall i bterm, bs !! i = Some bterm ->
        exists nd, nodes_ o' !! (length (cells insts) + i) = Some nd
          /\ Node_core nd
             = Node_core (termNode o bterm (length (cells insts) + i)))
  /\ (length (edges_ o') = length nets
      /\ forall j, j < length nets -> e_id <$> edges_ o' !! j = Some j)
  /\ (pinsOf c = length (pins_ o) + foundPins o' nets
      /\ c_p c = foundPins o' nets
      /\ missingPins o' nets <= c_errors c
      /\ reportsOf c
         = count is_missing_report (log_ o) + missingPins o' nets)
  /\ (exists c0, c = reportNetwork c0
                 /\ network_ (c_o c0) = network_ o').
Proof.
  intros c o' insts nets bs.
  assert (Hceq := createNetwork_locals_eq o). cbv zeta in Hceq.
  fold c in Hceq. clearbody c. subst o'.
  rewrite countNetwork_spec in Hceq. fold insts nets bs in Hceq.
  set (k := mkCounts _ _ _ _) in Hceq.
  set (o0 := allocateNetwork k (with_layers ∅ ∅ o)) in Hceq.
  assert (Hdb0 : db_ o0 = block_with_insts (map resetOrient insts) (db_ o))
    by reflexivity.
  assert (Hcs0 : cells (block_insts (db_ o0))
                 = map (setLocationOrient R0) (cells insts)).
  { rewrite Hdb0. simpl. apply cells_resetOrient. }
  assert (Hn0 : length (nodes_ o0) = length (cells insts) + length bs).
  { unfold o0, nodes_. simpl. by rewrite length_replicate. }
  assert (He0 : length (edges_ o0) = length nets).
  { unfold o0, edges_. simpl. by rewrite length_replicate. }
  pose proof (populateNodes_spec o0) as (Hn1 & Hl1 & Hf1 & Hc1 & Ht1 & _).
  rewrite Hcs0, length_map in Hn1, Ht1. rewrite Hcs0 in Hc1.
  change (block_bterms (db_ o0)) with bs in Hn1, Ht1.
  destruct (populateNodes o0) as [o1 n1]. simpl fst in *. simpl snd in *.
  set (c1 := mkConn o1 0 0) in Hceq.
  assert (Hdb1 : db_ o1 = db_ o0) by (unfold pop_frame in Hf1; congruence).
  pose proof (connectNets_steps nets c1 0) as (He2 & Hs2 & _ & Hid2).
  destruct (foldl connectNet (c1, 0) nets) as [c2 e2].
  simpl fst in *. simpl snd in *.
  match type of Hceq with
  | _ = reportNetwork (expectCount ?a ?b ?m c2) =>
      pose proof (expectCount_logs a b m c2 eq_refl)
        as (Hnw3 & Hf3 & Hp3 & Her3 & Hr3);
      set (c3 := expectCount a b m c2) in *
  end.
  pose proof (reportNetwork_logs c3) as ((Hnw4 & Hf4 & Hp4 & Her4 & Hr4) & _).
  set (c4 := reportNetwork c3) in *. subst c.
  destruct Hs2 as (Hf2 & Hp2 & Hc2 & Her2 & Hr2).
  assert (Hnw : network_ (c_o c4) = network_ (c_o c2)) by congruence.
  assert (Hfc : conn_frame (c_o c4) = conn_frame (c_o c2)) by congruence.
  assert (Hfn : net_frame (c_o c4) = net_frame o1).
  { rewrite (conn_frame_net_frame _ _ Hfc). exact Hf2. }
  destruct (net_frame_found _ _ Hfn) as [Hfo Hmi].
  assert (Hcore : Node_core <$> nodes_ (c_o c4) = Node_core <$> nodes_ o1).
  { unfold net_frame in Hfn. congruence. }
  assert (Hfd : foundPins (c_o c4) nets = foundPins o1 nets).
  { unfold foundPins. by rewrite (map_ext _ _ Hfo). }
  assert (Hmd : missingPins (c_o c4) nets = missingPins o1 nets).
  { unfold missingPins. by rewrite (map_ext _ _ Hmi). }
  assert (Hcore_at : forall i nd1, nodes_ o1 !! i = Some nd1 ->
             exists nd, nodes_ (c_o c4) !! i = Some nd
                        /\ Node_core nd = Node_core nd1).
  { intros i nd1 Hi.
    assert (Hc : (Node_core <$> nodes_ (c_o c4)) !! i = Some (Node_core nd1))
      by (rewrite Hcore, list_lookup_fmap, Hi; done).
    rewrite list_lookup_fmap in Hc.
    destruct (nodes_ (c_o c4) !! i) as [nd|]; [|done].
    exists nd. split; [done|]. simpl in Hc. congruence. }
  repeat split.
  - unfold net_frame in Hfn. rewrite <- Hdb0, <- Hdb1. congruence.
  - unfold net_frame, pop_frame in *.
    transitivity (pwrLayers_ o1); [congruence|].
    transitivity (pwrLayers_ o0); [congruence|]. reflexivity.
  - unfold net_frame, pop_frame in *.
    transitivity (gndLayers_ o1); [congruence|].
    transitivity (gndLayers_ o0); [congruence|]. reflexivity.
  - unfold net_frame, pop_frame in *.
    transitivity (masterPwrs_ o1); [congruence|].
    transitivity (masterPwrs_ o0); [congruence|]. reflexivity.
  - unfold net_frame, pop_frame in *.
    transitivity (arch_ o1); [congruence|].
    transitivity (arch_ o0); [congruence|]. reflexivity.
  - rewrite <- (length_fmap Node_core), Hcore, length_fmap. congruence.
  - intros i inst Hi.
    assert (Hlt : i < length (cells insts)) by (eapply lookup_lt_Some; eauto).
    destruct (Hc1 i (setLocationOrient R0 inst)) as (nd1 & Hnd1 & Hcore1).
    { by rewrite list_lookup_fmap, Hi. }
    { lia. }
    destruct (Hcore_at i nd1 Hnd1) as (nd & Hnd & Hcn).
    exists nd. split; [done|]. rewrite Hcn, Hcore1.
    apply Node_core_cellNode. reflexivity.
  - intros i bterm Hi.
    assert (Hlt : i < length bs) by (eapply lookup_lt_Some; eauto).
    destruct (Ht1 i bterm Hi) as (nd1 & Hnd1 & Hcore1); [lia|].
    destruct (Hcore_at _ nd1 Hnd1) as (nd & Hnd & Hcn).
    exists nd. split; [done|]. by rewrite Hcn, Hcore1.
  - unfold net_frame in Hfn.
    transitivity (length (edges_ o1)); [congruence|].
    unfold pop_frame in Hf1. transitivity (length (edges_ o0)); congruence.
  - intros j Hj.
    assert (Hids : e_id <$> edges_ (c_o c4) = e_id <$> edges_ (c_o c2))
      by (unfold conn_frame in Hfc; congruence).
    rewrite <- list_lookup_fmap, Hids, list_lookup_fmap.
    apply Hid2; [lia|]. change (c_o c1) with o1.
    unfold pop_frame in Hf1.
    replace (edges_ o1) with (edges_ o0) by congruence. lia.
  - unfold pinsOf, pins_ in *. rewrite Hnw, Hfd, Hp2. simpl.
    unfold pop_frame, pins_ in Hf1.
    replace (net_pins (network_ o1)) with (net_pins (network_ o0))
      by congruence.
    reflexivity.
  - rewrite Hp4, Hp3, Hc2, Hfd. reflexivity.
  - rewrite Hmd. simpl in Her2. lia.
  - rewrite Hr4, Hr3, Hr2, Hmd. f_equal.
    unfold reportsOf. simpl. unfold pop_frame in Hf1.
    replace (log_ o1) with (log_ o0) by congruence.
    unfold o0, allocateNetwork. simpl. rewrite count_app. unfold count.
    simpl. lia.
  - exists c3. split; [reflexivity|]. symmetry. exact Hnw4.
Qed.

End Phases.

Lemma all_disjoint_correct (l : list Z) :
  all_disjoint l = true -> disjoint_flags l.
Proof.
  unfold disjoint_flags. induction l as [|a l IH]; simpl.
  - intros _. split; [tauto|]. intros i j x y _ Hi. by destruct i.
  - rewrite !andb_true_iff, negb_true_iff, Z.eqb_neq, forallb_forall.
    intros [[Ha Hall] Hl]. destruct (IH Hl) as [Hnz Hdis]. split.
    + intros x [<-|Hx]; [exact Ha|by apply Hnz].
    + intros [|i] [|j] x y Hij Hi Hj; simpl in Hi, Hj.
      * congruence.
      * inversion Hi; subst x. apply Z.eqb_eq, Hall.
        apply list_elem_of_In. eapply list_elem_of_lookup_2; eauto.
      * inversion Hj; subst y. rewrite Z.land_comm. apply Z.eqb_eq, Hall.
        apply list_elem_of_In. eapply list_elem_of_lookup_2; eauto.
      * apply (Hdis i j); [lia|done|done].
Qed.

(** * The claims *)

(** C3. For every imported CELL node (the node of the [i]-th placeable
    instance, stored at index [i]): the instance has been returned to the
    orientation R0 in the database, the current orientation of the node is
    N, and its allowed orientations, read as a set of flags, are N always,
    FN, FS and S in addition when the master has both symmetries, FS in
    addition when it has the X symmetry only, FN in addition when it has
    the Y symmetry only. *)
Theorem createNetwork_cell_orientations `{DpoConstants} (o : Optdp)
    (i : nat) (inst : dbInst) :
  disjoint_flags orientation_flags ->
  cells (block_insts (db_ o)) !! i = Some inst ->
  let o' := createNetwork o in
  let master := inst_master inst in
  (cells (block_insts (db_ o')) !! i = Some (setLocationOrient R0 inst)
   /\ inst_orient (setLocationOrient R0 inst) = R0)
  /\ exists nd,
       nodes_ o' !! i = Some nd
       /\ m_type nd = NodeType_CELL
       /\ m_currOrient nd = Orientation_N
       /\ m_availOrient nd = availOrient master
       /\ forall f, In f orientation_flags ->
            (allows (m_availOrient nd) f
             <-> In f (spec_orientations (master_symX master)
                                         (master_symY master))).
Proof.
  intros Hflags Hi o' master. subst o'. unfold createNetwork.
  destruct (createNetwork_run o) as ((Hdb & _) & _ & Hcells & _).
  split.
  - split; [|reflexivity].
    rewrite Hdb. simpl. rewrite cells_resetOrient, list_lookup_fmap, Hi.
    reflexivity.
  - destruct (Hcells i inst Hi) as (nd & Hnd & Hcore).
    exists nd. split; [exact Hnd|].
    assert (Hty : m_type nd = NodeType_CELL).
    { change (m_type (Node_core nd) = NodeType_CELL). rewrite Hcore.
      unfold cellNode. by destruct (masterPwrs_ o !! _) as [[? ?]|]. }
    assert (Hcur : m_currOrient nd = Orientation_N).
    { change (m_currOrient (Node_core nd) = Orientation_N). rewrite Hcore.
      unfold cellNode. by destruct (masterPwrs_ o !! _) as [[? ?]|]. }
    assert (Hav : m_availOrient nd = availOrient master).
    { change (m_availOrient (Node_core nd) = availOrient master).
      rewrite Hcore. unfold cellNode.
      by destruct (masterPwrs_ o !! _) as [[? ?]|]. }
    repeat split; try assumption.
    + rewrite Hav, (availOrient_allows Hflags master f) by assumption.
      unfold spec_orientations. fold master.
      destruct (master_symX master), (master_symY master); simpl;
        intuition congruence.
    + rewrite Hav, (availOrient_allows Hflags master f) by assumption.
      unfold spec_orientations. fold master.
      destruct (master_symX master), (master_symY master); simpl;
        intuition congruence.
Qed.

Lemma Node_core_id (nd nd' : Node) :
  Node_core nd = Node_core nd' -> m_id nd = m_id nd'.
Proof. intros E. change (m_id (Node_core nd) = m_id (Node_core nd')). by rewrite E. Qed.

(** Node and edge ids after [createNetwork] are the storage indices. *)
Lemma createNetwork_dense_ids `{DpoConstants} (o : Optdp) :
  let o' := createNetwork o in
  (forall j nd, nodes_ o' !! j = Some nd -> m_id nd = j)
  /\ (forall j ed, edges_ o' !! j = Some ed -> e_id ed = j).
Proof.
  intros o'. subst o'. unfold createNetwork.
  destruct (createNetwork_run o)
    as (_ & Hlen & Hcells & Hterms & (Hel & Heid) & _).
  split.
  - intros j nd Hj.
    assert (Hlt : j < length (nodes_ (c_o (createNetwork_locals o))))
      by (eapply lookup_lt_Some; eauto).
    rewrite Hlen in Hlt.
    destruct (decide (j < length (cells (block_insts (db_ o))))) as [Hc|Hc].
    + destruct (lookup_lt_is_Some_2 _ _ Hc) as [inst Hinst].
      destruct (Hcells j inst Hinst) as (nd' & Hnd' & Hcore).
      assert (nd' = nd) by congruence. subst nd'.
      rewrite (Node_core_id _ _ Hcore). unfold cellNode.
      by destruct (masterPwrs_ o !! _) as [[? ?]|].
    + set (i := j - length (cells (block_insts (db_ o)))).
      assert (Hi : i < length (block_bterms (db_ o))) by (unfold i; lia).
      destruct (lookup_lt_is_Some_2 _ _ Hi) as [bterm Hbterm].
      destruct (Hterms i bterm Hbterm) as (nd' & Hnd' & Hcore).
      replace (length (cells (block_insts (db_ o))) + i) with j in *
        by (unfold i; lia).
      assert (nd' = nd) by congruence. subst nd'.
      by rewrite (Node_core_id _ _ Hcore).
  - intros j ed Hj.
    assert (Hlt : j < length (edges_ (c_o (createNetwork_locals o))))
      by (eapply lookup_lt_Some; eauto).
    rewrite Hel in Hlt. specialize (Heid j Hlt). rewrite Hj in Heid.
    simpl in Heid. congruence.
Qed.

(** A divergence between a stored id and an index, seen while an instance
    terminal is connected, is reported and counted, and the pin is created
    all the same. *)
Lemma connectITerm_improper (e : nat) (s : Conn) (iTerm : dbITerm)
    (it_n : nat) :
  instMap_ (c_o s) !! iterm_inst iTerm = Some it_n ->
  improperIndexing (network_ (c_o s))
                   (m_id (getNode (network_ (c_o s)) it_n)) e = true ->
  let s' := connectITerm e s iTerm in
  c_errors s' = S (c_errors s)
  /\ log_ (c_o s')
     = log_ (c_o s)
       ++ [error 108 "Improper node indexing while connecting pins." []]
  /\ pinsOf s' = S (pinsOf s)
  /\ c_p s' = S (c_p s).
Proof.
  intros Hit Himp. unfold connectITerm. rewrite Hit, Himp.
  match goal with
  | |- context [createAndAddPin ?a ?b ?c] =>
      pose proof (createAndAddPin_spec a b c) as Hs;
      destruct (createAndAddPin a b c) as [nw ptr]
  end.
  simpl in Hs. destruct Hs as (_ & Hp & _).
  unfold pinsOf, pins_. simpl. rewrite length_alter, Hp, length_app. simpl.
  repeat split; lia.
Qed.

Lemma connectBTerm_improper (e : nat) (s : Conn) (bTerm it_p : nat) :
  termMap_ (c_o s) !! bTerm = Some it_p ->
  improperIndexing (network_ (c_o s))
                   (m_id (getNode (network_ (c_o s)) it_p)) e = true ->
  let s' := connectBTerm e s bTerm in
  c_errors s' = S (c_errors s)
  /\ log_ (c_o s')
     = log_ (c_o s)
       ++ [error 109 "Improper terminal indexing while connecting pins." []]
  /\ pinsOf s' = S (pinsOf s)
  /\ c_p s' = S (c_p s).
Proof.
  intros Hit Himp. unfold connectBTerm. rewrite Hit, Himp.
  match goal with
  | |- context [createAndAddPin ?a ?b ?c] =>
      pose proof (createAndAddPin_spec a b c) as Hs;
      destruct (createAndAddPin a b c) as [nw ptr]
  end.
  simpl in Hs. destruct Hs as (_ & Hp & _).
  unfold pinsOf, pins_. simpl. rewrite length_alter, Hp, length_app. simpl.
  repeat split; lia.
Qed.

(** ** No divergence of ids and indices during [createNetwork] *)

Lemma dense_nodes_frame (o1 o2 : Optdp) :
  Node_core <$> nodes_ o1 = Node_core <$> nodes_ o2 ->
  dense_nodes o1 -> dense_nodes o2.
Proof.
  intros E Hd j nd Hj.
  assert (Hc : (Node_core <$> nodes_ o1) !! j = Some (Node_core nd))
    by (rewrite E, list_lookup_fmap, Hj; done).
  rewrite list_lookup_fmap in Hc.
  destruct (nodes_ o1 !! j) as [nd1|] eqn:E1; [|done].
  simpl in Hc. assert (Hcore : Node_core nd1 = Node_core nd) by congruence.
  rewrite <- (Node_core_id _ _ Hcore). by apply Hd.
Qed.

Lemma edge_open_frame (o1 o2 : Optdp) (e : nat) :
  e_id <$> edges_ o1 = e_id <$> edges_ o2 ->
  edge_open o1 e -> edge_open o2 e.
Proof.
  unfold edge_open. intros E. by rewrite <- !list_lookup_fmap, E.
Qed.

Lemma proper_indexing (o : Optdp) (it_n e : nat) :
  dense_nodes o -> edge_open o e ->
  improperIndexing (network_ o) (m_id (getNode (network_ o) it_n)) e = false.
Proof.
  unfold dense_nodes, edge_open, improperIndexing, getNode, getEdge, nodes_,
    edges_.
  intros Hd He.
  destruct (net_edges (network_ o) !! e) as [ed|] eqn:Ee; [|done].
  simpl in He. inversion He as [Hid]. simpl. rewrite Hid, Nat.eqb_refl.
  rewrite orb_false_r, negb_false_iff, Nat.eqb_eq.
  destruct (net_nodes (network_ o) !! it_n) as [nd|] eqn:Ei; simpl.
  - rewrite (Hd _ _ Ei), Ei. simpl. by apply Hd.
  - destruct (net_nodes (network_ o) !! 0) as [nd0|] eqn:E0; simpl.
    + by apply Hd.
    + reflexivity.
Qed.

(** With dense ids, a terminal adds an error exactly when it is missing,
    and no divergence is reported. *)
Definition exact_step (found : bool) (s s' : Conn) : Prop :=
  c_errors s' = c_errors s + (if found then 0 else 1)
  /\ indexReportsOf s' = indexReportsOf s.

Lemma connectITerm_exact (e : nat) (s : Conn) (iTerm : dbITerm) :
  dense_nodes (c_o s) -> edge_open (c_o s) e ->
  exact_step (foundITerm (c_o s) iTerm) s (connectITerm e s iTerm).
Proof.
  intros Hd He. unfold exact_step.
  destruct (foundITerm (c_o s) iTerm) eqn:Ef.
  - unfold foundITerm in Ef. rewrite bool_decide_eq_true in Ef.
    destruct Ef as [it_n Hit]. unfold connectITerm.
    rewrite Hit, (proper_indexing _ it_n e Hd He).
    destruct (createAndAddPin _ _ _) as [nw ptr].
    unfold indexReportsOf. simpl. split; [lia|done].
  - rewrite (connectITerm_missing e s iTerm Ef).
    unfold indexReportsOf. simpl. rewrite count_app. unfold count. simpl.
    split; lia.
Qed.

Lemma connectBTerm_exact (e : nat) (s : Conn) (bTerm : nat) :
  dense_nodes (c_o s) -> edge_open (c_o s) e ->
  exact_step (foundBTerm (c_o s) bTerm) s (connectBTerm e s bTerm).
Proof.
  intros Hd He. unfold exact_step.
  destruct (foundBTerm (c_o s) bTerm) eqn:Ef.
  - unfold foundBTerm in Ef. rewrite bool_decide_eq_true in Ef.
    destruct Ef as [it_p Hit]. unfold connectBTerm.
    rewrite Hit, (proper_indexing _ it_p e Hd He).
    destruct (createAndAddPin _ _ _) as [nw ptr].
    unfold indexReportsOf. simpl. split; [lia|done].
  - rewrite (connectBTerm_missing e s bTerm Ef).
    unfold indexReportsOf. simpl. rewrite count_app. unfold count. simpl.
    split; lia.
Qed.

Lemma exact_fold {T : Type} (f : Conn -> T -> Conn)
    (found : Optdp -> T -> bool) (e : nat) (l : list T) :
  (forall s t, conn_step (found (c_o s) t) s (f s t)) ->
  (forall s t, dense_nodes (c_o s) -> edge_open (c_o s) e ->
               exact_step (found (c_o s) t) s (f s t)) ->
  (forall o1 o2, conn_frame o1 = conn_frame o2 ->
                 forall t, found o1 t = found o2 t) ->
  forall s, dense_nodes (c_o s) -> edge_open (c_o s) e ->
    c_errors (foldl f s l)
    = c_errors s + count (fun t => negb (found (c_o s) t)) l
    /\ indexReportsOf (foldl f s l) = indexReportsOf s.
Proof.
  intros Hstep Hexact Hext. induction l as [|t l IH]; intros s Hd He.
  - unfold count. simpl. split; lia.
  - change (foldl f s (t :: l)) with (foldl f (f s t) l).
    destruct (Hstep s t) as (Hf & _).
    destruct (Hexact s t Hd He) as (Herr & Hidx).
    assert (Hn : Node_core <$> nodes_ (c_o s) = Node_core <$> nodes_ (c_o (f s t)))
      by (unfold conn_frame in Hf; congruence).
    assert (Hed : e_id <$> edges_ (c_o s) = e_id <$> edges_ (c_o (f s t)))
      by (unfold conn_frame in Hf; congruence).
    destruct (IH (f s t) (dense_nodes_frame _ _ Hn Hd)
                 (edge_open_frame _ _ e Hed He)) as (Herr' & Hidx').
    rewrite (count_ext (fun x => negb (found (c_o (f s t)) x))
                       (fun x => negb (found (c_o s) x)) l) in Herr'
      by (intros x; f_equal; apply (Hext _ _ Hf)).
    rewrite count_cons. split; [|congruence].
    destruct (found (c_o s) t); simpl in *; lia.
Qed.

Lemma connectNet_exact (c : Conn) (e : nat) (net : dbNet) :
  dense_nodes (c_o c) -> e < length (edges_ (c_o c)) ->
  let c' := fst (connectNet (c, e) net) in
  c_errors c' = c_errors c + missingInNet (c_o c) net
  /\ indexReportsOf c' = indexReportsOf c.
Proof.
  intros Hd Hlt. rewrite connectNet_eq. simpl fst.
  destruct (openEdge_spec c e net) as (Hf0 & _ & _ & He0 & _ & _ & Hi0).
  assert (Hx0 : indexReportsOf (openEdge c e net) = indexReportsOf c)
    by reflexivity.
  set (s0 := openEdge c e net) in *.
  assert (Hd0 : dense_nodes (c_o s0)).
  { apply (dense_nodes_frame (c_o c)); [|done].
    unfold net_frame in Hf0. congruence. }
  assert (Ho0 : edge_open (c_o s0) e) by (apply Hi0; exact Hlt).
  pose proof (conn_steps_fold (connectITerm e) foundITerm (net_iterms net)
                (connectITerm_step e)
                (fun o1 o2 E => proj1 (conn_frame_found o1 o2 E)) s0)
    as (Hf1 & _).
  destruct (exact_fold (connectITerm e) foundITerm e (net_iterms net)
              (connectITerm_step e) (connectITerm_exact e)
              (fun o1 o2 E => proj1 (conn_frame_found o1 o2 E)) s0 Hd0 Ho0)
    as (He1 & Hx1).
  set (s1 := foldl (connectITerm e) s0 (net_iterms net)) in *.
  assert (Hd1 : dense_nodes (c_o s1)).
  { apply (dense_nodes_frame (c_o s0)); [|done].
    unfold conn_frame in Hf1. congruence. }
  assert (Ho1 : edge_open (c_o s1) e).
  { apply (edge_open_frame (c_o s0)); [|done].
    unfold conn_frame in Hf1. congruence. }
  destruct (exact_fold (connectBTerm e) foundBTerm e (net_bterms net)
              (connectBTerm_step e) (connectBTerm_exact e)
              (fun o1 o2 E => proj2 (conn_frame_found o1 o2 E)) s1 Hd1 Ho1)
    as (He2 & Hx2).
  assert (HI : forall t, foundITerm (c_o s0) t = foundITerm (c_o c) t).
  { intros t. unfold foundITerm, net_frame in *.
    assert (instMap_ (c_o s0) = instMap_ (c_o c)) as -> by congruence. done. }
  assert (HB : forall t, foundBTerm (c_o s1) t = foundBTerm (c_o c) t).
  { intros t. rewrite (proj2 (conn_frame_found _ _ Hf1) t).
    unfold foundBTerm, net_frame in *.
    assert (termMap_ (c_o s0) = termMap_ (c_o c)) as -> by congruence. done. }
  rewrite (count_ext (fun t => negb (foundITerm (c_o s0) t))
                     (fun t => negb (foundITerm (c_o c) t))) in He1
    by (intros t; f_equal; apply HI).
  rewrite (count_ext (fun t => negb (foundBTerm (c_o s1) t))
                     (fun t => negb (foundBTerm (c_o c) t))) in He2
    by (intros t; f_equal; apply HB).
  unfold missingInNet. split; [lia|congruence].
Qed.

Lemma connectNets_exact (nets : list dbNet) :
  forall (c : Conn) (e : nat),
    dense_nodes (c_o c) -> e + length nets <= length (edges_ (c_o c)) ->
    let c' := fst (foldl connectNet (c, e) nets) in
    c_errors c' = c_errors c + missingPins (c_o c) nets
    /\ indexReportsOf c' = indexReportsOf c.
Proof.
  induction nets as [|net nets IH]; intros c e Hd Hlen.
  - unfold missingPins. simpl. split; lia.
  - change (foldl connectNet (c, e) (net :: nets))
      with (foldl connectNet (connectNet (c, e) net) nets).
    simpl in Hlen.
    destruct (connectNet_exact c e net Hd) as (He1 & Hx1); [lia|].
    destruct (connectNet_steps c e net) as ((Hf & _) & _).
    rewrite connectNet_eq in *. simpl fst in *.
    set (c1 := foldl (connectBTerm e) _ _) in *.
    assert (Hd1 : dense_nodes (c_o c1)).
    { apply (dense_nodes_frame (c_o c)); [|done].
      unfold net_frame in Hf. congruence. }
    assert (Hl1 : length (edges_ (c_o c1)) = length (edges_ (c_o c)))
      by (unfold net_frame in Hf; congruence).
    destruct (IH c1 (S e) Hd1) as (He2 & Hx2); [lia|].
    destruct (net_frame_found _ _ Hf) as [_ Hmi].
    unfold missingPins in *. simpl sum_list.
    rewrite (map_ext _ _ Hmi) in He2. split; [lia|congruence].
Qed.

(** The value of [errors] at the end of [createNetwork]: the missing
    references, and one more for the pin count they spoil; no divergence
    of an id from an index is ever observed. *)
Lemma createNetwork_errors `{DpoConstants} (o : Optdp) :
  let c := createNetwork_locals o in
  let m := missingPins (c_o c) (block_nets (db_ o)) in
  c_errors c = m + (if Nat.eqb m 0 then 0 else 1)
  /\ indexReportsOf c = count is_index_report (log_ o).
Proof.
  intros c m.
  pose proof (createNetwork_dense_ids o) as [Hdense _].
  destruct (createNetwork_run o)
    as (_ & _ & _ & _ & (Hel & _) & (_ & Hp & _ & _) & _).
  unfold createNetwork in Hdense. fold c in Hdense, Hel, Hp.
  assert (Hceq := createNetwork_locals_eq o). cbv zeta in Hceq.
  fold c in Hceq.
  set (k := countNetwork (db_ o)) in *.
  set (o0 := allocateNetwork k (with_layers ∅ ∅ o)) in *.
  set (c1 := mkConn (fst (populateNodes o0)) 0 0) in *.
  pose proof (connectNets_steps (block_nets (db_ o)) c1 0)
    as (_ & (Hf2 & _ & Hc2 & _) & _).
  set (c2 := fst (foldl connectNet (c1, 0) (block_nets (db_ o)))) in *.
  match type of Hceq with
  | _ = reportNetwork (expectCount ?a ?b ?msg c2) =>
      pose proof (expectCount_logs a b msg c2 eq_refl)
        as (Hnw3 & Hf3 & Hp3 & _);
      set (c3 := expectCount a b msg c2) in *
  end.
  pose proof (reportNetwork_logs c3) as ((Hnw4 & Hf4 & Hp4 & _) & He4 & _).
  rewrite <- Hceq in *.
  assert (Hfc : conn_frame (c_o c) = conn_frame (c_o c2)) by congruence.
  assert (Hfn : net_frame (c_o c) = net_frame (c_o c1)).
  { rewrite (conn_frame_net_frame _ _ Hfc). exact Hf2. }
  assert (Hd1 : dense_nodes (c_o c1)).
  { apply (dense_nodes_frame (c_o c)); [|exact Hdense].
    unfold net_frame in Hfn. congruence. }
  assert (Hl1 : length (edges_ (c_o c1)) = length (block_nets (db_ o))).
  { unfold net_frame in Hfn. congruence. }
  destruct (connectNets_exact (block_nets (db_ o)) c1 0 Hd1) as (He2 & Hx2);
    [lia|].
  fold c2 in He2, Hx2.
  destruct (net_frame_found _ _ Hfn) as [Hfo Hmi].
  assert (Hm : missingPins (c_o c1) (block_nets (db_ o)) = m).
  { unfold m, missingPins. by rewrite (map_ext _ _ Hmi). }
  rewrite Hm in He2. simpl in He2.
  assert (Hnp : nPins k = c_p c2 + m).
  { unfold k. rewrite countNetwork_spec. simpl.
    rewrite <- (found_missing_total (c_o c)). fold m. f_equal.
    rewrite <- Hp. congruence. }
  assert (Hidx1 : indexReportsOf c1 = count is_index_report (log_ o)).
  { unfold indexReportsOf, c1. simpl.
    destruct (populateNodes_spec o0) as (_ & _ & Hpf & _).
    unfold pop_frame in Hpf.
    replace (log_ (fst (populateNodes o0))) with (log_ o0) by congruence.
    unfold o0, allocateNetwork. simpl. rewrite count_app. unfold count.
    simpl. lia. }
  rewrite He4, Hceq. unfold c3, expectCount, indexReportsOf, reportNetwork.
  rewrite Hnp.
  destruct (Nat.eqb m 0) eqn:Em.
  - apply Nat.eqb_eq in Em. rewrite Em, Nat.add_0_r, Nat.eqb_refl. simpl.
    rewrite He2, Em. simpl.
    unfold indexReportsOf in Hx2, Hidx1. rewrite count_app, Hx2, Hidx1.
    unfold count. simpl. split; lia.
  - apply Nat.eqb_neq in Em.
    assert (Hne : Nat.eqb (c_p c2) (c_p c2 + m) = false)
      by (apply Nat.eqb_neq; lia).
    rewrite Hne. simpl.
    destruct (Nat.eqb (S (c_errors c2)) 0) eqn:E0;
      [apply Nat.eqb_eq in E0; lia|].
    simpl. rewrite !count_app.
    unfold indexReportsOf in Hx2, Hidx1. rewrite Hx2, Hidx1.
    unfold count. simpl. split; lia.
Qed.

Lemma createNetwork_cell_orientations_witness :
  disjoint_flags (@orientation_flags sample_constants)
  /\ cells (block_insts (db_ (init sample_block))) !! 0 = Some sample_inst
  /\ exists nd,
       nodes_ (@createNetwork sample_constants (init sample_block)) !! 0
       = Some nd
       /\ m_currOrient nd = 1%Z
       /\ allows (m_availOrient nd) 64
       /\ ~ allows (m_availOrient nd) 16.
Proof.
  assert (H1 : disjoint_flags (@orientation_flags sample_constants))
    by (apply all_disjoint_correct; reflexivity).
  assert (H2 : cells (block_insts (db_ (init sample_block))) !! 0
               = Some sample_inst) by reflexivity.
  split; [exact H1|]. split; [exact H2|].
  destruct (@createNetwork_cell_orientations sample_constants
              (init sample_block) 0 sample_inst H1 H2)
    as (_ & nd & Hnd & _ & Hcur & _ & Hset).
  exists nd. split; [exact Hnd|]. split; [exact Hcur|]. split.
  - apply (Hset 64%Z); simpl; tauto.
  - intros Hno. apply (Hset 16%Z) in Hno; simpl; [|tauto].
    simpl in Hno. intuition discriminate.
Defined.

(** ** The geometry of the pins *)

(** The pin that [connectITerm] creates for a terminal whose instance is
    in the node map: its width and its x offset are those of the box of
    the master terminal; its height is [yMax - yMax] and its y offset is
    taken from [yMax + yMax], each sum and difference being that of two
    [int]s. *)
Lemma connectITerm_pin (e : nat) (s : Conn) (iTerm : dbITerm) (it_n : nat) :
  instMap_ (c_o s) !! iterm_inst iTerm = Some it_n ->
  let bb := mterm_bbox (iterm_mterm iTerm) in
  let master := iterm_master iTerm in
  exists n,
    pins_ (c_o (connectITerm e s iTerm))
    = pins_ (c_o s)
      ++ [mkPin n e
            (inject_Z (int32 (xMax bb + xMin bb)) * half
             - inject_Z (master_width master) / 2)%Q
            (inject_Z (int32 (yMax bb + yMax bb)) * half
             - inject_Z (master_height master) / 2)%Q
            (inject_Z (int32 (yMax bb - yMax bb)))
            (inject_Z (int32 (xMax bb - xMin bb)))
            0].
Proof.
  intros Hit bb master. unfold connectITerm. rewrite Hit.
  set (n := m_id _). exists n.
  assert (Hpins : forall s1 : Conn,
             pins_ (c_o s1) = pins_ (c_o s) ->
             forall dx dy hh ww : Q,
               pins_ (with_network
                        (setPin (snd (createAndAddPin n e (network_ (c_o s1))))
                                dx dy hh ww 0
                                (fst (createAndAddPin n e (network_ (c_o s1)))))
                        (c_o s1))
               = pins_ (c_o s) ++ [mkPin n e dx dy hh ww 0]).
  { intros s1 Hs1 dx dy hh ww.
    destruct (createAndAddPin_spec n e (network_ (c_o s1))) as (Hptr & Hp & _).
    unfold pins_, setPin in *.
    cbn [network_ with_network net_pins Network_with_pins].
    rewrite Hptr, Hp, Hs1.
    rewrite <- (Nat.add_0_r (length (net_pins (network_ (c_o s))))) at 1.
    rewrite alter_app_r. reflexivity. }
  destruct (improperIndexing (network_ (c_o s)) n e).
  - match goal with
    | |- context [createAndAddPin n e ?nw] =>
        rewrite (surjective_pairing (createAndAddPin n e nw))
    end.
    apply (Hpins (Conn_error _ s)). reflexivity.
  - match goal with
    | |- context [createAndAddPin n e ?nw] =>
        rewrite (surjective_pairing (createAndAddPin n e nw))
    end.
    apply (Hpins s). reflexivity.
Qed.

(** C2 fails on the y axis.  The pin of the cell [u1] of the sample block
    has the box (0,0)-(2,4) on a master of 10 by 10.  Its stored width and
    x offset are the width of the box (2) and the centre of the box minus
    the half width of the master (1 - 5); its stored height is 0, not the
    height 4 of the box, and its stored y offset is 4 - 5, the top of the
    box minus the half height, not the centre 2 - 5. *)
Theorem pin_geometry_of_sample :
  exists pn,
    pins_ (@createNetwork sample_constants (init sample_block)) !! 0 = Some pn
    /\ pin_node pn = 0 /\ pin_edge pn = 0
    /\ m_pinW pn == 2 /\ m_offsetX pn == 1 - 5
    /\ m_pinH pn == 0 /\ ~ m_pinH pn == 4
    /\ m_offsetY pn == 4 - 5 /\ ~ m_offsetY pn == 2 - 5.
Proof.
  eexists. split; [vm_compute; reflexivity|]. simpl.
  repeat split; try reflexivity; intros E; discriminate E.
Qed.

(** ** The rows of the architecture and their rails *)

Section Architecture.
Context `{DpoConstants}.

Lemma addRow_rows (rows : list dbRow) (a : Architecture) :
  foldl addRow a rows
  = Arch_with_rows (m_rows a ++ map archRow (List.filter isHorizontal rows)) a.
Proof.
  revert a. induction rows as [|row rows IH]; intros a; simpl.
  - destruct a. unfold Arch_with_rows. simpl. by rewrite app_nil_r.
  - rewrite IH. unfold addRow, isHorizontal.
    destruct (row_dir row); simpl; [|reflexivity].
    unfold Arch_with_rows. simpl. by rewrite <- app_assoc.
Qed.

Lemma clipRow_power (minX maxX : Q) (row : Row) :
  m_rowPowerBot (clipRow minX maxX row) = m_rowPowerBot row
  /\ m_rowPowerTop (clipRow minX maxX row) = m_rowPowerTop row.
Proof.
  unfold clipRow.
  repeat match goal with
         | |- context [if ?b then _ else _] => destruct b
         end; simpl; split; reflexivity.
Qed.

(** Without recorded layers no box of a power or ground net labels a
    row. *)
Lemma railNet_no_layers (a : Architecture) (net : dbNet) :
  railNet ∅ ∅ a net = a.
Proof.
  unfold railNet.
  destruct (negb (net_special net)); [reflexivity|].
  destruct (negb _); [reflexivity|].
  set (pwr := if dbSigType_eqb (net_sigType net) POWER
              then RowPower_VDD else RowPower_VSS).
  assert (Hpwr : pwr = RowPower_VDD \/ pwr = RowPower_VSS)
    by (unfold pwr; destruct (dbSigType_eqb _ _); tauto).
  apply (foldl_preserves (fun x => x)). intros a' swire.
  unfold railSWire. destruct (swire_type swire); try reflexivity.
  apply (foldl_preserves (fun x => x)). intros a'' sbox.
  unfold railSBox. destruct (sbox_dir sbox); try reflexivity.
  destruct (sbox_isVia sbox); [reflexivity|].
  destruct Hpwr as [-> | ->]; simpl.
  - rewrite bool_decide_eq_true_2; [reflexivity|]. apply not_elem_of_empty.
  - rewrite bool_decide_eq_true_2; [reflexivity|]. apply not_elem_of_empty.
Qed.

Lemma buildArchitecture_no_layers (o : Optdp) :
  pwrLayers_ o = ∅ -> gndLayers_ o = ∅ ->
  buildArchitecture o
  = clipRows (setSurroundingBox (block_dieArea (db_ o))
                (foldl addRow (arch_ o) (block_rows (db_ o)))).
Proof.
  intros Hp Hg. unfold buildArchitecture. rewrite Hp, Hg.
  apply (foldl_preserves (fun x => x)). intros a net.
  apply railNet_no_layers.
Qed.

Lemma setSurroundingBox_rows (die : Rect) (a : Architecture) :
  m_rows (setSurroundingBox die a) = m_rows a.
Proof.
  unfold setSurroundingBox.
  destruct (surroundingBox (m_rows a)) as [[[x0 x1] y0] y1].
  destruct (_ || _); reflexivity.
Qed.

Lemma import_network_state (o : Optdp) :
  pwrLayers_ (import_network o) = ∅
  /\ gndLayers_ (import_network o) = ∅
  /\ arch_ (import_network o) = Architecture_new
  /\ block_rows (db_ (import_network o)) = block_rows (db_ o)
  /\ block_nets (db_ (import_network o)) = block_nets (db_ o)
  /\ block_dieArea (db_ (import_network o)) = block_dieArea (db_ o).
Proof.
  unfold import_network, createNetwork.
  match goal with
  | |- context [createNetwork_locals ?x] =>
      destruct (createNetwork_run x) as ((Hdb & Hp & Hg & _ & Ha) & _);
      set (o1 := x) in *
  end.
  assert (Hfr : (db_ o1, arch_ o1) = (db_ o, Architecture_new)).
  { unfold o1, setupMasterPowers.
    apply (foldl_preserves (fun x => (db_ x, arch_ x))).
    intros a master. unfold setupMasterPower.
    destruct (isVdd _ && isGnd _); reflexivity. }
  assert (Hdb1 : db_ o1 = db_ o) by congruence.
  assert (Ha1 : arch_ o1 = Architecture_new) by congruence.
  repeat split; try assumption; try congruence.
  all: rewrite Hdb, Hdb1; reflexivity.
Qed.

(** The rows of the architecture that [import] builds: one per horizontal
    row of the database, in order, clipped; all of them without a label on
    either rail. *)
Lemma import_architecture_rows (o : Optdp) :
  exists minX maxX,
    m_rows (import_architecture o)
    = map (fun row => clipRow minX maxX (archRow row))
          (List.filter isHorizontal (block_rows (db_ o))).
Proof.
  destruct (import_network_state o) as (Hp & Hg & Ha & Hrows & _ & _).
  unfold import_architecture.
  rewrite (buildArchitecture_no_layers _ Hp Hg), Ha, Hrows, addRow_rows.
  unfold clipRows. simpl m_rows at 1.
  rewrite setSurroundingBox_rows. simpl. rewrite map_map. eauto.
Qed.

Lemma foldl_concat_map {A B C : Type} (g : A -> C -> A) (f : B -> list C)
    (l : list B) (a : A) :
  foldl g a (concat (map f l)) = foldl (fun a x => foldl g a (f x)) a l.
Proof.
  revert a. induction l as [|x l IH]; intros a; simpl; [done|].
  by rewrite foldl_app, IH.
Qed.

Lemma foldl_ext_in {A B : Type} (f g : A -> B -> A) (l : list B) (a : A) :
  (forall a x, f a x = g a x) -> foldl f a l = foldl g a l.
Proof.
  intros E. revert a. induction l as [|x l IH]; intros a; simpl; [done|].
  by rewrite E, IH.
Qed.

Lemma foldl_filter_map {A B C : Type} (g : A -> C -> A) (q : B -> bool)
    (f : B -> C) (l : list B) (a : A) :
  foldl g a (map f (List.filter q l))
  = foldl (fun a x => if q x then g a (f x) else a) a l.
Proof.
  revert a. induction l as [|x l IH]; intros a; simpl; [done|].
  destruct (q x); simpl; by rewrite IH.
Qed.

Lemma railSBox_qualifying (pw gn : gset nat) (pwr : RowPower)
    (a : Architecture) (sbox : dbSBox) :
  pwr <> RowPower_UNK ->
  railSBox pw gn pwr a sbox
  = if qualifyingSBox pw gn pwr sbox
    then applyRail a (pwr, sbox_rect sbox) else a.
Proof.
  intros Hpwr. unfold railSBox, qualifyingSBox.
  destruct (sbox_dir sbox); try reflexivity.
  destruct (sbox_isVia sbox); [reflexivity|].
  destruct pwr; [done| |]; simpl.
  - destruct (decide (sbox_layer sbox ∈ pw)) as [Hin|Hin].
    + rewrite (bool_decide_eq_true_2 _ Hin), bool_decide_eq_false_2 by tauto.
      reflexivity.
    + rewrite (bool_decide_eq_false_2 _ Hin), bool_decide_eq_true_2 by tauto.
      reflexivity.
  - destruct (decide (sbox_layer sbox ∈ gn)) as [Hin|Hin].
    + rewrite (bool_decide_eq_true_2 _ Hin), bool_decide_eq_false_2 by tauto.
      reflexivity.
    + rewrite (bool_decide_eq_false_2 _ Hin), bool_decide_eq_true_2 by tauto.
      reflexivity.
Qed.

(** The loop over the nets applies the rails of the nets in order. *)
Lemma railNet_rails (pw gn : gset nat) (a : Architecture) (net : dbNet) :
  railNet pw gn a net = foldl applyRail a (netRails pw gn net).
Proof.
  unfold railNet, netRails, netPower, qualifying, netPower.
  destruct (net_special net); simpl; [|reflexivity].
  assert (Hgo : forall pwr, pwr <> RowPower_UNK ->
            foldl (railSWire pw gn pwr) a (net_swires net)
            = foldl applyRail a
                (map (fun rect => (pwr, rect))
                   (concat
                      (map (fun swire =>
                              match swire_type swire with
                              | ROUTED =>
                                  map sbox_rect
                                    (List.filter (qualifyingSBox pw gn pwr)
                                                 (swire_wires swire))
                              | _ => []
                              end) (net_swires net))))).
  { intros pwr Hpwr. rewrite concat_map, map_map, foldl_concat_map.
    apply foldl_ext_in. intros a' swire. unfold railSWire.
    destruct (swire_type swire); try reflexivity.
    rewrite map_map, foldl_filter_map.
    apply foldl_ext_in. intros a'' sbox.
    by apply railSBox_qualifying. }
  destruct (net_sigType net); simpl; try reflexivity; by apply Hgo.
Qed.

Lemma railNets_rails (pw gn : gset nat) (a : Architecture)
    (nets : list dbNet) :
  foldl (railNet pw gn) a nets = foldl applyRail a (rails pw gn nets).
Proof.
  unfold rails. rewrite foldl_concat_map.
  apply foldl_ext_in. intros a' net. apply railNet_rails.
Qed.

Lemma applyRails_rows (rs : list (RowPower * Rect)) (a : Architecture) :
  m_rows (foldl applyRail a rs)
  = map (fun row => foldl labelRowBy row rs) (m_rows a).
Proof.
  revert a. induction rs as [|rail rs IH]; intros a; simpl.
  - by rewrite map_id.
  - rewrite IH. unfold applyRail, labelRowBy. simpl. by rewrite map_map.
Qed.

Lemma labelRow_geometry (pwr : RowPower) (rect : Rect) (row : Row) :
  getBottom (labelRow pwr rect row) = getBottom row
  /\ getTop (labelRow pwr rect row) = getTop row.
Proof.
  unfold labelRow.
  destruct (containsY rect (getBottom row)), (containsY rect (getTop row));
    split; reflexivity.
Qed.

Lemma labelRow_power (pwr : RowPower) (rect : Rect) (row : Row) :
  m_rowPowerBot (labelRow pwr rect row)
  = (if containsY rect (getBottom row) then pwr else m_rowPowerBot row)
  /\ m_rowPowerTop (labelRow pwr rect row)
     = (if containsY rect (getTop row) then pwr else m_rowPowerTop row).
Proof.
  unfold labelRow.
  destruct (containsY rect (getBottom row)), (containsY rect (getTop row));
    split; reflexivity.
Qed.

(** The label of the bottom (top) rail of a row after the rails [rs]: it
    is set exactly when some rail contains the bottom (top) of the row. *)
Lemma labelRows_set (rs : list (RowPower * Rect)) :
  (forall rail, In rail rs -> fst rail <> RowPower_UNK) ->
  forall row,
    m_rowPowerBot row = RowPower_UNK -> m_rowPowerTop row = RowPower_UNK ->
    (m_rowPowerBot (foldl labelRowBy row rs) <> RowPower_UNK
     <-> exists rail, In rail rs
                      /\ containsY (snd rail) (getBottom row) = true)
    /\ (m_rowPowerTop (foldl labelRowBy row rs) <> RowPower_UNK
        <-> exists rail, In rail rs
                         /\ containsY (snd rail) (getTop row) = true).
Proof.
  intros Hrs row.
  enough (G : forall row0,
             getBottom row0 = getBottom row -> getTop row0 = getTop row ->
             (m_rowPowerBot (foldl labelRowBy row0 rs) <> RowPower_UNK
              <-> m_rowPowerBot row0 <> RowPower_UNK
                  \/ exists rail, In rail rs
                       /\ containsY (snd rail) (getBottom row) = true)
             /\ (m_rowPowerTop (foldl labelRowBy row0 rs) <> RowPower_UNK
                 <-> m_rowPowerTop row0 <> RowPower_UNK
                     \/ exists rail, In rail rs
                          /\ containsY (snd rail) (getTop row) = true)).
  { intros Hb Ht. destruct (G row eq_refl eq_refl) as [Gb Gt].
    rewrite Gb, Gt, Hb, Ht. split; (split; [intros [?|?]; [done|done]|eauto]). }
  induction rs as [|[pwr rect] rs IH]; intros row0 Hb Ht; simpl.
  - split; (split; [tauto|intros [?|(? & [] & _)]; done]).
  - assert (Hpwr : pwr <> RowPower_UNK) by (apply (Hrs (pwr, rect)); simpl; tauto).
    destruct (labelRow_geometry pwr rect row0) as [Hb1 Ht1].
    destruct (IH (fun rail Hin => Hrs rail (or_intror Hin))
                 (labelRowBy row0 (pwr, rect))) as [Gb Gt].
    { unfold labelRowBy. simpl. congruence. }
    { unfold labelRowBy. simpl. congruence. }
    rewrite Gb, Gt. unfold labelRowBy. simpl fst. simpl snd.
    destruct (labelRow_power pwr rect row0) as [-> ->]. rewrite Hb, Ht.
    split.
    + destruct (containsY rect (getBottom row)) eqn:Eb.
      * split; [intros _; right; exists (pwr, rect); simpl; auto|].
        intros _; left; exact Hpwr.
      * split.
        -- intros [?|(rail & Hin & Hc)]; [left; done|].
           right; exists rail; simpl; auto.
        -- intros [?|(rail & [<-|Hin] & Hc)]; [left; done| |right; eauto].
           simpl in Hc. congruence.
    + destruct (containsY rect (getTop row)) eqn:Eb.
      * split; [intros _; right; exists (pwr, rect); simpl; auto|].
        intros _; left; exact Hpwr.
      * split.
        -- intros [?|(rail & Hin & Hc)]; [left; done|].
           right; exists rail; simpl; auto.
        -- intros [?|(rail & [<-|Hin] & Hc)]; [left; done| |right; eauto].
           simpl in Hc. congruence.
Qed.

End Architecture.

Lemma netRails_power (pw gn : gset nat) (net : dbNet)
    (rail : RowPower * Rect) :
  In rail (netRails pw gn net) -> fst rail <> RowPower_UNK.
Proof.
  unfold netRails, netPower.
  destruct (negb (net_special net)); [done|].
  destruct (net_sigType net); try done;
    rewrite in_map_iff; intros (rect & <- & _); done.
Qed.

Lemma rails_power (pw gn : gset nat) (nets : list dbNet)
    (rail : RowPower * Rect) :
  In rail (rails pw gn nets) -> fst rail <> RowPower_UNK.
Proof.
  unfold rails. rewrite in_concat. intros (l & Hl & Hin).
  apply in_map_iff in Hl. destruct Hl as (net & <- & _).
  by apply netRails_power in Hin.
Qed.

Lemma labelRows_geometry (rs : list (RowPower * Rect)) (row : Row) :
  getBottom (foldl labelRowBy row rs) = getBottom row
  /\ getTop (foldl labelRowBy row rs) = getTop row.
Proof.
  revert row. induction rs as [|[pwr rect] rs IH]; intros row; simpl; [done|].
  destruct (IH (labelRowBy row (pwr, rect))) as [-> ->].
  apply labelRow_geometry.
Qed.

(** [createArchitecture] on its own, with the layer sets it finds in the
    object: the bottom (top) rail of a row gets a label exactly when one of
    the qualifying rectangles contains the bottom (top) of the row. *)
Lemma buildArchitecture_labels `{DpoConstants} (o : Optdp) :
  arch_ o = Architecture_new ->
  let rs := rails (pwrLayers_ o) (gndLayers_ o) (block_nets (db_ o)) in
  Forall (fun row =>
            (m_rowPowerBot row <> RowPower_UNK
             <-> exists rail, In rail rs
                   /\ containsY (snd rail) (getBottom row) = true)
            /\ (m_rowPowerTop row <> RowPower_UNK
                <-> exists rail, In rail rs
                      /\ containsY (snd rail) (getTop row) = true))
         (m_rows (buildArchitecture o)).
Proof.
  intros Ha rs. unfold buildArchitecture.
  rewrite railNets_rails, applyRails_rows. fold rs.
  rewrite Ha, addRow_rows. unfold clipRows. simpl m_rows at 1.
  rewrite setSurroundingBox_rows. simpl.
  rewrite List.Forall_forall. intros row Hrow.
  apply in_map_iff in Hrow. destruct Hrow as (row0 & <- & Hrow0).
  destruct (labelRows_geometry rs row0) as [-> ->].
  apply (labelRows_set rs (rails_power _ _ _)).
  - apply in_map_iff in Hrow0. destruct Hrow0 as (row1 & <- & Hrow1).
    apply in_map_iff in Hrow1. destruct Hrow1 as (dbrow & <- & _).
    by rewrite (proj1 (clipRow_power _ _ _)).
  - apply in_map_iff in Hrow0. destruct Hrow0 as (row1 & <- & Hrow1).
    apply in_map_iff in Hrow1. destruct Hrow1 as (dbrow & <- & _).
    by rewrite (proj2 (clipRow_power _ _ _)).
Qed.

(** In [import] the layer sets are empty when the rails are set, and no
    row gets a label. *)
Lemma import_rails_unknown `{DpoConstants} (o : Optdp) :
  Forall (fun row => m_rowPowerBot row = RowPower_UNK
                     /\ m_rowPowerTop row = RowPower_UNK)
         (m_rows (import_architecture o)).
Proof.
  destruct (import_architecture_rows o) as (minX & maxX & ->).
  rewrite List.Forall_forall. intros row Hrow.
  apply in_map_iff in Hrow. destruct Hrow as (dbrow & <- & _).
  destruct (clipRow_power minX maxX (archRow dbrow)) as [-> ->]. done.
Qed.

(** C5 fails on the code.  In the sample block the master has a power pin
    with geometry on layer 1, which [setupMasterPowers] records, and the
    special net VDD has a routed horizontal stripe on layer 1 that contains
    the bottom y = 0 of the row: by the claim the bottom rail of the row is
    VDD.  [createNetwork] empties the layer sets before the rails are set,
    so the row is left without a label, as is every row of every import;
    with the recorded layers put back, [createArchitecture] labels the
    rail. *)
Theorem import_leaves_rails_unknown :
  let o1 := setupMasterPowers (init sample_block) in
  let o2 := @import_network sample_constants (init sample_block) in
  pwrLayers_ o1 = {[1]} /\ gndLayers_ o1 = {[1]}
  /\ rails (pwrLayers_ o1) (gndLayers_ o1) (block_nets sample_block)
     = [(RowPower_VDD, mkRect 0 (-1) 100 1)]
  /\ pwrLayers_ o2 = ∅ /\ gndLayers_ o2 = ∅
  /\ map (fun row => (Qred (getBottom row), m_rowPowerBot row))
         (m_rows (@import_architecture sample_constants (init sample_block)))
     = [(0%Q, RowPower_UNK)]
  /\ map (fun row => (Qred (getBottom row), m_rowPowerBot row))
         (m_rows (@buildArchitecture sample_constants
                    (with_layers (pwrLayers_ o1) (gndLayers_ o1) o2)))
     = [(0%Q, RowPower_VDD)]
  /\ forall (C : DpoConstants) (o : Optdp),
       Forall (fun row => m_rowPowerBot row = RowPower_UNK
                          /\ m_rowPowerTop row = RowPower_UNK)
              (m_rows (@import_architecture C o)).
Proof.
  cbv zeta.
  split; [|split; [|split; [|split; [|split; [|split; [|split]]]]]].
  - vm_compute. reflexivity.
  - vm_compute. reflexivity.
  - vm_compute. reflexivity.
  - exact (proj1 (@import_network_state sample_constants (init sample_block))).
  - exact (proj1 (proj2 (@import_network_state sample_constants
                           (init sample_block)))).
  - vm_compute. reflexivity.
  - vm_compute. reflexivity.
  - intros C o. apply import_rails_unknown.
Qed.

(** C8, as amended.  A database row whose direction is not horizontal adds
    no row to the architecture and the loop goes on with the next row: the
    rows of the architecture are those of the horizontal database rows, in
    order.  No diagnostic is issued: [createArchitecture] logs nothing. *)
Theorem createArchitecture_skips_rows `{DpoConstants} `{External} :
  (forall (a : Architecture) (rows : list dbRow),
      foldl addRow a rows
      = Arch_with_rows
          (m_rows a ++ map archRow (List.filter isHorizontal rows)) a)
  /\ (forall o : Optdp,
         length (m_rows (import_architecture o))
         = length (List.filter isHorizontal (block_rows (db_ o))))
  /\ (forall o : Optdp, log_ (createArchitecture o) = log_ o).
Proof.
  split; [|split].
  - intros a rows. apply addRow_rows.
  - intros o. destruct (import_architecture_rows o) as (minX & maxX & ->).
    by rewrite length_map.
  - intros o. reflexivity.
Qed.

(** C8 as stated fails in one point: no diagnostic comes with the
    rejection.  On a block whose only row is vertical the architecture has
    no row and the log is as it was. *)
Lemma vertical_row_no_diagnostic :
  map row_dir (block_rows vertical_block) = [VERTICAL]
  /\ m_rows (@buildArchitecture sample_constants (init vertical_block)) = []
  /\ log_ (@createArchitecture sample_constants sample_external
             (init vertical_block))
     = log_ (init vertical_block).
Proof. repeat split. Qed.

(** ** Clipping of the rows *)

Open Scope Q_scope.

Lemma Qltb_spec (a b : Q) : if Qltb a b then a < b else b <= a.
Proof. unfold Qltb. by destruct (Qlt_le_dec a b). Qed.





(** Where the extent of the rows disagrees with the die on the left or on
    the right, the die gives the bounds of the architecture. *)
Lemma setSurroundingBox_die `{DpoConstants} (dieRect : Rect)
    (a : Architecture) :
  let '(xmin, xmax, _, _) := surroundingBox (m_rows a) in
  (~ xmin == inject_Z (xMin dieRect) \/ ~ xmax == inject_Z (xMax dieRect)) ->
  m_xmin (setSurroundingBox dieRect a) = inject_Z (xMin dieRect)
  /\ m_xmax (setSurroundingBox dieRect a) = inject_Z (xMax dieRect).
Proof.
  unfold setSurroundingBox.
  destruct (surroundingBox (m_rows a)) as [[[xmin xmax] ymin] ymax].
  intros Hd.
  destruct (Qeq_bool xmin (inject_Z (xMin dieRect))) eqn:E1;
    destruct (Qeq_bool xmax (inject_Z (xMax dieRect))) eqn:E2; simpl;
    try (split; reflexivity).
  apply Qeq_bool_eq in E1, E2. tauto.
Qed.

(** C4 fails on a row that starts to the right of the die.  With the die
    (0,0)-(100,100) and one row of ten sites of pitch 10 from x = 155, the
    bounds of the architecture become those of the die and the row does not
    fit; its origin stays at 155 and its number of sites becomes
    (int)((100 - 155) / 10) = -5, so that origin + numSites * siteSpacing is
    105: beyond the right bound 100, and the row is not within the
    bounds. *)
Theorem row_right_of_die_not_clipped :
  let a := @buildArchitecture sample_constants (init outside_block) in
  Qred (m_xmin a) = 0 /\ Qred (m_xmax a) = 100
  /\ map (fun row => (Qred (getLeft row), m_numSites row,
                      Qred (m_siteSpacing row), Qred (getRight row)))
         (m_rows a)
     = [(155, (-5)%Z, 10, 105)]
  /\ Forall (fun row => ~ getRight row <= m_xmax a) (m_rows a).
Proof.
  cbv zeta. split; [vm_compute; reflexivity|].
  split; [vm_compute; reflexivity|].
  split; [vm_compute; reflexivity|].
  repeat constructor. vm_compute. intros E. apply E. reflexivity.
Qed.

Close Scope Q_scope.

(** ** Regions *)

Section Regions.
Context `{DpoConstants} `{External}.

Lemma option_fmap_same {A : Type} (f : A -> A) (x : option A) :
  (forall a, f a = a) -> f <$> x = x.
Proof. intros Hf. destruct x; simpl; [by rewrite Hf|done]. Qed.

(** What the loops over the regions leave alone. *)
Definition region_frame (o : Optdp) :=
  (db_ o, log_ o, instMap_ o, length (nodes_ o)).

Lemma assignRegion_spec (id : nat) (o : Optdp) (h : nat) :
  region_frame (assignRegion id o h) = region_frame o
  /\ arch_ (assignRegion id o h) = arch_ o
  /\ forall j,
       regionIds (assignRegion id o h) !! j
       = (fun r => if Nat.eqb r 0 && bool_decide (instMap_ o !! h = Some j)
                   then id else r) <$> regionIds o !! j.
Proof.
  unfold assignRegion, region_frame, regionIds, nodes_.
  destruct (instMap_ o !! h) as [it_n|] eqn:Eh.
  - unfold getNode.
    destruct (net_nodes (network_ o) !! it_n) as [nd|] eqn:En; simpl.
    + destruct (Nat.eqb (m_regionId nd) 0) eqn:Er; simpl.
      * rewrite length_insert. split; [done|]. split; [done|].
        intros j. rewrite list_fmap_insert. simpl.
        destruct (decide (it_n = j)) as [<-|Hne].
        -- rewrite list_lookup_insert_eq
             by (rewrite length_fmap; eapply lookup_lt_Some; eauto).
           rewrite list_lookup_fmap, En. simpl.
           by rewrite Er, bool_decide_eq_true_2.
        -- rewrite list_lookup_insert_ne by done.
           rewrite bool_decide_eq_false_2 by congruence.
           symmetry. apply option_fmap_same. intros r.
           by rewrite andb_false_r.
      * split; [done|]. split; [done|]. intros j.
        rewrite list_lookup_fmap.
        destruct (net_nodes (network_ o) !! j) as [ndj|] eqn:Ej; simpl;
          [|done].
        destruct (decide (it_n = j)) as [<-|Hne].
        -- assert (ndj = nd) by congruence. subst ndj. by rewrite Er.
        -- rewrite bool_decide_eq_false_2 by congruence.
           by rewrite andb_false_r.
    + rewrite list_insert_ge by (by apply lookup_ge_None).
      split; [done|]. split; [done|]. intros j.
      rewrite list_lookup_fmap.
      destruct (net_nodes (network_ o) !! j) as [ndj|] eqn:Ej; simpl; [|done].
      rewrite bool_decide_eq_false_2 by congruence.
      by rewrite andb_false_r.
  - split; [done|]. split; [done|]. intros j.
    rewrite bool_decide_eq_false_2 by congruence.
    destruct ((m_regionId <$> net_nodes (network_ o)) !! j); simpl; [|done].
    by rewrite andb_false_r.
Qed.

(** The instances of one group: a node without a region that the group
    lists gets the id of the group. *)
Lemma assignRegions_spec (id : nat) (handles : list nat) :
  forall o : Optdp,
    let o' := foldl (assignRegion id) o handles in
    region_frame o' = region_frame o
    /\ arch_ o' = arch_ o
    /\ forall j,
         regionIds o' !! j
         = (fun r => if Nat.eqb r 0 && listsNode (instMap_ o) j handles
                     then id else r) <$> regionIds o !! j.
Proof.
  induction handles as [|h handles IH]; intros o; simpl.
  - split; [done|]. split; [done|]. intros j.
    destruct (regionIds o !! j); simpl; [|done]. by rewrite andb_false_r.
  - destruct (assignRegion_spec id o h) as (Hf & Ha & Hr).
    destruct (IH (assignRegion id o h)) as (Hf' & Ha' & Hr').
    split; [congruence|]. split; [congruence|]. intros j.
    rewrite Hr', Hr.
    assert (Hm : instMap_ (assignRegion id o h) = instMap_ o)
      by (unfold region_frame in Hf; congruence).
    rewrite Hm.
    destruct (regionIds o !! j) as [r|]; simpl; [|done]. f_equal.
    destruct (Nat.eqb r 0) eqn:Er;
      destruct (bool_decide (instMap_ o !! h = Some j)); simpl;
      rewrite ?Er; simpl; try reflexivity.
    by destruct (Nat.eqb id 0 && _).
Qed.

Lemma setUpRegion_spec (o : Optdp) (count : nat) (g : dbRegion) :
  let r := setUpRegion (o, count) g in
  region_frame (fst r) = region_frame o
  /\ snd r = (if hasParent g then S count else count)
  /\ (exists rg, m_regions (arch_ (fst r))
                 = m_regions (arch_ o) ++ (if hasParent g then [rg] else [])
                 /\ r_id rg = count)
  /\ (m_xmin (arch_ (fst r)), m_xmax (arch_ (fst r)),
      m_ymin (arch_ (fst r)), m_ymax (arch_ (fst r)))
     = (m_xmin (arch_ o), m_xmax (arch_ o), m_ymin (arch_ o), m_ymax (arch_ o))
  /\ forall j,
       regionIds (fst r) !! j
       = (fun rid => if Nat.eqb rid 0 && hasParent g
                        && inGroup (instMap_ o) j g
                     then count else rid) <$> regionIds o !! j.
Proof.
  unfold setUpRegion, hasParent.
  destruct (region_parent g) as [boundaries|]; simpl.
  - set (rptr := foldl _ _ boundaries).
    assert (Hid : r_id rptr = count).
    { unfold rptr.
      apply (foldl_preserves r_id (addBoundary (arch_ o)) boundaries
               (fun _ _ => eq_refl) (Region_setId count Region_new)). }
    rewrite Hid.
    match goal with
    | |- context [foldl (assignRegion count) ?o1 _] =>
        destruct (assignRegions_spec count (region_insts g) o1)
          as (Hf & Ha & Hr)
    end.
    split; [exact Hf|]. split; [reflexivity|]. split.
    { exists rptr. rewrite Ha. split; [reflexivity|exact Hid]. }
    split; [rewrite Ha; reflexivity|].
    intros j. rewrite Hr. unfold inGroup.
    change (regionIds (with_arch _ o)) with (regionIds o).
    destruct (regionIds o !! j) as [rid|]; simpl; [|done].
    by rewrite andb_true_r.
  - split; [reflexivity|]. split; [reflexivity|]. split.
    { exists (Region_setId count Region_new). by rewrite app_nil_r. }
    split; [reflexivity|]. intros j.
    symmetry. apply option_fmap_same. intros rid.
    by rewrite andb_false_r.
Qed.

(** The loop over the database regions: a node without a region gets the
    id of the first group that lists it. *)
Lemma setUpRegions_spec (regions : list dbRegion) :
  forall (o : Optdp) (count : nat),
    1 <= count ->
    let r := foldl setUpRegion (o, count) regions in
    region_frame (fst r) = region_frame o
    /\ (exists rgs,
          m_regions (arch_ (fst r)) = m_regions (arch_ o) ++ rgs
          /\ map r_id rgs
             = seq count (length (List.filter hasParent regions)))
    /\ forall j,
         regionIds (fst r) !! j
         = (fun rid => if Nat.eqb rid 0
                       then regionOf (instMap_ o) j count regions else rid)
           <$> regionIds o !! j.
Proof.
  induction regions as [|g regions IH]; intros o count Hc.
  - simpl. split; [done|]. split.
    { exists []. by rewrite app_nil_r. }
    intros j. symmetry. apply option_fmap_same. intros rid.
    by destruct (Nat.eqb rid 0) eqn:E; [apply Nat.eqb_eq in E|].
  - change (foldl setUpRegion (o, count) (g :: regions))
      with (foldl setUpRegion (setUpRegion (o, count) g) regions).
    destruct (setUpRegion_spec o count g)
      as (Hf & Hn & (rg & Hrg & Hid) & _ & Hr).
    destruct (setUpRegion (o, count) g) as [o1 c1].
    simpl fst in *. simpl snd in *.
    assert (Hc1 : 1 <= c1) by (subst c1; destruct (hasParent g); lia).
    destruct (IH o1 c1 Hc1) as (Hf' & (rgs & Hrgs & Hids) & Hr').
    assert (Hm : instMap_ o1 = instMap_ o)
      by (unfold region_frame in Hf; congruence).
    split; [congruence|]. split.
    + exists ((if hasParent g then [rg] else []) ++ rgs).
      rewrite Hrgs, Hrg, <- app_assoc. split; [done|].
      rewrite map_app, Hids. simpl. subst c1.
      destruct (hasParent g); simpl; [by rewrite Hid|done].
    + intros j. rewrite Hr', Hr, Hm.
      destruct (regionIds o !! j) as [rid|]; simpl; [|done]. f_equal.
      unfold hasParent in *. subst c1.
      destruct (Nat.eqb rid 0) eqn:Er; simpl.
      * destruct (region_parent g); simpl; [|by rewrite Er].
        destruct (inGroup (instMap_ o) j g); simpl; [|by rewrite Er].
        destruct (Nat.eqb count 0) eqn:E0; [|reflexivity].
        apply Nat.eqb_eq in E0. lia.
      * by rewrite Er.
Qed.

Lemma setUpPlacementRegions_spec (o : Optdp) :
  let o' := setUpPlacementRegions o in
  (db_ o' = db_ o /\ instMap_ o' = instMap_ o
   /\ length (nodes_ o') = length (nodes_ o))
  /\ (exists rgs,
        m_regions (arch_ o')
        = m_regions (arch_ o) ++ defaultRegion (arch_ o) :: rgs
        /\ map r_id rgs
           = seq 1 (length (List.filter hasParent (block_regions (db_ o)))))
  /\ forall j,
       regionIds o' !! j
       = (fun rid => if Nat.eqb rid 0
                     then regionOf (instMap_ o) j 1 (block_regions (db_ o))
                     else rid)
         <$> regionIds o !! j.
Proof.
  unfold setUpPlacementRegions.
  set (o0 := with_arch _ o).
  change (block_regions (db_ o0)) with (block_regions (db_ o)).
  destruct (setUpRegions_spec (block_regions (db_ o)) o0 1 (le_n 1))
    as (Hf & (rgs & Hrgs & Hids) & Hr).
  destruct (foldl setUpRegion (o0, 1) (block_regions (db_ o))) as [o1 c1].
  simpl fst in *. unfold region_frame in Hf.
  injection Hf as Hdb _ Hm Hlen. simpl.
  split; [repeat split; assumption|]. split.
  - exists rgs. rewrite Hrgs. unfold o0. simpl.
    rewrite <- app_assoc. done.
  - intros j. unfold regionIds, nodes_ in *. simpl. apply Hr.
Qed.

End Regions.

Lemma createNetwork_regionIds `{DpoConstants} (o : Optdp) :
  Forall (fun r => r = 0) (regionIds (createNetwork o)).
Proof.
  unfold createNetwork, regionIds.
  destruct (createNetwork_run o) as (_ & Hlen & Hcells & Hterms & _).
  apply Forall_fmap, Forall_lookup. intros j nd Hj. simpl.
  assert (Hlt : j < length (nodes_ (c_o (createNetwork_locals o))))
    by (eapply lookup_lt_Some; eauto).
  rewrite Hlen in Hlt.
  assert (Hrid : forall nd', Node_core nd = Node_core nd' ->
                             m_regionId nd = m_regionId nd').
  { intros nd' E.
    change (m_regionId (Node_core nd) = m_regionId (Node_core nd')).
    by rewrite E. }
  destruct (decide (j < length (cells (block_insts (db_ o))))) as [Hc|Hc].
  - destruct (lookup_lt_is_Some_2 _ _ Hc) as [inst Hinst].
    destruct (Hcells j inst Hinst) as (nd' & Hnd' & Hcore).
    assert (nd' = nd) by congruence. subst nd'.
    rewrite (Hrid _ Hcore). unfold cellNode.
    by destruct (masterPwrs_ o !! _) as [[? ?]|].
  - set (i := j - length (cells (block_insts (db_ o)))).
    assert (Hi : i < length (block_bterms (db_ o))) by (unfold i; lia).
    destruct (lookup_lt_is_Some_2 _ _ Hi) as [bterm Hbterm].
    destruct (Hterms i bterm Hbterm) as (nd' & Hnd' & Hcore).
    replace (length (cells (block_insts (db_ o))) + i) with j in *
      by (unfold i; lia).
    assert (nd' = nd) by congruence. subst nd'.
    by rewrite (Hrid _ Hcore).
Qed.

Lemma import_network_regionIds `{DpoConstants} (o : Optdp) :
  Forall (fun r => r = 0) (regionIds (import_network o)).
Proof. unfold import_network. apply createNetwork_regionIds. Qed.

Section ImportRegions.
Context `{DpoConstants} `{External}.

Lemma initPadding_frame (o : Optdp) :
  db_ (initPadding o) = db_ o /\ log_ (initPadding o) = log_ o
  /\ network_ (initPadding o) = network_ o
  /\ instMap_ (initPadding o) = instMap_ o.
Proof.
  assert (Hpad : forall w a inst,
             (db_ (padInst w a inst), log_ (padInst w a inst),
              network_ (padInst w a inst), instMap_ (padInst w a inst))
             = (db_ a, log_ a, network_ a, instMap_ a)).
  { intros w a inst. unfold padInst. by destruct (instMap_ a !! inst_id inst). }
  unfold initPadding.
  set (o1 := with_arch (init_edge_type (setUseFlags false true (arch_ o))) o).
  change (block_rows (db_ o1)) with (block_rows (db_ o)).
  change (block_insts (db_ o1)) with (block_insts (db_ o)).
  destruct (block_rows (db_ o)) as [|row rows]; [by repeat split|].
  set (w := site_width (row_site row)).
  repeat split.
  - rewrite (foldl_preserves db_ (padInst w)); [reflexivity|].
    intros a inst. specialize (Hpad w a inst). congruence.
  - rewrite (foldl_preserves log_ (padInst w)); [reflexivity|].
    intros a inst. specialize (Hpad w a inst). congruence.
  - rewrite (foldl_preserves network_ (padInst w)); [reflexivity|].
    intros a inst. specialize (Hpad w a inst). congruence.
  - rewrite (foldl_preserves instMap_ (padInst w)); [reflexivity|].
    intros a inst. specialize (Hpad w a inst). congruence.
Qed.

Lemma import_network_db (o : Optdp) :
  block_regions (db_ (import_network o)) = block_regions (db_ o).
Proof.
  unfold import_network, createNetwork.
  match goal with
  | |- context [createNetwork_locals ?x] =>
      destruct (createNetwork_run x) as ((Hdb1 & _) & _); set (o1 := x) in *
  end.
  rewrite Hdb1.
  change (block_regions (block_with_insts _ (db_ o1)))
    with (block_regions (db_ o1)).
  unfold o1, setupMasterPowers.
  rewrite (foldl_preserves db_ setupMasterPower); [reflexivity|].
  intros a master. unfold setupMasterPower.
  destruct (isVdd _ && isGnd _); reflexivity.
Qed.

Lemma import_padded_state (o : Optdp) :
  network_ (import_padded o) = network_ (import_network o)
  /\ instMap_ (import_padded o) = instMap_ (import_network o)
  /\ block_regions (db_ (import_padded o)) = block_regions (db_ o).
Proof.
  unfold import_padded.
  destruct (initPadding_frame (createArchitecture (import_network o)))
    as (Hdb & _ & Hnw & Hm).
  rewrite Hdb, Hnw, Hm. rewrite <- (import_network_db o).
  generalize (import_network o). intros x.
  split; [reflexivity|]. split; reflexivity.
Qed.

Lemma import_eq (o : Optdp) :
  import o = setUpPlacementRegions (import_padded o).
Proof.
  unfold import, import_padded, import_network. cbv zeta. reflexivity.
Qed.

End ImportRegions.

(** A node that no group lists has the region 0. *)
Lemma regionOf_ungrouped (m : gmap nat nat) (j : nat)
    (regions : list dbRegion) :
  forall count,
    forallb (fun g => negb (hasParent g && inGroup m j g)) regions = true ->
    regionOf m j count regions = 0.
Proof.
  induction regions as [|g regions IH]; intros count; simpl; [done|].
  rewrite andb_true_iff, negb_true_iff. intros [Hg Hrest].
  unfold hasParent in Hg.
  destruct (region_parent g); simpl in Hg; [rewrite Hg|]; by apply IH.
Qed.

(** A node that some group lists has the id of the first such group, which
    is not 0. *)
Lemma regionOf_grouped (m : gmap nat nat) (j : nat)
    (regions : list dbRegion) :
  forall count,
    1 <= count ->
    existsb (fun g => hasParent g && inGroup m j g) regions = true ->
    count <= regionOf m j count regions
    /\ regionOf m j count regions
       < count + length (List.filter hasParent regions).
Proof.
  induction regions as [|g regions IH]; intros count Hc; simpl; [done|].
  unfold hasParent at 1 3.
  destruct (region_parent g); simpl.
  - destruct (inGroup m j g); simpl; [lia|].
    intros Hex. destruct (IH (S count)); [lia|exact Hex|lia].
  - intros Hex. by apply IH.
Qed.

(** C9. Before the regions are set up every node of the import has the
    region id 0.  [setUpPlacementRegions] creates the region 0 first, with
    the bounding box of the architecture as its one rectangle, and then
    one region per database group, with the ids 1, 2, ...; afterwards the
    region id of every node is the id of the first group that lists it,
    and 0 for a node that no group lists. *)
Theorem import_region_ids `{DpoConstants} `{External} (o : Optdp) :
  let pre := import_padded o in
  let o' := import o in
  let groups := List.filter hasParent (block_regions (db_ o)) in
  Forall (fun r => r = 0) (regionIds pre)
  /\ (exists rgs,
        m_regions (arch_ o')
        = m_regions (arch_ pre) ++ defaultRegion (arch_ pre) :: rgs
        /\ map r_id rgs = seq 1 (length groups))
  /\ r_id (defaultRegion (arch_ pre)) = 0
  /\ r_rects (defaultRegion (arch_ pre))
     = [mkRectangle (m_xmin (arch_ pre)) (m_ymin (arch_ pre))
                    (m_xmax (arch_ pre)) (m_ymax (arch_ pre))]
  /\ regionIds o'
     = (fun j => regionOf (instMap_ o') j 1 (block_regions (db_ o)))
       <$> seq 0 (length (nodes_ o')).
Proof.
  intros pre o' groups.
  assert (Ho' : o' = setUpPlacementRegions pre) by apply import_eq.
  destruct (import_padded_state o) as (Hnw & Hm & Hreg).
  fold pre in Hnw, Hm, Hreg.
  assert (Hzero : Forall (fun r => r = 0) (regionIds pre)).
  { replace (regionIds pre) with (regionIds (import_network o))
      by (unfold regionIds, nodes_; by rewrite Hnw).
    apply import_network_regionIds. }
  clear Hnw Hm. clearbody pre o'. subst o' groups.
  destruct (setUpPlacementRegions_spec pre)
    as ((Hdb' & Hm' & Hlen') & (rgs & Hrgs & Hids) & Hr).
  rewrite Hreg in Hids, Hr.
  set (o' := setUpPlacementRegions pre) in *. clearbody o'.
  split; [exact Hzero|]. split; [exists rgs; split; assumption|].
  split; [reflexivity|]. split; [reflexivity|].
  apply list_eq. intros j. rewrite Hr, Hm', list_lookup_fmap.
  destruct (decide (j < length (nodes_ pre))) as [Hlt|Hge].
  - assert (Hj : exists r, regionIds pre !! j = Some r).
    { apply lookup_lt_is_Some. unfold regionIds. by rewrite length_fmap. }
    destruct Hj as [r Hj]. rewrite Hj.
    rewrite Forall_lookup in Hzero. rewrite (Hzero j r Hj). simpl.
    rewrite Hlen', lookup_seq_lt by exact Hlt. reflexivity.
  - rewrite (lookup_ge_None_2 (regionIds pre))
      by (unfold regionIds; rewrite length_fmap; lia).
    rewrite Hlen', lookup_seq_ge by lia. reflexivity.
Qed.

(** ** Write-back *)

Lemma Qtrunc_integral (q : Q) (k : Z) : (q == inject_Z k)%Q -> Qtrunc q = k.
Proof.
  destruct q as [n d]. unfold Qeq, Qtrunc. simpl. intros E.
  rewrite Z.mul_1_r in E. subst n. apply Z.quot_mul. lia.
Qed.


(** The orientations of the database that stand for the four orientations
    a cell can take. *)
Lemma dbOrient_flags `{DpoConstants} `{External} :
  disjoint_flags orientation_flags ->
  dbOrient Orientation_N = R0 /\ dbOrient Orientation_FN = MY
  /\ dbOrient Orientation_FS = MX /\ dbOrient Orientation_S = R180.
Proof.
  intros Hflags.
  assert (Hne : forall i j a b, i <> j ->
            orientation_flags !! i = Some a ->
            orientation_flags !! j = Some b -> Z.eqb a b = false).
  { intros i j a b Hij Hi Hj. apply Z.eqb_neq. intros ->.
    destruct Hflags as [Hnz Hdis].
    specialize (Hdis i j b b Hij Hi Hj). rewrite Z.land_diag in Hdis.
    apply (Hnz b); [|exact Hdis].
    apply list_elem_of_In. eapply list_elem_of_lookup_2; eauto. }
  unfold dbOrient. rewrite !Z.eqb_refl.
  rewrite (Hne 4 0 Orientation_FN Orientation_N) by done.
  rewrite (Hne 6 0 Orientation_FS Orientation_N) by done.
  rewrite (Hne 6 4 Orientation_FS Orientation_FN) by done.
  rewrite (Hne 2 0 Orientation_S Orientation_N) by done.
  rewrite (Hne 2 4 Orientation_S Orientation_FN) by done.
  rewrite (Hne 2 6 Orientation_S Orientation_FS) by done.
  done.
Qed.

(** One round of the write-back for an instance that has a node. *)
Lemma updateDbInst_eq `{DpoConstants} `{External} (o : Optdp) (inst : dbInst)
    (it_n : nat) :
  skipInst inst = false ->
  instMap_ o !! inst_id inst = Some it_n ->
  let nd := getNode (network_ o) it_n in
  let x := Qtrunc (m_x nd - half * m_w nd) in
  let y := Qtrunc (m_y nd - half * m_h nd) in
  let orient := dbOrient (m_currOrient nd) in
  let same := dbOrientType_eqb (inst_orient inst) orient in
  let inst1 := if same then inst else setOrient orient inst in
  let moved := negb (Z.eqb x (fst (getLocation inst1)))
               || negb (Z.eqb y (snd (getLocation inst1))) in
  updateDbInst o inst
  = (if moved then setLocation x y inst1 else inst1,
     (if same then [] else [SetOrient (inst_id inst) orient])
     ++ (if moved then [SetLocation (inst_id inst) x y] else [])).
Proof.
  intros Hskip Hit nd x y orient same inst1 moved.
  unfold updateDbInst. rewrite Hskip, Hit.
  fold nd. fold x. fold y. fold orient. fold same.
  subst moved inst1. destruct same; cbn [negb].
  - destruct (getLocation inst) as [lx ly]. cbn [fst snd].
    destruct (negb (Z.eqb x lx) || negb (Z.eqb y ly)); reflexivity.
  - destruct (getLocation (setOrient orient inst)) as [lx ly]. cbn [fst snd].
    destruct (negb (Z.eqb x lx) || negb (Z.eqb y ly)); reflexivity.
Qed.




(** ** The driver *)

(** The object that [improvePlacement] returns on a design whose half
    perimeter wirelength is zero. *)
Lemma improvePlacement_skip `{DpoConstants} `{External} (o : Optdp) :
  hpwl (db_ o) = 0%Z ->
  improvePlacement o
  = mkOptdp (db_ o)
      (log_ o
       ++ [report "Detailed placement improvement." [];
           report "Skipping detailed improvement since hpwl is zero." [];
           report "Detailed Improvement Results" [];
           report "------------------------------------------" [];
           report "Original HPWL         {:10.1f} u"
                  [(inject_Z 0 / inject_Z (block_dbuPerMicron (db_ o)))%Q];
           report "Final HPWL            {:10.1f} u"
                  [(inject_Z 0 / inject_Z (block_dbuPerMicron (db_ o)))%Q];
           report "Delta HPWL            {:10.1f} %" [0%Q];
           report EmptyString []])
      (network_ o) (arch_ o) (instMap_ o) (termMap_ o) (netMap_ o)
      (masterPwrs_ o) (pwrLayers_ o) (gndLayers_ o) 0 0.
Proof.
  intros Hz. destruct o as [db lg nw ar im tm nm mp pl gl hb ha].
  cbn [db_] in Hz.
  unfold improvePlacement. cbv zeta.
  set (o1 := logger_ (report "Detailed placement improvement." []) _).
  set (o2 := with_hpwl (hpwl (db_ o1)) (hpwlAfter_ o1) o1).
  change (hpwlBefore_ o2) with (hpwl db). rewrite Hz.
  change (negb (0 =? 0)%Z) with false. cbv iota.
  subst o2 o1.
  cbv beta iota delta
      [logger_ with_hpwl db_ log_ network_ arch_ instMap_ termMap_ netMap_
       masterPwrs_ pwrLayers_ gndLayers_ hpwlBefore_ hpwlAfter_].
  rewrite Hz. change (0 =? 0)%Z with true. cbv iota.
  rewrite <- !app_assoc. reflexivity.
Qed.

(** C10. When the half perimeter wirelength of the design is zero,
    [improvePlacement] only reports: the database, and with it the location
    and the orientation of every instance, the network, the architecture
    and the maps are as before; nothing is imported (the log gets the eight
    lines below and no line of the import), the final wirelength is the
    initial one, and the result is the same whatever the legalizer and the
    optimizer are. *)
Theorem improvePlacement_zero_hpwl `{DpoConstants} `{External} (o : Optdp) :
  hpwl (db_ o) = 0%Z ->
  let o' := improvePlacement o in
  let dbu_micron := inject_Z (block_dbuPerMicron (db_ o)) in
  db_ o' = db_ o
  /\ (network_ o' = network_ o /\ arch_ o' = arch_ o
      /\ instMap_ o' = instMap_ o /\ termMap_ o' = termMap_ o
      /\ netMap_ o' = netMap_ o /\ masterPwrs_ o' = masterPwrs_ o
      /\ pwrLayers_ o' = pwrLayers_ o /\ gndLayers_ o' = gndLayers_ o)
  /\ hpwlBefore_ o' = 0%Z /\ hpwlAfter_ o' = hpwlBefore_ o'
  /\ log_ o'
     = log_ o
       ++ [report "Detailed placement improvement." [];
           report "Skipping detailed improvement since hpwl is zero." [];
           report "Detailed Improvement Results" [];
           report "------------------------------------------" [];
           report "Original HPWL         {:10.1f} u"
                  [(inject_Z (hpwlBefore_ o') / dbu_micron)%Q];
           report "Final HPWL            {:10.1f} u"
                  [(inject_Z (hpwlBefore_ o') / dbu_micron)%Q];
           report "Delta HPWL            {:10.1f} %" [0%Q];
           report EmptyString []]
  /\ forall E' : External,
       @hpwl E' (db_ o) = 0%Z -> @improvePlacement _ E' o = o'.
Proof.
  intros Hz o' dbu. subst o' dbu. rewrite (improvePlacement_skip o Hz).
  cbn [db_ log_ network_ arch_ instMap_ termMap_ netMap_ masterPwrs_
       pwrLayers_ gndLayers_ hpwlBefore_ hpwlAfter_].
  repeat split; try reflexivity.
  intros E' Hz'. apply (@improvePlacement_skip _ E' o Hz').
Qed.

Lemma improvePlacement_zero_hpwl_witness :
  block_insts idle_block = [sample_inst]
  /\ inst_orient sample_inst = MX
  /\ @hpwl sample_external (db_ (init idle_block)) = 0%Z
  /\ block_insts
       (db_ (@improvePlacement sample_constants sample_external
               (init idle_block)))
     = [sample_inst]
  /\ network_ (@improvePlacement sample_constants sample_external
                 (init idle_block)) = Network_new
  /\ hpwlAfter_ (@improvePlacement sample_constants sample_external
                   (init idle_block)) = 0%Z
  /\ length (log_ (@improvePlacement sample_constants sample_external
                     (init idle_block))) = 8
  /\ inst_orient
       <$> block_insts
             (db_ (@import sample_constants sample_external
                     (init idle_block)))
     = [R0]
  /\ length (nodes_ (@import sample_constants sample_external
                       (init idle_block))) = 1.
Proof.
  assert (H1 : @hpwl sample_external (db_ (init idle_block)) = 0%Z)
    by reflexivity.
  split; [reflexivity|]. split; [reflexivity|]. split; [exact H1|].
  destruct (@improvePlacement_zero_hpwl sample_constants sample_external
              (init idle_block) H1)
    as (Hdb & (Hnw & _) & Hb & Ha & Hlog & _).
  split; [rewrite Hdb; reflexivity|]. split; [exact Hnw|].
  split; [rewrite Ha; exact Hb|]. split; [rewrite Hlog; reflexivity|].
  split; vm_compute; reflexivity.
Defined.

(** * Further properties of the import and of the write-back *)

(** ** The node maps *)

Section NodeMaps.
Context `{DpoConstants}.

Lemma populateInst_instMap (insts : list dbInst) :
  forall (o o' : Optdp) (n n' : nat),
    foldl populateInst (o, n) insts = (o', n') ->
    (forall h, ~ In h (map inst_id (cells insts)) ->
               instMap_ o' !! h = instMap_ o !! h)
    /\ (NoDup (map inst_id (cells insts)) ->
        forall i inst, cells insts !! i = Some inst ->
                       instMap_ o' !! inst_id inst = Some (n + i)).
Proof.
  induction insts as [|inst insts IH]; intros o o' n n' Hfold.
  - simpl in Hfold. inversion Hfold; subst. split; [done|].
    intros _ i inst Hi. by destruct i.
  - change (foldl populateInst (populateInst (o, n) inst) insts = (o', n'))
      in Hfold.
    rewrite cells_cons.
    destruct (skipInst inst) eqn:Hskip.
    + rewrite populateInst_skip in Hfold by done. exact (IH _ _ _ _ Hfold).
    + rewrite populateInst_cell in Hfold by done. cbv zeta in Hfold.
      set (o1 := with_network _ _) in Hfold.
      destruct (IH _ _ _ _ Hfold) as (Hout & Hin).
      assert (Hm1 : instMap_ o1 = <[inst_id inst := n]> (instMap_ o))
        by reflexivity.
      split.
      * intros h Hh. simpl in Hh. rewrite Hout by tauto.
        rewrite Hm1. apply lookup_insert_ne. tauto.
      * intros Hnd. simpl in Hnd. apply NoDup_cons in Hnd.
        destruct Hnd as [Hnotin Hnd]. intros [|i] inst' Hi; simpl in Hi.
        -- inversion Hi; subst inst'. rewrite Nat.add_0_r.
           rewrite Hout; [rewrite Hm1; apply lookup_insert_eq|].
           intros Hc. apply Hnotin. by apply list_elem_of_In.
        -- replace (n + S i) with (S n + i) by lia. by apply Hin.
Qed.

Lemma populateBTerm_termMap (bterms : list dbBTerm) :
  forall (o o' : Optdp) (n n' : nat),
    foldl populateBTerm (o, n) bterms = (o', n') ->
    (forall h, ~ In h (map bterm_id bterms) ->
               termMap_ o' !! h = termMap_ o !! h)
    /\ (NoDup (map bterm_id bterms) ->
        forall i bterm, bterms !! i = Some bterm ->
                        termMap_ o' !! bterm_id bterm = Some (n + i)).
Proof.
  induction bterms as [|bterm bterms IH]; intros o o' n n' Hfold.
  - simpl in Hfold. inversion Hfold; subst. split; [done|].
    intros _ i bt Hi. by destruct i.
  - change (foldl populateBTerm (populateBTerm (o, n) bterm) bterms
            = (o', n')) in Hfold.
    unfold populateBTerm at 2 in Hfold.
    set (o1 := with_network _ _) in Hfold.
    destruct (IH _ _ _ _ Hfold) as (Hout & Hin).
    assert (Hm1 : termMap_ o1 = <[bterm_id bterm := n]> (termMap_ o))
      by reflexivity.
    split.
    + intros h Hh. simpl in Hh. rewrite Hout by tauto.
      rewrite Hm1. apply lookup_insert_ne. tauto.
    + intros Hnd. simpl in Hnd. apply NoDup_cons in Hnd.
      destruct Hnd as [Hnotin Hnd]. intros [|i] bt Hi; simpl in Hi.
      * inversion Hi; subst bt. rewrite Nat.add_0_r.
        rewrite Hout; [rewrite Hm1; apply lookup_insert_eq|].
        intros Hc. apply Hnotin. by apply list_elem_of_In.
      * replace (n + S i) with (S n + i) by lia. by apply Hin.
Qed.

(** The maps of the object after [createNetwork] are those after the
    population of the nodes. *)
Lemma createNetwork_maps_eq (o : Optdp) :
  let k := countNetwork (db_ o) in
  let o0 := allocateNetwork k (with_layers ∅ ∅ o) in
  instMap_ (createNetwork o) = instMap_ (fst (populateNodes o0))
  /\ termMap_ (createNetwork o) = termMap_ (fst (populateNodes o0)).
Proof.
  intros k o0. unfold createNetwork.
  assert (Hceq := createNetwork_locals_eq o). cbv zeta in Hceq.
  fold k o0 in Hceq.
  set (c1 := mkConn (fst (populateNodes o0)) 0 0) in *.
  pose proof (connectNets_steps (block_nets (db_ o)) c1 0)
    as (_ & (Hf2 & _) & _).
  set (c2 := fst (foldl connectNet (c1, 0) (block_nets (db_ o)))) in *.
  match type of Hceq with
  | _ = reportNetwork (expectCount ?a ?b ?msg c2) =>
      pose proof (expectCount_logs a b msg c2 eq_refl) as (_ & Hf3 & _);
      set (c3 := expectCount a b msg c2) in *
  end.
  pose proof (reportNetwork_logs c3) as ((_ & Hf4 & _) & _).
  rewrite Hceq.
  assert (Hfc : conn_frame (c_o (reportNetwork c3)) = conn_frame (c_o c2))
    by congruence.
  apply conn_frame_net_frame in Hfc.
  assert (Hfn : net_frame (c_o (reportNetwork c3)) = net_frame (c_o c1))
    by congruence.
  unfold net_frame in Hfn. change (c_o c1) with (fst (populateNodes o0)) in Hfn.
  split; congruence.
Qed.

End NodeMaps.

Section ImportedNodes.
Context `{DpoConstants}.

Lemma inst_id_reset (l : list dbInst) :
  map inst_id (map (setLocationOrient R0) l) = map inst_id l.
Proof. rewrite map_map. reflexivity. Qed.

(** The two maps after [createNetwork]: handles of placeable instances
    and of terminals are sent to the indices of their nodes, all other
    handles keep their entry. *)
Lemma createNetwork_maps (o : Optdp) :
  let o' := createNetwork o in
  let cs := cells (block_insts (db_ o)) in
  let bs := block_bterms (db_ o) in
  (forall h, ~ In h (map inst_id cs) -> instMap_ o' !! h = instMap_ o !! h)
  /\ (NoDup (map inst_id cs) ->
      forall i inst, cs !! i = Some inst ->
                     instMap_ o' !! inst_id inst = Some i)
  /\ (forall h, ~ In h (map bterm_id bs) ->
                termMap_ o' !! h = termMap_ o !! h)
  /\ (NoDup (map bterm_id bs) ->
      forall i bt, bs !! i = Some bt ->
                   termMap_ o' !! bterm_id bt = Some (length cs + i)).
Proof.
  intros o' cs bs.
  destruct (createNetwork_maps_eq o) as [Hi Ht]. cbv zeta in Hi, Ht.
  fold o' in Hi, Ht. rewrite Hi, Ht. clear Hi Ht. clearbody o'.
  set (o0 := allocateNetwork (countNetwork (db_ o)) (with_layers ∅ ∅ o)).
  assert (Hdb0 : db_ o0
                 = block_with_insts (map resetOrient (block_insts (db_ o)))
                                    (db_ o)) by reflexivity.
  assert (Hi0 : instMap_ o0 = instMap_ o) by reflexivity.
  assert (Ht0 : termMap_ o0 = termMap_ o) by reflexivity.
  assert (Hcs0 : map inst_id (cells (block_insts (db_ o0)))
                 = map inst_id cs).
  { rewrite Hdb0. simpl. rewrite cells_resetOrient. apply inst_id_reset. }
  assert (Hlen0 : length (cells (block_insts (db_ o0))) = length cs).
  { rewrite <- (length_map inst_id), Hcs0. apply length_map. }
  assert (Hbs0 : block_bterms (db_ o0) = bs) by (rewrite Hdb0; reflexivity).
  unfold populateNodes. rewrite Hbs0.
  clearbody o0.
  destruct (foldl populateInst (o0, 0) (block_insts (db_ o0)))
    as [o1 n1] eqn:E1.
  destruct (populateInst_instMap _ _ _ _ _ E1) as [Hout Hin].
  destruct (populateInst_nodes _ _ _ _ _ E1) as (Hn1 & _).
  pose proof (populateInst_frame (block_insts (db_ o0)) (o0, 0)) as [_ Htm].
  rewrite E1 in Htm. simpl in Htm.
  pose proof (populateBTerm_frame bs (o1, n1)) as [_ Him]. simpl in Him.
  destruct (foldl populateBTerm (o1, n1) bs) as [o2 n2] eqn:E2.
  destruct (populateBTerm_termMap _ _ _ _ _ E2) as [Hout2 Hin2].
  simpl in Him. simpl.
  rewrite Hcs0 in Hout, Hin. rewrite Hi0 in Hout. rewrite Htm, Ht0 in Hout2.
  rewrite Him. rewrite Hn1, Hlen0 in Hin2. simpl in Hin2.
  split; [exact Hout|]. split.
  - intros Hnd i inst Hl.
    assert (Hl' : cells (block_insts (db_ o0)) !! i
                  = Some (setLocationOrient R0 inst)).
    { rewrite Hdb0. simpl. rewrite cells_resetOrient, list_lookup_fmap.
      fold cs. by rewrite Hl. }
    exact (Hin Hnd i _ Hl').
  - split; [exact Hout2|exact Hin2].
Qed.

Lemma corner_round_trip (a w : Z) :
  Qtrunc (inject_Z a + half * inject_Z w - half * inject_Z w) = a.
Proof. apply Qtrunc_integral. ring. Qed.

(** X1. The cell nodes of the import: the i-th instance that is core or
    block gets node i, with the width and height of its master, its
    centre at the lower left corner of the instance plus half the width
    and half the height (also as original position), fixed exactly when
    the instance is, the rails recorded for its master (unknown when none
    is recorded) and region 0; the corner computed back from the node is
    the location of the instance. *)
Theorem createNetwork_cell_nodes (o : Optdp) (i : nat) (inst : dbInst) :
  cells (block_insts (db_ o)) !! i = Some inst ->
  exists nd,
    nodes_ (createNetwork o) !! i = Some nd
    /\ m_id nd = i
    /\ m_fixed nd = (if inst_fixed inst then NodeFixed_FIXED_XY
                     else NodeFixed_NOT_FIXED)
    /\ m_w nd = inject_Z (master_width (inst_master inst))
    /\ m_h nd = inject_Z (master_height (inst_master inst))
    /\ m_x nd = (inject_Z (inst_x inst)
                 + half * inject_Z (master_width (inst_master inst)))%Q
    /\ m_y nd = (inject_Z (inst_y inst)
                 + half * inject_Z (master_height (inst_master inst)))%Q
    /\ m_origX nd = m_x nd /\ m_origY nd = m_y nd
    /\ (m_powerTop nd, m_powerBot nd)
       = default (RowPower_UNK, RowPower_UNK)
                 (masterPwrs_ o !! master_id (inst_master inst))
    /\ m_regionId nd = 0
    /\ Qtrunc (m_x nd - half * m_w nd) = inst_x inst
    /\ Qtrunc (m_y nd - half * m_h nd) = inst_y inst.
Proof.
  intros Hi.
  destruct (createNetwork_run o) as (_ & _ & Hc & _). cbv zeta in Hc.
  destruct (Hc i inst Hi) as (nd & Hnd & Hcore).
  exists nd. split; [exact Hnd|].
  set (cn := cellNode o (setLocationOrient R0 inst) i) in Hcore.
  assert (Hf : forall A (f : Node -> A),
             (forall x, f (Node_core x) = f x) -> f nd = f cn).
  { intros A f Hfc. rewrite <- (Hfc nd), <- (Hfc cn). by rewrite Hcore. }
  rewrite (Hf _ m_id), (Hf _ m_fixed), (Hf _ m_w), (Hf _ m_h), (Hf _ m_x),
    (Hf _ m_y), (Hf _ m_origX), (Hf _ m_origY), (Hf _ m_powerTop),
    (Hf _ m_powerBot), (Hf _ m_regionId) by reflexivity.
  subst cn. unfold cellNode. cbv zeta.
  change (inst_master (setLocationOrient R0 inst)) with (inst_master inst).
  change (inst_fixed (setLocationOrient R0 inst)) with (inst_fixed inst).
  change (inst_x (setLocationOrient R0 inst)) with (inst_x inst).
  change (inst_y (setLocationOrient R0 inst)) with (inst_y inst).
  destruct (masterPwrs_ o !! master_id (inst_master inst)) as [[tp bp]|];
    cbn [m_id m_fixed m_w m_h m_x m_y m_origX m_origY m_powerTop m_powerBot
         m_regionId default];
    repeat (split; [reflexivity|]); split; apply corner_round_trip.
Qed.

(** X2. The terminal nodes of the import: the i-th terminal of the block
    gets the node after those of the cells; it is a terminal fixed in
    both directions that only allows the orientation N.  Its width is the
    32-bit difference [xMax - xMin] of its box, its height is zero
    ([yMax - yMax]), its x is half the 32-bit sum [xMax + xMin] and its y
    half the 32-bit sum [yMax + yMax].  Where the sums and the difference
    fit 32 bits, the node is as wide as the box and sits at the middle of
    the box horizontally and on its upper edge vertically. *)
Theorem createNetwork_terminal_nodes (o : Optdp) (i : nat) (bt : dbBTerm) :
  block_bterms (db_ o) !! i = Some bt ->
  let n := length (cells (block_insts (db_ o))) + i in
  let bb := bterm_bbox bt in
  exists nd,
    nodes_ (createNetwork o) !! n = Some nd
    /\ m_id nd = n
    /\ m_type nd = NodeType_TERMINAL
    /\ m_fixed nd = NodeFixed_FIXED_XY
    /\ m_availOrient nd = Orientation_N
    /\ m_currOrient nd = Orientation_N
    /\ m_w nd = inject_Z (int32 (xMax bb - xMin bb))
    /\ (m_h nd == 0)%Q
    /\ (m_x nd == inject_Z (int32 (xMax bb + xMin bb)) / 2)%Q
    /\ (m_y nd == inject_Z (int32 (yMax bb + yMax bb)) / 2)%Q
    /\ m_origX nd = m_x nd /\ m_origY nd = m_y nd
    /\ m_powerTop nd = RowPower_UNK /\ m_powerBot nd = RowPower_UNK
    /\ m_regionId nd = 0
    /\ (is_int32 (xMax bb - xMin bb) ->
        m_w nd = inject_Z (xMax bb - xMin bb))
    /\ (is_int32 (xMax bb + xMin bb) ->
        (m_x nd == (inject_Z (xMin bb) + inject_Z (xMax bb)) / 2)%Q)
    /\ (is_int32 (yMax bb + yMax bb) -> (m_y nd == inject_Z (yMax bb))%Q).
Proof.
  intros Hi n bb.
  destruct (createNetwork_run o) as (_ & _ & _ & Ht & _). cbv zeta in Ht.
  destruct (Ht i bt Hi) as (nd & Hnd & Hcore). fold n in Hnd, Hcore.
  exists nd. split; [exact Hnd|].
  set (tn := termNode o bt n) in Hcore.
  assert (Hf : forall A (f : Node -> A),
             (forall x, f (Node_core x) = f x) -> f nd = f tn).
  { intros A f Hfc. rewrite <- (Hfc nd), <- (Hfc tn). by rewrite Hcore. }
  rewrite (Hf _ m_id), (Hf _ m_type), (Hf _ m_fixed), (Hf _ m_availOrient),
    (Hf _ m_currOrient), (Hf _ m_w), (Hf _ m_h), (Hf _ m_x), (Hf _ m_y),
    (Hf _ m_origX), (Hf _ m_origY), (Hf _ m_powerTop), (Hf _ m_powerBot),
    (Hf _ m_regionId) by reflexivity.
  subst tn. unfold termNode. cbv zeta. fold bb.
  cbn [m_id m_type m_fixed m_availOrient m_currOrient m_w m_h m_x m_y
       m_origX m_origY m_powerTop m_powerBot m_regionId].
  repeat (split; [reflexivity|]).
  split; [rewrite Z.sub_diag; reflexivity|].
  split; [unfold half; field|]. split; [unfold half; field|].
  repeat (split; [reflexivity|]).
  split; [intros Hw; by rewrite (int32_id _ Hw)|].
  split.
  - intros Hx. rewrite (int32_id _ Hx), inject_Z_plus. unfold half. field.
  - intros Hy. rewrite (int32_id _ Hy), inject_Z_plus. unfold half. field.
Qed.

(** X3. The node maps after the import of the network, when no two
    placeable instances and no two terminals share a handle: the handle
    of the i-th placeable instance is mapped to node i, the handle of the
    i-th terminal to the node after the cells, and the entry of any other
    handle is left as it was, so an instance that is neither core nor
    block gets no node. *)
Theorem createNetwork_node_maps (o : Optdp) :
  let o' := createNetwork o in
  let cs := cells (block_insts (db_ o)) in
  let bs := block_bterms (db_ o) in
  NoDup (map inst_id cs) -> NoDup (map bterm_id bs) ->
  (forall i inst, cs !! i = Some inst ->
                  instMap_ o' !! inst_id inst = Some i)
  /\ (forall i bt, bs !! i = Some bt ->
                   termMap_ o' !! bterm_id bt = Some (length cs + i))
  /\ (forall h, ~ In h (map inst_id cs) ->
                instMap_ o' !! h = instMap_ o !! h)
  /\ (forall h, ~ In h (map bterm_id bs) ->
                termMap_ o' !! h = termMap_ o !! h).
Proof.
  intros o' cs bs Hc Hb.
  destruct (createNetwork_maps o) as (H1 & H2 & H3 & H4).
  split; [exact (H2 Hc)|]. split; [exact (H4 Hb)|]. split; assumption.
Qed.

End ImportedNodes.

Lemma createNetwork_cell_nodes_witness :
  cells (block_insts (db_ (init sample_block))) !! 0 = Some sample_inst
  /\ exists nd,
       nodes_ (@createNetwork sample_constants (init sample_block)) !! 0
       = Some nd
       /\ m_w nd = 10%Q /\ m_x nd = (inject_Z 20 + half * inject_Z 10)%Q
       /\ Qtrunc (m_x nd - half * m_w nd) = 20%Z.
Proof.
  assert (H1 : cells (block_insts (db_ (init sample_block))) !! 0
               = Some sample_inst) by reflexivity.
  split; [exact H1|].
  destruct (@createNetwork_cell_nodes sample_constants (init sample_block)
              0 sample_inst H1)
    as (nd & Hnd & _ & _ & Hw & _ & Hx & _ & _ & _ & _ & _ & Hc & _).
  exists nd. split; [exact Hnd|]. split; [exact Hw|].
  split; [exact Hx|exact Hc].
Defined.

Lemma createNetwork_terminal_nodes_witness :
  block_bterms (db_ (init terminal_block)) !! 0 = Some wide_bterm
  /\ block_bterms (db_ (init terminal_block)) !! 1 = Some far_bterm
  /\ (exists nd,
         nodes_ (@createNetwork sample_constants (init terminal_block)) !! 0
         = Some nd
         /\ m_type nd = NodeType_TERMINAL
         /\ m_w nd = 20%Q
         /\ (m_h nd == 0)%Q
         /\ (m_x nd == 20)%Q
         /\ (m_y nd == 60)%Q)
  /\ (exists nd,
         nodes_ (@createNetwork sample_constants (init terminal_block)) !! 1
         = Some nd
         /\ (m_h nd == 0)%Q
         /\ (m_x nd == - 647483643)%Q
         /\ (m_y nd == - 647483628)%Q).
Proof.
  assert (H0 : block_bterms (db_ (init terminal_block)) !! 0
               = Some wide_bterm) by reflexivity.
  assert (H1 : block_bterms (db_ (init terminal_block)) !! 1
               = Some far_bterm) by reflexivity.
  split; [exact H0|]. split; [exact H1|]. split.
  - destruct (@createNetwork_terminal_nodes sample_constants
                (init terminal_block) 0 wide_bterm H0)
      as (nd & Hnd & _ & Hty & _ & _ & _ & Hw & Hh & Hx & Hy & _).
    exists nd. split; [exact Hnd|]. split; [exact Hty|].
    split; [exact Hw|]. split; [exact Hh|].
    split; [rewrite Hx|rewrite Hy]; vm_compute; reflexivity.
  - destruct (@createNetwork_terminal_nodes sample_constants
                (init terminal_block) 1 far_bterm H1)
      as (nd & Hnd & _ & _ & _ & _ & _ & _ & Hh & Hx & Hy & _).
    exists nd. split; [exact Hnd|]. split; [exact Hh|].
    split; [rewrite Hx|rewrite Hy]; vm_compute; reflexivity.
Defined.

Lemma createNetwork_node_maps_witness :
  let o' := @createNetwork sample_constants (init sample_block) in
  NoDup (map inst_id (cells (block_insts (db_ (init sample_block)))))
  /\ NoDup (map bterm_id (block_bterms (db_ (init sample_block))))
  /\ instMap_ o' !! inst_id sample_inst = Some 0
  /\ termMap_ o' !! bterm_id sample_bterm = Some 1
  /\ instMap_ o' !! inst_id sample_pad = None.
Proof.
  intros o'.
  assert (Hc : NoDup (map inst_id
                        (cells (block_insts (db_ (init sample_block))))))
    by (apply NoDup_singleton).
  assert (Hb : NoDup (map bterm_id (block_bterms (db_ (init sample_block)))))
    by (apply NoDup_singleton).
  split; [exact Hc|]. split; [exact Hb|].
  destruct (@createNetwork_node_maps sample_constants (init sample_block)
              Hc Hb) as (H1 & H2 & H3 & _).
  split; [exact (H1 0 sample_inst eq_refl)|].
  split; [exact (H2 0 sample_bterm eq_refl)|].
  fold o'. rewrite H3; [reflexivity|].
  simpl. intros [E|[]]. discriminate E.
Defined.

(** ** What the set-up of the regions leaves alone *)

Section RegionFrame.
Context `{DpoConstants} `{External}.

Lemma assignRegion_nodes (id : nat) (o : Optdp) (h : nat) :
  nodes_noRegion (assignRegion id o h) = nodes_noRegion o.
Proof.
  unfold assignRegion, nodes_noRegion, nodes_.
  destruct (instMap_ o !! h) as [it_n|]; [|reflexivity].
  destruct (Nat.eqb _ 0); [|reflexivity].
  cbn [network_ with_network]. unfold setNode.
  change (net_nodes (Network_with_nodes ?l _)) with l.
  rewrite list_fmap_insert.
  unfold getNode.
  destruct (net_nodes (network_ o) !! it_n) as [nd|] eqn:En; simpl.
  - apply list_insert_id. rewrite list_lookup_fmap, En. reflexivity.
  - apply list_insert_ge. rewrite length_fmap. by apply lookup_ge_None.
Qed.

Lemma setUpRegion_nodes (s : Optdp * nat) (g : dbRegion) :
  nodes_noRegion (fst (setUpRegion s g)) = nodes_noRegion (fst s)
  /\ Arch_noRegions (arch_ (fst (setUpRegion s g)))
     = Arch_noRegions (arch_ (fst s)).
Proof.
  destruct s as [o count]. unfold setUpRegion.
  destruct (region_parent g) as [bs|]; [|done]. cbv zeta. cbn [fst].
  split.
  - rewrite (foldl_preserves nodes_noRegion (assignRegion _));
      [reflexivity|apply assignRegion_nodes].
  - rewrite (foldl_preserves (fun x => Arch_noRegions (arch_ x))
               (assignRegion _)); [reflexivity|].
    intros a x. by destruct (assignRegion_spec
                               (r_id (foldl (addBoundary (arch_ o))
                                        (Region_setId count Region_new) bs))
                               a x) as (_ & -> & _).
Qed.

Lemma setUpPlacementRegions_frame (o : Optdp) :
  let o' := setUpPlacementRegions o in
  nodes_noRegion o' = nodes_noRegion o
  /\ Arch_noRegions (arch_ o') = Arch_noRegions (arch_ o).
Proof.
  unfold setUpPlacementRegions. cbv zeta.
  set (o1 := with_arch _ o).
  change (block_regions (db_ o1)) with (block_regions (db_ o)).
  pose proof (foldl_preserves
                (fun s => (nodes_noRegion (fst s),
                           Arch_noRegions (arch_ (fst s))))
                setUpRegion (block_regions (db_ o))) as Hf.
  specialize (Hf (fun s g =>
                    match setUpRegion_nodes s g with
                    | conj a b => f_equal2 pair a b
                    end) (o1, 1)).
  destruct (foldl setUpRegion (o1, 1) (block_regions (db_ o))) as [o2 c2].
  cbn [fst] in Hf.
  assert (Hn : nodes_noRegion o2 = nodes_noRegion o1) by congruence.
  assert (Ha : Arch_noRegions (arch_ o2) = Arch_noRegions (arch_ o1))
    by congruence.
  split; [exact Hn|]. exact Ha.
Qed.

End RegionFrame.

(** ** Import followed by the write-back *)

Section RoundTrip.
Context `{DpoConstants} `{External}.

Lemma setupMasterPowers_db (o : Optdp) : db_ (setupMasterPowers o) = db_ o.
Proof.
  unfold setupMasterPowers.
  rewrite (foldl_preserves db_ setupMasterPower); [reflexivity|].
  intros a master. unfold setupMasterPower.
  destruct (isVdd _ && isGnd _); reflexivity.
Qed.

Lemma import_network_insts (o : Optdp) :
  db_ (import_network o)
  = block_with_insts (map resetOrient (block_insts (db_ o))) (db_ o).
Proof.
  unfold import_network, createNetwork.
  match goal with
  | |- context [createNetwork_locals ?x] =>
      destruct (createNetwork_run x) as ((Hdb1 & _) & _); set (o1 := x) in *
  end.
  rewrite Hdb1. unfold o1. rewrite setupMasterPowers_db. reflexivity.
Qed.

Lemma import_padded_insts (o : Optdp) :
  db_ (import_padded o)
  = block_with_insts (map resetOrient (block_insts (db_ o))) (db_ o).
Proof.
  rewrite <- (import_network_insts o). unfold import_padded.
  generalize (import_network o). intros x.
  destruct (initPadding_frame (createArchitecture x)) as (-> & _).
  reflexivity.
Qed.

(** The database, the node map and the nodes (up to their regions) at
    the end of [import] are those after [createNetwork]. *)
Lemma import_state (o : Optdp) :
  db_ (import o)
  = block_with_insts (map resetOrient (block_insts (db_ o))) (db_ o)
  /\ instMap_ (import o) = instMap_ (import_network o)
  /\ nodes_noRegion (import o) = nodes_noRegion (import_network o).
Proof.
  assert (E := import_eq o). set (io := import o) in *. clearbody io.
  subst io.
  destruct (import_padded_state o) as (Hnw & Him & _).
  assert (Hdbp := import_padded_insts o).
  set (p := import_padded o) in *. clearbody p.
  set (x := import_network o) in *. clearbody x.
  destruct (setUpPlacementRegions_spec p) as ((Hdb & Hm & _) & _).
  destruct (setUpPlacementRegions_frame p) as (Hn & _).
  cbv zeta in Hdb, Hm, Hn.
  split; [congruence|]. split; [congruence|].
  rewrite Hn. unfold nodes_noRegion, nodes_. by rewrite Hnw.
Qed.

Lemma cells_lookup_In (insts : list dbInst) (inst : dbInst) :
  In inst insts -> skipInst inst = false ->
  exists i, cells insts !! i = Some inst.
Proof.
  intros Hin Hs. apply list_elem_of_lookup_1, list_elem_of_In.
  unfold cells. apply filter_In. split; [exact Hin|].
  unfold placeable. by rewrite Hs.
Qed.

(** No update is issued for an instance in the orientation R0 whose node
    has the orientation N and the corner of the instance. *)
Lemma updateDbInst_silent (o : Optdp) (inst : dbInst) (i : nat) (nd : Node) :
  skipInst inst = false ->
  instMap_ o !! inst_id inst = Some i ->
  nodes_ o !! i = Some nd ->
  m_currOrient nd = Orientation_N ->
  inst_orient inst = R0 ->
  Qtrunc (m_x nd - half * m_w nd) = inst_x inst ->
  Qtrunc (m_y nd - half * m_h nd) = inst_y inst ->
  updateDbInst o inst = (inst, []).
Proof.
  intros Hs Hm Hn Hcur Hor Hx Hy.
  assert (Hg : getNode (network_ o) i = nd).
  { unfold getNode. unfold nodes_ in Hn. by rewrite Hn. }
  rewrite (updateDbInst_eq o inst i Hs Hm). cbv zeta.
  rewrite Hg, Hcur, Hor, Hx, Hy.
  assert (Hd : dbOrient Orientation_N = R0)
    by (unfold dbOrient; by rewrite Z.eqb_refl).
  rewrite Hd. cbn [dbOrientType_eqb]. unfold getLocation. cbn [fst snd].
  by rewrite !Z.eqb_refl.
Qed.

Lemma writeback_inst_silent (o1 io : Optdp) (inst : dbInst) :
  instMap_ io = instMap_ (createNetwork o1) ->
  nodes_noRegion io = nodes_noRegion (createNetwork o1) ->
  NoDup (map inst_id (cells (block_insts (db_ o1)))) ->
  In inst (block_insts (db_ o1)) ->
  updateDbInst io (resetOrient inst) = (resetOrient inst, []).
Proof.
  intros Hm Hn Hnd Hin.
  destruct (skipInst inst) eqn:Hs.
  - unfold resetOrient, updateDbInst. by rewrite Hs, Hs.
  - destruct (cells_lookup_In _ _ Hin Hs) as [i Hi].
    destruct (createNetwork_maps o1) as (_ & Hmap & _).
    specialize (Hmap Hnd i inst Hi).
    destruct (createNetwork_run o1) as (_ & _ & Hc & _). cbv zeta in Hc.
    destruct (Hc i inst Hi) as (nd & Hlk & Hcore).
    change (c_o (createNetwork_locals o1)) with (createNetwork o1) in Hlk.
    set (o' := createNetwork o1) in *. clearbody o'.
    assert (Hlk' : nodes_noRegion io !! i = Some (Node_noRegion nd)).
    { rewrite Hn. unfold nodes_noRegion. rewrite list_lookup_fmap, Hlk.
      reflexivity. }
    unfold nodes_noRegion in Hlk'. rewrite list_lookup_fmap in Hlk'.
    destruct (nodes_ io !! i) as [nd'|] eqn:Hlk2; [|discriminate].
    change (Some (Node_noRegion nd') = Some (Node_noRegion nd)) in Hlk'.
    assert (Hnr : Node_noRegion nd' = Node_noRegion nd) by congruence.
    set (cn := cellNode o1 (setLocationOrient R0 inst) i) in Hcore.
    assert (Hf : forall A (f : Node -> A),
               (forall x, f (Node_core x) = f x) ->
               (forall x, f (Node_noRegion x) = f x) -> f nd' = f cn).
    { intros A f Hfc Hfr.
      rewrite <- (Hfr nd'), Hnr, Hfr, <- (Hfc nd), <- (Hfc cn).
      by rewrite Hcore. }
    assert (Hskip : skipInst (resetOrient inst) = false)
      by (unfold resetOrient; rewrite Hs; exact Hs).
    assert (Hr : resetOrient inst = setLocationOrient R0 inst)
      by (unfold resetOrient; by rewrite Hs).
    assert (Hcn : m_currOrient cn = Orientation_N
                  /\ Qtrunc (m_x cn - half * m_w cn) = inst_x inst
                  /\ Qtrunc (m_y cn - half * m_h cn) = inst_y inst).
    { subst cn. unfold cellNode. cbv zeta.
      destruct (masterPwrs_ o1 !! _) as [[? ?]|];
        (split; [reflexivity|split; apply corner_round_trip]). }
    clearbody cn. destruct Hcn as (Hc1 & Hc2 & Hc3).
    apply (updateDbInst_silent io (resetOrient inst) i nd' Hskip).
    + rewrite Hm, Hr. exact Hmap.
    + exact Hlk2.
    + by rewrite (Hf _ m_currOrient) by reflexivity.
    + by rewrite Hr.
    + rewrite (Hf _ m_x), (Hf _ m_w) by reflexivity. by rewrite Hr.
    + rewrite (Hf _ m_y), (Hf _ m_h) by reflexivity. by rewrite Hr.
Qed.

Lemma import_network_eq (o : Optdp) :
  import_network o
  = createNetwork
      (setupMasterPowers
         (with_arch Architecture_new
            (with_network Network_new
               (logger_
                  (report "Importing netlist into detailed improver." [])
                  o)))).
Proof. unfold import_network. reflexivity. Qed.

Lemma import_writeback_inst (o : Optdp) (inst : dbInst) :
  NoDup (map inst_id (cells (block_insts (db_ o)))) ->
  In inst (block_insts (db_ o)) ->
  updateDbInst (import o) (resetOrient inst) = (resetOrient inst, []).
Proof.
  intros Hnd Hin.
  destruct (import_state o) as (_ & Hm & Hn).
  rewrite import_network_eq in Hm, Hn.
  set (o1 := setupMasterPowers _) in Hm, Hn.
  assert (Hdb1 : db_ o1 = db_ o)
    by (unfold o1; rewrite setupMasterPowers_db; reflexivity).
  clearbody o1. rewrite <- Hdb1 in Hnd, Hin.
  set (io := import o) in *. clearbody io.
  exact (writeback_inst_silent o1 io inst Hm Hn Hnd Hin).
Qed.

(** X4. Import followed at once by the write-back is silent.  When no
    two placeable instances share a handle, [import] leaves the instances
    of the database as they were, but for the orientation of the core
    and block instances, which is reset to R0; and
    [updateDbInstLocations], run on the state that [import] returns,
    issues no update and leaves the database as it is. *)
Theorem import_then_writeback (o : Optdp) :
  NoDup (map inst_id (cells (block_insts (db_ o)))) ->
  block_insts (db_ (import o)) = map resetOrient (block_insts (db_ o))
  /\ snd (updateDbInstLocations (import o)) = []
  /\ db_ (fst (updateDbInstLocations (import o))) = db_ (import o).
Proof.
  intros Hnd.
  destruct (import_state o) as (Hdb & _).
  pose proof (fun inst => import_writeback_inst o inst Hnd) as Hw.
  set (o' := import o) in *. clearbody o'.
  split; [by rewrite Hdb|].
  unfold updateDbInstLocations. cbn [fst snd db_ with_db].
  assert (Hmap : map (updateDbInst o') (block_insts (db_ o'))
                 = map (fun inst => (inst, [])) (block_insts (db_ o'))).
  { rewrite Hdb. cbn [block_insts block_with_insts].
    apply map_ext_in. intros x Hx. apply in_map_iff in Hx.
    destruct Hx as (inst & <- & Hin). by apply Hw. }
  rewrite Hmap. rewrite !map_map. cbn [fst snd]. split.
  - clear. induction (block_insts (db_ o')) as [|x l IH]; [done|exact IH].
  - rewrite map_id. by destruct (db_ o').
Qed.

End RoundTrip.

Lemma import_then_writeback_witness :
  NoDup (map inst_id (cells (block_insts (db_ (init sample_block)))))
  /\ snd (@updateDbInstLocations sample_constants sample_external
            (@import sample_constants sample_external (init sample_block)))
     = [].
Proof.
  assert (Hc : NoDup (map inst_id
                        (cells (block_insts (db_ (init sample_block))))))
    by (apply NoDup_singleton).
  split; [exact Hc|].
  exact (proj1 (proj2 (@import_then_writeback sample_constants
                         sample_external (init sample_block) Hc))).
Defined.

(** ** The regions of the groups *)

Section GroupRegions.
Context `{DpoConstants} `{External}.

Lemma assignRegion_network (id : nat) (o : Optdp) (h : nat) :
  Network_noNodes (network_ (assignRegion id o h))
  = Network_noNodes (network_ o).
Proof.
  unfold assignRegion.
  destruct (instMap_ o !! h) as [it_n|]; [|reflexivity].
  destruct (Nat.eqb _ 0); reflexivity.
Qed.

Lemma setUpRegion_network (s : Optdp * nat) (g : dbRegion) :
  Network_noNodes (network_ (fst (setUpRegion s g)))
  = Network_noNodes (network_ (fst s)).
Proof.
  destruct s as [o count]. unfold setUpRegion.
  destruct (region_parent g) as [bs|]; [|done]. cbv zeta. cbn [fst].
  rewrite (foldl_preserves (fun x => Network_noNodes (network_ x))
             (assignRegion _)); [reflexivity|].
  intros a x. apply assignRegion_network.
Qed.

Lemma setUpRegion_log (s : Optdp * nat) (g : dbRegion) :
  log_ (fst (setUpRegion s g)) = log_ (fst s).
Proof.
  destruct s as [o count].
  destruct (setUpRegion_spec o count g) as (Hf & _). cbv zeta in Hf.
  exact (f_equal (fun t => snd (fst (fst t))) Hf).
Qed.

(** The rectangles that the boundaries of a parent add to a region. *)
Lemma addBoundary_rects (a : Architecture) (bs : list dbBox) :
  forall rg : Region,
    r_id (foldl (addBoundary a) rg bs) = r_id rg
    /\ length (r_rects (foldl (addBoundary a) rg bs))
       = length (r_rects rg) + length bs
    /\ (Forall (withinArch a) (r_rects rg) ->
        Forall (withinArch a) (r_rects (foldl (addBoundary a) rg bs))).
Proof.
  induction bs as [|b bs IH]; intros rg.
  - simpl. split; [done|]. split; [lia|done].
  - change (foldl (addBoundary a) rg (b :: bs))
      with (foldl (addBoundary a) (addBoundary a rg b) bs).
    destruct (IH (addBoundary a rg b)) as (Hid & Hlen & Hin).
    split; [by rewrite Hid|]. split.
    + rewrite Hlen. unfold addBoundary. cbn [r_rects].
      rewrite length_app. simpl. lia.
    + intros Hall. apply Hin. unfold addBoundary. cbn [r_rects].
      apply Forall_app. split; [exact Hall|].
      constructor; [|constructor].
      unfold withinArch. cbn [rect_xmin rect_xmax rect_ymin rect_ymax].
      split; [apply Q.le_max_l|]. split; [apply Q.le_min_l|].
      split; [apply Q.le_max_l|apply Q.le_min_l].
Qed.

Lemma withinArch_ext (a a' : Architecture) (rc : Rectangle) :
  (m_xmin a', m_xmax a', m_ymin a', m_ymax a')
  = (m_xmin a, m_xmax a, m_ymin a, m_ymax a) ->
  withinArch a rc -> withinArch a' rc.
Proof.
  intros E. injection E as E1 E2 E3 E4. unfold withinArch.
  by rewrite E1, E2, E3, E4.
Qed.

Lemma setUpRegions_rects (regions : list dbRegion) :
  forall (o : Optdp) (count : nat),
    let r := foldl setUpRegion (o, count) regions in
    exists rgs,
      m_regions (arch_ (fst r)) = m_regions (arch_ o) ++ rgs
      /\ Forall2 (fun rg bs => length (r_rects rg) = length bs)
                 rgs (omap region_parent regions)
      /\ Forall (fun rg => Forall (withinArch (arch_ o)) (r_rects rg)) rgs.
Proof.
  induction regions as [|g regions IH]; intros o count.
  - exists []. simpl. rewrite app_nil_r. repeat split; constructor.
  - cbv zeta.
    change (foldl setUpRegion (o, count) (g :: regions))
      with (foldl setUpRegion (setUpRegion (o, count) g) regions).
    destruct (setUpRegion_spec o count g) as (_ & _ & _ & Hbox & _).
    cbv zeta in Hbox.
    assert (Hreg :
      m_regions (arch_ (fst (setUpRegion (o, count) g)))
      = m_regions (arch_ o)
        ++ match region_parent g with
           | Some bs => [foldl (addBoundary (arch_ o))
                               (Region_setId count Region_new) bs]
           | None => []
           end).
    { unfold setUpRegion. destruct (region_parent g) as [bs|].
      - cbv zeta. cbn [fst].
        rewrite (foldl_preserves arch_ (assignRegion _)); [reflexivity|].
        intros a x.
        by destruct (assignRegion_spec
                       (r_id (foldl (addBoundary (arch_ o))
                                (Region_setId count Region_new) bs)) a x)
          as (_ & -> & _).
      - cbn [fst]. by rewrite app_nil_r. }
    destruct (setUpRegion (o, count) g) as [o1 c1]. cbn [fst] in *.
    destruct (IH o1 c1) as (rgs & Hr & Hlen & Hin). cbv zeta in Hr.
    assert (Hin' : Forall (fun rg => Forall (withinArch (arch_ o))
                                            (r_rects rg)) rgs).
    { eapply Forall_impl; [exact Hin|]. intros rg Hrg. cbv beta in Hrg.
      eapply Forall_impl; [exact Hrg|]. intros rc.
      apply withinArch_ext. by symmetry. }
    rewrite Hr, Hreg, <- app_assoc.
    destruct (region_parent g) as [bs|] eqn:Eg.
    + destruct (addBoundary_rects (arch_ o) bs
                  (Region_setId count Region_new)) as (_ & Hl & Hw).
      eexists. split; [reflexivity|]. simpl. rewrite Eg. split.
      * constructor; [exact Hl|exact Hlen].
      * constructor; [apply Hw; constructor|exact Hin'].
    + exists rgs. split; [reflexivity|]. simpl. rewrite Eg.
      split; assumption.
Qed.

(** X5. What [setUpPlacementRegions] leaves alone: the database, the
    node map, the edges, the pins and the names of the network, of every
    node all but its region id, and of the architecture all but its
    regions (rows, bounds and padding stay).  Its only message is the
    number of regions, which is the number before plus one plus the
    number of database groups with a parent. *)
Theorem setUpPlacementRegions_only_regions (o : Optdp) :
  let o' := setUpPlacementRegions o in
  db_ o' = db_ o /\ instMap_ o' = instMap_ o
  /\ nodes_noRegion o' = nodes_noRegion o
  /\ Network_noNodes (network_ o') = Network_noNodes (network_ o)
  /\ Arch_noRegions (arch_ o') = Arch_noRegions (arch_ o)
  /\ log_ o'
     = log_ o
       ++ [info 103 "Number of regions is {:d}"
             [arg (getNumRegions (arch_ o) + 1
                   + length (groups (db_ o)))]].
Proof.
  intros o'.
  destruct (setUpPlacementRegions_spec o)
    as ((Hdb & Hm & _) & (rgs & Hrgs & Hids) & _).
  destruct (setUpPlacementRegions_frame o) as (Hn & Ha).
  fold o' in Hdb, Hm, Hrgs, Hn, Ha.
  split; [exact Hdb|]. split; [exact Hm|]. split; [exact Hn|].
  assert (Hnum : getNumRegions (arch_ o')
                 = getNumRegions (arch_ o) + 1 + length (groups (db_ o))).
  { unfold getNumRegions, groups. rewrite Hrgs, length_app. simpl.
    rewrite <- (length_map r_id rgs), Hids, length_seq. lia. }
  rewrite <- Hnum. clear Hdb Hm Hrgs Hids Hn Ha Hnum rgs.
  subst o'. unfold setUpPlacementRegions. cbv zeta.
  set (o1 := with_arch _ o).
  change (block_regions (db_ o1)) with (block_regions (db_ o)).
  pose proof (foldl_preserves
                (fun s => Network_noNodes (network_ (fst s)))
                setUpRegion (block_regions (db_ o)) setUpRegion_network
                (o1, 1)) as Hnw.
  pose proof (foldl_preserves (fun s => log_ (fst s))
                setUpRegion (block_regions (db_ o)) setUpRegion_log
                (o1, 1)) as Hlog.
  pose proof (foldl_preserves
                (fun s => Arch_noRegions (arch_ (fst s)))
                setUpRegion (block_regions (db_ o))
                (fun s g => proj2 (setUpRegion_nodes s g)) (o1, 1)) as Har.
  destruct (foldl setUpRegion (o1, 1) (block_regions (db_ o))) as [o2 c2].
  cbn [fst] in Hnw, Hlog, Har.
  split; [exact Hnw|]. split; [exact Har|].
  cbn [log_ logger_ arch_]. by rewrite Hlog.
Qed.

(** X6. The regions of the groups.  [setUpPlacementRegions] adds, after
    the default region, one region per database group with a parent, in
    the order of the block; the region of a group has one rectangle per
    boundary of the parent (none when the parent has no boundary), and
    every such rectangle lies within the bounds of the architecture. *)
Theorem setUpPlacementRegions_rectangles (o : Optdp) :
  exists rgs,
    m_regions (arch_ (setUpPlacementRegions o))
    = m_regions (arch_ o) ++ defaultRegion (arch_ o) :: rgs
    /\ Forall2 (fun rg bs => length (r_rects rg) = length bs)
               rgs (omap region_parent (block_regions (db_ o)))
    /\ Forall (fun rg => Forall (withinArch (arch_ o)) (r_rects rg)) rgs.
Proof.
  unfold setUpPlacementRegions. cbv zeta.
  set (o1 := with_arch _ o).
  change (block_regions (db_ o1)) with (block_regions (db_ o)).
  destruct (setUpRegions_rects (block_regions (db_ o)) o1 1)
    as (rgs & Hr & Hlen & Hin). cbv zeta in Hr.
  destruct (foldl setUpRegion (o1, 1) (block_regions (db_ o))) as [o2 c2].
  cbn [fst] in Hr. exists rgs. split; [|split; [exact Hlen|exact Hin]].
  cbn [arch_ logger_]. rewrite Hr. unfold o1. cbn [arch_ with_arch].
  cbn [m_regions Arch_with_regions]. by rewrite <- app_assoc.
Qed.

End GroupRegions.

(** ** The bounds and the rows of the architecture *)

Open Scope Q_scope.

Section ArchitectureBounds.
Context `{DpoConstants} `{External}.

(** The accumulators of the surrounding box bound every row. *)
Lemma surroundingBox_fold (rows : list Row) :
  forall acc : Q * Q * Q * Q,
    let f := fun '(xmin, xmax, ymin, ymax) row =>
               (Qmin xmin (getLeft row), Qmax xmax (getRight row),
                Qmin ymin (getBottom row), Qmax ymax (getTop row)) in
    let r := foldl f acc rows in
    (snd (fst r) <= snd (fst acc) /\ snd acc <= snd r)
    /\ Forall (fun row => snd (fst r) <= getBottom row
                          /\ getTop row <= snd r) rows.
Proof.
  induction rows as [|row rows IH]; intros acc f r.
  - subst r. simpl. split; [split; apply Qle_refl|constructor].
  - destruct acc as [[[x0 x1] y0] y1].
    specialize (IH (f (x0, x1, y0, y1) row)). cbv zeta in IH.
    change (foldl _ (f (x0, x1, y0, y1) row) rows) with r in IH.
    destruct IH as [[Hlo Hhi] Hall]. cbn [f fst snd] in Hlo, Hhi.
    cbn [fst snd].
    pose proof (Q.le_min_l y0 (getBottom row)).
    pose proof (Q.le_min_r y0 (getBottom row)).
    pose proof (Q.le_max_l y1 (getTop row)).
    pose proof (Q.le_max_r y1 (getTop row)).
    split; [split; lra|]. constructor; [split; lra|exact Hall].
Qed.

Lemma surroundingBox_y (rows : list Row) :
  Forall (fun row => snd (fst (surroundingBox rows)) <= getBottom row
                     /\ getTop row <= snd (surroundingBox rows)) rows.
Proof.
  exact (proj2 (surroundingBox_fold rows
                  (DBL_MAX, DBL_LOWEST, DBL_MAX, DBL_LOWEST))).
Qed.

Lemma setSurroundingBox_box (die : Rect) (a : Architecture) :
  let a' := setSurroundingBox die a in
  m_xmin a' == inject_Z (xMin die) /\ m_xmax a' == inject_Z (xMax die)
  /\ m_ymin a' = snd (fst (surroundingBox (m_rows a)))
  /\ m_ymax a' = snd (surroundingBox (m_rows a)).
Proof.
  unfold setSurroundingBox.
  destruct (surroundingBox (m_rows a)) as [[[x0 x1] y0] y1].
  destruct (Qeq_bool x0 (inject_Z (xMin die))) eqn:E0;
    destruct (Qeq_bool x1 (inject_Z (xMax die))) eqn:E1; cbn;
    repeat split; try reflexivity.
  - by apply Qeq_bool_eq.
  - by apply Qeq_bool_eq.
Qed.

Lemma clipRow_vertical (minX maxX : Q) (row : Row) :
  getBottom (clipRow minX maxX row) = getBottom row
  /\ getTop (clipRow minX maxX row) = getTop row.
Proof.
  unfold clipRow. cbv zeta.
  destruct (_ || _); [|done].
  destruct (negb (Qeq_bool _ _)); destruct (negb (Z.eqb _ _)); done.
Qed.

Lemma applyRail_box (a : Architecture) (rail : RowPower * Rect) :
  (m_xmin (applyRail a rail), m_xmax (applyRail a rail),
   m_ymin (applyRail a rail), m_ymax (applyRail a rail))
  = (m_xmin a, m_xmax a, m_ymin a, m_ymax a).
Proof. reflexivity. Qed.

(** The architecture that [createArchitecture] builds, phase by phase. *)
Lemma buildArchitecture_eq (o : Optdp) :
  let a0 := foldl addRow (arch_ o) (block_rows (db_ o)) in
  let a1 := setSurroundingBox (block_dieArea (db_ o)) a0 in
  let rs := rails (pwrLayers_ o) (gndLayers_ o) (block_nets (db_ o)) in
  (m_xmin (buildArchitecture o), m_xmax (buildArchitecture o),
   m_ymin (buildArchitecture o), m_ymax (buildArchitecture o))
  = (m_xmin a1, m_xmax a1, m_ymin a1, m_ymax a1)
  /\ m_rows (buildArchitecture o)
     = map (fun row => foldl labelRowBy row rs)
           (map (clipRow (m_xmin a1) (m_xmax a1)) (m_rows a0)).
Proof.
  intros a0 a1 rs. unfold buildArchitecture. fold a0. fold a1.
  rewrite railNets_rails. fold rs. split.
  - rewrite (foldl_preserves
               (fun a => (m_xmin a, m_xmax a, m_ymin a, m_ymax a)) applyRail);
      [reflexivity|]. intros a rail. apply applyRail_box.
  - rewrite applyRails_rows. unfold clipRows. cbn [m_rows Arch_with_rows].
    unfold a1 at 3. by rewrite setSurroundingBox_rows.
Qed.

(** X7. The horizontal bounds of the architecture are always those of
    the die: where the extent of the rows disagrees with the die the die
    is taken, and where it agrees the two are equal.  The vertical bounds
    are taken from the rows alone, and every row of the architecture lies
    between them. *)
Theorem createArchitecture_bounds (o : Optdp) :
  let a := buildArchitecture o in
  let die := block_dieArea (db_ o) in
  m_xmin a == inject_Z (xMin die) /\ m_xmax a == inject_Z (xMax die)
  /\ Forall (fun row => m_ymin a <= getBottom row
                        /\ getTop row <= m_ymax a) (m_rows a).
Proof.
  intros a die.
  destruct (buildArchitecture_eq o) as [Hbox Hrows]. cbv zeta in Hbox, Hrows.
  fold a die in Hbox, Hrows.
  set (a0 := foldl addRow (arch_ o) (block_rows (db_ o))) in *.
  destruct (setSurroundingBox_box die a0) as (Hx0 & Hx1 & Hy0 & Hy1).
  cbv zeta in Hx0, Hx1, Hy0, Hy1.
  set (a1 := setSurroundingBox die a0) in *.
  assert (E0 : m_xmin a = m_xmin a1) by congruence.
  assert (E1 : m_xmax a = m_xmax a1) by congruence.
  assert (E2 : m_ymin a = m_ymin a1) by congruence.
  assert (E3 : m_ymax a = m_ymax a1) by congruence.
  rewrite E0, E1, E2, E3, Hrows, Hy0, Hy1.
  split; [exact Hx0|]. split; [exact Hx1|].
  rewrite List.Forall_forall. intros row Hin.
  apply in_map_iff in Hin. destruct Hin as (row1 & <- & Hin).
  apply in_map_iff in Hin. destruct Hin as (row0 & <- & Hin).
  destruct (labelRows_geometry
              (rails (pwrLayers_ o) (gndLayers_ o) (block_nets (db_ o)))
              (clipRow (m_xmin a1) (m_xmax a1) row0)) as [-> ->].
  destruct (clipRow_vertical (m_xmin a1) (m_xmax a1) row0) as [-> ->].
  pose proof (surroundingBox_y (m_rows a0)) as Hall.
  rewrite List.Forall_forall in Hall. exact (Hall row0 Hin).
Qed.

(** The rows at the end of the architecture's construction in [import]:
    the horizontal rows of the database, cut to the die. *)
Lemma import_architecture_clip (o : Optdp) :
  exists minX maxX,
    minX == inject_Z (xMin (block_dieArea (db_ o)))
    /\ maxX == inject_Z (xMax (block_dieArea (db_ o)))
    /\ m_rows (import_architecture o)
       = map (fun row => clipRow minX maxX (archRow row))
             (List.filter isHorizontal (block_rows (db_ o))).
Proof.
  unfold import_architecture.
  destruct (import_network_state o) as (Hp & Hg & Ha & Hrows & _ & Hdie).
  rewrite (buildArchitecture_no_layers _ Hp Hg), Ha, Hrows, Hdie.
  generalize (block_dieArea (db_ o)). intros die.
  rewrite addRow_rows. cbn [m_rows Architecture_new app].
  set (a0 := Arch_with_rows _ Architecture_new).
  destruct (setSurroundingBox_box die a0) as (Hx0 & Hx1 & _).
  cbv zeta in Hx0, Hx1.
  exists (m_xmin (setSurroundingBox die a0)),
         (m_xmax (setSurroundingBox die a0)).
  split; [exact Hx0|]. split; [exact Hx1|].
  unfold clipRows. cbn [m_rows Arch_with_rows].
  rewrite setSurroundingBox_rows. unfold a0. cbn [m_rows Arch_with_rows].
  by rewrite map_map.
Qed.

Lemma clipRow_fits (minX maxX : Q) (row : Row) :
  minX <= getLeft row -> getRight row <= maxX ->
  clipRow minX maxX row = row.
Proof.
  intros Hl Hr. unfold clipRow. cbv zeta.
  pose proof (Qltb_spec (getLeft row) minX) as Hb1.
  pose proof (Qltb_spec maxX (getRight row)) as Hb2.
  unfold getRight, getLeft in *.
  destruct (Qltb (m_subRowOrigin row) minX); [lra|].
  destruct (Qltb maxX _); [lra|]. reflexivity.
Qed.

(** X8. A horizontal row of the database that fits the die is imported
    as it is: the i-th such row becomes the i-th row of the architecture,
    with its origin, its number of sites, the height, width and spacing
    of its site, and rails that are unknown. *)
Theorem import_fitting_row (o : Optdp) (i : nat) (dbrow : dbRow) :
  let die := block_dieArea (db_ o) in
  List.filter isHorizontal (block_rows (db_ o)) !! i = Some dbrow ->
  (xMin die <= row_originX dbrow)%Z ->
  (row_originX dbrow + row_siteCount dbrow * row_spacing dbrow
   <= xMax die)%Z ->
  m_rows (import_architecture o) !! i = Some (archRow dbrow).
Proof.
  intros die Hi Hl Hr.
  destruct (import_architecture_clip o) as (minX & maxX & Hx0 & Hx1 & ->).
  fold die in Hx0, Hx1.
  rewrite list_lookup_fmap, Hi. cbn [fmap option_fmap option_map].
  f_equal. apply clipRow_fits.
  - rewrite Hx0. unfold getLeft, archRow. cbn [m_subRowOrigin].
    by rewrite <- Zle_Qle.
  - rewrite Hx1. unfold getRight, archRow.
    cbn [m_subRowOrigin m_numSites m_siteSpacing].
    rewrite <- inject_Z_mult, <- inject_Z_plus. by rewrite <- Zle_Qle.
Qed.


End ArchitectureBounds.

Close Scope Q_scope.

Lemma import_fitting_row_witness :
  List.filter isHorizontal (block_rows (db_ (init sample_block))) !! 0
  = Some sample_row
  /\ (0 <= 0)%Z /\ (0 + 50 * 2 <= 100)%Z
  /\ m_rows (@import_architecture sample_constants (init sample_block)) !! 0
     = Some (@archRow sample_constants sample_row).
Proof.
  assert (H1 : List.filter isHorizontal
                 (block_rows (db_ (init sample_block))) !! 0
               = Some sample_row) by reflexivity.
  assert (H2 : (0 <= 0)%Z) by lia.
  assert (H3 : (0 + 50 * 2 <= 100)%Z) by lia.
  split; [exact H1|]. split; [exact H2|]. split; [exact H3|].
  exact (@import_fitting_row sample_constants (init sample_block) 0
           sample_row H1 H2 H3).
Defined.


(** ** The labels of the rails *)

Section RailLabels.
Context `{DpoConstants}.

Lemma labelRows_value (rs : list (RowPower * Rect)) :
  forall row,
    m_rowPowerBot (foldl labelRowBy row rs)
    = railAt rs (getBottom row) (m_rowPowerBot row)
    /\ m_rowPowerTop (foldl labelRowBy row rs)
       = railAt rs (getTop row) (m_rowPowerTop row).
Proof.
  induction rs as [|rail rs IH]; intros row; [done|].
  change (foldl labelRowBy row (rail :: rs))
    with (foldl labelRowBy (labelRowBy row rail) rs).
  destruct (IH (labelRowBy row rail)) as [-> ->].
  unfold labelRowBy.
  destruct (labelRow_geometry (fst rail) (snd rail) row) as [-> ->].
  destruct (labelRow_power (fst rail) (snd rail) row) as [-> ->].
  done.
Qed.

(** X10. The rails that [createArchitecture] labels, with the layer sets
    it finds in the object and starting from a fresh architecture.  The
    rails are the rectangles of the routed, horizontal special wires that
    are no vias, of the special POWER and GROUND nets, on a layer of the
    set for their kind, in the order of the database.  The bottom (top)
    rail of a row gets the label of the last rail that contains the
    bottom (top) of the row, VDD for a POWER net and VSS for a GROUND net,
    and stays unknown exactly when no rail contains it. *)
Theorem createArchitecture_rail_labels (o : Optdp) :
  arch_ o = Architecture_new ->
  let rs := rails (pwrLayers_ o) (gndLayers_ o) (block_nets (db_ o)) in
  Forall (fun row =>
            m_rowPowerBot row = railAt rs (getBottom row) RowPower_UNK
            /\ m_rowPowerTop row = railAt rs (getTop row) RowPower_UNK
            /\ (m_rowPowerBot row <> RowPower_UNK
                <-> exists rail, In rail rs
                      /\ containsY (snd rail) (getBottom row) = true)
            /\ (m_rowPowerTop row <> RowPower_UNK
                <-> exists rail, In rail rs
                      /\ containsY (snd rail) (getTop row) = true))
         (m_rows (buildArchitecture o)).
Proof.
  intros Ha rs.
  pose proof (buildArchitecture_labels o Ha) as Hl. cbv zeta in Hl.
  fold rs in Hl. rewrite List.Forall_forall in Hl.
  rewrite List.Forall_forall. intros row Hrow.
  destruct (Hl row Hrow) as [Hb Ht].
  split; [|split; [|split; [exact Hb|exact Ht]]].
  - clear Hl Hb Ht. revert Hrow. unfold buildArchitecture.
    rewrite railNets_rails, applyRails_rows. fold rs.
    rewrite Ha, addRow_rows. unfold clipRows. simpl m_rows at 1.
    rewrite setSurroundingBox_rows. simpl. intros Hrow.
    apply in_map_iff in Hrow. destruct Hrow as (row0 & <- & Hrow0).
    destruct (labelRows_geometry rs row0) as [-> _].
    rewrite (proj1 (labelRows_value rs row0)).
    apply in_map_iff in Hrow0. destruct Hrow0 as (row1 & <- & Hrow1).
    apply in_map_iff in Hrow1. destruct Hrow1 as (dbrow & <- & _).
    by rewrite (proj1 (clipRow_power _ _ _)).
  - clear Hl Hb Ht. revert Hrow. unfold buildArchitecture.
    rewrite railNets_rails, applyRails_rows. fold rs.
    rewrite Ha, addRow_rows. unfold clipRows. simpl m_rows at 1.
    rewrite setSurroundingBox_rows. simpl. intros Hrow.
    apply in_map_iff in Hrow. destruct Hrow as (row0 & <- & Hrow0).
    destruct (labelRows_geometry rs row0) as [_ ->].
    rewrite (proj2 (labelRows_value rs row0)).
    apply in_map_iff in Hrow0. destruct Hrow0 as (row1 & <- & Hrow1).
    apply in_map_iff in Hrow1. destruct Hrow1 as (dbrow & <- & _).
    by rewrite (proj2 (clipRow_power _ _ _)).
Qed.

End RailLabels.

Lemma createArchitecture_rail_labels_witness :
  let o := with_layers {[1]} {[1]} (init sample_block) in
  arch_ o = Architecture_new
  /\ Forall (fun row =>
               m_rowPowerBot row
               = railAt [(RowPower_VDD, mkRect 0 (-1) 100 1)]
                        (getBottom row) RowPower_UNK)
            (m_rows (@buildArchitecture sample_constants o)).
Proof.
  intros o.
  assert (Ha : arch_ o = Architecture_new) by reflexivity.
  split; [exact Ha|].
  pose proof (@createArchitecture_rail_labels sample_constants o Ha) as Hl.
  cbv zeta in Hl.
  eapply Forall_impl; [exact Hl|].
  intros row (Hb & _). exact Hb.
Defined.

(** ** The rails and the layers of the masters *)

Lemma layers_fold (boxes : list dbBox) (ls : gset nat) :
  foldl (fun ls mbox => {[box_layer mbox]} ∪ ls) ls boxes
  = ls ∪ list_to_set (map box_layer boxes).
Proof.
  revert ls. induction boxes as [|b boxes IH]; intros ls; simpl.
  - by rewrite (right_id_L ∅ (∪)).
  - rewrite IH. rewrite (comm_L (∪) {[box_layer b]} ls).
    by rewrite (assoc_L (∪)).
Qed.

Lemma scanPowerPin_fold (mpins : list dbMPin) :
  forall s : MasterScan,
    foldl scanPowerPin s mpins
    = mkScan (foldl Qmax (maxPwr s) (map pinCentre mpins))
             (foldl Qmin (minPwr s) (map pinCentre mpins))
             (maxGnd s) (minGnd s) (isVdd s) (isGnd s)
             (scan_pwrLayers s
              ∪ list_to_set
                  (concat (map (fun mpin => map box_layer (mpin_geometry mpin))
                               mpins)))
             (scan_gndLayers s).
Proof.
  induction mpins as [|mpin mpins IH]; intros s.
  - simpl. destruct s. simpl. f_equal. by rewrite (right_id_L ∅ (∪)).
  - change (foldl scanPowerPin s (mpin :: mpins))
      with (foldl scanPowerPin (scanPowerPin s mpin) mpins).
    rewrite IH. unfold scanPowerPin. cbn [maxPwr minPwr maxGnd minGnd isVdd
      isGnd scan_pwrLayers scan_gndLayers map concat foldl].
    fold (pinCentre mpin). rewrite layers_fold. f_equal.
    rewrite list_to_set_app_L. by rewrite (assoc_L (∪)).
Qed.

Lemma scanGroundPin_fold (mpins : list dbMPin) :
  forall s : MasterScan,
    foldl scanGroundPin s mpins
    = mkScan (maxPwr s) (minPwr s)
             (foldl Qmax (maxGnd s) (map pinCentre mpins))
             (foldl Qmin (minGnd s) (map pinCentre mpins))
             (isVdd s) (isGnd s)
             (scan_pwrLayers s)
             (scan_gndLayers s
              ∪ list_to_set
                  (concat (map (fun mpin => map box_layer (mpin_geometry mpin))
                               mpins))).
Proof.
  induction mpins as [|mpin mpins IH]; intros s.
  - simpl. destruct s. simpl. f_equal. by rewrite (right_id_L ∅ (∪)).
  - change (foldl scanGroundPin s (mpin :: mpins))
      with (foldl scanGroundPin (scanGroundPin s mpin) mpins).
    rewrite IH. unfold scanGroundPin. cbn [maxPwr minPwr maxGnd minGnd isVdd
      isGnd scan_pwrLayers scan_gndLayers map concat foldl].
    fold (pinCentre mpin). rewrite layers_fold. f_equal.
    rewrite list_to_set_app_L. by rewrite (assoc_L (∪)).
Qed.

(** The scan of the terminals of a master, loop by loop. *)
Lemma scanMTerm_fold (mterms : list dbMTerm) :
  forall s : MasterScan,
    foldl scanMTerm s mterms
    = mkScan (foldl Qmax (maxPwr s) (pinCentres POWER mterms))
             (foldl Qmin (minPwr s) (pinCentres POWER mterms))
             (foldl Qmax (maxGnd s) (pinCentres GROUND mterms))
             (foldl Qmin (minGnd s) (pinCentres GROUND mterms))
             (isVdd s
              || existsb (fun mterm => dbSigType_eqb (mterm_sigType mterm)
                                                     POWER) mterms)
             (isGnd s
              || existsb (fun mterm => dbSigType_eqb (mterm_sigType mterm)
                                                     GROUND) mterms)
             (scan_pwrLayers s ∪ list_to_set (pinLayers POWER mterms))
             (scan_gndLayers s ∪ list_to_set (pinLayers GROUND mterms)).
Proof.
  induction mterms as [|mterm mterms IH]; intros s.
  - destruct s. unfold pinCentres, pinLayers. simpl.
    rewrite !orb_false_r. f_equal; by rewrite (right_id_L ∅ (∪)).
  - change (foldl scanMTerm s (mterm :: mterms))
      with (foldl scanMTerm (scanMTerm s mterm) mterms).
    rewrite IH. unfold scanMTerm, pinCentres, pinLayers, mtermsOf.
    cbn [List.filter existsb].
    destruct (mterm_sigType mterm) eqn:Et; cbn [dbSigType_eqb];
      cbn [map concat app maxPwr minPwr maxGnd minGnd isVdd isGnd
           scan_pwrLayers scan_gndLayers orb];
      rewrite ?scanPowerPin_fold, ?scanGroundPin_fold;
      cbn [maxPwr minPwr maxGnd minGnd isVdd isGnd
           scan_pwrLayers scan_gndLayers];
      rewrite ?foldl_app, ?list_to_set_app_L, ?orb_true_r, ?orb_false_r,
        ?(assoc_L (∪));
      f_equal; try reflexivity;
      destruct (isVdd s), (isGnd s); reflexivity.
Qed.

Lemma setupMasterPower_spec (o : Optdp) (master : dbMaster) :
  let o' := setupMasterPower o master in
  masterPwrs_ o' = <[master_id master := masterRails master]> (masterPwrs_ o)
  /\ pwrLayers_ o'
     = pwrLayers_ o ∪ list_to_set (pinLayers POWER (master_mterms master))
  /\ gndLayers_ o'
     = gndLayers_ o ∪ list_to_set (pinLayers GROUND (master_mterms master)).
Proof.
  unfold setupMasterPower. rewrite scanMTerm_fold.
  cbn [maxPwr minPwr maxGnd minGnd isVdd isGnd scan_pwrLayers
       scan_gndLayers orb].
  unfold masterRails, hasMTerm.
  destruct (existsb _ (master_mterms master)
            && existsb _ (master_mterms master)); cbv zeta;
    repeat split; reflexivity.
Qed.

Lemma setupMasterPowers_fold (masters : list dbMaster) :
  forall o : Optdp,
    let o' := foldl setupMasterPower o masters in
    (forall h, ~ In h (map master_id masters) ->
               masterPwrs_ o' !! h = masterPwrs_ o !! h)
    /\ (NoDup (map master_id masters) ->
        forall m, In m masters ->
                  masterPwrs_ o' !! master_id m = Some (masterRails m))
    /\ pwrLayers_ o' = pwrLayers_ o ∪ mastersLayers POWER masters
    /\ gndLayers_ o' = gndLayers_ o ∪ mastersLayers GROUND masters.
Proof.
  induction masters as [|m masters IH]; intros o.
  - simpl. split; [done|]. split; [by intros _ m []|].
    unfold mastersLayers. simpl. split; by rewrite (right_id_L ∅ (∪)).
  - cbv zeta.
    change (foldl setupMasterPower o (m :: masters))
      with (foldl setupMasterPower (setupMasterPower o m) masters).
    destruct (setupMasterPower_spec o m) as (Hm & Hp & Hg).
    cbv zeta in Hm, Hp, Hg.
    destruct (IH (setupMasterPower o m)) as (Hout & Hin & Hpw & Hgn).
    cbv zeta in Hout, Hin, Hpw, Hgn.
    set (o1 := setupMasterPower o m) in *. clearbody o1.
    set (o' := foldl setupMasterPower o1 masters) in *. clearbody o'.
    split; [|split; [|split]].
    + intros h Hh. simpl in Hh. rewrite Hout by tauto.
      rewrite Hm. apply lookup_insert_ne. tauto.
    + intros Hnd. simpl in Hnd. apply NoDup_cons in Hnd.
      destruct Hnd as [Hnotin Hnd]. intros m' [<- | Hin'].
      * rewrite Hout; [rewrite Hm; apply lookup_insert_eq|].
        intros Hc. apply Hnotin. by apply list_elem_of_In.
      * by apply Hin.
    + rewrite Hpw, Hp. unfold mastersLayers. cbn [map concat].
      rewrite list_to_set_app_L. by rewrite (assoc_L (∪)).
    + rewrite Hgn, Hg. unfold mastersLayers. cbn [map concat].
      rewrite list_to_set_app_L. by rewrite (assoc_L (∪)).
Qed.

(** X11. The layers that [setupMasterPowers] records: to the layers it
    finds in the object it adds the layers of all geometry of all pins of
    the POWER terminals of the masters of the block, and the same for the
    GROUND terminals; no layer is ever removed. *)
Theorem setupMasterPowers_layers (o : Optdp) :
  pwrLayers_ (setupMasterPowers o)
  = pwrLayers_ o ∪ mastersLayers POWER (block_masters (db_ o))
  /\ gndLayers_ (setupMasterPowers o)
     = gndLayers_ o ∪ mastersLayers GROUND (block_masters (db_ o)).
Proof.
  destruct (setupMasterPowers_fold (block_masters (db_ o)) o)
    as (_ & _ & Hp & Hg).
  split; [exact Hp|exact Hg].
Qed.

(** X12. The rails that [setupMasterPowers] records, when no two masters
    of the block share a handle: every master of the block gets an
    entry; the entry is (unknown, unknown) exactly when the master lacks
    a POWER terminal or lacks a GROUND terminal, and else says for the top
    whether the highest power pin lies above the highest ground pin and
    for the bottom whether the lowest power pin lies below the lowest
    ground pin (VDD if so, VSS if not).  The height of a pin is half the
    32-bit sum [yMin + yMax] of its box, the middle of the box where the
    sum fits 32 bits.  Entries of other handles are kept. *)
Theorem setupMasterPowers_rails (o : Optdp) :
  let o' := setupMasterPowers o in
  NoDup (map master_id (block_masters (db_ o))) ->
  (forall m, In m (block_masters (db_ o)) ->
             masterPwrs_ o' !! master_id m = Some (masterRails m)
             /\ (masterRails m = (RowPower_UNK, RowPower_UNK)
                 <-> hasMTerm POWER m && hasMTerm GROUND m = false))
  /\ (forall h, ~ In h (map master_id (block_masters (db_ o))) ->
                masterPwrs_ o' !! h = masterPwrs_ o !! h)
  /\ (forall mpin,
        let bb := mpin_bbox mpin in
        (pinCentre mpin == inject_Z (int32 (yMin bb + yMax bb)) / 2)%Q
        /\ (is_int32 (yMin bb + yMax bb) ->
            (pinCentre mpin
             == (inject_Z (yMin bb) + inject_Z (yMax bb)) / 2)%Q)).
Proof.
  intros o' Hnd.
  destruct (setupMasterPowers_fold (block_masters (db_ o)) o)
    as (Hout & Hin & _).
  split; [|split; [exact Hout|]].
  - intros m Hm. split; [exact (Hin Hnd m Hm)|].
    unfold masterRails.
    destruct (hasMTerm POWER m && hasMTerm GROUND m); [|done].
    split; [|discriminate].
    destruct (Qlt_le_dec _ _); discriminate.
  - intros mpin bb. unfold pinCentre. fold bb. split.
    + unfold half. field.
    + intros Hy. rewrite (int32_id _ Hy), inject_Z_plus. unfold half. field.
Qed.

Lemma setupMasterPowers_rails_witness :
  NoDup (map master_id (block_masters (db_ (init sample_block))))
  /\ masterPwrs_ (setupMasterPowers (init sample_block))
       !! master_id sample_master
     = Some (masterRails sample_master)
  /\ masterRails sample_master = (RowPower_VDD, RowPower_VSS)
  /\ masterRails sample_padMaster = (RowPower_UNK, RowPower_UNK)
  /\ NoDup (map master_id (block_masters (db_ (init far_block))))
  /\ masterPwrs_ (setupMasterPowers (init far_block))
       !! master_id far_master
     = Some (masterRails far_master)
  /\ masterRails far_master = (RowPower_VSS, RowPower_VDD).
Proof.
  assert (Hnd : NoDup (map master_id
                         (block_masters (db_ (init sample_block))))).
  { apply NoDup_cons. split; [|apply NoDup_singleton].
    intros Hc. apply list_elem_of_In in Hc. simpl in Hc.
    destruct Hc as [Hc|[]]. discriminate Hc. }
  assert (Hnf : NoDup (map master_id (block_masters (db_ (init far_block)))))
    by apply NoDup_singleton.
  split; [exact Hnd|].
  destruct (setupMasterPowers_rails (init sample_block) Hnd) as [Hin _].
  destruct (setupMasterPowers_rails (init far_block) Hnf) as [Hfar _].
  split; [destruct (Hin sample_master) as [Hm _]; [simpl; tauto|exact Hm]|].
  split; [vm_compute; reflexivity|]. split; [vm_compute; reflexivity|].
  split; [exact Hnf|].
  split; [destruct (Hfar far_master) as [Hm _]; [simpl; tauto|exact Hm]|].
  vm_compute. reflexivity.
Defined.

(** ** The rails of the cells *)

Section CellRails.
Context `{DpoConstants} `{External}.

Lemma cell_rails_general (o1 io : Optdp) (i : nat) (inst : dbInst)
    (pw : RowPower * RowPower) :
  nodes_noRegion io = nodes_noRegion (createNetwork o1) ->
  cells (block_insts (db_ o1)) !! i = Some inst ->
  masterPwrs_ o1 !! master_id (inst_master inst) = Some pw ->
  exists nd, nodes_ io !! i = Some nd
             /\ m_powerTop nd = fst pw /\ m_powerBot nd = snd pw.
Proof.
  intros Hn Hi Hpw.
  destruct (createNetwork_run o1) as (_ & _ & Hc & _). cbv zeta in Hc.
  destruct (Hc i inst Hi) as (nd & Hlk & Hcore).
  change (c_o (createNetwork_locals o1)) with (createNetwork o1) in Hlk.
  set (o' := createNetwork o1) in *. clearbody o'.
  assert (Hlk' : nodes_noRegion io !! i = Some (Node_noRegion nd)).
  { rewrite Hn. unfold nodes_noRegion. rewrite list_lookup_fmap, Hlk.
    reflexivity. }
  unfold nodes_noRegion in Hlk'. rewrite list_lookup_fmap in Hlk'.
  destruct (nodes_ io !! i) as [nd'|] eqn:Hlk2; [|discriminate].
  change (Some (Node_noRegion nd') = Some (Node_noRegion nd)) in Hlk'.
  assert (Hnr : Node_noRegion nd' = Node_noRegion nd) by congruence.
  set (cn := cellNode o1 (setLocationOrient R0 inst) i) in Hcore.
  assert (Hf : forall A (f : Node -> A),
             (forall x, f (Node_core x) = f x) ->
             (forall x, f (Node_noRegion x) = f x) -> f nd' = f cn).
  { intros A f Hfc Hfr.
    rewrite <- (Hfr nd'), Hnr, Hfr, <- (Hfc nd), <- (Hfc cn).
    by rewrite Hcore. }
  exists nd'. split; [reflexivity|].
  rewrite (Hf _ m_powerTop), (Hf _ m_powerBot) by reflexivity.
  subst cn. unfold cellNode. cbv zeta.
  change (inst_master (setLocationOrient R0 inst)) with (inst_master inst).
  rewrite Hpw. by destruct pw.
Qed.

(** X13. The rails of the cells after [import], when no two masters of
    the block share a handle: the node of a placeable instance whose
    master is a master of the block carries the rails of that master, as
    [setupMasterPowers] works them out from the heights of its power and
    ground pins, each height being half the 32-bit sum [yMin + yMax] of
    the box of the pin. *)
Theorem import_cell_rails (o : Optdp) (i : nat) (inst : dbInst) :
  NoDup (map master_id (block_masters (db_ o))) ->
  cells (block_insts (db_ o)) !! i = Some inst ->
  In (inst_master inst) (block_masters (db_ o)) ->
  exists nd,
    nodes_ (import o) !! i = Some nd
    /\ m_powerTop nd = fst (masterRails (inst_master inst))
    /\ m_powerBot nd = snd (masterRails (inst_master inst)).
Proof.
  intros Hnd Hi Hin.
  destruct (import_state o) as (_ & _ & Hn).
  rewrite import_network_eq in Hn.
  set (o0 := with_arch Architecture_new _) in Hn.
  assert (Hdb0 : db_ o0 = db_ o) by reflexivity.
  clearbody o0.
  destruct (setupMasterPowers_fold (block_masters (db_ o0)) o0)
    as (_ & Hm & _). cbv zeta in Hm.
  change (foldl setupMasterPower o0 (block_masters (db_ o0)))
    with (setupMasterPowers o0) in Hm.
  assert (Hdb1 : db_ (setupMasterPowers o0) = db_ o)
    by (rewrite setupMasterPowers_db; exact Hdb0).
  rewrite Hdb0 in Hm. specialize (Hm Hnd _ Hin).
  set (o1 := setupMasterPowers o0) in *. clearbody o1.
  rewrite <- Hdb1 in Hi.
  set (io := import o) in *. clearbody io.
  exact (cell_rails_general o1 io i inst _ Hn Hi Hm).
Qed.

End CellRails.

Lemma import_cell_rails_witness :
  NoDup (map master_id (block_masters (db_ (init sample_block))))
  /\ cells (block_insts (db_ (init sample_block))) !! 0 = Some sample_inst
  /\ In (inst_master sample_inst) (block_masters (db_ (init sample_block)))
  /\ (exists nd,
        nodes_ (@import sample_constants sample_external (init sample_block))
          !! 0 = Some nd
        /\ m_powerTop nd = fst (masterRails sample_master)
        /\ m_powerBot nd = snd (masterRails sample_master))
  /\ NoDup (map master_id (block_masters (db_ (init far_block))))
  /\ cells (block_insts (db_ (init far_block))) !! 0 = Some far_inst
  /\ In (inst_master far_inst) (block_masters (db_ (init far_block)))
  /\ (exists nd,
        nodes_ (@import sample_constants sample_external (init far_block))
          !! 0 = Some nd
        /\ m_powerTop nd = RowPower_VSS /\ m_powerBot nd = RowPower_VDD).
Proof.
  assert (Hnd : NoDup (map master_id
                         (block_masters (db_ (init sample_block))))).
  { apply NoDup_cons. split; [|apply NoDup_singleton].
    intros Hc. apply list_elem_of_In in Hc. simpl in Hc.
    destruct Hc as [Hc|[]]. discriminate Hc. }
  assert (Hi : cells (block_insts (db_ (init sample_block))) !! 0
               = Some sample_inst) by reflexivity.
  assert (Hin : In (inst_master sample_inst)
                   (block_masters (db_ (init sample_block))))
    by (simpl; tauto).
  assert (Hnf : NoDup (map master_id (block_masters (db_ (init far_block)))))
    by apply NoDup_singleton.
  assert (Hif : cells (block_insts (db_ (init far_block))) !! 0
                = Some far_inst) by reflexivity.
  assert (Hinf : In (inst_master far_inst)
                    (block_masters (db_ (init far_block))))
    by (simpl; tauto).
  split; [exact Hnd|]. split; [exact Hi|]. split; [exact Hin|].
  split; [exact (@import_cell_rails sample_constants sample_external
                   (init sample_block) 0 sample_inst Hnd Hi Hin)|].
  split; [exact Hnf|]. split; [exact Hif|]. split; [exact Hinf|].
  destruct (@import_cell_rails sample_constants sample_external
              (init far_block) 0 far_inst Hnf Hif Hinf)
    as (nd & Hlk & Htop & Hbot).
  exists nd. split; [exact Hlk|].
  assert (Hr : masterRails far_master = (RowPower_VSS, RowPower_VDD))
    by (vm_compute; reflexivity).
  change (inst_master far_inst) with far_master in Htop, Hbot.
  rewrite Hr in Htop, Hbot. split; [exact Htop|exact Hbot].
Defined.

(** ** Which terminals are found *)

Section FoundTerminals.
Context `{DpoConstants}.

Lemma populateInst_instMap_in (insts : list dbInst) :
  forall (o o' : Optdp) (n n' : nat),
    foldl populateInst (o, n) insts = (o', n') ->
    forall h, In h (map inst_id (cells insts)) \/ is_Some (instMap_ o !! h) ->
              is_Some (instMap_ o' !! h).
Proof.
  induction insts as [|inst insts IH]; intros o o' n n' Hfold h Hh.
  - simpl in Hfold. inversion Hfold; subst. destruct Hh as [[]|Hh]. exact Hh.
  - change (foldl populateInst (populateInst (o, n) inst) insts = (o', n'))
      in Hfold.
    rewrite cells_cons in Hh.
    destruct (skipInst inst) eqn:Hskip.
    + rewrite populateInst_skip in Hfold by done.
      exact (IH _ _ _ _ Hfold h Hh).
    + rewrite populateInst_cell in Hfold by done. cbv zeta in Hfold.
      set (o1 := with_network _ _) in Hfold.
      assert (Hm1 : instMap_ o1 = <[inst_id inst := n]> (instMap_ o))
        by reflexivity.
      apply (IH _ _ _ _ Hfold h). simpl in Hh. rewrite Hm1.
      destruct (decide (inst_id inst = h)) as [<-|Hne].
      * right. rewrite lookup_insert_eq. by eexists.
      * rewrite lookup_insert_ne by done. destruct Hh as [[Hh|Hh]|Hh];
          [done|by left|by right].
Qed.

Lemma populateBTerm_termMap_in (bterms : list dbBTerm) :
  forall (o o' : Optdp) (n n' : nat),
    foldl populateBTerm (o, n) bterms = (o', n') ->
    forall h, In h (map bterm_id bterms) \/ is_Some (termMap_ o !! h) ->
              is_Some (termMap_ o' !! h).
Proof.
  induction bterms as [|bterm bterms IH]; intros o o' n n' Hfold h Hh.
  - simpl in Hfold. inversion Hfold; subst. destruct Hh as [[]|Hh]. exact Hh.
  - change (foldl populateBTerm (populateBTerm (o, n) bterm) bterms
            = (o', n')) in Hfold.
    unfold populateBTerm at 2 in Hfold.
    set (o1 := with_network _ _) in Hfold.
    assert (Hm1 : termMap_ o1 = <[bterm_id bterm := n]> (termMap_ o))
      by reflexivity.
    apply (IH _ _ _ _ Hfold h). simpl in Hh. rewrite Hm1.
    destruct (decide (bterm_id bterm = h)) as [<-|Hne].
    + right. rewrite lookup_insert_eq. by eexists.
    + rewrite lookup_insert_ne by done. destruct Hh as [[Hh|Hh]|Hh];
        [done|by left|by right].
Qed.

(** The handles in the node maps after [createNetwork]: those of the
    placeable instances and of the terminals of the block, and those
    that were in the maps before. *)
Lemma createNetwork_maps_dom (o : Optdp) :
  let o' := createNetwork o in
  let cs := cells (block_insts (db_ o)) in
  let bs := block_bterms (db_ o) in
  (forall h, is_Some (instMap_ o' !! h)
             <-> In h (map inst_id cs) \/ is_Some (instMap_ o !! h))
  /\ (forall h, is_Some (termMap_ o' !! h)
                <-> In h (map bterm_id bs) \/ is_Some (termMap_ o !! h)).
Proof.
  intros o' cs bs.
  destruct (createNetwork_maps o) as (Hi1 & _ & Ht1 & _).
  fold o' cs bs in Hi1, Ht1.
  destruct (createNetwork_maps_eq o) as [Hi Ht]. cbv zeta in Hi, Ht.
  fold o' in Hi, Ht.
  set (o0 := allocateNetwork (countNetwork (db_ o)) (with_layers ∅ ∅ o))
    in Hi, Ht.
  assert (Hdb0 : db_ o0
                 = block_with_insts (map resetOrient (block_insts (db_ o)))
                                    (db_ o)) by reflexivity.
  assert (Hi0 : instMap_ o0 = instMap_ o) by reflexivity.
  assert (Ht0 : termMap_ o0 = termMap_ o) by reflexivity.
  assert (Hcs0 : map inst_id (cells (block_insts (db_ o0)))
                 = map inst_id cs).
  { rewrite Hdb0. simpl. rewrite cells_resetOrient. apply inst_id_reset. }
  assert (Hbs0 : block_bterms (db_ o0) = bs) by (rewrite Hdb0; reflexivity).
  unfold populateNodes in Hi, Ht. rewrite Hbs0 in Hi, Ht.
  clearbody o0.
  destruct (foldl populateInst (o0, 0) (block_insts (db_ o0)))
    as [o1 n1] eqn:E1.
  pose proof (populateInst_instMap_in _ _ _ _ _ E1) as Hin.
  pose proof (populateInst_frame (block_insts (db_ o0)) (o0, 0)) as [_ Htm].
  rewrite E1 in Htm. simpl in Htm.
  pose proof (populateBTerm_frame bs (o1, n1)) as [_ Him]. simpl in Him.
  destruct (foldl populateBTerm (o1, n1) bs) as [o2 n2] eqn:E2.
  pose proof (populateBTerm_termMap_in _ _ _ _ _ E2) as Hin2.
  simpl in Him, Hi, Ht.
  rewrite Hcs0, Hi0 in Hin. rewrite Htm, Ht0 in Hin2.
  rewrite <- Him in Hin. rewrite <- Hi in Hin. rewrite <- Ht in Hin2.
  clearbody o'. split.
  - intros h. split; [|apply Hin].
    intros Hs. destruct (in_dec Nat.eq_dec h (map inst_id cs)) as [Hy|Hn];
      [by left|right]. by rewrite <- (Hi1 h Hn).
  - intros h. split; [|apply Hin2].
    intros Hs. destruct (in_dec Nat.eq_dec h (map bterm_id bs)) as [Hy|Hn];
      [by left|right]. by rewrite <- (Ht1 h Hn).
Qed.

Lemma count_zero {A : Type} (p : A -> bool) (l : list A) :
  count p l = 0 <-> forall x, In x l -> p x = false.
Proof.
  unfold count. induction l as [|a l IH]; simpl.
  - split; [by intros _ x []|done].
  - destruct (p a) eqn:Ea; simpl.
    + split; [discriminate|]. intros Hall.
      specialize (Hall a (or_introl eq_refl)). congruence.
    + rewrite IH. split.
      * intros Hall x [<-|Hx]; [exact Ea|by apply Hall].
      * intros Hall x Hx. apply Hall. by right.
Qed.

Lemma sum_list_zero {A : Type} (f : A -> nat) (l : list A) :
  sum_list (map f l) = 0 <-> forall x, In x l -> f x = 0.
Proof.
  unfold sum_list. induction l as [|a l IH]; simpl.
  - split; [by intros _ x []|done].
  - split.
    + intros Hs x [<-|Hx]; [lia|]. apply IH; [lia|exact Hx].
    + intros Hall. rewrite (Hall a) by (by left).
      apply IH. intros x Hx. apply Hall. by right.
Qed.

(** X14. Which terminals of the nets [createNetwork] finds, on a first
    run (the node maps, which [import] never empties, being empty): an
    instance terminal is found exactly when its instance is a core or
    block instance of the block, a block terminal exactly when it is a
    terminal of the block.  So the count of errors ends as zero exactly
    when every terminal of every net refers to such an instance or
    terminal; one terminal on an instance that is neither core nor block
    (a pad, say) makes the import report errors. *)
Theorem createNetwork_found_terminals (o : Optdp) :
  instMap_ o = ∅ -> termMap_ o = ∅ ->
  let c := createNetwork_locals o in
  let cs := cells (block_insts (db_ o)) in
  let bs := block_bterms (db_ o) in
  (forall it, foundITerm (c_o c) it = true
              <-> In (iterm_inst it) (map inst_id cs))
  /\ (forall bt, foundBTerm (c_o c) bt = true
                 <-> In bt (map bterm_id bs))
  /\ (c_errors c = 0
      <-> forall net, In net (block_nets (db_ o)) ->
            (forall it, In it (net_iterms net) ->
                        In (iterm_inst it) (map inst_id cs))
            /\ (forall bt, In bt (net_bterms net) ->
                           In bt (map bterm_id bs))).
Proof.
  intros Hi0 Ht0 c cs bs.
  destruct (createNetwork_maps_dom o) as [Hdi Hdt].
  change (createNetwork o) with (c_o c) in Hdi, Hdt. fold cs bs in Hdi, Hdt.
  destruct (createNetwork_errors o) as [Herr _]. fold c in Herr.
  cbv zeta in Herr.
  assert (Hfi : forall it, foundITerm (c_o c) it = true
                           <-> In (iterm_inst it) (map inst_id cs)).
  { intros it. unfold foundITerm. rewrite bool_decide_eq_true, Hdi, Hi0.
    rewrite lookup_empty. split; [intros [Hy|[x Hx]]; [exact Hy|discriminate]
                                 |by left]. }
  assert (Hfb : forall bt, foundBTerm (c_o c) bt = true
                           <-> In bt (map bterm_id bs)).
  { intros bt. unfold foundBTerm. rewrite bool_decide_eq_true, Hdt, Ht0.
    rewrite lookup_empty. split; [intros [Hy|[x Hx]]; [exact Hy|discriminate]
                                 |by left]. }
  split; [exact Hfi|]. split; [exact Hfb|].
  set (m := missingPins (c_o c) (block_nets (db_ o))) in *.
  assert (Hm : c_errors c = 0 <-> m = 0).
  { rewrite Herr. destruct (Nat.eqb m 0) eqn:E.
    - apply Nat.eqb_eq in E. lia.
    - apply Nat.eqb_neq in E. lia. }
  rewrite Hm. unfold m, missingPins. rewrite sum_list_zero.
  split.
  - intros Hall net Hnet. specialize (Hall net Hnet).
    unfold missingInNet in Hall.
    assert (H1 : count (fun t => negb (foundITerm (c_o c) t)) (net_iterms net)
                 = 0) by lia.
    assert (H2 : count (fun t => negb (foundBTerm (c_o c) t)) (net_bterms net)
                 = 0) by lia.
    rewrite count_zero in H1. rewrite count_zero in H2. split.
    + intros it Hit. apply Hfi. specialize (H1 it Hit).
      by apply negb_false_iff in H1.
    + intros bt Hbt. apply Hfb. specialize (H2 bt Hbt).
      by apply negb_false_iff in H2.
  - intros Hall net Hnet. destruct (Hall net Hnet) as [H1 H2].
    unfold missingInNet.
    assert (E1 : count (fun t => negb (foundITerm (c_o c) t)) (net_iterms net)
                 = 0).
    { apply count_zero. intros it Hit. apply negb_false_iff, Hfi.
      by apply H1. }
    assert (E2 : count (fun t => negb (foundBTerm (c_o c) t)) (net_bterms net)
                 = 0).
    { apply count_zero. intros bt Hbt. apply negb_false_iff, Hfb.
      by apply H2. }
    lia.
Qed.

End FoundTerminals.

Lemma createNetwork_found_terminals_witness :
  let c := @createNetwork_locals sample_constants (init sample_block) in
  instMap_ (init sample_block) = ∅ /\ termMap_ (init sample_block) = ∅
  /\ foundITerm (c_o c) (mkITerm 1 sample_pinA sample_master) = true
  /\ ~ foundITerm (c_o c) (mkITerm 2 sample_pinA sample_padMaster) = true
  /\ c_errors c <> 0.
Proof.
  intros c.
  assert (Hi : instMap_ (init sample_block) = ∅) by reflexivity.
  assert (Ht : termMap_ (init sample_block) = ∅) by reflexivity.
  split; [exact Hi|]. split; [exact Ht|].
  destruct (@createNetwork_found_terminals sample_constants
              (init sample_block) Hi Ht) as (Hfi & _ & Herr).
  fold c in Hfi, Herr.
  split; [apply Hfi; simpl; tauto|]. split.
  - intros Hf. apply Hfi in Hf. simpl in Hf. destruct Hf as [Hf|[]].
    discriminate Hf.
  - intros He. pose proof (proj1 Herr He) as Hall.
    destruct (Hall sample_net) as [H1 _]; [simpl; tauto|].
    specialize (H1 (mkITerm 2 sample_pinA sample_padMaster)).
    simpl in H1. destruct H1 as [H1|[]]; [tauto|]. discriminate H1.
Defined.

(** ** The pins of the network *)

Section PinList.
Context `{DpoConstants}.

Lemma node_id_dense (o : Optdp) (n : nat) :
  dense_nodes o -> n < length (nodes_ o) ->
  m_id (getNode (network_ o) n) = n.
Proof.
  intros Hd Hlt. unfold getNode.
  destruct (lookup_lt_is_Some_2 _ _ Hlt) as [nd Hnd].
  unfold nodes_ in Hnd. rewrite Hnd. simpl. by apply Hd.
Qed.

Lemma maps_in_range_frame (o1 o2 : Optdp) :
  conn_frame o1 = conn_frame o2 -> maps_in_range o1 -> maps_in_range o2.
Proof.
  unfold conn_frame, maps_in_range. intros E.
  assert (instMap_ o1 = instMap_ o2) as -> by congruence.
  assert (termMap_ o1 = termMap_ o2) as -> by congruence.
  assert (Hl : length (nodes_ o1) = length (nodes_ o2)).
  { rewrite <- (length_fmap Node_core (nodes_ o1)),
            <- (length_fmap Node_core (nodes_ o2)). congruence. }
  by rewrite Hl.
Qed.

Lemma pin_appended (s s1 : Conn) (n e : nat) (dx dy hh ww : Q) :
  pins_ (c_o s1) = pins_ (c_o s) ->
  pins_ (with_network
           (setPin (snd (createAndAddPin n e (network_ (c_o s1))))
                   dx dy hh ww 0
                   (fst (createAndAddPin n e (network_ (c_o s1)))))
           (c_o s1))
  = pins_ (c_o s) ++ [mkPin n e dx dy hh ww 0].
Proof.
  intros Hs1.
  destruct (createAndAddPin_spec n e (network_ (c_o s1))) as (Hptr & Hp & _).
  unfold pins_, setPin in *.
  cbn [network_ with_network net_pins Network_with_pins].
  rewrite Hptr, Hp, Hs1.
  rewrite <- (Nat.add_0_r (length (net_pins (network_ (c_o s))))) at 1.
  rewrite alter_app_r. reflexivity.
Qed.

Lemma connectITerm_pins (e : nat) (s : Conn) (iTerm : dbITerm) :
  dense_nodes (c_o s) -> edge_open (c_o s) e -> maps_in_range (c_o s) ->
  pins_ (c_o (connectITerm e s iTerm))
  = pins_ (c_o s)
    ++ match instMap_ (c_o s) !! iterm_inst iTerm with
       | Some n => [itermPin n e iTerm]
       | None => []
       end.
Proof.
  intros Hd He [Hri _]. unfold connectITerm.
  destruct (instMap_ (c_o s) !! iterm_inst iTerm) as [it_n|] eqn:Hit.
  - pose proof (proper_indexing (c_o s) it_n e Hd He) as Hpi.
    rewrite (node_id_dense _ _ Hd (Hri _ _ Hit)) in *.
    rewrite Hpi.
    rewrite (surjective_pairing (createAndAddPin it_n e (network_ (c_o s)))).
    cbn [c_o]. apply (pin_appended s s). reflexivity.
  - by rewrite app_nil_r.
Qed.

Lemma connectBTerm_pins (e : nat) (s : Conn) (bTerm : nat) :
  dense_nodes (c_o s) -> edge_open (c_o s) e -> maps_in_range (c_o s) ->
  pins_ (c_o (connectBTerm e s bTerm))
  = pins_ (c_o s)
    ++ match termMap_ (c_o s) !! bTerm with
       | Some n => [btermPin n e]
       | None => []
       end.
Proof.
  intros Hd He [_ Hrt]. unfold connectBTerm.
  destruct (termMap_ (c_o s) !! bTerm) as [it_p|] eqn:Hit.
  - pose proof (proper_indexing (c_o s) it_p e Hd He) as Hpi.
    rewrite (node_id_dense _ _ Hd (Hrt _ _ Hit)) in *.
    rewrite Hpi.
    rewrite (surjective_pairing (createAndAddPin it_p e (network_ (c_o s)))).
    cbn [c_o]. apply (pin_appended s s). reflexivity.
  - by rewrite app_nil_r.
Qed.

(** The pins that a loop over terminals appends. *)
Lemma pins_fold {T : Type} (f : Conn -> T -> Conn) (e : nat)
    (pin : Optdp -> T -> list Pin) (l : list T) :
  (forall s t, conn_frame (c_o (f s t)) = conn_frame (c_o s)) ->
  (forall s t, dense_nodes (c_o s) -> edge_open (c_o s) e ->
               maps_in_range (c_o s) ->
               pins_ (c_o (f s t)) = pins_ (c_o s) ++ pin (c_o s) t) ->
  (forall o1 o2, conn_frame o1 = conn_frame o2 ->
                 forall t, pin o1 t = pin o2 t) ->
  forall s, dense_nodes (c_o s) -> edge_open (c_o s) e ->
            maps_in_range (c_o s) ->
    conn_frame (c_o (foldl f s l)) = conn_frame (c_o s)
    /\ pins_ (c_o (foldl f s l))
       = pins_ (c_o s) ++ concat (map (pin (c_o s)) l).
Proof.
  intros Hframe Hpin Hext. induction l as [|t l IH]; intros s Hd He Hr.
  - simpl. by rewrite app_nil_r.
  - change (foldl f s (t :: l)) with (foldl f (f s t) l).
    pose proof (Hframe s t) as Hf.
    assert (Hn : Node_core <$> nodes_ (c_o s)
                 = Node_core <$> nodes_ (c_o (f s t)))
      by (unfold conn_frame in Hf; congruence).
    assert (Hed : e_id <$> edges_ (c_o s) = e_id <$> edges_ (c_o (f s t)))
      by (unfold conn_frame in Hf; congruence).
    destruct (IH (f s t) (dense_nodes_frame _ _ Hn Hd)
                (edge_open_frame _ _ e Hed He)
                (maps_in_range_frame _ _ (eq_sym Hf) Hr)) as (Hf' & Hp').
    split; [congruence|].
    rewrite Hp', (Hpin s t Hd He Hr), <- app_assoc. f_equal.
    cbn [map concat]. f_equal. f_equal.
    apply map_ext. intros x. by apply Hext.
Qed.

Lemma connectNet_pins (c : Conn) (e : nat) (net : dbNet) :
  dense_nodes (c_o c) -> maps_in_range (c_o c) ->
  e < length (edges_ (c_o c)) ->
  pins_ (c_o (fst (connectNet (c, e) net)))
  = pins_ (c_o c) ++ netPins (instMap_ (c_o c)) (termMap_ (c_o c)) e net.
Proof.
  intros Hd Hr Hlt. rewrite connectNet_eq. cbn [fst].
  destruct (openEdge_spec c e net) as (Hf0 & _ & _ & _ & _ & _ & Hi0).
  assert (Hp0 : pins_ (c_o (openEdge c e net)) = pins_ (c_o c))
    by reflexivity.
  set (s0 := openEdge c e net) in *.
  assert (Hm0 : instMap_ (c_o s0) = instMap_ (c_o c)
                /\ termMap_ (c_o s0) = termMap_ (c_o c)
                /\ Node_core <$> nodes_ (c_o s0)
                   = Node_core <$> nodes_ (c_o c)).
  { unfold net_frame in Hf0. repeat split; congruence. }
  destruct Hm0 as (Hmi & Hmt & Hmn).
  assert (Hd0 : dense_nodes (c_o s0))
    by (apply (dense_nodes_frame (c_o c)); [by symmetry|done]).
  assert (Ho0 : edge_open (c_o s0) e) by (apply Hi0; exact Hlt).
  assert (Hr0 : maps_in_range (c_o s0)).
  { unfold maps_in_range. rewrite Hmi, Hmt.
    assert (Hl : length (nodes_ (c_o s0)) = length (nodes_ (c_o c))).
    { rewrite <- (length_fmap Node_core (nodes_ (c_o s0))), Hmn.
      apply length_fmap. }
    rewrite Hl. exact Hr. }
  destruct (pins_fold (connectITerm e) e
              (fun o it => match instMap_ o !! iterm_inst it with
                           | Some n => [itermPin n e it]
                           | None => []
                           end)
              (net_iterms net)
              (fun s t => proj1 (connectITerm_step e s t))
              (connectITerm_pins e)) with (s := s0) as (Hf1 & Hp1);
    try assumption.
  { intros o1 o2 E t.
    assert (instMap_ o1 = instMap_ o2) as ->
      by (unfold conn_frame in E; congruence). reflexivity. }
  set (s1 := foldl (connectITerm e) s0 (net_iterms net)) in *.
  assert (Hn1 : Node_core <$> nodes_ (c_o s0)
                = Node_core <$> nodes_ (c_o s1))
    by (unfold conn_frame in Hf1; congruence).
  assert (Hed1 : e_id <$> edges_ (c_o s0) = e_id <$> edges_ (c_o s1))
    by (unfold conn_frame in Hf1; congruence).
  destruct (pins_fold (connectBTerm e) e
              (fun o bt => match termMap_ o !! bt with
                           | Some n => [btermPin n e]
                           | None => []
                           end)
              (net_bterms net)
              (fun s t => proj1 (connectBTerm_step e s t))
              (connectBTerm_pins e)) with (s := s1) as (Hf2 & Hp2).
  { intros o1 o2 E t.
    assert (termMap_ o1 = termMap_ o2) as ->
      by (unfold conn_frame in E; congruence). reflexivity. }
  { exact (dense_nodes_frame _ _ Hn1 Hd0). }
  { exact (edge_open_frame _ _ e Hed1 Ho0). }
  { exact (maps_in_range_frame _ _ (eq_sym Hf1) Hr0). }
  rewrite Hp2, Hp1, Hp0, <- app_assoc. unfold netPins.
  assert (Ht1 : termMap_ (c_o s1) = termMap_ (c_o c)).
  { transitivity (termMap_ (c_o s0)); [|exact Hmt].
    unfold conn_frame in Hf1. congruence. }
  by rewrite Hmi, Ht1.
Qed.

Lemma connectNets_pins (nets : list dbNet) :
  forall (c : Conn) (e : nat),
    dense_nodes (c_o c) -> maps_in_range (c_o c) ->
    e + length nets <= length (edges_ (c_o c)) ->
    pins_ (c_o (fst (foldl connectNet (c, e) nets)))
    = pins_ (c_o c)
      ++ networkPins (instMap_ (c_o c)) (termMap_ (c_o c)) e nets.
Proof.
  induction nets as [|net nets IH]; intros c e Hd Hr Hlen.
  - simpl. by rewrite app_nil_r.
  - change (foldl connectNet (c, e) (net :: nets))
      with (foldl connectNet (connectNet (c, e) net) nets).
    simpl in Hlen.
    pose proof (connectNet_pins c e net Hd Hr) as Hp1.
    destruct (connectNet_steps c e net) as ((Hf & _) & _).
    rewrite connectNet_eq in *. cbn [fst] in *.
    set (c1 := foldl (connectBTerm e) _ _) in *.
    assert (Hm : instMap_ (c_o c1) = instMap_ (c_o c)
                 /\ termMap_ (c_o c1) = termMap_ (c_o c)
                 /\ Node_core <$> nodes_ (c_o c1)
                    = Node_core <$> nodes_ (c_o c)
                 /\ length (edges_ (c_o c1)) = length (edges_ (c_o c))).
    { unfold net_frame in Hf. repeat split; congruence. }
    destruct Hm as (Hmi & Hmt & Hmn & Hme).
    assert (Hd1 : dense_nodes (c_o c1))
      by (apply (dense_nodes_frame (c_o c)); [by symmetry|done]).
    assert (Hr1 : maps_in_range (c_o c1)).
    { unfold maps_in_range. rewrite Hmi, Hmt.
      assert (Hl : length (nodes_ (c_o c1)) = length (nodes_ (c_o c))).
      { rewrite <- (length_fmap Node_core (nodes_ (c_o c1))), Hmn.
        apply length_fmap. }
      rewrite Hl. exact Hr. }
    rewrite (IH c1 (S e) Hd1 Hr1) by lia.
    rewrite Hp1 by lia. rewrite Hmi, Hmt, <- app_assoc. reflexivity.
Qed.

End PinList.

Section NetworkPins.
Context `{DpoConstants}.

Lemma populateInst_instMap_range (insts : list dbInst) :
  forall (o o' : Optdp) (n n' : nat),
    foldl populateInst (o, n) insts = (o', n') ->
    forall h v, instMap_ o' !! h = Some v ->
                instMap_ o !! h = Some v \/ (n <= v < n').
Proof.
  induction insts as [|inst insts IH]; intros o o' n n' Hfold h v Hv.
  - simpl in Hfold. inversion Hfold; subst. by left.
  - change (foldl populateInst (populateInst (o, n) inst) insts = (o', n'))
      in Hfold.
    destruct (skipInst inst) eqn:Hskip.
    + rewrite populateInst_skip in Hfold by done.
      exact (IH _ _ _ _ Hfold h v Hv).
    + rewrite populateInst_cell in Hfold by done. cbv zeta in Hfold.
      set (o1 := with_network _ _) in Hfold.
      assert (Hm1 : instMap_ o1 = <[inst_id inst := n]> (instMap_ o))
        by reflexivity.
      destruct (populateInst_nodes _ _ _ _ _ Hfold) as (Hn' & _).
      destruct (IH _ _ _ _ Hfold h v Hv) as [Hold|Hnew]; [|right; lia].
      rewrite Hm1 in Hold.
      destruct (decide (inst_id inst = h)) as [<-|Hne].
      * rewrite lookup_insert_eq in Hold. inversion Hold; subst. right. lia.
      * rewrite lookup_insert_ne in Hold by done. by left.
Qed.

Lemma populateBTerm_termMap_range (bterms : list dbBTerm) :
  forall (o o' : Optdp) (n n' : nat),
    foldl populateBTerm (o, n) bterms = (o', n') ->
    forall h v, termMap_ o' !! h = Some v ->
                termMap_ o !! h = Some v \/ (n <= v < n').
Proof.
  induction bterms as [|bterm bterms IH]; intros o o' n n' Hfold h v Hv.
  - simpl in Hfold. inversion Hfold; subst. by left.
  - change (foldl populateBTerm (populateBTerm (o, n) bterm) bterms
            = (o', n')) in Hfold.
    unfold populateBTerm at 2 in Hfold.
    set (o1 := with_network _ _) in Hfold.
    assert (Hm1 : termMap_ o1 = <[bterm_id bterm := n]> (termMap_ o))
      by reflexivity.
    destruct (populateBTerm_nodes _ _ _ _ _ Hfold) as (Hn' & _).
    destruct (IH _ _ _ _ Hfold h v Hv) as [Hold|Hnew]; [|right; lia].
    rewrite Hm1 in Hold.
    destruct (decide (bterm_id bterm = h)) as [<-|Hne].
    + rewrite lookup_insert_eq in Hold. inversion Hold; subst. right. lia.
    + rewrite lookup_insert_ne in Hold by done. by left.
Qed.

(** On a first run the node maps after the population of the nodes
    point into the node store. *)
Lemma populateNodes_in_range (o : Optdp) :
  instMap_ o = ∅ -> termMap_ o = ∅ ->
  length (cells (block_insts (db_ o))) + length (block_bterms (db_ o))
  <= length (nodes_ o) ->
  maps_in_range (fst (populateNodes o)).
Proof.
  intros Hi0 Ht0 Hlen.
  destruct (populateNodes_spec o) as (_ & Hl & _). cbv zeta in Hl.
  unfold populateNodes in *.
  destruct (foldl populateInst (o, 0) (block_insts (db_ o)))
    as [o1 n1] eqn:E1.
  pose proof (populateInst_instMap_range _ _ _ _ _ E1) as Hri.
  destruct (populateInst_nodes _ _ _ _ _ E1) as (Hn1 & _).
  pose proof (populateInst_frame (block_insts (db_ o)) (o, 0)) as [_ Htm].
  rewrite E1 in Htm. simpl in Htm.
  pose proof (populateBTerm_frame (block_bterms (db_ o)) (o1, n1))
    as [_ Him]. simpl in Him.
  destruct (foldl populateBTerm (o1, n1) (block_bterms (db_ o)))
    as [o2 n2] eqn:E2.
  pose proof (populateBTerm_termMap_range _ _ _ _ _ E2) as Hrt.
  destruct (populateBTerm_nodes _ _ _ _ _ E2) as (Hn2 & _).
  simpl in Him, Hl. simpl. split.
  - intros h v Hv. rewrite Him in Hv.
    destruct (Hri h v Hv) as [Hold|Hnew].
    + rewrite Hi0, lookup_empty in Hold. discriminate.
    + lia.
  - intros h v Hv.
    destruct (Hrt h v Hv) as [Hold|Hnew].
    + rewrite Htm, Ht0, lookup_empty in Hold. discriminate.
    + lia.
Qed.

(** The pins of the network after the run of [createNetwork] in which
    every error returns, on a first run (the node maps being empty
    before): to the pins that were there the import adds, net by net in
    the order of the database, one pin for every instance terminal of the
    net whose instance has a node and then one for every block terminal
    of the net that has a node. *)
Lemma createNetwork_returning_pins (o : Optdp) :
  instMap_ o = ∅ -> termMap_ o = ∅ ->
  let o' := createNetwork o in
  pins_ o'
  = pins_ o
    ++ networkPins (instMap_ o') (termMap_ o') 0 (block_nets (db_ o)).
Proof.
  intros Hi0 Ht0 o'.
  pose proof (createNetwork_dense_ids o) as [Hdense _].
  fold o' in Hdense.
  destruct (createNetwork_run o) as (_ & Hlen & _ & _ & (Hel & _) & _).
  cbv zeta in Hlen, Hel.
  change (c_o (createNetwork_locals o)) with o' in Hlen, Hel.
  assert (Hceq := createNetwork_locals_eq o). cbv zeta in Hceq.
  assert (Ho' : o' = c_o (createNetwork_locals o)) by reflexivity.
  rewrite Hceq in Ho'. clear Hceq.
  set (o0 := allocateNetwork (countNetwork (db_ o)) (with_layers ∅ ∅ o))
    in Ho'.
  assert (Hp0 : pins_ o0 = pins_ o) by reflexivity.
  assert (Hi00 : instMap_ o0 = ∅) by exact Hi0.
  assert (Ht00 : termMap_ o0 = ∅) by exact Ht0.
  assert (Hdb0 : db_ o0
                 = block_with_insts (map resetOrient (block_insts (db_ o)))
                                    (db_ o)) by reflexivity.
  assert (Hn0 : length (nodes_ o0)
                = nNodes (countNetwork (db_ o))
                  + nTerminals (countNetwork (db_ o))).
  { unfold o0, nodes_. simpl. by rewrite length_replicate. }
  rewrite countNetwork_spec in Hn0. cbn [nNodes nTerminals] in Hn0.
  assert (Hcs0 : length (cells (block_insts (db_ o0)))
                 = length (cells (block_insts (db_ o)))).
  { rewrite Hdb0. simpl. rewrite cells_resetOrient. apply length_map. }
  assert (Hbs0 : block_bterms (db_ o0) = block_bterms (db_ o))
    by (rewrite Hdb0; reflexivity).
  pose proof (populateNodes_in_range o0 Hi00 Ht00) as Hr1.
  rewrite Hcs0, Hbs0, Hn0 in Hr1. specialize (Hr1 (Nat.le_refl _)).
  destruct (populateNodes_spec o0) as (_ & _ & Hf1 & _). cbv zeta in Hf1.
  clearbody o0.
  set (c1 := mkConn (fst (populateNodes o0)) 0 0) in *.
  change (fst (populateNodes o0)) with (c_o c1) in Hr1, Hf1.
  pose proof (connectNets_steps (block_nets (db_ o)) c1 0)
    as (_ & (Hf2 & _) & _).
  pose proof (connectNets_pins (block_nets (db_ o)) c1 0) as Hpins.
  set (c2 := fst (foldl connectNet (c1, 0) (block_nets (db_ o)))) in *.
  match type of Ho' with
  | _ = c_o (reportNetwork (expectCount ?a ?b ?msg c2)) =>
      pose proof (expectCount_logs a b msg c2 eq_refl) as (Hnw3 & Hf3 & _);
      set (c3 := expectCount a b msg c2) in *
  end.
  pose proof (reportNetwork_logs c3) as ((Hnw4 & Hf4 & _) & _).
  rewrite <- Ho' in Hnw4, Hf4. clearbody o'.
  assert (Hfc : conn_frame o' = conn_frame (c_o c2)) by congruence.
  apply conn_frame_net_frame in Hfc.
  assert (Hfn : net_frame o' = net_frame (c_o c1)) by congruence.
  assert (Hm : instMap_ o' = instMap_ (c_o c1)
               /\ termMap_ o' = termMap_ (c_o c1)
               /\ Node_core <$> nodes_ o' = Node_core <$> nodes_ (c_o c1)
               /\ length (edges_ o') = length (edges_ (c_o c1))).
  { unfold net_frame in Hfn. repeat split; congruence. }
  destruct Hm as (Hmi & Hmt & Hmn & Hme).
  assert (Hd1 : dense_nodes (c_o c1))
    by (apply (dense_nodes_frame o'); [exact Hmn|exact Hdense]).
  assert (Hpo : pins_ o' = pins_ (c_o c2)).
  { unfold pins_. congruence. }
  rewrite Hpo, Hpins; [|exact Hd1|exact Hr1|].
  - rewrite Hmi, Hmt. f_equal.
    unfold pop_frame in Hf1. rewrite <- Hp0. congruence.
  - rewrite <- Hme, Hel. simpl. lia.
Qed.

End NetworkPins.

(** ** The write-back *)

Section WriteBack.
Context `{DpoConstants} `{External}.

(** X16. The orientation that the write-back hands to the database.
    With pairwise different orientation flags, a node in the orientation
    N, FN, FS or S is written back as R0, MY, MX or R180; a node in any
    other orientation (E, W, FE, FW among them) is written back as R0. *)
Theorem writeback_orientation :
  disjoint_flags orientation_flags ->
  dbOrient Orientation_N = R0 /\ dbOrient Orientation_FN = MY
  /\ dbOrient Orientation_FS = MX /\ dbOrient Orientation_S = R180
  /\ dbOrient Orientation_E = R0 /\ dbOrient Orientation_W = R0
  /\ dbOrient Orientation_FE = R0 /\ dbOrient Orientation_FW = R0
  /\ forall curr : Z,
       curr <> Orientation_N -> curr <> Orientation_FN ->
       curr <> Orientation_FS -> curr <> Orientation_S ->
       dbOrient curr = R0.
Proof.
  intros Hflags.
  destruct (dbOrient_flags Hflags) as (H1 & H2 & H3 & H4).
  assert (Hother : forall curr : Z,
             curr <> Orientation_N -> curr <> Orientation_FN ->
             curr <> Orientation_FS -> curr <> Orientation_S ->
             dbOrient curr = R0).
  { intros curr N1 N2 N3 N4. unfold dbOrient.
    apply Z.eqb_neq in N1, N2, N3, N4. by rewrite N1, N2, N3, N4. }
  assert (Hne : forall i j a b, i <> j ->
            orientation_flags !! i = Some a ->
            orientation_flags !! j = Some b -> a <> b).
  { intros i j a b Hij Hi Hj ->.
    destruct Hflags as [Hnz Hdis].
    specialize (Hdis i j b b Hij Hi Hj). rewrite Z.land_diag in Hdis.
    apply (Hnz b); [|exact Hdis].
    apply list_elem_of_In. eapply list_elem_of_lookup_2; eauto. }
  split; [exact H1|]. split; [exact H2|]. split; [exact H3|].
  split; [exact H4|].
  repeat split; try exact Hother.
  - apply Hother.
    + by apply (Hne 3 0). + by apply (Hne 3 4).
    + by apply (Hne 3 6). + by apply (Hne 3 2).
  - apply Hother.
    + by apply (Hne 1 0). + by apply (Hne 1 4).
    + by apply (Hne 1 6). + by apply (Hne 1 2).
  - apply Hother.
    + by apply (Hne 5 0). + by apply (Hne 5 4).
    + by apply (Hne 5 6). + by apply (Hne 5 2).
  - apply Hother.
    + by apply (Hne 7 0). + by apply (Hne 7 4).
    + by apply (Hne 7 6). + by apply (Hne 7 2).
Qed.

Lemma updateDbInst_calls (o : Optdp) (inst : dbInst) :
  (skipInst inst = true \/ instMap_ o !! inst_id inst = None ->
   updateDbInst o inst = (inst, []))
  /\ forall c, In c (snd (updateDbInst o inst)) ->
               skipInst inst = false
               /\ is_Some (instMap_ o !! inst_id inst)
               /\ call_inst c = inst_id inst.
Proof.
  split.
  - intros [Hs|Hm]; unfold updateDbInst.
    + by rewrite Hs.
    + rewrite Hm. by destruct (skipInst inst).
  - intros c Hc.
    destruct (skipInst inst) eqn:Hs.
    { unfold updateDbInst in Hc. rewrite Hs in Hc. destruct Hc. }
    destruct (instMap_ o !! inst_id inst) as [it_n|] eqn:Hm.
    2:{ unfold updateDbInst in Hc. rewrite Hs, Hm in Hc. destruct Hc. }
    rewrite (updateDbInst_eq o inst it_n Hs Hm) in Hc. cbv zeta in Hc.
    cbn [snd] in Hc. split; [done|]. split; [by eexists|].
    apply in_app_or in Hc. destruct Hc as [Hc|Hc].
    + destruct (dbOrientType_eqb _ _); [destruct Hc|].
      destruct Hc as [<-|[]]. reflexivity.
    + destruct (negb _ || negb _); [|destruct Hc].
      destruct Hc as [<-|[]]. reflexivity.
Qed.

(** The instances after the write-back: as many as before, and the ones
    passed over or without a node as they were. *)
Lemma updateDbInstLocations_insts (o : Optdp) :
  let r := updateDbInstLocations o in
  length (block_insts (db_ (fst r))) = length (block_insts (db_ o))
  /\ forall i inst, block_insts (db_ o) !! i = Some inst ->
       skipInst inst = true \/ instMap_ o !! inst_id inst = None ->
       block_insts (db_ (fst r)) !! i = Some inst.
Proof.
  unfold updateDbInstLocations. cbv zeta. cbn [fst snd].
  cbn [db_ with_db]. cbn [block_insts block_with_insts]. split.
  - by rewrite !length_map.
  - intros i inst Hi Hskip.
    rewrite !list_lookup_fmap, Hi. cbn [fmap option_fmap option_map].
    by rewrite (proj1 (updateDbInst_calls o inst) Hskip).
Qed.

(** X17. What the write-back never touches.  [updateDbInstLocations]
    issues updates only for instances of the block that are core or block
    and have a node; an instance that is neither, or that has no node,
    stays as it is; the number and the order of the instances stay, as do
    the log, the network, the architecture and the node maps. *)
Theorem updateDbInstLocations_frame (o : Optdp) :
  let r := updateDbInstLocations o in
  (forall c, In c (snd r) ->
     exists inst, In inst (block_insts (db_ o))
                  /\ skipInst inst = false
                  /\ is_Some (instMap_ o !! inst_id inst)
                  /\ call_inst c = inst_id inst)
  /\ length (block_insts (db_ (fst r))) = length (block_insts (db_ o))
  /\ (forall i inst, block_insts (db_ o) !! i = Some inst ->
        skipInst inst = true \/ instMap_ o !! inst_id inst = None ->
        block_insts (db_ (fst r)) !! i = Some inst)
  /\ log_ (fst r) = log_ o /\ network_ (fst r) = network_ o
  /\ arch_ (fst r) = arch_ o /\ instMap_ (fst r) = instMap_ o
  /\ termMap_ (fst r) = termMap_ o.
Proof.
  unfold updateDbInstLocations. cbv zeta. cbn [fst snd].
  cbn [db_ with_db log_ network_ arch_ instMap_ termMap_].
  cbn [block_insts block_with_insts].
  split; [|split; [|split; [|by repeat split]]].
  - intros c Hc. apply in_concat in Hc. destruct Hc as (l & Hl & Hc).
    apply in_map_iff in Hl. destruct Hl as (p & <- & Hp).
    apply in_map_iff in Hp. destruct Hp as (inst & <- & Hinst).
    exists inst. split; [exact Hinst|].
    exact (proj2 (updateDbInst_calls o inst) c Hc).
  - exact (proj1 (updateDbInstLocations_insts o)).
  - exact (proj2 (updateDbInstLocations_insts o)).
Qed.

End WriteBack.

Lemma writeback_orientation_witness :
  disjoint_flags (@orientation_flags sample_constants)
  /\ @dbOrient sample_constants 16 = MY
  /\ @dbOrient sample_constants 8 = R0.
Proof.
  assert (H1 : disjoint_flags (@orientation_flags sample_constants))
    by (apply all_disjoint_correct; reflexivity).
  split; [exact H1|].
  destruct (@writeback_orientation sample_constants sample_external H1)
    as (_ & H2 & _ & _ & H3 & _).
  split; [exact H2|exact H3].
Defined.

(** ** [improvePlacement] as a whole *)

Section ImprovePlacement.
Context `{DpoConstants} `{External}.

Lemma logger_proj (m : LogMsg) (o : Optdp) :
  db_ (logger_ m o) = db_ o
  /\ hpwlBefore_ (logger_ m o) = hpwlBefore_ o
  /\ hpwlAfter_ (logger_ m o) = hpwlAfter_ o.
Proof. by repeat split. Qed.

Lemma createNetwork_hpwl (o : Optdp) :
  hpwlBefore_ (createNetwork o) = hpwlBefore_ o.
Proof.
  unfold createNetwork.
  assert (Hceq := createNetwork_locals_eq o). cbv zeta in Hceq.
  rewrite Hceq. clear Hceq.
  set (o0 := allocateNetwork (countNetwork (db_ o)) (with_layers ∅ ∅ o)).
  assert (H0' : hpwlBefore_ o0 = hpwlBefore_ o) by reflexivity.
  destruct (populateNodes_spec o0) as (_ & _ & Hf1 & _). cbv zeta in Hf1.
  clearbody o0.
  set (c1 := mkConn (fst (populateNodes o0)) 0 0) in *.
  change (fst (populateNodes o0)) with (c_o c1) in Hf1.
  pose proof (connectNets_steps (block_nets (db_ o)) c1 0)
    as (_ & (Hf2 & _) & _).
  set (c2 := fst (foldl connectNet (c1, 0) (block_nets (db_ o)))) in *.
  match goal with
  | |- context [reportNetwork (expectCount ?a ?b ?msg c2)] =>
      pose proof (expectCount_logs a b msg c2 eq_refl) as (_ & Hf3 & _);
      set (c3 := expectCount a b msg c2) in *
  end.
  pose proof (reportNetwork_logs c3) as ((_ & Hf4 & _) & _).
  set (c4 := reportNetwork c3) in *. clearbody c4 c3 c2 c1.
  assert (E4 : hpwlBefore_ (c_o c4) = hpwlBefore_ (c_o c3))
    by (unfold conn_frame in Hf4; congruence).
  assert (E3 : hpwlBefore_ (c_o c3) = hpwlBefore_ (c_o c2))
    by (unfold conn_frame in Hf3; congruence).
  assert (E2 : hpwlBefore_ (c_o c2) = hpwlBefore_ (c_o c1))
    by (unfold net_frame in Hf2; congruence).
  assert (E1 : hpwlBefore_ (c_o c1) = hpwlBefore_ o0)
    by (unfold pop_frame in Hf1; congruence).
  congruence.
Qed.

Lemma setUpPlacementRegions_hpwl (o : Optdp) :
  hpwlBefore_ (setUpPlacementRegions o) = hpwlBefore_ o.
Proof.
  unfold setUpPlacementRegions. cbv zeta.
  set (o1 := with_arch _ o).
  change (block_regions (db_ o1)) with (block_regions (db_ o)).
  assert (Hstep : forall s g,
             hpwlBefore_ (fst (setUpRegion s g)) = hpwlBefore_ (fst s)).
  { intros [a count] g. unfold setUpRegion.
    destruct (region_parent g) as [bs|]; [|done]. cbv zeta. cbn [fst].
    rewrite (foldl_preserves hpwlBefore_ (assignRegion _)); [reflexivity|].
    intros x h. unfold assignRegion.
    destruct (instMap_ x !! h); [|reflexivity].
    by destruct (Nat.eqb _ 0). }
  pose proof (foldl_preserves (fun s => hpwlBefore_ (fst s)) setUpRegion
                (block_regions (db_ o)) Hstep (o1, 1)) as Hf.
  destruct (foldl setUpRegion (o1, 1) (block_regions (db_ o))) as [o2 c2].
  exact Hf.
Qed.

Lemma initPadding_hpwl (o : Optdp) :
  hpwlBefore_ (initPadding o) = hpwlBefore_ o.
Proof.
  unfold initPadding.
  set (o1 := with_arch (init_edge_type (setUseFlags false true (arch_ o))) o).
  change (block_rows (db_ o1)) with (block_rows (db_ o)).
  change (block_insts (db_ o1)) with (block_insts (db_ o)).
  destruct (block_rows (db_ o)) as [|row rows]; [reflexivity|].
  rewrite (foldl_preserves hpwlBefore_ (padInst _)); [reflexivity|].
  intros a inst. unfold padInst. by destruct (instMap_ a !! inst_id inst).
Qed.

Lemma createArchitecture_hpwl (o : Optdp) :
  hpwlBefore_ (createArchitecture o) = hpwlBefore_ o.
Proof. reflexivity. Qed.

Lemma import_hpwl (o : Optdp) : hpwlBefore_ (import o) = hpwlBefore_ o.
Proof.
  assert (E := import_eq o). set (io := import o) in *. clearbody io.
  subst io. rewrite setUpPlacementRegions_hpwl.
  unfold import_padded. rewrite initPadding_hpwl.
  rewrite createArchitecture_hpwl.
  rewrite import_network_eq, createNetwork_hpwl.
  unfold setupMasterPowers.
  rewrite (foldl_preserves hpwlBefore_ setupMasterPower); [reflexivity|].
  intros a master. unfold setupMasterPower.
  destruct (isVdd _ && isGnd _); reflexivity.
Qed.

Lemma updateDbInstLocations_hpwl (o : Optdp) :
  hpwlBefore_ (fst (updateDbInstLocations o)) = hpwlBefore_ o.
Proof.
  unfold updateDbInstLocations. cbv zeta. cbn [fst hpwlBefore_ with_db].
  reflexivity.
Qed.

(** The run of [improvePlacement] on a design with a half perimeter that
    is not zero: the database is the one that the write-back leaves. *)
Lemma improvePlacement_run (o : Optdp) :
  hpwl (db_ o) <> 0%Z ->
  exists o4 : Optdp,
    db_ o4 = block_with_insts (map resetOrient (block_insts (db_ o))) (db_ o)
    /\ db_ (improvePlacement o) = db_ (fst (updateDbInstLocations o4))
    /\ hpwlBefore_ (improvePlacement o) = hpwl (db_ o)
    /\ hpwlAfter_ (improvePlacement o)
       = hpwl (db_ (fst (updateDbInstLocations o4))).
Proof.
  intros Hnz. apply Z.eqb_neq in Hnz.
  unfold improvePlacement. cbv zeta.
  set (o1 := logger_ (report "Detailed placement improvement." []) o).
  set (o2 := with_hpwl (hpwl (db_ o1)) (hpwlAfter_ o1) o1).
  assert (Hb : hpwlBefore_ o2 = hpwl (db_ o)) by reflexivity.
  assert (Hdb2 : db_ o2 = db_ o) by reflexivity.
  rewrite Hb, Hnz. cbn [negb].
  destruct (import_state o2) as (Hdb3 & _). rewrite Hdb2 in Hdb3.
  pose proof (import_hpwl o2) as Hh3. rewrite Hb in Hh3.
  clearbody o2. clear o1.
  set (o3 := import o2) in *. clearbody o3.
  set (mgr := improve m_script (legalize (arch_ o3, network_ o3))).
  clearbody mgr.
  set (o4 := with_arch (fst mgr) (with_network (snd mgr) o3)).
  assert (Hdb4 : db_ o4 = db_ o3) by reflexivity.
  assert (Hh4 : hpwlBefore_ o4 = hpwlBefore_ o3) by reflexivity.
  clearbody o4.
  exists o4. split; [congruence|].
  pose proof (updateDbInstLocations_hpwl o4) as Hh5.
  set (o5 := fst (updateDbInstLocations o4)) in *. clearbody o5.
  set (o6 := with_hpwl (hpwlBefore_ o5) (hpwl (db_ o5)) o5).
  assert (H6 : db_ o6 = db_ o5 /\ hpwlBefore_ o6 = hpwlBefore_ o5
               /\ hpwlAfter_ o6 = hpwl (db_ o5)) by (by repeat split).
  destruct H6 as (H6a & H6b & H6c). clearbody o6.
  repeat match goal with
         | |- context [db_ (logger_ ?m ?x)] =>
             rewrite (proj1 (logger_proj m x))
         | |- context [hpwlBefore_ (logger_ ?m ?x)] =>
             rewrite (proj1 (proj2 (logger_proj m x)))
         | |- context [hpwlAfter_ (logger_ ?m ?x)] =>
             rewrite (proj2 (proj2 (logger_proj m x)))
         end.
  split; [exact H6a|]. split; [congruence|exact H6c].
Qed.

(** X18. The half perimeters that [improvePlacement] records, for any
    legalizer and optimizer: [hpwlBefore_] is the half perimeter of the
    database it is given and [hpwlAfter_] is the half perimeter of the
    database it leaves, on the branch that improves the placement as on
    the branch that skips it. *)
Theorem improvePlacement_hpwl (o : Optdp) :
  hpwlBefore_ (improvePlacement o) = hpwl (db_ o)
  /\ hpwlAfter_ (improvePlacement o) = hpwl (db_ (improvePlacement o)).
Proof.
  destruct (Z.eq_dec (hpwl (db_ o)) 0%Z) as [Hz|Hnz].
  - rewrite (improvePlacement_skip o Hz). cbn [hpwlBefore_ hpwlAfter_ db_].
    by rewrite Hz.
  - destruct (improvePlacement_run o Hnz) as (o4 & _ & Hdb & Hb & Ha).
    split; [exact Hb|]. by rewrite Ha, Hdb.
Qed.

(** X19. What [improvePlacement] never touches, for any legalizer and
    optimizer: the nets, terminals, rows, regions, masters and areas of
    the block stay; the number and the order of the instances stay; and
    an instance that is neither core nor block stays as it is. *)
Theorem improvePlacement_frame (o : Optdp) :
  let db' := db_ (improvePlacement o) in
  db' = block_with_insts (block_insts db') (db_ o)
  /\ length (block_insts db') = length (block_insts (db_ o))
  /\ forall i inst, block_insts (db_ o) !! i = Some inst ->
                    skipInst inst = true ->
                    block_insts db' !! i = Some inst.
Proof.
  intros db'. subst db'.
  destruct (Z.eq_dec (hpwl (db_ o)) 0%Z) as [Hz|Hnz].
  - rewrite (improvePlacement_skip o Hz). cbn [db_].
    split; [by destruct (db_ o)|]. split; [reflexivity|]. by intros.
  - destruct (improvePlacement_run o Hnz) as (o4 & Hdb4 & -> & _).
    destruct (updateDbInstLocations_insts o4) as (Hlen & Hskip).
    cbv zeta in Hlen, Hskip.
    assert (Hdb5 : db_ (fst (updateDbInstLocations o4))
                   = block_with_insts
                       (block_insts (db_ (fst (updateDbInstLocations o4))))
                       (db_ o4)) by reflexivity.
    set (o5 := fst (updateDbInstLocations o4)) in *. clearbody o5.
    rewrite Hdb4 in Hlen, Hskip, Hdb5.
    cbn [block_insts block_with_insts] in Hlen, Hskip.
    split; [rewrite Hdb5 at 1; reflexivity|].
    split; [by rewrite Hlen, length_map|].
    intros i inst Hi Hs. apply Hskip; [|by left].
    rewrite list_lookup_fmap, Hi. cbn [fmap option_fmap option_map].
    unfold resetOrient. by rewrite Hs.
Qed.

End ImprovePlacement.

(** ** The names of the network *)

Section Names.
Context `{DpoConstants}.

Lemma populateInst_names (insts : list dbInst) :
  forall (o o' : Optdp) (n n' : nat),
    foldl populateInst (o, n) insts = (o', n') ->
    (forall j, j < n ->
       net_nodeNames (network_ o') !! j = net_nodeNames (network_ o) !! j)
    /\ (forall i inst, cells insts !! i = Some inst ->
          net_nodeNames (network_ o') !! (n + i) = Some (inst_name inst)).
Proof.
  induction insts as [|inst insts IH]; intros o o' n n' Hfold.
  - simpl in Hfold. inversion Hfold; subst. split; [done|].
    intros i inst Hi. by destruct i.
  - change (foldl populateInst (populateInst (o, n) inst) insts = (o', n'))
      in Hfold.
    rewrite cells_cons.
    destruct (skipInst inst) eqn:Hskip.
    + rewrite populateInst_skip in Hfold by done. exact (IH _ _ _ _ Hfold).
    + rewrite populateInst_cell in Hfold by done. cbv zeta in Hfold.
      set (o1 := with_network _ _) in Hfold.
      destruct (IH _ _ _ _ Hfold) as (Hout & Hin).
      assert (Hm1 : net_nodeNames (network_ o1)
                    = <[n := inst_name inst]> (net_nodeNames (network_ o)))
        by reflexivity.
      split.
      * intros j Hj. rewrite Hout by lia. rewrite Hm1.
        apply lookup_insert_ne. lia.
      * intros [|i] inst' Hi; simpl in Hi.
        -- inversion Hi; subst inst'. rewrite Nat.add_0_r.
           rewrite Hout by lia. rewrite Hm1. apply lookup_insert_eq.
        -- replace (n + S i) with (S n + i) by lia. by apply Hin.
Qed.

Lemma populateBTerm_names (bterms : list dbBTerm) :
  forall (o o' : Optdp) (n n' : nat),
    foldl populateBTerm (o, n) bterms = (o', n') ->
    (forall j, j < n ->
       net_nodeNames (network_ o') !! j = net_nodeNames (network_ o) !! j)
    /\ (forall i bterm, bterms !! i = Some bterm ->
          net_nodeNames (network_ o') !! (n + i) = Some (bterm_name bterm)).
Proof.
  induction bterms as [|bterm bterms IH]; intros o o' n n' Hfold.
  - simpl in Hfold. inversion Hfold; subst. split; [done|].
    intros i bt Hi. by destruct i.
  - change (foldl populateBTerm (populateBTerm (o, n) bterm) bterms
            = (o', n')) in Hfold.
    unfold populateBTerm at 2 in Hfold.
    set (o1 := with_network _ _) in Hfold.
    destruct (IH _ _ _ _ Hfold) as (Hout & Hin).
    assert (Hm1 : net_nodeNames (network_ o1)
                  = <[n := bterm_name bterm]> (net_nodeNames (network_ o)))
      by reflexivity.
    split.
    + intros j Hj. rewrite Hout by lia. rewrite Hm1.
      apply lookup_insert_ne. lia.
    + intros [|i] bt Hi; simpl in Hi.
      * inversion Hi; subst bt. rewrite Nat.add_0_r.
        rewrite Hout by lia. rewrite Hm1. apply lookup_insert_eq.
      * replace (n + S i) with (S n + i) by lia. by apply Hin.
Qed.

(** The names of the edges and the net map, net by net. *)
Lemma connectNets_names (nets : list dbNet) :
  forall (c : Conn) (e : nat),
    let c' := fst (foldl connectNet (c, e) nets) in
    (forall j, j < e ->
       net_edgeNames (network_ (c_o c')) !! j
       = net_edgeNames (network_ (c_o c)) !! j)
    /\ (forall j net, nets !! j = Some net ->
          net_edgeNames (network_ (c_o c')) !! (e + j)
          = Some (net_name net))
    /\ (forall h, ~ In h (map net_id nets) ->
          netMap_ (c_o c') !! h = netMap_ (c_o c) !! h)
    /\ (NoDup (map net_id nets) ->
        forall j net, nets !! j = Some net ->
          netMap_ (c_o c') !! net_id net = Some (e + j)).
Proof.
  induction nets as [|net nets IH]; intros c e c'.
  - subst c'. simpl. split; [done|]. split; [by intros []|].
    split; [done|]. intros _ j net Hj. by destruct j.
  - subst c'.
    change (foldl connectNet (c, e) (net :: nets))
      with (foldl connectNet (connectNet (c, e) net) nets).
    rewrite connectNet_eq.
    set (s0 := openEdge c e net).
    assert (Hn0 : net_edgeNames (network_ (c_o s0))
                  = <[e := net_name net]> (net_edgeNames (network_ (c_o c))))
      by reflexivity.
    assert (Hm0 : netMap_ (c_o s0) = <[net_id net := e]> (netMap_ (c_o c)))
      by reflexivity.
    pose proof (conn_steps_fold (connectITerm e) foundITerm (net_iterms net)
                  (connectITerm_step e)
                  (fun o1 o2 E => proj1 (conn_frame_found o1 o2 E)) s0)
      as (Hf1 & _).
    set (s1 := foldl (connectITerm e) s0 (net_iterms net)) in *.
    pose proof (conn_steps_fold (connectBTerm e) foundBTerm (net_bterms net)
                  (connectBTerm_step e)
                  (fun o1 o2 E => proj2 (conn_frame_found o1 o2 E)) s1)
      as (Hf2 & _).
    set (s2 := foldl (connectBTerm e) s1 (net_bterms net)) in *.
    assert (Hn2 : net_edgeNames (network_ (c_o s2))
                  = <[e := net_name net]> (net_edgeNames (network_ (c_o c)))).
    { rewrite <- Hn0. unfold conn_frame in Hf1, Hf2. congruence. }
    assert (Hm2 : netMap_ (c_o s2) = <[net_id net := e]> (netMap_ (c_o c))).
    { rewrite <- Hm0. unfold conn_frame in Hf1, Hf2. congruence. }
    clearbody s2. clear Hf1 Hf2 s1 Hn0 Hm0 s0.
    destruct (IH s2 (S e)) as (Hlo & Hin & Hout & Hnd). cbv zeta in *.
    split; [|split; [|split]].
    + intros j Hj. rewrite Hlo by lia. rewrite Hn2.
      apply lookup_insert_ne. lia.
    + intros [|j] net' Hj; simpl in Hj.
      * inversion Hj; subst net'. rewrite Nat.add_0_r.
        rewrite Hlo by lia. rewrite Hn2. apply lookup_insert_eq.
      * replace (e + S j) with (S e + j) by lia. by apply Hin.
    + intros h Hh. simpl in Hh. rewrite Hout by tauto.
      rewrite Hm2. apply lookup_insert_ne. tauto.
    + intros Hno. simpl in Hno. apply NoDup_cons in Hno.
      destruct Hno as [Hnotin Hno]. intros [|j] net' Hj; simpl in Hj.
      * inversion Hj; subst net'. rewrite Nat.add_0_r.
        rewrite Hout; [rewrite Hm2; apply lookup_insert_eq|].
        intros Hc. apply Hnotin. by apply list_elem_of_In.
      * replace (e + S j) with (S e + j) by lia. by apply Hnd.
Qed.

(** X20. The names and the net map after [createNetwork].  The node of
    the i-th placeable instance carries the name of the instance, the
    node of the i-th terminal the name of the terminal, and the edge of
    the j-th net the name of the net; when no two nets share a handle,
    the net map sends the j-th net to the edge j. *)
Theorem createNetwork_names (o : Optdp) :
  let o' := createNetwork o in
  let cs := cells (block_insts (db_ o)) in
  let nets := block_nets (db_ o) in
  (forall i inst, cs !! i = Some inst ->
     net_nodeNames (network_ o') !! i = Some (inst_name inst))
  /\ (forall i bt, block_bterms (db_ o) !! i = Some bt ->
        net_nodeNames (network_ o') !! (length cs + i)
        = Some (bterm_name bt))
  /\ (forall j net, nets !! j = Some net ->
        net_edgeNames (network_ o') !! j = Some (net_name net))
  /\ (NoDup (map net_id nets) ->
      forall j net, nets !! j = Some net ->
        netMap_ o' !! net_id net = Some j).
Proof.
  intros o' cs nets.
  assert (Hceq := createNetwork_locals_eq o). cbv zeta in Hceq.
  assert (Ho' : o' = c_o (createNetwork_locals o)) by reflexivity.
  rewrite Hceq in Ho'. clear Hceq.
  set (o0 := allocateNetwork (countNetwork (db_ o)) (with_layers ∅ ∅ o))
    in Ho'.
  assert (Hdb0 : db_ o0
                 = block_with_insts (map resetOrient (block_insts (db_ o)))
                                    (db_ o)) by reflexivity.
  assert (Hcs0 : cells (block_insts (db_ o0))
                 = map (setLocationOrient R0) cs).
  { rewrite Hdb0. simpl. apply cells_resetOrient. }
  assert (Hbs0 : block_bterms (db_ o0) = block_bterms (db_ o))
    by (rewrite Hdb0; reflexivity).
  clearbody o0.
  assert (Hnames :
    (forall i inst, cs !! i = Some inst ->
       net_nodeNames (network_ (fst (populateNodes o0))) !! i
       = Some (inst_name inst))
    /\ (forall i bt, block_bterms (db_ o) !! i = Some bt ->
          net_nodeNames (network_ (fst (populateNodes o0))) !! (length cs + i)
          = Some (bterm_name bt))).
  { unfold populateNodes. rewrite Hbs0.
    destruct (foldl populateInst (o0, 0) (block_insts (db_ o0)))
      as [o1 n1] eqn:E1.
    destruct (populateInst_names _ _ _ _ _ E1) as (_ & Hin).
    destruct (populateInst_nodes _ _ _ _ _ E1) as (Hn1 & _).
    rewrite Hcs0, length_map in Hn1. simpl in Hn1. subst n1.
    destruct (foldl populateBTerm (o1, length cs) (block_bterms (db_ o)))
      as [o2 n2] eqn:E2.
    destruct (populateBTerm_names _ _ _ _ _ E2) as (Hlo & Hin2).
    simpl. split.
    - intros i inst Hi.
      rewrite Hlo by (eapply lookup_lt_Some; eauto).
      apply (Hin i (setLocationOrient R0 inst)).
      by rewrite Hcs0, list_lookup_fmap, Hi.
    - exact Hin2. }
  set (c1 := mkConn (fst (populateNodes o0)) 0 0) in *.
  change (fst (populateNodes o0)) with (c_o c1) in Hnames.
  pose proof (connectNets_steps nets c1 0) as (_ & (Hf2 & _) & _).
  pose proof (connectNets_names nets c1 0) as (_ & Hen & _ & Hnm).
  cbv zeta in Hen, Hnm.
  fold nets in Ho'.
  set (c2 := fst (foldl connectNet (c1, 0) nets)) in *.
  match type of Ho' with
  | _ = c_o (reportNetwork (expectCount ?a ?b ?msg c2)) =>
      pose proof (expectCount_logs a b msg c2 eq_refl) as (_ & Hf3 & _);
      set (c3 := expectCount a b msg c2) in *
  end.
  pose proof (reportNetwork_logs c3) as ((_ & Hf4 & _) & _).
  rewrite <- Ho' in Hf4. clearbody o' c3 c2 c1.
  assert (Hfc : conn_frame o' = conn_frame (c_o c2)) by congruence.
  assert (E1 : net_nodeNames (network_ o') = net_nodeNames (network_ (c_o c1))).
  { transitivity (net_nodeNames (network_ (c_o c2))).
    - unfold conn_frame in Hfc. congruence.
    - unfold net_frame in Hf2. congruence. }
  assert (E2 : net_edgeNames (network_ o')
               = net_edgeNames (network_ (c_o c2)))
    by (unfold conn_frame in Hfc; congruence).
  assert (E3 : netMap_ o' = netMap_ (c_o c2))
    by (unfold conn_frame in Hfc; congruence).
  rewrite E1, E2, E3. destruct Hnames as [Hn1 Hn2].
  split; [exact Hn1|]. split; [exact Hn2|]. split; [exact Hen|exact Hnm].
Qed.

End Names.

(** ** The padding of the cells *)

Section Padding.
Context `{DpoConstants} `{External}.

Lemma padInst_paddings (w : Z) (o : Optdp) (inst : dbInst) :
  instMap_ (padInst w o inst) = instMap_ o
  /\ m_cellPaddings (arch_ (padInst w o inst))
     = match instMap_ o !! inst_id inst with
       | Some n => <[n := (int32 (padLeft inst * w),
                           int32 (padRight inst * w))]>
                     (m_cellPaddings (arch_ o))
       | None => m_cellPaddings (arch_ o)
       end.
Proof.
  unfold padInst. by destruct (instMap_ o !! inst_id inst).
Qed.

Lemma lastMapped_snoc (im : gmap nat nat) (n : nat) (l : list dbInst)
    (x : dbInst) :
  lastMapped im n (l ++ [x])
  = if decide (im !! inst_id x = Some n) then Some x else lastMapped im n l.
Proof. unfold lastMapped. by rewrite foldl_app. Qed.

(** [lastMapped] is the last instance of the list that the map sends to
    the node. *)
Lemma lastMapped_spec (im : gmap nat nat) (n : nat) (insts : list dbInst) :
  match lastMapped im n insts with
  | Some inst =>
      exists l1 l2, insts = l1 ++ inst :: l2
        /\ im !! inst_id inst = Some n
        /\ (forall x, In x l2 -> im !! inst_id x <> Some n)
  | None => forall x, In x insts -> im !! inst_id x <> Some n
  end.
Proof.
  induction insts as [|x l IH] using rev_ind.
  - by intros x [].
  - rewrite lastMapped_snoc.
    destruct (decide (im !! inst_id x = Some n)) as [Hx|Hx].
    + exists l, []. split; [reflexivity|]. split; [exact Hx|]. by intros y [].
    + destruct (lastMapped im n l) as [inst|].
      * destruct IH as (l1 & l2 & -> & Hi & Hl2).
        exists l1, (l2 ++ [x]). split; [by rewrite <- app_assoc|].
        split; [exact Hi|]. intros y Hy.
        apply in_app_or in Hy. destruct Hy as [Hy|[<-|[]]]; auto.
      * intros y Hy. apply in_app_or in Hy.
        destruct Hy as [Hy|[<-|[]]]; auto.
Qed.

Lemma padInsts_paddings (w : Z) (insts : list dbInst) :
  forall (o : Optdp) (n : nat),
    m_cellPaddings (arch_ (foldl (padInst w) o insts)) !! n
    = match lastMapped (instMap_ o) n insts with
      | Some inst =>
          Some (int32 (padLeft inst * w), int32 (padRight inst * w))
      | None => m_cellPaddings (arch_ o) !! n
      end.
Proof.
  induction insts as [|x l IH] using rev_ind; intros o n.
  - reflexivity.
  - rewrite foldl_app, lastMapped_snoc. cbn [foldl].
    assert (Hm : instMap_ (foldl (padInst w) o l) = instMap_ o).
    { apply (foldl_preserves instMap_). intros a i.
      apply padInst_paddings. }
    specialize (IH o n).
    set (o1 := foldl (padInst w) o l) in *.
    destruct (padInst_paddings w o1 x) as (_ & Hp). rewrite Hm in Hp.
    clearbody o1. rewrite Hp.
    destruct (instMap_ o !! inst_id x) as [nx|] eqn:Ex.
    + destruct (decide (Some nx = Some n)) as [Hn|Hn].
      * assert (nx = n) as -> by congruence. apply lookup_insert_eq.
      * rewrite lookup_insert_ne by congruence. exact IH.
    + destruct (decide (None = Some n)) as [Hn|Hn]; [discriminate Hn|].
      exact IH.
Qed.

(** X21. The padding that [initPadding] hands to the architecture.
    Without a row in the block nothing is added after the edge types are
    initialised.  With rows, the padding of a node is that of the last
    instance of the block that the node map sends to it: the padding of
    the legalizer, left and right, in sites times the width of the site
    of the first row of the block, each product being that of two [int]s;
    a node of no instance of the block keeps what it had.  The database,
    the log, the network and the node map are not touched. *)
Theorem initPadding_paddings (o : Optdp) :
  let a0 := init_edge_type (setUseFlags false true (arch_ o)) in
  let o' := initPadding o in
  let insts := block_insts (db_ o) in
  (block_rows (db_ o) = [] -> arch_ o' = a0)
  /\ (forall row rows n, block_rows (db_ o) = row :: rows ->
        let w := site_width (row_site row) in
        match lastMapped (instMap_ o) n insts with
        | Some inst =>
            m_cellPaddings (arch_ o') !! n
            = Some (int32 (padLeft inst * w), int32 (padRight inst * w))
            /\ (is_int32 (padLeft inst * w) ->
                is_int32 (padRight inst * w) ->
                m_cellPaddings (arch_ o') !! n
                = Some ((padLeft inst * w)%Z, (padRight inst * w)%Z))
            /\ exists l1 l2, insts = l1 ++ inst :: l2
                 /\ instMap_ o !! inst_id inst = Some n
                 /\ (forall x, In x l2 -> instMap_ o !! inst_id x <> Some n)
        | None =>
            m_cellPaddings (arch_ o') !! n = m_cellPaddings a0 !! n
            /\ (forall x, In x insts -> instMap_ o !! inst_id x <> Some n)
        end)
  /\ db_ o' = db_ o /\ log_ o' = log_ o /\ network_ o' = network_ o
  /\ instMap_ o' = instMap_ o.
Proof.
  intros a0 o' insts.
  split; [|split; [|exact (initPadding_frame o)]].
  - intros Hrows. subst o'. unfold initPadding.
    set (o1 := with_arch _ o).
    change (block_rows (db_ o1)) with (block_rows (db_ o)).
    by rewrite Hrows.
  - intros row rows n Hrows w. subst o'. unfold initPadding.
    set (o1 := with_arch _ o).
    change (block_rows (db_ o1)) with (block_rows (db_ o)).
    change (block_insts (db_ o1)) with insts.
    rewrite Hrows. cbv zeta. fold w.
    pose proof (padInsts_paddings w insts o1 n) as Hp.
    change (instMap_ o1) with (instMap_ o) in Hp.
    change (arch_ o1) with a0 in Hp.
    pose proof (lastMapped_spec (instMap_ o) n insts) as Hs.
    destruct (lastMapped (instMap_ o) n insts) as [inst|].
    + split; [exact Hp|]. split; [|exact Hs].
      intros Hl Hr. rewrite Hp. by rewrite (int32_id _ Hl), (int32_id _ Hr).
    + split; [exact Hp|exact Hs].
Qed.

End Padding.

Lemma initPadding_paddings_witness :
  block_rows (db_ turned_state) = [sample_row]
  /\ lastMapped (instMap_ turned_state) 0 (block_insts (db_ turned_state))
     = Some sample_inst
  /\ m_cellPaddings (arch_ (@initPadding sample_external turned_state)) !! 0
     = Some (2%Z, 2%Z)
  /\ m_cellPaddings (arch_ (@initPadding far_external turned_state)) !! 0
     = Some (int32 (2 ^ 30 * 2), 6%Z)
  /\ int32 (2 ^ 30 * 2) = (- 2 ^ 31)%Z
  /\ m_cellPaddings (arch_ (@initPadding far_external turned_state)) !! 1
     = None.
Proof.
  assert (Hrows : block_rows (db_ turned_state) = [sample_row])
    by reflexivity.
  assert (Hl0 : lastMapped (instMap_ turned_state) 0
                  (block_insts (db_ turned_state)) = Some sample_inst)
    by (vm_compute; reflexivity).
  assert (Hl1 : lastMapped (instMap_ turned_state) 1
                  (block_insts (db_ turned_state)) = None)
    by (vm_compute; reflexivity).
  split; [exact Hrows|]. split; [exact Hl0|].
  destruct (@initPadding_paddings sample_external turned_state)
    as (_ & Hs & _).
  destruct (@initPadding_paddings far_external turned_state)
    as (_ & Hf & _).
  cbv zeta in Hs, Hf.
  pose proof (Hs sample_row [] 0 Hrows) as Hs0.
  pose proof (Hf sample_row [] 0 Hrows) as Hf0.
  pose proof (Hf sample_row [] 1 Hrows) as Hf1.
  rewrite Hl0 in Hs0, Hf0. rewrite Hl1 in Hf1.
  destruct Hs0 as (Hs0 & _). destruct Hf0 as (Hf0 & _).
  destruct Hf1 as (Hf1 & _).
  split; [exact Hs0|]. split; [exact Hf0|]. split; [reflexivity|].
  rewrite Hf1. reflexivity.
Defined.

(** ** The log of [createNetwork] *)

Section NetworkLog.
Context `{DpoConstants}.

Lemma connectITerm_log (e : nat) (s : Conn) (iTerm : dbITerm) :
  dense_nodes (c_o s) -> edge_open (c_o s) e ->
  log_ (c_o (connectITerm e s iTerm))
  = log_ (c_o s)
    ++ match instMap_ (c_o s) !! iterm_inst iTerm with
       | Some _ => []
       | None =>
           [error 106
              "Could not find node for instance while connecting pins." []]
       end.
Proof.
  intros Hd He. unfold connectITerm.
  destruct (instMap_ (c_o s) !! iterm_inst iTerm) as [it_n|] eqn:Hit.
  - rewrite (proper_indexing (c_o s) it_n e Hd He).
    match goal with
    | |- context [createAndAddPin ?a ?b ?c] =>
        rewrite (surjective_pairing (createAndAddPin a b c))
    end.
    cbn [c_o log_ with_network]. by rewrite app_nil_r.
  - reflexivity.
Qed.

Lemma connectBTerm_log (e : nat) (s : Conn) (bTerm : nat) :
  dense_nodes (c_o s) -> edge_open (c_o s) e ->
  log_ (c_o (connectBTerm e s bTerm))
  = log_ (c_o s)
    ++ match termMap_ (c_o s) !! bTerm with
       | Some _ => []
       | None =>
           [error 107
              "Could not find node for terminal while connecting pins." []]
       end.
Proof.
  intros Hd He. unfold connectBTerm.
  destruct (termMap_ (c_o s) !! bTerm) as [it_p|] eqn:Hit.
  - rewrite (proper_indexing (c_o s) it_p e Hd He).
    match goal with
    | |- context [createAndAddPin ?a ?b ?c] =>
        rewrite (surjective_pairing (createAndAddPin a b c))
    end.
    cbn [c_o log_ with_network]. by rewrite app_nil_r.
  - reflexivity.
Qed.

(** The messages that a loop over terminals logs. *)
Lemma logs_fold {T : Type} (f : Conn -> T -> Conn) (e : nat)
    (msg : Optdp -> T -> list LogMsg) (l : list T) :
  (forall s t, conn_frame (c_o (f s t)) = conn_frame (c_o s)) ->
  (forall s t, dense_nodes (c_o s) -> edge_open (c_o s) e ->
               log_ (c_o (f s t)) = log_ (c_o s) ++ msg (c_o s) t) ->
  (forall o1 o2, conn_frame o1 = conn_frame o2 ->
                 forall t, msg o1 t = msg o2 t) ->
  forall s, dense_nodes (c_o s) -> edge_open (c_o s) e ->
    log_ (c_o (foldl f s l))
    = log_ (c_o s) ++ concat (map (msg (c_o s)) l).
Proof.
  intros Hframe Hlog Hext. induction l as [|t l IH]; intros s Hd He.
  - simpl. by rewrite app_nil_r.
  - change (foldl f s (t :: l)) with (foldl f (f s t) l).
    pose proof (Hframe s t) as Hf.
    assert (Hn : Node_core <$> nodes_ (c_o s)
                 = Node_core <$> nodes_ (c_o (f s t)))
      by (unfold conn_frame in Hf; congruence).
    assert (Hed : e_id <$> edges_ (c_o s) = e_id <$> edges_ (c_o (f s t)))
      by (unfold conn_frame in Hf; congruence).
    rewrite (IH (f s t) (dense_nodes_frame _ _ Hn Hd)
               (edge_open_frame _ _ e Hed He)).
    rewrite (Hlog s t Hd He), <- app_assoc. f_equal.
    cbn [map concat]. f_equal. f_equal.
    apply map_ext. intros x. by apply Hext.
Qed.

Lemma connectNet_log (c : Conn) (e : nat) (net : dbNet) :
  dense_nodes (c_o c) -> e < length (edges_ (c_o c)) ->
  log_ (c_o (fst (connectNet (c, e) net)))
  = log_ (c_o c) ++ netReports (instMap_ (c_o c)) (termMap_ (c_o c)) net.
Proof.
  intros Hd Hlt. rewrite connectNet_eq. cbn [fst].
  destruct (openEdge_spec c e net) as (Hf0 & _ & _ & _ & _ & _ & Hi0).
  assert (Hl0 : log_ (c_o (openEdge c e net)) = log_ (c_o c))
    by reflexivity.
  set (s0 := openEdge c e net) in *.
  assert (Hm0 : instMap_ (c_o s0) = instMap_ (c_o c)
                /\ termMap_ (c_o s0) = termMap_ (c_o c)
                /\ Node_core <$> nodes_ (c_o s0)
                   = Node_core <$> nodes_ (c_o c)).
  { unfold net_frame in Hf0. repeat split; congruence. }
  destruct Hm0 as (Hmi & Hmt & Hmn).
  assert (Hd0 : dense_nodes (c_o s0))
    by (apply (dense_nodes_frame (c_o c)); [by symmetry|done]).
  assert (Ho0 : edge_open (c_o s0) e) by (apply Hi0; exact Hlt).
  pose proof (conn_steps_fold (connectITerm e) foundITerm (net_iterms net)
                (connectITerm_step e)
                (fun o1 o2 E => proj1 (conn_frame_found o1 o2 E)) s0)
    as (Hf1 & _).
  pose proof (logs_fold (connectITerm e) e
                (fun o it => match instMap_ o !! iterm_inst it with
                             | Some _ => []
                             | None =>
                                 [error 106
                                    "Could not find node for instance while connecting pins."
                                    []]
                             end)
                (net_iterms net)
                (fun s t => proj1 (connectITerm_step e s t))
                (connectITerm_log e)) as Hl1.
  assert (Hext1 : forall o1 o2, conn_frame o1 = conn_frame o2 ->
            forall t : dbITerm,
              match instMap_ o1 !! iterm_inst t with
              | Some _ => []
              | None =>
                  [error 106
                     "Could not find node for instance while connecting pins."
                     []]
              end
              = match instMap_ o2 !! iterm_inst t with
                | Some _ => []
                | None =>
                    [error 106
                       "Could not find node for instance while connecting pins."
                       []]
                end).
  { intros o1 o2 E t.
    assert (instMap_ o1 = instMap_ o2) as ->
      by (unfold conn_frame in E; congruence). reflexivity. }
  specialize (Hl1 Hext1 s0 Hd0 Ho0).
  set (s1 := foldl (connectITerm e) s0 (net_iterms net)) in *.
  assert (Hn1 : Node_core <$> nodes_ (c_o s0)
                = Node_core <$> nodes_ (c_o s1))
    by (unfold conn_frame in Hf1; congruence).
  assert (Hed1 : e_id <$> edges_ (c_o s0) = e_id <$> edges_ (c_o s1))
    by (unfold conn_frame in Hf1; congruence).
  pose proof (logs_fold (connectBTerm e) e
                (fun o bt => match termMap_ o !! bt with
                             | Some _ => []
                             | None =>
                                 [error 107
                                    "Could not find node for terminal while connecting pins."
                                    []]
                             end)
                (net_bterms net)
                (fun s t => proj1 (connectBTerm_step e s t))
                (connectBTerm_log e)) as Hl2.
  assert (Hext2 : forall o1 o2, conn_frame o1 = conn_frame o2 ->
            forall t : nat,
              match termMap_ o1 !! t with
              | Some _ => []
              | None =>
                  [error 107
                     "Could not find node for terminal while connecting pins."
                     []]
              end
              = match termMap_ o2 !! t with
                | Some _ => []
                | None =>
                    [error 107
                       "Could not find node for terminal while connecting pins."
                       []]
                end).
  { intros o1 o2 E t.
    assert (termMap_ o1 = termMap_ o2) as ->
      by (unfold conn_frame in E; congruence). reflexivity. }
  specialize (Hl2 Hext2 s1 (dense_nodes_frame _ _ Hn1 Hd0)
                (edge_open_frame _ _ e Hed1 Ho0)).
  rewrite Hl2, Hl1, Hl0, <- app_assoc. unfold netReports.
  assert (Ht1 : termMap_ (c_o s1) = termMap_ (c_o c)).
  { transitivity (termMap_ (c_o s0)); [|exact Hmt].
    unfold conn_frame in Hf1. congruence. }
  by rewrite Hmi, Ht1.
Qed.

Lemma connectNets_log (nets : list dbNet) :
  forall (c : Conn) (e : nat),
    dense_nodes (c_o c) -> e + length nets <= length (edges_ (c_o c)) ->
    log_ (c_o (fst (foldl connectNet (c, e) nets)))
    = log_ (c_o c)
      ++ networkReports (instMap_ (c_o c)) (termMap_ (c_o c)) nets.
Proof.
  induction nets as [|net nets IH]; intros c e Hd Hlen.
  - simpl. by rewrite app_nil_r.
  - change (foldl connectNet (c, e) (net :: nets))
      with (foldl connectNet (connectNet (c, e) net) nets).
    simpl in Hlen.
    pose proof (connectNet_log c e net Hd) as Hl1.
    destruct (connectNet_steps c e net) as ((Hf & _) & _).
    rewrite connectNet_eq in *. cbn [fst] in *.
    set (c1 := foldl (connectBTerm e) _ _) in *.
    assert (Hm : instMap_ (c_o c1) = instMap_ (c_o c)
                 /\ termMap_ (c_o c1) = termMap_ (c_o c)
                 /\ Node_core <$> nodes_ (c_o c1)
                    = Node_core <$> nodes_ (c_o c)
                 /\ length (edges_ (c_o c1)) = length (edges_ (c_o c))).
    { unfold net_frame in Hf. repeat split; congruence. }
    destruct Hm as (Hmi & Hmt & Hmn & Hme).
    assert (Hd1 : dense_nodes (c_o c1))
      by (apply (dense_nodes_frame (c_o c)); [by symmetry|done]).
    rewrite (IH c1 (S e) Hd1) by lia.
    rewrite Hl1 by lia. rewrite Hmi, Hmt, <- app_assoc. reflexivity.
Qed.

(** The log of the run of [createNetwork] in which every error returns,
    message by message: the counts (info 100), the missing references in
    the order of the database (106, 107), and then the statistics (info
    102) when nothing was missing, else the error 105 for the pin count
    and the error 101. *)
Lemma createNetwork_returning_log (o : Optdp) :
  let o' := createNetwork o in
  let nets := block_nets (db_ o) in
  let total :=
    sum_list (map (fun net => length (net_iterms net)
                              + length (net_bterms net)) nets) in
  let cs := length (cells (block_insts (db_ o))) in
  let bs := length (block_bterms (db_ o)) in
  log_ o'
  = log_ o
    ++ [info 100
          "Created network with {:d} cells, {:d} terminals, {:d} edges and {:d} pins."
          [arg cs; arg bs; arg (length nets); arg total]]
    ++ networkReports (instMap_ o') (termMap_ o') nets
    ++ (if Nat.eqb (missingPins o' nets) 0
        then [info 102 "Network stats: inst {}, edges {}, pins {}"
                [arg (cs + bs); arg (length nets);
                 arg (length (pins_ o) + total)]]
        else [error 105
                "Unexpected total pin count.  Expected {:d}, but got {:d}"
                [arg total; arg (foundPins o' nets)];
              error 101 "Error creating network." []]).
Proof.
  intros o' nets total cs bs.
  pose proof (createNetwork_dense_ids o) as [Hdense _].
  fold o' in Hdense.
  destruct (createNetwork_run o)
    as (_ & Hlen & _ & _ & (Hel & _) & (Hpn & _) & _).
  cbv zeta in Hlen, Hel, Hpn. unfold pinsOf in Hpn.
  change (c_o (createNetwork_locals o)) with o' in Hlen, Hel, Hpn.
  fold nets cs bs in Hlen, Hel, Hpn.
  pose proof (found_missing_total o' nets) as Htot. fold nets total in Htot.
  assert (Hceq := createNetwork_locals_eq o). cbv zeta in Hceq.
  assert (Ho' : o' = c_o (createNetwork_locals o)) by reflexivity.
  rewrite Hceq in Ho'. clear Hceq.
  rewrite countNetwork_spec in Ho'. fold nets total cs bs in Ho'.
  set (k := mkCounts bs cs (length nets) total) in Ho'.
  set (o0 := allocateNetwork k (with_layers ∅ ∅ o)) in Ho'.
  assert (Hl0 : log_ o0
                = log_ o
                  ++ [info 100
                        "Created network with {:d} cells, {:d} terminals, {:d} edges and {:d} pins."
                        [arg cs; arg bs; arg (length nets); arg total]])
    by reflexivity.
  destruct (populateNodes_spec o0) as (_ & _ & Hf1 & _). cbv zeta in Hf1.
  clearbody o0.
  set (c1 := mkConn (fst (populateNodes o0)) 0 0) in *.
  change (fst (populateNodes o0)) with (c_o c1) in Hf1.
  pose proof (connectNets_steps nets c1 0)
    as (_ & (Hf2 & _ & Hcp2 & _) & _).
  pose proof (connectNets_log nets c1 0) as Hlog.
  pose proof (connectNets_exact nets c1 0) as Hex. cbv zeta in Hex.
  set (c2 := fst (foldl connectNet (c1, 0) nets)) in *.
  change (c_p c1) with 0 in Hcp2. change (c_errors c1) with 0 in Hex.
  cbn [nPins k] in Ho'.
  assert (Hfr : instMap_ o' = instMap_ (c_o c1)
                /\ termMap_ o' = termMap_ (c_o c1)
                /\ Node_core <$> nodes_ o' = Node_core <$> nodes_ (c_o c1)
                /\ length (edges_ o') = length (edges_ (c_o c1))
                /\ network_ o' = network_ (c_o c2)).
  { rewrite Ho'.
    match goal with
    | |- context [reportNetwork (expectCount ?a ?b ?msg c2)] =>
        pose proof (expectCount_logs a b msg c2 eq_refl)
          as (Hnw3 & Hf3 & _);
        set (c3 := expectCount a b msg c2) in *
    end.
    pose proof (reportNetwork_logs c3) as ((Hnw4 & Hf4 & _) & _).
    set (c4 := reportNetwork c3) in *. clearbody c4 c3.
    assert (Hfc : conn_frame (c_o c4) = conn_frame (c_o c2)) by congruence.
    apply conn_frame_net_frame in Hfc.
    assert (Hfn : net_frame (c_o c4) = net_frame (c_o c1)) by congruence.
    unfold net_frame in Hfn. repeat split; congruence. }
  destruct Hfr as (Hmi & Hmt & Hmn & Hme & Hnw).
  assert (Hd1 : dense_nodes (c_o c1))
    by (apply (dense_nodes_frame o'); [exact Hmn|exact Hdense]).
  assert (Hfd : foundPins o' nets = foundPins (c_o c1) nets
                /\ missingPins o' nets = missingPins (c_o c1) nets).
  { unfold foundPins, missingPins, foundInNet, missingInNet, foundITerm,
      foundBTerm. by rewrite Hmi, Hmt. }
  destruct Hfd as [Hfd Hmd].
  specialize (Hlog Hd1). specialize (Hex Hd1).
  assert (Hle : 0 + length nets <= length (edges_ (c_o c1)))
    by (rewrite <- Hme, Hel; simpl; lia).
  specialize (Hlog Hle). destruct (Hex Hle) as [Herr _].
  rewrite <- Hmd in Herr. rewrite <- Hfd in Hcp2. simpl in Hcp2, Herr.
  rewrite <- Hmi, <- Hmt in Hlog.
  assert (Hl1 : log_ (c_o c1) = log_ o0)
    by (unfold pop_frame in Hf1; congruence).
  rewrite Hl1, Hl0 in Hlog.
  assert (Hnn : getNumNodes (network_ (c_o c2)) = cs + bs)
    by (rewrite <- Hnw; exact Hlen).
  assert (Hne : getNumEdges (network_ (c_o c2)) = length nets)
    by (rewrite <- Hnw; exact Hel).
  assert (Hnp : getNumPins (network_ (c_o c2))
                = length (pins_ o) + foundPins o' nets)
    by (rewrite <- Hnw; exact Hpn).
  clearbody c2 c1. clear Hdense.
  apply (f_equal log_) in Ho'. rewrite Ho'. clear Ho'.
  unfold expectCount, reportNetwork. rewrite Hcp2.
  destruct (Nat.eqb (missingPins o' nets) 0) eqn:Em.
  - apply Nat.eqb_eq in Em.
    assert (Hft : foundPins o' nets = total) by lia.
    rewrite Hft in *. rewrite Nat.eqb_refl. cbn [negb].
    rewrite Herr, Em. cbn [Nat.eqb negb c_o log_ logger_].
    rewrite Hlog, Hnn, Hne, Hnp. by rewrite <- !app_assoc.
  - apply Nat.eqb_neq in Em.
    assert (Hft : Nat.eqb (foundPins o' nets) total = false)
      by (apply Nat.eqb_neq; lia).
    rewrite Hft. cbn [negb Conn_error c_errors c_o c_p].
    cbn [Nat.eqb negb c_o log_ logger_].
    rewrite Hlog. by rewrite <- !app_assoc.
Qed.

End NetworkLog.

(** ** The report of [improvePlacement] *)

Section Report.
Context `{DpoConstants} `{External}.

Lemma logger_log (m : LogMsg) (o : Optdp) :
  log_ (logger_ m o) = log_ o ++ [m].
Proof. reflexivity. Qed.

Lemma updateDbInstLocations_dbu (o : Optdp) :
  block_dbuPerMicron (db_ (fst (updateDbInstLocations o)))
  = block_dbuPerMicron (db_ o).
Proof.
  unfold updateDbInstLocations. cbv zeta. cbn [fst db_ with_db].
  reflexivity.
Qed.

(** The end of [improvePlacement]: six lines of report on the state that
    the two branches leave. *)
Lemma improvePlacement_tail (o : Optdp) :
  exists ob : Optdp,
    db_ (improvePlacement o) = db_ ob
    /\ hpwlBefore_ (improvePlacement o) = hpwlBefore_ ob
    /\ hpwlAfter_ (improvePlacement o) = hpwlAfter_ ob
    /\ log_ (improvePlacement o)
       = log_ ob
         ++ [report "Detailed Improvement Results" [];
             report "------------------------------------------" [];
             report "Original HPWL         {:10.1f} u"
                    [(inject_Z (hpwlBefore_ ob)
                      / inject_Z (block_dbuPerMicron (db_ ob)))%Q];
             report "Final HPWL            {:10.1f} u"
                    [(inject_Z (hpwlAfter_ ob)
                      / inject_Z (block_dbuPerMicron (db_ ob)))%Q];
             report "Delta HPWL            {:10.1f} %"
                    [if Z.eqb (hpwlBefore_ ob) 0 then 0%Q
                     else (inject_Z (hpwlAfter_ ob - hpwlBefore_ ob)
                           / inject_Z (hpwlBefore_ ob) * 100)%Q];
             report EmptyString []].
Proof.
  unfold improvePlacement. cbv zeta.
  match goal with
  | |- context [logger_ (report "Detailed Improvement Results" []) ?x] =>
      set (ob := x)
  end.
  clearbody ob. exists ob.
  repeat match goal with
         | |- context [db_ (logger_ ?m ?x)] =>
             rewrite (proj1 (logger_proj m x))
         | |- context [hpwlBefore_ (logger_ ?m ?x)] =>
             rewrite (proj1 (proj2 (logger_proj m x)))
         | |- context [hpwlAfter_ (logger_ ?m ?x)] =>
             rewrite (proj2 (proj2 (logger_proj m x)))
         | |- context [log_ (logger_ ?m ?x)] =>
             rewrite (logger_log m x)
         end.
  repeat split; try reflexivity.
  rewrite <- !app_assoc. reflexivity.
Qed.

(** X23. The table that ends the log of [improvePlacement], for any
    legalizer and optimizer and on both branches: the original half
    perimeter is that of the database given and the final one that of the
    database left, both divided by the database units per micron, and the
    change is reported in per cent of the original half perimeter, as 0
    when that is zero. *)
Theorem improvePlacement_report (o : Optdp) :
  let o' := improvePlacement o in
  let hb := hpwl (db_ o) in
  let ha := hpwl (db_ o') in
  let dbu := inject_Z (block_dbuPerMicron (db_ o)) in
  exists pre,
    log_ o'
    = pre
      ++ [report "Detailed Improvement Results" [];
          report "------------------------------------------" [];
          report "Original HPWL         {:10.1f} u" [(inject_Z hb / dbu)%Q];
          report "Final HPWL            {:10.1f} u" [(inject_Z ha / dbu)%Q];
          report "Delta HPWL            {:10.1f} %"
                 [if Z.eqb hb 0 then 0%Q
                  else (inject_Z (ha - hb) / inject_Z hb * 100)%Q];
          report EmptyString []].
Proof.
  intros o' hb ha dbu.
  destruct (improvePlacement_tail o) as (ob & Hdb & Hb & Ha & Hlog).
  fold o' in Hdb, Hb, Ha, Hlog.
  assert (Hval : hpwlBefore_ o' = hb /\ hpwlAfter_ o' = ha
                 /\ block_dbuPerMicron (db_ o')
                    = block_dbuPerMicron (db_ o)).
  { destruct (Z.eq_dec (hpwl (db_ o)) 0%Z) as [Hz|Hnz].
    - subst o' ha hb. rewrite (improvePlacement_skip o Hz).
      cbn [hpwlBefore_ hpwlAfter_ db_]. by rewrite Hz.
    - destruct (improvePlacement_run o Hnz) as (o4 & Hdb4 & Hd & Hb' & Ha').
      fold o' in Hd, Hb', Ha'. subst ha hb.
      split; [exact Hb'|]. split; [by rewrite Ha', Hd|].
      rewrite Hd, updateDbInstLocations_dbu, Hdb4. reflexivity. }
  destruct Hval as (Hvb & Hva & Hvd).
  exists (log_ ob). rewrite Hlog. subst dbu.
  rewrite <- Hdb, <- Hb, <- Ha, Hvb, Hva, Hvd. reflexivity.
Qed.

End Report.

(** * The import with a logger whose [error] may raise *)

Section RaisingLogger.
Context `{DpoConstants}.
Variable fatal : nat -> bool.

Lemma upto_fatal_app (d d' : list LogMsg) :
  upto_fatal fatal (d ++ d')
  = if existsb (is_fatal fatal) d then upto_fatal fatal d
    else d ++ upto_fatal fatal d'.
Proof.
  induction d as [|m d IH]; [reflexivity|]. cbn [app upto_fatal existsb].
  destruct (is_fatal fatal m); [reflexivity|]. cbn [orb]. rewrite IH.
  by destruct (existsb (is_fatal fatal) d).
Qed.

Lemma upto_fatal_none (d : list LogMsg) :
  existsb (is_fatal fatal) d = false -> upto_fatal fatal d = d.
Proof.
  induction d as [|m d IH]; [reflexivity|]. cbn [upto_fatal existsb].
  destruct (is_fatal fatal m); [discriminate|]. cbn [orb].
  intros Hd. by rewrite IH.
Qed.


(** A run that returns is the run in which every error returns. *)
Lemma cut_of_returns {A : Type} (lg : A -> list LogMsg) (l0 : list LogMsg)
    (x : Outcome A) (a a' : A) :
  cut_of fatal lg l0 x a -> x = Returns a' -> a' = a.
Proof. intros (d & _ & Hx) ->. by destruct Hx. Qed.

Lemma cut_of_ret {A : Type} (lg : A -> list LogMsg) (a : A) :
  cut_of fatal lg (lg a) (Returns a) a.
Proof. exists []. by rewrite app_nil_r. Qed.

Lemma cut_of_bind {A B : Type} (lgA : A -> list LogMsg)
    (lgB : B -> list LogMsg) (l0 : list LogMsg) (x : Outcome A) (a : A)
    (f : A -> Outcome B) (g : A -> B) :
  cut_of fatal lgA l0 x a ->
  (forall s, cut_of fatal lgB (lgA s) (f s) (g s)) ->
  cut_of fatal lgB l0 (x ≫= f) (g a).
Proof.
  intros (d & Hd & Hx) Hf. destruct (Hf a) as (d' & Hd' & Hfa).
  exists (d ++ d'). split; [by rewrite Hd', Hd, app_assoc|].
  destruct x as [a'|o]; cbn.
  - destruct Hx as [-> Hn]. destruct (f a) as [b|o].
    + destruct Hfa as [-> Hn']. split; [reflexivity|].
      by rewrite existsb_app, Hn, Hn'.
    + destruct Hfa as [Hr Hl]. split.
      * rewrite existsb_app, Hr. apply orb_true_r.
      * by rewrite Hl, Hd, upto_fatal_app, Hn, app_assoc.
  - destruct Hx as [Hr Hl]. split; [by rewrite existsb_app, Hr|].
    by rewrite upto_fatal_app, Hr.
Qed.

Lemma cut_of_foldM {A T : Type} (lg : A -> list LogMsg)
    (f : A -> T -> Outcome A) (g : A -> T -> A) :
  (forall s t, cut_of fatal lg (lg s) (f s t) (g s t)) ->
  forall l s, cut_of fatal lg (lg s) (foldM f s l) (foldl g s l).
Proof.
  intros Hstep l. induction l as [|t l IH]; intros s.
  - apply cut_of_ret.
  - cbn [foldM foldl].
    apply (cut_of_bind lg lg (lg s) (f s t) (g s t)
             (fun a' => foldM f a' l) (fun a' => foldl g a' l)).
    + apply Hstep.
    + exact IH.
Qed.

(** Messages that cannot raise may be logged before the run. *)
Lemma cut_of_prefix {A : Type} (lg : A -> list LogMsg)
    (l0 d0 : list LogMsg) (x : Outcome A) (a : A) :
  existsb (is_fatal fatal) d0 = false ->
  cut_of fatal lg (l0 ++ d0) x a -> cut_of fatal lg l0 x a.
Proof.
  intros H0 (d & Hd & Hx). exists (d0 ++ d).
  split; [by rewrite Hd, app_assoc|].
  rewrite existsb_app, H0, upto_fatal_app, H0. cbn [orb].
  destruct x; [exact Hx|]. by rewrite app_assoc.
Qed.

Lemma try_error_cut (id : nat) (text : string) (s : Conn) :
  cut_of fatal conn_log (conn_log s)
         (try_error fatal (error id text []) s)
         (Conn_error (error id text []) s).
Proof.
  exists [error id text []]. split; [reflexivity|].
  unfold try_error. cbn [log_id error existsb upto_fatal].
  unfold is_fatal. cbn [log_sev log_id error Severity_eqb andb].
  destruct (fatal id); cbn [orb]; by split.
Qed.

Lemma try_error_cut_args (id : nat) (text : string) (args : list Q)
    (s : Conn) :
  cut_of fatal conn_log (conn_log s)
         (try_error fatal (error id text args) s)
         (Conn_error (error id text args) s).
Proof.
  exists [error id text args]. split; [reflexivity|].
  unfold try_error. cbn [log_id error existsb upto_fatal].
  unfold is_fatal. cbn [log_sev log_id error Severity_eqb andb].
  destruct (fatal id); cbn [orb]; by split.
Qed.

Lemma connectITerm_try_cut (e : nat) (s : Conn) (iTerm : dbITerm) :
  cut_of fatal conn_log (conn_log s)
         (connectITerm_try fatal e s iTerm) (connectITerm e s iTerm).
Proof.
  unfold connectITerm_try, connectITerm.
  destruct (instMap_ (c_o s) !! iterm_inst iTerm) as [it_n|];
    [|apply try_error_cut].
  cbv zeta.
  destruct (improperIndexing (network_ (c_o s))
              (m_id (getNode (network_ (c_o s)) it_n)) e).
  - exists [error 108 "Improper node indexing while connecting pins." []].
    split; [reflexivity|].
    unfold try_error. cbn [log_id error existsb upto_fatal].
    unfold is_fatal. cbn [log_sev log_id error Severity_eqb andb].
    destruct (fatal 108); cbn; by split.
  - exists []. split; [unfold conn_log; cbn; by rewrite app_nil_r|].
    cbn. by split.
Qed.

Lemma connectBTerm_try_cut (e : nat) (s : Conn) (bTerm : nat) :
  cut_of fatal conn_log (conn_log s)
         (connectBTerm_try fatal e s bTerm) (connectBTerm e s bTerm).
Proof.
  unfold connectBTerm_try, connectBTerm.
  destruct (termMap_ (c_o s) !! bTerm) as [it_p|];
    [|apply try_error_cut].
  cbv zeta.
  destruct (improperIndexing (network_ (c_o s))
              (m_id (getNode (network_ (c_o s)) it_p)) e).
  - exists [error 109 "Improper terminal indexing while connecting pins." []].
    split; [reflexivity|].
    unfold try_error. cbn [log_id error existsb upto_fatal].
    unfold is_fatal. cbn [log_sev log_id error Severity_eqb andb].
    destruct (fatal 109); cbn; by split.
  - exists []. split; [unfold conn_log; cbn; by rewrite app_nil_r|].
    cbn. by split.
Qed.

Lemma connectNet_try_cut (s : Conn * nat) (net : dbNet) :
  cut_of fatal net_log (net_log s)
         (connectNet_try fatal s net) (connectNet s net).
Proof.
  destruct s as [c e]. rewrite connectNet_eq.
  unfold connectNet_try. cbv zeta.
  change (mkConn _ (c_errors c) (c_p c)) with (openEdge c e net).
  change (net_log (c, e)) with (conn_log (openEdge c e net)).
  set (s0 := openEdge c e net). clearbody s0.
  apply (cut_of_bind conn_log net_log (conn_log s0)
           (foldM (connectITerm_try fatal e) s0 (net_iterms net))
           (foldl (connectITerm e) s0 (net_iterms net))
           (fun c1 => c2 ← foldM (connectBTerm_try fatal e) c1
                                 (net_bterms net); Returns (c2, S e))
           (fun c1 => (foldl (connectBTerm e) c1 (net_bterms net), S e))).
  - apply cut_of_foldM. apply connectITerm_try_cut.
  - intros c1.
    apply (cut_of_bind conn_log net_log (conn_log c1)
             (foldM (connectBTerm_try fatal e) c1 (net_bterms net))
             (foldl (connectBTerm e) c1 (net_bterms net))
             (fun c2 => Returns (c2, S e)) (fun c2 => (c2, S e))).
    + apply cut_of_foldM. apply connectBTerm_try_cut.
    + intros c2. apply (cut_of_ret net_log (c2, S e)).
Qed.

Lemma expectCount_try_cut (got expected id : nat) (text : string)
    (args : list Q) (c : Conn) :
  cut_of fatal conn_log (conn_log c)
         (expectCount_try fatal got expected (error id text args) c)
         (expectCount got expected (error id text args) c).
Proof.
  unfold expectCount_try, expectCount.
  destruct (negb (got =? expected)).
  - apply try_error_cut_args.
  - apply cut_of_ret.
Qed.

Lemma reportNetwork_try_cut (c : Conn) :
  cut_of fatal conn_log (conn_log c)
         (reportNetwork_try fatal c) (reportNetwork c).
Proof.
  unfold reportNetwork_try, reportNetwork.
  destruct (negb (c_errors c =? 0)).
  - exists [error 101 "Error creating network." []].
    split; [reflexivity|].
    cbn [existsb upto_fatal]. unfold is_fatal.
    cbn [log_sev log_id error Severity_eqb andb].
    destruct (fatal 101); cbn; by split.
  - eexists [_]. split; [reflexivity|]. cbn. by split.
Qed.

(** The run of [createNetwork] with a logger that may raise is the run in
    which every error returns, cut at the first error that raises. *)
Lemma createNetwork_try_cut (o : Optdp) :
  cut_of fatal conn_log (log_ o)
         (createNetwork_try fatal o) (createNetwork_locals o).
Proof.
  unfold createNetwork_try, createNetwork_locals. cbv zeta.
  set (k := countNetwork (db_ (with_layers ∅ ∅ o))).
  set (o0 := allocateNetwork k (with_layers ∅ ∅ o)).
  assert (Hl0 : exists m0, log_ o0 = log_ o ++ [m0]
                           /\ is_fatal fatal m0 = false).
  { eexists. split; [reflexivity|]. reflexivity. }
  destruct Hl0 as (m0 & Hl0 & Hm0).
  destruct (populateNodes_spec o0) as (_ & _ & Hf1 & _). cbv zeta in Hf1.
  assert (Hl1 : log_ (fst (populateNodes o0)) = log_ o0)
    by (unfold pop_frame in Hf1; congruence).
  clearbody o0. destruct (populateNodes o0) as [o1 n1].
  cbn [fst] in Hl1. unfold populateEdges.
  apply (cut_of_prefix conn_log (log_ o) [m0]);
    [cbn [existsb]; by rewrite Hm0|].
  rewrite <- Hl0, <- Hl1.
  change (log_ o1) with (conn_log (mkConn o1 0 0)).
  set (c0 := mkConn o1 0 0). clearbody c0 k.
  set (check_pins := fun c2 : Conn =>
         expectCount (c_p c2) (nPins k)
           (error 105
              "Unexpected total pin count.  Expected {:d}, but got {:d}"
              [arg (nPins k); arg (c_p c2)]) c2).
  set (check_edges := fun ce : Conn * nat =>
         let '(c, e) := ce in
         expectCount e (nEdges k)
           (error 104
              "Unexpected total edge count.  Expected {:d}, but got {:d}"
              [arg (nEdges k); arg e]) c).
  apply (cut_of_bind conn_log conn_log (conn_log c0) _ _ _
           (fun c =>
              let '(c', e) := foldl connectNet (c, 0)
                                    (block_nets (db_ (c_o c))) in
              reportNetwork (check_pins (check_edges (c', e))))
           (expectCount_try_cut _ _ _ _ _ c0)).
  intros c.
  apply (cut_of_bind net_log conn_log (conn_log c) _
           (foldl connectNet (c, 0) (block_nets (db_ (c_o c)))) _
           (fun ce => let '(c', e) := ce in
                      reportNetwork (check_pins (check_edges (c', e))))
           (cut_of_foldM net_log (connectNet_try fatal) connectNet
              connectNet_try_cut _ (c, 0))).
  intros [c1 e1]. cbn [fst snd].
  apply (cut_of_bind conn_log conn_log (conn_log c1) _ _ _
           (fun c2 => reportNetwork (check_pins c2))
           (expectCount_try_cut _ _ _ _ _ c1)).
  intros c2.
  apply (cut_of_bind conn_log conn_log (conn_log c2) _ _ _ reportNetwork
           (expectCount_try_cut _ _ _ _ _ c2)).
  apply reportNetwork_try_cut.
Qed.

(** X22. The log of [createNetwork], message by message, whatever the
    logger does on an error.  The messages of the run are, in this order:
    the counts (info 100: placeable instances, terminals, nets, terminals
    of the nets); net by net and terminal by terminal in the order of the
    database, one error 106 for every instance terminal whose instance
    has no node and one error 107 for every block terminal without a
    node; then, when nothing was missing, the statistics (info 102:
    nodes, edges, pins), and else the error 105 for the pin count
    (expected and got) followed by the error 101.  The run returns when
    the logger raises on none of them, and its log is the log it found
    followed by all of them; otherwise the run ends with the first
    message the logger raises on, and its log is the log it found
    followed by the messages up to and including that one.  The errors
    104, 108 and 109 are never reported.  (The node maps are complete
    before the first terminal is looked at; they are read off the run in
    which every error returns.) *)
Theorem createNetwork_log (o : Optdp) :
  let o' := createNetwork o in
  let nets := block_nets (db_ o) in
  let total :=
    sum_list (map (fun net => length (net_iterms net)
                              + length (net_bterms net)) nets) in
  let cs := length (cells (block_insts (db_ o))) in
  let bs := length (block_bterms (db_ o)) in
  let d :=
    [info 100
       "Created network with {:d} cells, {:d} terminals, {:d} edges and {:d} pins."
       [arg cs; arg bs; arg (length nets); arg total]]
    ++ networkReports (instMap_ o') (termMap_ o') nets
    ++ (if Nat.eqb (missingPins o' nets) 0
        then [info 102 "Network stats: inst {}, edges {}, pins {}"
                [arg (cs + bs); arg (length nets);
                 arg (length (pins_ o) + total)]]
        else [error 105
                "Unexpected total pin count.  Expected {:d}, but got {:d}"
                [arg total; arg (foundPins o' nets)];
              error 101 "Error creating network." []]) in
  match createNetwork_try fatal o with
  | Returns c =>
      existsb (is_fatal fatal) d = false
      /\ c = createNetwork_locals o
      /\ log_ (c_o c) = log_ o ++ d
  | Raises o1 =>
      existsb (is_fatal fatal) d = true
      /\ log_ o1 = log_ o ++ upto_fatal fatal d
  end.
Proof.
  intros o' nets total cs bs d.
  pose proof (createNetwork_returning_log o) as Hlog. cbv zeta in Hlog.
  fold o' nets total cs bs in Hlog. fold d in Hlog.
  destruct (createNetwork_try_cut o) as (d0 & Hd0 & Hx).
  unfold conn_log in Hd0.
  change (c_o (createNetwork_locals o)) with o' in Hd0.
  assert (Ho' : c_o (createNetwork_locals o) = o') by reflexivity.
  clearbody d o'. rewrite Hlog in Hd0. apply app_inv_head in Hd0.
  subst d0.
  destruct (createNetwork_try fatal o) as [c|o1].
  - destruct Hx as [-> Hn]. split; [exact Hn|]. split; [reflexivity|].
    rewrite Ho'. exact Hlog.
  - exact Hx.
Qed.

(** X15. The pins of the network after [createNetwork], on a first run
    (the node maps being empty before) that returns, whatever the logger
    does on an error: to the pins that were there the import adds, net by
    net in the order of the database, one pin for every instance terminal
    of the net whose instance has a node and then one for every block
    terminal of the net that has a node.  The pin is on the node of its
    instance or terminal and on the edge of its net.  The pin of an
    instance terminal has the 32-bit difference [xMax - xMin] of the box
    of the master terminal as its width and half the 32-bit sum
    [xMax + xMin] minus half the width of the master as its x offset; its
    height is zero and its y offset is half the 32-bit sum [yMax + yMax]
    minus half the height of the master.  Where the sums and the
    difference fit 32 bits, the pin is as wide as the box, its x offset is
    the centre of the box minus half the width of the master and its y
    offset the top of the box minus half the height of the master.  The
    pin of a block terminal has no offset and no size. *)
Theorem createNetwork_pins (o : Optdp) (c : Conn) :
  instMap_ o = ∅ -> termMap_ o = ∅ ->
  createNetwork_try fatal o = Returns c ->
  pins_ (c_o c)
  = pins_ o
    ++ networkPins (instMap_ (c_o c)) (termMap_ (c_o c)) 0
                   (block_nets (db_ o))
  /\ (forall n e it,
        let bb := mterm_bbox (iterm_mterm it) in
        let master := iterm_master it in
        pin_node (itermPin n e it) = n /\ pin_edge (itermPin n e it) = e
        /\ m_pinW (itermPin n e it) = inject_Z (int32 (xMax bb - xMin bb))
        /\ (m_pinH (itermPin n e it) == 0)%Q
        /\ (m_offsetX (itermPin n e it)
            == inject_Z (int32 (xMax bb + xMin bb)) / 2
               - inject_Z (master_width master) / 2)%Q
        /\ (m_offsetY (itermPin n e it)
            == inject_Z (int32 (yMax bb + yMax bb)) / 2
               - inject_Z (master_height master) / 2)%Q
        /\ (is_int32 (xMax bb - xMin bb) ->
            m_pinW (itermPin n e it) = inject_Z (xMax bb - xMin bb))
        /\ (is_int32 (xMax bb + xMin bb) ->
            (m_offsetX (itermPin n e it)
             == (inject_Z (xMin bb) + inject_Z (xMax bb)) / 2
                - inject_Z (master_width master) / 2)%Q)
        /\ (is_int32 (yMax bb + yMax bb) ->
            (m_offsetY (itermPin n e it)
             == inject_Z (yMax bb) - inject_Z (master_height master) / 2)%Q))
  /\ (forall n e, btermPin n e = mkPin n e 0 0 0 0 0).
Proof.
  intros Hi0 Ht0 Hret.
  pose proof (cut_of_returns conn_log (log_ o) _ _ c
                (createNetwork_try_cut o) Hret) as Hc.
  pose proof (createNetwork_returning_pins o Hi0 Ht0) as Hp.
  cbv zeta in Hp.
  change (createNetwork o) with (c_o (createNetwork_locals o)) in Hp.
  rewrite <- Hc in Hp. split; [exact Hp|]. split; [|reflexivity].
  intros n e it bb master. unfold itermPin. fold bb master.
  cbn [pin_node pin_edge m_pinW m_pinH m_offsetX m_offsetY].
  split; [reflexivity|]. split; [reflexivity|]. split; [reflexivity|].
  split; [rewrite Z.sub_diag; reflexivity|].
  split; [unfold half; field|]. split; [unfold half; field|].
  split; [intros Hw; by rewrite (int32_id _ Hw)|].
  split.
  - intros Hx. rewrite (int32_id _ Hx), inject_Z_plus. unfold half. field.
  - intros Hy. rewrite (int32_id _ Hy), inject_Z_plus. unfold half. field.
Qed.


End RaisingLogger.

Lemma createNetwork_pins_witness :
  instMap_ (init connected_block) = ∅
  /\ termMap_ (init connected_block) = ∅
  /\ @createNetwork_try sample_constants raise_all (init connected_block)
     = Returns (@createNetwork_locals sample_constants (init connected_block))
  /\ pins_ (@createNetwork sample_constants (init connected_block))
     = [itermPin 0 0 (mkITerm 1 sample_pinA sample_master);
        itermPin 0 0 (mkITerm 1 far_pin sample_master);
        btermPin 1 0]
  /\ (m_offsetX (itermPin 0 0 (mkITerm 1 sample_pinA sample_master))
      == 1 - 5)%Q
  /\ (m_offsetX (itermPin 0 0 (mkITerm 1 far_pin sample_master))
      == - 647483643 - 5)%Q
  /\ (m_offsetY (itermPin 0 0 (mkITerm 1 far_pin sample_master))
      == - 647483628 - 5)%Q.
Proof.
  assert (Hi : instMap_ (init connected_block) = ∅) by reflexivity.
  assert (Ht : termMap_ (init connected_block) = ∅) by reflexivity.
  assert (Hr : @createNetwork_try sample_constants raise_all
                 (init connected_block)
               = Returns (@createNetwork_locals sample_constants
                            (init connected_block)))
    by (vm_compute; reflexivity).
  split; [exact Hi|]. split; [exact Ht|]. split; [exact Hr|].
  destruct (@createNetwork_pins sample_constants raise_all
              (init connected_block) _ Hi Ht Hr) as (Hp & Hg & _).
  split.
  - change (@createNetwork sample_constants (init connected_block))
      with (c_o (@createNetwork_locals sample_constants
                   (init connected_block))).
    rewrite Hp. vm_compute. reflexivity.
  - destruct (Hg 0 0 (mkITerm 1 sample_pinA sample_master))
      as (_ & _ & _ & _ & _ & _ & _ & Hx & _).
    destruct (Hg 0 0 (mkITerm 1 far_pin sample_master))
      as (_ & _ & _ & _ & Hfx & Hfy & _).
    split; [|split; [rewrite Hfx|rewrite Hfy]; vm_compute; reflexivity].
    assert (H32 : is_int32 (2 + 0)) by (unfold is_int32; lia).
    rewrite (Hx H32). reflexivity.
Defined.


(** C6 fails whatever the logger does on an error.  The net of the block
    has two terminals on a pad, which has no node, then a terminal on the
    cell and the block terminal.  With a logger that raises on every
    error the run ends at the first missing reference: no pin is created,
    not even for the two terminals that have a node.  With a logger that
    raises on the structural errors only, the two missing references are
    reported and counted and the two pins created, and the run ends at
    the check of the pin count (105), which every missing reference
    fails.  With a logger that never raises, the run returns with
    [errors = 3]; its messages are the counts (1 cell, 1 terminal, 1 net,
    4 terminals of the net), the two missing references, the pin count
    (expected 4, got 2) and [Error creating network.]: none of them
    carries the number of errors. *)
Theorem createNetwork_missing_reference_runs :
  let run := fun fatal =>
    @createNetwork_try sample_constants fatal (init dangling_block) in
  let messages := fun x : Outcome Conn =>
    map (fun m => (log_id m, log_args m)) (log_ (Outcome_obj x)) in
  (returns (run raise_all) = false
   /\ messages (run raise_all)
      = [(100, [arg 1; arg 1; arg 1; arg 4]); (106, [])]
   /\ pins_ (Outcome_obj (run raise_all)) = [])
  /\ (returns (run raise_structural) = false
      /\ messages (run raise_structural)
         = [(100, [arg 1; arg 1; arg 1; arg 4]); (106, []); (106, []);
            (105, [arg 4; arg 2])]
      /\ length (pins_ (Outcome_obj (run raise_structural))) = 2)
  /\ (exists c, run raise_none = Returns c
        /\ c = @createNetwork_locals sample_constants (init dangling_block)
        /\ c_errors c = 3 /\ c_p c = 2
        /\ messages (run raise_none)
           = [(100, [arg 1; arg 1; arg 1; arg 4]); (106, []); (106, []);
              (105, [arg 4; arg 2]); (101, [])]).
Proof.
  cbv zeta. split; [|split].
  - vm_compute. repeat split.
  - vm_compute. repeat split.
  - eexists. split; [vm_compute; reflexivity|]. vm_compute. repeat split.
Qed.

Lemma createNetwork_log_witness :
  match @createNetwork_try sample_constants raise_all (init dangling_block)
  with
  | Returns _ => False
  | Raises o1 =>
      log_ o1
      = [info 100
           "Created network with {:d} cells, {:d} terminals, {:d} edges and {:d} pins."
           [arg 1; arg 1; arg 1; arg 4];
         error 106 "Could not find node for instance while connecting pins."
           []]
  end
  /\ match @createNetwork_try sample_constants raise_all
             (init connected_block)
     with
     | Returns c =>
         log_ (c_o c)
         = [info 100
              "Created network with {:d} cells, {:d} terminals, {:d} edges and {:d} pins."
              [arg 1; arg 1; arg 1; arg 3];
            info 102 "Network stats: inst {}, edges {}, pins {}"
              [arg 2; arg 1; arg 3]]
     | Raises _ => False
     end.
Proof.
  pose proof (@createNetwork_log sample_constants raise_all
                (init dangling_block)) as Hd.
  pose proof (@createNetwork_log sample_constants raise_all
                (init connected_block)) as Hc.
  cbv zeta in Hd, Hc. split.
  - destruct (@createNetwork_try sample_constants raise_all
                (init dangling_block)) as [c|o1].
    + destruct Hd as (Hn & _). vm_compute in Hn. discriminate Hn.
    + destruct Hd as (_ & Hl). rewrite Hl. vm_compute. reflexivity.
  - destruct (@createNetwork_try sample_constants raise_all
                (init connected_block)) as [c|o1].
    + destruct Hc as (_ & _ & Hl). rewrite Hl. vm_compute. reflexivity.
    + destruct Hc as (Hn & _). vm_compute in Hn. discriminate Hn.
Defined.
